(** * Garden of Secrets: the change-request workflow and the version ledger

    A shallow embedding of the request handlers of
    [app/routers/change_requests.py], [app/routers/files.py] and
    [app/routers/pages.py], over the tables of [app/models.py] and the
    object store of [app/s3.py].

    Every handler is a function of the world (database tables, bucket,
    source of random identifiers, clock) in a state-and-exception monad: a
    raised exception stops the handler and leaves the world as it was at
    the [raise].  The bucket is an in-memory map that follows the contract
    [app/s3.py] relies on: [put_object] and [delete_object] always succeed,
    [get_object] raises when the key is absent.  Keys are kept without the
    configured [s3_prefix], which [_prefixed] adds injectively.

    The session flushes before every query it sends (the default
    [autoflush]), and a flush sends its INSERTs before its DELETEs: a row
    deleted and a row added between two queries meet the unique index of
    [change_request_files].  A query without [order_by] returns its rows in
    the order of the database, a parameter of the handlers. *)

From Stdlib Require Import ZArith Lia Ascii String.
From stdpp Require Import base decidable option list strings gmap pretty.

Local Open Scope string_scope.
Local Open Scope Z_scope.
Local Open Scope list_scope.

(** ** app/models.py *)

Module UserRole.
Inductive t := admin | approver | editor | viewer.
Definition value (r : t) : string :=
  match r with
  | admin => "admin" | approver => "approver"
  | editor => "editor" | viewer => "viewer"
  end.
End UserRole.

Module CRStatus.
Inductive t := draft | pending_review | approved | rejected | merged | closed.
Definition value (s : t) : string :=
  match s with
  | draft => "draft" | pending_review => "pending_review"
  | approved => "approved" | rejected => "rejected"
  | merged => "merged" | closed => "closed"
  end.
End CRStatus.

Module FileAction.
Inductive t := create | edit | delete.
Definition value (a : t) : string :=
  match a with
  | create => "create" | edit => "edit" | delete => "delete"
  end.
(** The request carries the action as a string; [None] is the
    [req.action not in (...)] case. *)
Definition of_string (s : string) : option t :=
  if decide (s = "create") then Some create
  else if decide (s = "edit") then Some edit
  else if decide (s = "delete") then Some delete
  else None.
End FileAction.

#[global] Instance UserRole_eq_dec : EqDecision UserRole.t.
Proof. solve_decision. Defined.
#[global] Instance CRStatus_eq_dec : EqDecision CRStatus.t.
Proof. solve_decision. Defined.
#[global] Instance FileAction_eq_dec : EqDecision FileAction.t.
Proof. solve_decision. Defined.

Module User.
Record t := mk {
  id : Z;
  username : string;
  role : UserRole.t;
  is_active : bool
}.
End User.

Module FileVersion.
Record t := mk {
  id : Z;
  file_path : string;
  version : Z;
  s3_key : string;
  size : Z;
  content_hash : string;
  author_id : Z;
  message : string;
  is_delete : bool;
  created_at : Z
}.
End FileVersion.

Module ChangeRequest.
Record t := mk {
  id : Z;
  title : string;
  description : string;
  status : CRStatus.t;
  author_id : Z;
  reviewer_id : option Z;
  review_comment : option string;
  reviewed_at : option Z;
  merged_at : option Z;
  created_at : Z;
  updated_at : Z
}.
End ChangeRequest.

Module ChangeRequestFile.
Record t := mk {
  id : Z;
  change_request_id : Z;
  file_path : string;
  action : FileAction.t;
  staging_s3_key : option string;
  base_version_id : option Z;
  created_at : Z
}.
End ChangeRequestFile.

Module AuditLog.
Record t := mk {
  id : Z;
  user_id : Z;
  action : string;
  resource_type : string;
  resource_id : string;
  details : list (string * Z);
  ip_address : string
}.
End AuditLog.

Module FileShare.
Record t := mk {
  id : Z;
  file_path : string;
  token : string;
  is_public : bool;
  is_archived : bool;
  created_by_id : Z
}.
End FileShare.

#[global] Instance User_eq_dec : EqDecision User.t.
Proof. solve_decision. Defined.
#[global] Instance FileVersion_eq_dec : EqDecision FileVersion.t.
Proof. solve_decision. Defined.
#[global] Instance ChangeRequest_eq_dec : EqDecision ChangeRequest.t.
Proof. solve_decision. Defined.
#[global] Instance ChangeRequestFile_eq_dec : EqDecision ChangeRequestFile.t.
Proof. solve_decision. Defined.
#[global] Instance FileShare_eq_dec : EqDecision FileShare.t.
Proof. solve_decision. Defined.

(** ** The world a handler runs in *)

Record S3Object := mkS3Object {
  body : list Byte.byte;
  content_type : string
}.

Record Database := mkDatabase {
  users : list User.t;
  change_requests : list ChangeRequest.t;
  change_request_files : list ChangeRequestFile.t;
  file_versions : list FileVersion.t;
  file_shares : list FileShare.t;
  audit_logs : list AuditLog.t;
  (* the autoincrement sequences *)
  change_requests_seq : Z;
  change_request_files_seq : Z;
  file_versions_seq : Z;
  audit_logs_seq : Z
}.

Record World := mkWorld {
  db : Database;
  bucket : gmap string S3Object;
  (* [uuid.uuid4().hex]: the n-th draw, and the number of draws so far *)
  uuid4_hex : nat -> string;
  uuid4_drawn : nat;
  (* [datetime.now(timezone.utc)] *)
  utcnow : Z
}.

Definition with_db (f : Database -> Database) (w : World) : World :=
  mkWorld (f (db w)) (bucket w) (uuid4_hex w) (uuid4_drawn w) (utcnow w).

Definition with_bucket (f : gmap string S3Object -> gmap string S3Object)
    (w : World) : World :=
  mkWorld (db w) (f (bucket w)) (uuid4_hex w) (uuid4_drawn w) (utcnow w).

Definition with_change_requests
    (f : list ChangeRequest.t -> list ChangeRequest.t) (d : Database) : Database :=
  mkDatabase (users d) (f (change_requests d)) (change_request_files d)
    (file_versions d) (file_shares d) (audit_logs d)
    (change_requests_seq d) (change_request_files_seq d)
    (file_versions_seq d) (audit_logs_seq d).

Definition with_change_request_files
    (f : list ChangeRequestFile.t -> list ChangeRequestFile.t) (d : Database)
    : Database :=
  mkDatabase (users d) (change_requests d) (f (change_request_files d))
    (file_versions d) (file_shares d) (audit_logs d)
    (change_requests_seq d) (change_request_files_seq d)
    (file_versions_seq d) (audit_logs_seq d).

(** ** Exceptions and the handler monad *)

Inductive Exception :=
  | HTTPException (status_code : Z) (detail : string)
  | NoSuchKey (key : string)          (* botocore, from [get_object] *)
  | MultipleResultsFound              (* sqlalchemy, from [scalar_one_or_none] *)
  | UnicodeEncodeError                (* [str.encode] on a lone surrogate *)
  | IntegrityError.                   (* sqlalchemy, from a flush that breaks
                                         a unique index *)

Inductive Result (A : Type) :=
  | Ok (a : A)
  | Raise (e : Exception).
Arguments Ok {A} a.
Arguments Raise {A} e.

Definition M (A : Type) : Type := World -> Result A * World.

Definition ret {A} (a : A) : M A := fun w => (Ok a, w).

Definition bind {A B} (m : M A) (k : A -> M B) : M B :=
  fun w =>
    match m w with
    | (Ok a, w') => k a w'
    | (Raise e, w') => (Raise e, w')
    end.

Definition raise {A} (e : Exception) : M A := fun w => (Raise e, w).

Definition get_world : M World := fun w => (Ok w, w).

Definition modify (f : World -> World) : M unit := fun w => (Ok tt, f w).

(** [try: m except Exception: pass] *)
Definition try_pass (m : M unit) : M unit :=
  fun w =>
    match m w with
    | (Ok u, w') => (Ok u, w')
    | (Raise _, w') => (Ok tt, w')
    end.

(** [try: m except Exception: raise HTTPException(code, msg)] *)
Definition try_or_raise {A} (m : M A) (e : Exception) : M A :=
  fun w =>
    match m w with
    | (Ok a, w') => (Ok a, w')
    | (Raise _, w') => (Raise e, w')
    end.

Notation "'let*' x ':=' m 'in' k" := (bind m (fun x => k))
  (at level 10, x name, m at level 100, k at level 200).
Notation "m '>>' k" := (bind m (fun _ => k))
  (at level 100, k at level 200, right associativity).

Fixpoint for_each {A} (l : list A) (body : A -> M unit) : M unit :=
  match l with
  | [] => ret tt
  | x :: l' => body x >> for_each l' body
  end.

(** ** Python built-ins used by the handlers *)

(** Truth value of an [Optional[str]]: [None] and [""] are false. *)
Definition truthy (o : option string) : bool :=
  match o with
  | Some s => negb (String.eqb s "")
  | None => false
  end.

Fixpoint lstrip (p : ascii -> bool) (s : string) : string :=
  match s with
  | String a s' => if p a then lstrip p s' else s
  | EmptyString => EmptyString
  end.

Fixpoint rstrip (p : ascii -> bool) (s : string) : string :=
  match s with
  | String a s' =>
      match rstrip p s' with
      | EmptyString => if p a then EmptyString else String a EmptyString
      | r => String a r
      end
  | EmptyString => EmptyString
  end.

(** [s.strip("/")] *)
Definition strip_slash (s : string) : string :=
  rstrip (Ascii.eqb "/") (lstrip (Ascii.eqb "/") s).

(** A [str] is kept as the bytes of its UTF-8 encoding.  The characters
    [str.isspace] holds of, which [s.strip()] removes, by code point:
    U+0009 to U+000D, U+001C to U+0020, U+0085, U+00A0, U+1680, U+2000 to
    U+200A, U+2028, U+2029, U+202F, U+205F and U+3000. *)
Definition utf8 (codes : list N) : string :=
  fold_right (fun n s => String (ascii_of_N n) s) EmptyString codes.

Definition whitespace : list string :=
  utf8 <$>
    [ [9]; [10]; [11]; [12]; [13]; [28]; [29]; [30]; [31]; [32];
      [194; 133]; [194; 160]; [225; 154; 128];
      [226; 128; 128]; [226; 128; 129]; [226; 128; 130]; [226; 128; 131];
      [226; 128; 132]; [226; 128; 133]; [226; 128; 134]; [226; 128; 135];
      [226; 128; 136]; [226; 128; 137]; [226; 128; 138];
      [226; 128; 168]; [226; 128; 169]; [226; 128; 175];
      [226; 129; 159]; [227; 128; 128] ]%N.

(** [s] without its prefix [p], when it has that prefix. *)
Fixpoint without_prefix (p s : string) : option string :=
  match p, s with
  | EmptyString, _ => Some s
  | String a p', String b s' =>
      if Ascii.eqb a b then without_prefix p' s' else None
  | String _ _, EmptyString => None
  end.

(** [s] without the characters of [chars] at its head; [fuel] is at least
    the length of [s]. *)
Fixpoint lstrip_chars (fuel : nat) (chars : list string) (s : string)
    : string :=
  match fuel with
  | O => s
  | S fuel' =>
      match omap (fun c => without_prefix c s) chars with
      | rest :: _ => lstrip_chars fuel' chars rest
      | [] => s
      end
  end.

Definition lstrip_space (s : string) : string :=
  lstrip_chars (String.length s) whitespace s.

(** The same at the tail: the head of the string read backwards. *)
Definition rstrip_space (s : string) : string :=
  String.rev
    (lstrip_chars (String.length s) (String.rev <$> whitespace) (String.rev s)).

Definition strip (s : string) : string := rstrip_space (lstrip_space s).

(** [s.startswith(p)] *)
Definition startswith (s p : string) : bool := String.prefix p s.

(** [s.lower()], on the ASCII letters (the only ones the extension table
    of [guess_content_type] can match). *)
Definition lower_ascii (a : ascii) : ascii :=
  let n := N_of_ascii a in
  if ((65 <=? n) && (n <=? 90))%N then ascii_of_N (n + 32) else a.

Fixpoint lower (s : string) : string :=
  match s with
  | String a s' => String (lower_ascii a) (lower s')
  | EmptyString => EmptyString
  end.

(** [s.rsplit(c, 1)[-1] if c in s]: what follows the last [c]; [None]
    when [c] does not occur. *)
Fixpoint after_last (c : ascii) (s : string) : option string :=
  match s with
  | String a s' =>
      match after_last c s' with
      | Some r => Some r
      | None => if Ascii.eqb a c then Some s' else None
      end
  | EmptyString => None
  end.

(** [len(content)] *)
Definition len {A} (l : list A) : Z := Z.of_nat (length l).

(** [x or 0] on an [Optional[int]] *)
Definition or_0 (o : option Z) : Z :=
  match o with
  | Some v => if v =? 0 then 0 else v
  | None => 0
  end.

(** ** app/s3.py *)

Module S3Service.

Definition put_object (key : string) (content : list Byte.byte)
      (ctype : string) : M string :=
    modify (with_bucket (fun b => <[key := mkS3Object content ctype]> b)) >>
    ret key.

Definition get_object (key : string) : M (list Byte.byte) :=
  let* w := get_world in
  match bucket w !! key with
    | Some o => ret (body o)
    | None => raise (NoSuchKey key)
  end.

Definition delete_object (key : string) : M unit :=
    modify (with_bucket (fun b => base.delete key b)).

Definition uuid4 : M string :=
    fun w =>
      (Ok (uuid4_hex w (uuid4_drawn w)),
       mkWorld (db w) (bucket w) (uuid4_hex w) (S (uuid4_drawn w)) (utcnow w)).

Definition generate_version_key : M string :=
  let* u := uuid4 in ret ("_versions/" +:+ u).

Definition generate_staging_key : M string :=
  let* u := uuid4 in ret ("_staging/" +:+ u).

Definition mapping : list (string * string) :=
    [ ("html", "text/html"); ("css", "text/css"); ("js", "application/javascript");
      ("json", "application/json"); ("xml", "application/xml"); ("yaml", "text/yaml");
      ("yml", "text/yaml"); ("md", "text/markdown"); ("txt", "text/plain");
      ("py", "text/x-python"); ("rb", "text/x-ruby"); ("go", "text/x-go");
      ("rs", "text/x-rust"); ("java", "text/x-java"); ("ts", "text/typescript");
      ("tsx", "text/typescript"); ("jsx", "text/javascript"); ("sh", "text/x-shellscript");
      ("sql", "text/x-sql"); ("csv", "text/csv"); ("svg", "image/svg+xml");
      ("png", "image/png"); ("jpg", "image/jpeg"); ("jpeg", "image/jpeg");
      ("gif", "image/gif"); ("pdf", "application/pdf"); ("zip", "application/zip");
      ("tar", "application/x-tar"); ("gz", "application/gzip") ].

Fixpoint mapping_get (m : list (string * string)) (k dflt : string) : string :=
  match m with
    | (k', v) :: m' => if String.eqb k' k then v else mapping_get m' k dflt
    | [] => dflt
  end.

Definition guess_content_type (path : string) : string :=
  let ext :=
      match after_last "."%char path with
      | Some e => lower e
      | None => ""
      end in
    mapping_get mapping ext "application/octet-stream".

Definition is_text_file (path : string) : bool :=
  let ct := guess_content_type path in
    startswith ct "text/"
    || bool_decide (ct ∈ [ "application/json"; "application/javascript";
                           "application/xml"; "application/x-yaml";
                           "text/markdown"; "text/x-python" ]).

End S3Service.

(** ** The queries the handlers issue *)

(** [result.scalar_one_or_none()] *)
Definition scalar_one_or_none {A} (rows : list A) : M (option A) :=
  match rows with
  | [] => ret None
  | [r] => ret (Some r)
  | _ => raise MultipleResultsFound
  end.

(** [.order_by(desc(key)).limit(1)]: the row of highest key (the first
    such row, should the table hold several). *)
Fixpoint first_by_desc {A} (key : A -> Z) (rows : list A) : option A :=
  match rows with
  | [] => None
  | r :: rows' =>
      match first_by_desc key rows' with
      | Some b => if key r <? key b then Some b else Some r
      | None => Some r
      end
  end.

(** [func.max(...)]: NULL on no rows *)
Fixpoint sql_max (l : list Z) : option Z :=
  match l with
  | [] => None
  | x :: l' =>
      match sql_max l' with
      | Some m => Some (Z.max x m)
      | None => Some x
      end
  end.

Definition versions_of (path : string) (w : World) : list FileVersion.t :=
  filter (fun v => FileVersion.file_path v = path) (file_versions (db w)).

(** The latest version of a path: its row of highest version. *)
Definition latest_version (path : string) (w : World) : option FileVersion.t :=
  first_by_desc FileVersion.version (versions_of path w).

(** [select(FileVersion).where(file_path == p).order_by(desc(version)).limit(1)] *)
Definition select_latest_version (path : string) : M (option FileVersion.t) :=
  let* w := get_world in
  scalar_one_or_none (option_list (latest_version path w)).

(** [select(func.max(FileVersion.version)).where(file_path == p)] *)
Definition select_max_version (path : string) : M (option Z) :=
  let* w := get_world in
  ret (sql_max (map FileVersion.version (versions_of path w))).

(** [select(ChangeRequest).where(ChangeRequest.id == cr_id)] *)
Definition select_change_request (cr_id : Z) : M (option ChangeRequest.t) :=
  let* w := get_world in
  scalar_one_or_none
    (filter (fun c => ChangeRequest.id c = cr_id) (change_requests (db w))).

(** The entries of a change request as the table holds them: the rows that
    carry its identifier.  What a handler iterates is [cr_files] below,
    these rows in the order in which the database returns them. *)
Definition files_of (cr_id : Z) (w : World) : list ChangeRequestFile.t :=
  filter (fun f => ChangeRequestFile.change_request_id f = cr_id)
    (change_request_files (db w)).

(** ** The order of a query without [order_by]

    The [files] relationship of a change request has no [order_by], and
    neither have the queries the handlers send on [change_request_files]:
    the database returns the rows in an order of its choice.  [arranged] is
    that order: some arrangement of the rows, which does not depend on the
    base version they record (a column that no key or index of
    [app/models.py] covers). *)
Definition set_base_version_id (b : option Z) (f : ChangeRequestFile.t)
    : ChangeRequestFile.t :=
  ChangeRequestFile.mk (ChangeRequestFile.id f)
    (ChangeRequestFile.change_request_id f) (ChangeRequestFile.file_path f)
    (ChangeRequestFile.action f) (ChangeRequestFile.staging_s3_key f) b
    (ChangeRequestFile.created_at f).

Class RowOrder := {
  arranged : list ChangeRequestFile.t -> list ChangeRequestFile.t;
  arranged_perm : forall rows, arranged rows ≡ₚ rows;
  arranged_base : forall (g : ChangeRequestFile.t -> option Z) rows,
    arranged (map (fun f => set_base_version_id (g f) f) rows)
    = map (fun f => set_base_version_id (g f) f) (arranged rows)
}.

(** The [author] relationship of a file version. *)
Definition author_of (v : FileVersion.t) (w : World) : option User.t :=
  head (filter (fun u => User.id u = FileVersion.author_id v) (users (db w))).

(** ** Session operations *)

(** [db.add(ChangeRequest(...)); await db.flush()] *)
Definition add_change_request (title description : string) (author_id : Z)
    (status : CRStatus.t) : M ChangeRequest.t :=
  fun w =>
  let d := db w in
  let cr := ChangeRequest.mk (change_requests_seq d) title description status
                author_id None None None None (utcnow w) (utcnow w) in
    (Ok cr,
     with_db (fun d =>
       mkDatabase (users d) (change_requests d ++ [cr]) (change_request_files d)
         (file_versions d) (file_shares d) (audit_logs d)
         (change_requests_seq d + 1) (change_request_files_seq d)
         (file_versions_seq d) (audit_logs_seq d)) w).

(** Attribute assignments on the loaded change request [old], written back
    by the session when they change a column; [updated_at] has
    [onupdate=utcnow]. *)
Definition flush_change_request (old cr : ChangeRequest.t) : M unit :=
  if decide (cr = old) then ret tt else
  fun w =>
    let cr' := ChangeRequest.mk (ChangeRequest.id cr) (ChangeRequest.title cr)
                 (ChangeRequest.description cr) (ChangeRequest.status cr)
                 (ChangeRequest.author_id cr) (ChangeRequest.reviewer_id cr)
                 (ChangeRequest.review_comment cr) (ChangeRequest.reviewed_at cr)
                 (ChangeRequest.merged_at cr) (ChangeRequest.created_at cr)
                 (utcnow w) in
    (Ok tt,
     with_db (with_change_requests
       (map (fun c => if decide (ChangeRequest.id c = ChangeRequest.id cr)
                      then cr' else c))) w).

(** [db.add(ChangeRequestFile(...)); await db.flush()].  [unflushed] are the
    rows the session has deleted since its last flush.  The flush sends the
    INSERT before their DELETEs, so the unique index [ix_cr_files_cr_path]
    on change request and path still holds them: a row of the same change
    request and path, in the table or among them, makes the flush raise. *)
Definition add_change_request_file (unflushed : list ChangeRequestFile.t)
    (cr_id : Z) (path : string) (action : FileAction.t)
    (staging_key : option string) (base_version_id : option Z)
    : M ChangeRequestFile.t :=
  fun w =>
  let d := db w in
  let crf := ChangeRequestFile.mk (change_request_files_seq d) cr_id path
                 action staging_key base_version_id (utcnow w) in
  if bool_decide
       (Exists (fun f => ChangeRequestFile.change_request_id f = cr_id
                         ∧ ChangeRequestFile.file_path f = path)
          (unflushed ++ change_request_files d))
  then (Raise IntegrityError, w)
  else
    (Ok crf,
     with_db (fun d =>
       mkDatabase (users d) (change_requests d) (change_request_files d ++ [crf])
         (file_versions d) (file_shares d) (audit_logs d)
         (change_requests_seq d) (change_request_files_seq d + 1)
         (file_versions_seq d) (audit_logs_seq d)) w).

(** [await db.delete(crf)] *)
Definition delete_change_request_file (crf : ChangeRequestFile.t) : M unit :=
  modify (with_db (with_change_request_files
    (filter (fun f => ChangeRequestFile.id f ≠ ChangeRequestFile.id crf)))).

(** [db.add(FileVersion(...))] *)
Definition add_file_version (path : string) (version : Z) (s3_key : string)
    (size : Z) (content_hash : string) (author_id : Z) (message : string)
    (is_delete : bool) : M FileVersion.t :=
  fun w =>
  let d := db w in
  let fv := FileVersion.mk (file_versions_seq d) path version s3_key size
                content_hash author_id message is_delete (utcnow w) in
    (Ok fv,
     with_db (fun d =>
       mkDatabase (users d) (change_requests d) (change_request_files d)
         (file_versions d ++ [fv]) (file_shares d) (audit_logs d)
         (change_requests_seq d) (change_request_files_seq d)
         (file_versions_seq d + 1) (audit_logs_seq d)) w).

(** [request.client.host if request.client else ""] *)
Record Request := mkRequest { client_host : option string }.

Definition ip_of (request : Request) : string :=
  match client_host request with Some h => h | None => "" end.

(** [db.add(AuditLog(...))] *)
Definition add_audit_log (user_id : Z) (action resource_type resource_id : string)
    (details : list (string * Z)) (request : Request) : M unit :=
  modify (with_db (fun d =>
    mkDatabase (users d) (change_requests d) (change_request_files d)
      (file_versions d) (file_shares d)
      (audit_logs d ++ [AuditLog.mk (audit_logs_seq d) user_id action
                          resource_type resource_id details (ip_of request)])
      (change_requests_seq d) (change_request_files_seq d)
      (file_versions_seq d) (audit_logs_seq d + 1))).

(** ** app/auth.py *)

(** [require_role] applied to the allowed roles: the dependency every gated endpoint runs on the
    authenticated user before its body. *)
Definition require_role (roles : list UserRole.t) (user : User.t) : M User.t :=
  if bool_decide (User.role user ∈ roles) then ret user
  else raise (HTTPException 403 "Insufficient permissions").

(** [WRITE_ROLES] of [app/routers/files.py] *)
Definition WRITE_ROLES : list UserRole.t :=
  [UserRole.admin; UserRole.approver; UserRole.editor].

(** ** app/routers/change_requests.py *)

Record CreateCRRequest := mkCreateCRRequest {
  create_title : string;
  create_description : string
}.

Record UpdateCRRequest := mkUpdateCRRequest {
  update_title : option string;
  update_description : option string
}.

Record AddFileRequest := mkAddFileRequest {
  add_file_path : string;
  add_action : string;
  add_content : option string
}.

Record ReviewRequest := mkReviewRequest {
  review_action : string;
  review_comment : string
}.

Definition set_title_description (title description : string)
    (cr : ChangeRequest.t) : ChangeRequest.t :=
  ChangeRequest.mk (ChangeRequest.id cr) title description
    (ChangeRequest.status cr) (ChangeRequest.author_id cr)
    (ChangeRequest.reviewer_id cr) (ChangeRequest.review_comment cr)
    (ChangeRequest.reviewed_at cr) (ChangeRequest.merged_at cr)
    (ChangeRequest.created_at cr) (ChangeRequest.updated_at cr).

Definition set_status (status : CRStatus.t) (cr : ChangeRequest.t)
    : ChangeRequest.t :=
  ChangeRequest.mk (ChangeRequest.id cr) (ChangeRequest.title cr)
    (ChangeRequest.description cr) status (ChangeRequest.author_id cr)
    (ChangeRequest.reviewer_id cr) (ChangeRequest.review_comment cr)
    (ChangeRequest.reviewed_at cr) (ChangeRequest.merged_at cr)
    (ChangeRequest.created_at cr) (ChangeRequest.updated_at cr).

Definition set_review (reviewer : option Z) (comment : option string)
    (reviewed_at : option Z) (cr : ChangeRequest.t) : ChangeRequest.t :=
  ChangeRequest.mk (ChangeRequest.id cr) (ChangeRequest.title cr)
    (ChangeRequest.description cr) (ChangeRequest.status cr)
    (ChangeRequest.author_id cr) reviewer comment reviewed_at
    (ChangeRequest.merged_at cr) (ChangeRequest.created_at cr)
    (ChangeRequest.updated_at cr).

Definition set_merged_at (merged_at : option Z) (cr : ChangeRequest.t)
    : ChangeRequest.t :=
  ChangeRequest.mk (ChangeRequest.id cr) (ChangeRequest.title cr)
    (ChangeRequest.description cr) (ChangeRequest.status cr)
    (ChangeRequest.author_id cr) (ChangeRequest.reviewer_id cr)
    (ChangeRequest.review_comment cr) (ChangeRequest.reviewed_at cr)
    merged_at (ChangeRequest.created_at cr) (ChangeRequest.updated_at cr).

(** [cr.author_id != user.id and user.role != UserRole.admin.value] *)
Definition not_author_nor_admin (cr : ChangeRequest.t) (user : User.t) : bool :=
  bool_decide (ChangeRequest.author_id cr ≠ User.id user)
  && bool_decide (User.role user ≠ UserRole.admin).

(** [cr.status not in (CRStatus.draft.value, CRStatus.rejected.value)] *)
Definition not_draft_nor_rejected (cr : ChangeRequest.t) : bool :=
  bool_decide (ChangeRequest.status cr ∉ [CRStatus.draft; CRStatus.rejected]).

(** The clean-up both staging paths run on a replaced or removed entry:
    [if e.staging_s3_key: try: await s3.delete_object(...) except: pass]. *)
Definition discard_staged_blob (e : ChangeRequestFile.t) : M unit :=
  if truthy (ChangeRequestFile.staging_s3_key e)
  then try_pass (S3Service.delete_object
                   (default "" (ChangeRequestFile.staging_s3_key e)))
  else ret tt.

(** ** Sample data: four users, one per role, and small worlds *)

Module Sample.

Definition sha256_hexdigest (content : list Byte.byte) : string :=
  "sha256:" +:+ string_of_list_byte content.

Definition encode_utf8 (s : string) : option (list Byte.byte) :=
  Some (list_byte_of_string s).

Definition decode_utf8_replace (b : list Byte.byte) : string :=
  string_of_list_byte b.

Definition alice : User.t := User.mk 1 "alice" UserRole.editor true.
Definition bob : User.t := User.mk 2 "bob" UserRole.approver true.
Definition carol : User.t := User.mk 3 "carol" UserRole.admin true.
Definition dave : User.t := User.mk 4 "dave" UserRole.viewer true.

Definition request : Request := mkRequest (Some "127.0.0.1").

(** The rows by path, rows of the same path in the order of the table: what
    a scan of the index on change request and path returns. *)
Fixpoint insert_by_path (f : ChangeRequestFile.t)
    (rows : list ChangeRequestFile.t) : list ChangeRequestFile.t :=
  match rows with
  | [] => [f]
  | g :: rows' =>
      if String.leb (ChangeRequestFile.file_path f)
           (ChangeRequestFile.file_path g)
      then f :: rows
      else g :: insert_by_path f rows'
  end.

Definition by_path (rows : list ChangeRequestFile.t)
    : list ChangeRequestFile.t :=
  foldr insert_by_path [] rows.

Definition world (crs : list ChangeRequest.t) (files : list ChangeRequestFile.t)
    (versions : list FileVersion.t) (shares : list FileShare.t)
    (objects : list (string * S3Object)) : World :=
  mkWorld
    (mkDatabase [alice; bob; carol; dave] crs files versions shares []
       100 100 100 100)
    (list_to_map objects) (fun n => pretty n) 0 1700000000.

(** A change request of the given author and status *)
Definition cr (id author : Z) (status : CRStatus.t) : ChangeRequest.t :=
  ChangeRequest.mk id "Update docs" "" status author None None None None
    1600000000 1600000000.

Definition blob (s : string) : S3Object :=
  mkS3Object (list_byte_of_string s) "text/plain".

(** [docs/gone.md] was created, then deleted; alice has a draft. *)
Definition tombstoned : World :=
  world [cr 1 1 CRStatus.draft] []
    [ FileVersion.mk 1 "docs/gone.md" 1 "_versions/a" 2 "sha256:hi" 1
        "CR #7: Add" false 1500000000;
      FileVersion.mk 2 "docs/gone.md" 2 "" 0 "deleted" 1
        "CR #8: Delete docs/gone.md" true 1550000000 ] [] [].

(** [docs/readme.md] has two versions; alice's approved change request
    edits it from the first one and creates [docs/new.md]. *)
Definition approved_edit : World :=
  world [cr 1 1 CRStatus.approved]
    [ ChangeRequestFile.mk 10 1 "docs/readme.md" FileAction.edit
        (Some "_staging/e1") (Some 1) 1650000000;
      ChangeRequestFile.mk 11 1 "docs/new.md" FileAction.create
        (Some "_staging/e2") None 1650000000 ]
    [ FileVersion.mk 1 "docs/readme.md" 1 "_versions/a" 7 "sha256:v1 text" 1
        "CR #5: Add readme" false 1500000000;
      FileVersion.mk 2 "docs/readme.md" 2 "_versions/b" 7 "sha256:v2 text" 2
        "CR #6: Fix readme" false 1550000000 ]
    []
    [ ("_versions/a", blob "v1 text"); ("_versions/b", blob "v2 text");
      ("docs/readme.md", blob "v2 text");
      ("_staging/e1", blob "v3 text"); ("_staging/e2", blob "new") ].

(** alice's change request was merged; its entry is still in the table. *)
Definition merged_with_entry : World :=
  world [cr 1 1 CRStatus.merged]
    [ ChangeRequestFile.mk 10 1 "docs/a.md" FileAction.create
        (Some "_staging/e1") None 1650000000 ]
    [ FileVersion.mk 1 "docs/a.md" 1 "_versions/a" 5 "sha256:hello" 1
        "CR #1: Update docs" false 1660000000 ]
    []
    [ ("_versions/a", blob "hello"); ("docs/a.md", blob "hello") ].

(** alice has an empty draft. *)
Definition draft : World := world [cr 1 1 CRStatus.draft] [] [] [] [].

(** Three public shares: of a live file, of a deleted one, and an archived
    one. *)
Definition shared : World :=
  world [] []
    [ FileVersion.mk 1 "docs/readme.md" 1 "_versions/a" 5 "sha256:hello" 1
        "CR #1: Add" false 1500000000;
      FileVersion.mk 2 "docs/gone.md" 1 "_versions/b" 3 "sha256:bye" 1
        "CR #2: Add" false 1500000000;
      FileVersion.mk 3 "docs/gone.md" 2 "" 0 "deleted" 1
        "CR #3: Delete docs/gone.md" true 1550000000;
      FileVersion.mk 4 "docs/old.md" 1 "_versions/c" 3 "sha256:old" 1
        "CR #4: Add" false 1500000000 ]
    [ FileShare.mk 1 "docs/readme.md" "tok-live" true false 1;
      FileShare.mk 2 "docs/gone.md" "tok-gone" true false 1;
      FileShare.mk 3 "docs/old.md" "tok-old" true true 1 ]
    [ ("_versions/a", blob "hello"); ("_versions/b", blob "bye");
      ("_versions/c", blob "old"); ("docs/readme.md", blob "hello");
      ("docs/old.md", blob "old") ].

(** dave, now a viewer, is the recorded author of the latest version of
    [notes.txt]; alice is the author of [docs/readme.md]. *)
Definition demoted : World :=
  world [] []
    [ FileVersion.mk 1 "notes.txt" 1 "_versions/a" 5 "sha256:hello" 4
        "CR #1: Notes" false 1500000000;
      FileVersion.mk 2 "docs/readme.md" 1 "_versions/b" 5 "sha256:hello" 1
        "CR #2: Add" false 1500000000 ]
    []
    [ ("_versions/a", blob "hello"); ("notes.txt", blob "hello");
      ("_versions/b", blob "hello"); ("docs/readme.md", blob "hello") ].

(** [docs/a.md] has one version; alice's approved change request deletes
    it, and she has an empty draft as well. *)
Definition approved_delete : World :=
  world [cr 1 1 CRStatus.approved; cr 2 1 CRStatus.draft]
    [ ChangeRequestFile.mk 10 1 "docs/a.md" FileAction.delete None (Some 1)
        1650000000 ]
    [ FileVersion.mk 1 "docs/a.md" 1 "_versions/a" 5 "sha256:hello" 1
        "CR #5: Add" false 1500000000 ]
    []
    [ ("_versions/a", blob "hello"); ("docs/a.md", blob "hello") ].

End Sample.

(** A decidable side condition, settled by evaluation. *)
Ltac decide_now := apply (bool_decide_unpack _); vm_compute; exact I.

Set Default Proof Using "Type".

Section Handlers.

(** The library functions the handlers call: [hashlib.sha256(b).hexdigest()],
    [s.encode("utf-8")] ([None] when it raises) and
    [b.decode("utf-8", errors="replace")]. *)
Context (sha256_hexdigest : list Byte.byte -> string)
        (encode_utf8 : string -> option (list Byte.byte))
        (decode_utf8_replace : list Byte.byte -> string).

(** The order in which the database returns the rows of
    [change_request_files]. *)
Context {row_order : RowOrder}.

(** The [files] relationship of a loaded change request, and the result of
    [select(ChangeRequestFile).where(change_request_id == cr_id)]. *)
Definition cr_files (cr_id : Z) (w : World) : list ChangeRequestFile.t :=
  arranged (files_of cr_id w).

Definition compute_hash (content : list Byte.byte) : string :=
  sha256_hexdigest content.

Definition create_change_request (req : CreateCRRequest) (request : Request)
    (user : User.t) : M (Z * string * CRStatus.t) :=
  let* user := require_role [UserRole.admin; UserRole.approver; UserRole.editor] user in
  if decide (strip (create_title req) = "") then
    raise (HTTPException 400 "Title is required")
  else
    let* cr := add_change_request (strip (create_title req))
                 (create_description req) (User.id user) CRStatus.draft in
    add_audit_log (User.id user) "cr.create" "change_request"
      (pretty (ChangeRequest.id cr)) [] request >>
    ret (ChangeRequest.id cr, ChangeRequest.title cr, ChangeRequest.status cr).

Definition update_change_request (cr_id : Z) (req : UpdateCRRequest)
    (user : User.t) : M unit :=
  let* user := require_role [UserRole.admin; UserRole.approver; UserRole.editor] user in
  let* found := select_change_request cr_id in
  match found with
  | None => raise (HTTPException 404 "Change request not found")
  | Some cr =>
      if not_author_nor_admin cr user then
        raise (HTTPException 403 "Only the author or admin can update this CR")
      else if not_draft_nor_rejected cr then
        raise (HTTPException 400 "Can only edit draft or rejected CRs")
      else
        let title := match update_title req with
                     | Some t => strip t
                     | None => ChangeRequest.title cr
                     end in
        let description := match update_description req with
                           | Some d => d
                           | None => ChangeRequest.description cr
                           end in
        flush_change_request cr (set_title_description title description cr)
  end.

Definition add_file_to_cr (cr_id : Z) (req : AddFileRequest) (user : User.t)
    : M (Z * string * string) :=
  let* user := require_role [UserRole.admin; UserRole.approver; UserRole.editor] user in
  let* found := select_change_request cr_id in
  let* loaded := get_world in
  match found with
  | None => raise (HTTPException 404 "Change request not found")
  | Some cr =>
      if not_author_nor_admin cr user then
        raise (HTTPException 403 "Only the author or admin can modify files")
      else if not_draft_nor_rejected cr then
        raise (HTTPException 400 "Can only modify files in draft or rejected CRs")
      else
        let file_path := strip_slash (add_file_path req) in
        if decide (file_path = "") then
          raise (HTTPException 400 "File path is required")
        else
          match FileAction.of_string (add_action req) with
          | None => raise (HTTPException 400 "Action must be create, edit, or delete")
          | Some action =>
              (* Remove existing entry for this path if any *)
              let existing :=
                filter (fun f => ChangeRequestFile.file_path f = file_path)
                  (cr_files cr_id loaded) in
              for_each existing (fun e =>
                discard_staged_blob e >> delete_change_request_file e) >>
              let* staging_key :=
                if bool_decide (action ∈ [FileAction.create; FileAction.edit]) then
                  match add_content req with
                  | None =>
                      raise (HTTPException 400
                               "Content is required for create/edit actions")
                  | Some content =>
                      match encode_utf8 content with
                      | None => raise UnicodeEncodeError
                      | Some content_bytes =>
                          let* key := S3Service.generate_staging_key in
                          S3Service.put_object key content_bytes
                            (S3Service.guess_content_type file_path) >>
                          ret (Some key)
                      end
                  end
                else ret None in
              let* base_version_id :=
                if bool_decide (action ∈ [FileAction.edit; FileAction.delete]) then
                  (* Find the base version *)
                  let* latest := select_latest_version file_path in
                  match latest with
                  | Some l =>
                      if negb (FileVersion.is_delete l) then
                        ret (Some (FileVersion.id l))
                      else if decide (action = FileAction.edit) then
                        raise (HTTPException 404
                                 "File does not exist, use 'create' action")
                      else ret None
                  | None =>
                      if decide (action = FileAction.edit) then
                        raise (HTTPException 404
                                 "File does not exist, use 'create' action")
                      else ret None
                  end
                else ret None in
              (* the query of an edit or a delete has flushed the deletes *)
              let unflushed :=
                if bool_decide (action ∈ [FileAction.edit; FileAction.delete])
                then [] else existing in
              let* crf := add_change_request_file unflushed cr_id file_path
                            action staging_key base_version_id in
              ret (ChangeRequestFile.id crf, file_path, add_action req)
          end
  end.

Definition remove_file_from_cr (cr_id file_id : Z) (user : User.t) : M unit :=
  let* user := require_role [UserRole.admin; UserRole.approver; UserRole.editor] user in
  let* found := select_change_request cr_id in
  match found with
  | None => raise (HTTPException 404 "Change request not found")
  | Some cr =>
      if not_author_nor_admin cr user then
        raise (HTTPException 403 "Only the author or admin can modify files")
      else
        let* w := get_world in
        let* file_found :=
          scalar_one_or_none
            (filter (fun f => ChangeRequestFile.id f = file_id
                              ∧ ChangeRequestFile.change_request_id f = cr_id)
               (change_request_files (db w))) in
        match file_found with
        | None => raise (HTTPException 404 "File entry not found")
        | Some crf =>
            discard_staged_blob crf >>
            delete_change_request_file crf
        end
  end.

Definition submit_for_review (cr_id : Z) (request : Request) (user : User.t)
    : M CRStatus.t :=
  let* user := require_role [UserRole.admin; UserRole.approver; UserRole.editor] user in
  let* found := select_change_request cr_id in
  let* loaded := get_world in
  match found with
  | None => raise (HTTPException 404 "Change request not found")
  | Some cr =>
      if not_author_nor_admin cr user then
        raise (HTTPException 403 "Only the author can submit for review")
      else if not_draft_nor_rejected cr then
        raise (HTTPException 400 "Can only submit draft or rejected CRs")
      else
        match cr_files cr_id loaded with
        | [] => raise (HTTPException 400 "Cannot submit a CR with no files")
        | _ :: _ =>
            let cr' := set_review None None None
                         (set_status CRStatus.pending_review cr) in
            flush_change_request cr cr' >>
            add_audit_log (User.id user) "cr.submit" "change_request"
              (pretty (ChangeRequest.id cr)) [] request >>
            ret (ChangeRequest.status cr')
        end
  end.

Definition review_change_request (cr_id : Z) (req : ReviewRequest)
    (request : Request) (user : User.t) : M CRStatus.t :=
  let* user := require_role [UserRole.admin; UserRole.approver] user in
  let* found := select_change_request cr_id in
  match found with
  | None => raise (HTTPException 404 "Change request not found")
  | Some cr =>
      if bool_decide (ChangeRequest.status cr ≠ CRStatus.pending_review) then
        raise (HTTPException 400 "CR is not pending review")
      else if bool_decide (ChangeRequest.author_id cr = User.id user)
              && bool_decide (User.role user ≠ UserRole.admin) then
        raise (HTTPException 400 "Cannot review your own change request")
      else
        let* decided :=
          if decide (review_action req = "approve") then ret CRStatus.approved
          else if decide (review_action req = "reject") then ret CRStatus.rejected
          else raise (HTTPException 400 "Action must be 'approve' or 'reject'") in
        let* w := get_world in
        let cr' := set_review (Some (User.id user)) (Some (review_comment req))
                     (Some (utcnow w)) (set_status decided cr) in
        flush_change_request cr cr' >>
        add_audit_log (User.id user) ("cr." +:+ review_action req)
          "change_request" (pretty (ChangeRequest.id cr)) [] request >>
        ret (ChangeRequest.status cr')
  end.

(** The body of the loop of [merge_change_request]: one staged operation
    committed to the ledger and to the canonical name space. *)
Definition merge_file (cr : ChangeRequest.t) (crf : ChangeRequestFile.t)
    : M unit :=
  let path := ChangeRequestFile.file_path crf in
  if bool_decide (ChangeRequestFile.action crf
                    ∈ [FileAction.create; FileAction.edit]) then
    if negb (truthy (ChangeRequestFile.staging_s3_key crf)) then ret tt
    else
      let staging_key := default "" (ChangeRequestFile.staging_s3_key crf) in
      let* content := S3Service.get_object staging_key in
      let ctype := S3Service.guess_content_type path in
      let content_hash := compute_hash content in
      (* Get next version *)
      let* current := select_max_version path in
      let next_ver := or_0 current + 1 in
      let* version_key := S3Service.generate_version_key in
      S3Service.put_object version_key content ctype >>
      S3Service.put_object path content ctype >>
      add_file_version path next_ver version_key (len content) content_hash
        (ChangeRequest.author_id cr)
        ("CR #" +:+ pretty (ChangeRequest.id cr) +:+ ": "
           +:+ ChangeRequest.title cr)
        false >>
      (* Clean up staging *)
      try_pass (S3Service.delete_object staging_key)
  else if decide (ChangeRequestFile.action crf = FileAction.delete) then
    let* current := select_max_version path in
    let next_ver := or_0 current + 1 in
    add_file_version path next_ver "" 0 "deleted" (ChangeRequest.author_id cr)
      ("CR #" +:+ pretty (ChangeRequest.id cr) +:+ ": Delete " +:+ path)
      true >>
    try_pass (S3Service.delete_object path)
  else ret tt.

Definition merge_change_request (cr_id : Z) (request : Request) (user : User.t)
    : M CRStatus.t :=
  let* user := require_role [UserRole.admin; UserRole.approver; UserRole.editor] user in
  let* found := select_change_request cr_id in
  let* loaded := get_world in
  match found with
  | None => raise (HTTPException 404 "Change request not found")
  | Some cr =>
      if bool_decide (ChangeRequest.status cr ≠ CRStatus.approved) then
        raise (HTTPException 400 "CR must be approved before merging")
      else
        let files := cr_files cr_id loaded in
        (* Apply each file change *)
        for_each files (merge_file cr) >>
        let* w := get_world in
        let cr' := set_merged_at (Some (utcnow w))
                     (set_status CRStatus.merged cr) in
        flush_change_request cr cr' >>
        add_audit_log (User.id user) "cr.merge" "change_request"
          (pretty (ChangeRequest.id cr)) [("file_count", len files)] request >>
        ret (ChangeRequest.status cr')
  end.

Definition close_change_request (cr_id : Z) (request : Request) (user : User.t)
    : M CRStatus.t :=
  let* user := require_role [UserRole.admin; UserRole.approver; UserRole.editor] user in
  let* found := select_change_request cr_id in
  match found with
  | None => raise (HTTPException 404 "Change request not found")
  | Some cr =>
      if bool_decide (ChangeRequest.status cr ∈ [CRStatus.merged; CRStatus.closed]) then
        raise (HTTPException 400 "CR is already finalized")
      else if not_author_nor_admin cr user then
        raise (HTTPException 403 "Only the author or admin can close this CR")
      else
        let cr' := set_status CRStatus.closed cr in
        flush_change_request cr cr' >>
        (* Clean up staging files *)
        let* w := get_world in
        for_each (cr_files cr_id w) discard_staged_blob >>
        add_audit_log (User.id user) "cr.close" "change_request"
          (pretty (ChangeRequest.id cr)) [] request >>
        ret (ChangeRequest.status cr')
  end.

(** ** app/routers/files.py *)

Record FileDetail := mkFileDetail {
  detail_path : string;
  detail_content : option string;
  detail_size : Z;
  detail_version : Z;
  detail_content_hash : string;
  detail_author : option string;
  detail_author_id : option Z;
  detail_message : string;
  detail_is_binary : bool;
  detail_created_at : option Z
}.

Record SaveFileRequest := mkSaveFileRequest {
  save_path : string;
  save_content : string;
  save_message : string
}.

(** [settings.max_file_size_mb], at its default of [app/config.py] *)
Definition max_file_size_mb : Z := 100.

Definition _get_latest_version (file_path : string) : M (option FileVersion.t) :=
  select_latest_version file_path.

Definition _get_next_version (file_path : string) : M Z :=
  let* current := select_max_version file_path in
  ret (or_0 current + 1).

Definition _get_or_create_draft_cr (user : User.t) (request : Request)
    : M ChangeRequest.t :=
  let* w := get_world in
  let* found :=
    scalar_one_or_none
      (option_list
         (first_by_desc ChangeRequest.updated_at
            (filter (fun c => ChangeRequest.author_id c = User.id user
                              ∧ ChangeRequest.status c = CRStatus.draft)
               (change_requests (db w))))) in
  match found with
  | Some cr => ret cr
  | None =>
      (* Create a new draft CR *)
      let* cr := add_change_request ("Changes by " +:+ User.username user)
                   "Auto-created draft. Edit the title before submitting."
                   (User.id user) CRStatus.draft in
      add_audit_log (User.id user) "cr.auto_create" "change_request"
        (pretty (ChangeRequest.id cr)) [] request >>
      ret cr
  end.

Definition _stage_file_in_cr (cr : ChangeRequest.t) (file_path : string)
    (action : FileAction.t) (content_bytes : option (list Byte.byte))
    : M ChangeRequestFile.t :=
  let* w := get_world in
  let existing :=
    arranged
      (filter (fun f => ChangeRequestFile.change_request_id f
                        = ChangeRequest.id cr
                        ∧ ChangeRequestFile.file_path f = file_path)
         (change_request_files (db w))) in
  for_each existing (fun e =>
    discard_staged_blob e >> delete_change_request_file e) >>
  (* Upload staged content for create/edit *)
  let* staging_key :=
    match content_bytes with
    | Some bytes =>
        if bool_decide (action ∈ [FileAction.create; FileAction.edit]) then
          let* key := S3Service.generate_staging_key in
          S3Service.put_object key bytes
            (S3Service.guess_content_type file_path) >>
          ret (Some key)
        else ret None
    | None => ret None
    end in
  (* Find base version for edit/delete *)
  let* base_version_id :=
    if bool_decide (action ∈ [FileAction.edit; FileAction.delete]) then
      let* latest := select_latest_version file_path in
      match latest with
      | Some l => if negb (FileVersion.is_delete l)
                  then ret (Some (FileVersion.id l)) else ret None
      | None => ret None
      end
    else ret None in
  (* the query of an edit or a delete has flushed the deletes *)
  let unflushed :=
    if bool_decide (action ∈ [FileAction.edit; FileAction.delete])
    then [] else existing in
  add_change_request_file unflushed (ChangeRequest.id cr) file_path action
    staging_key base_version_id.

(** [if version:] on an [Optional[int]]: [None] and [0] are false. *)
Definition nonzero (version : option Z) : option Z :=
  match version with
  | Some v => if v =? 0 then None else Some v
  | None => None
  end.

Definition get_file_content (path : string) (version : option Z) (user : User.t)
    : M FileDetail :=
  let* fetched :=
    match nonzero version with
    | Some v =>
        let* w := get_world in
        let* fv :=
          scalar_one_or_none
            (filter (fun r => FileVersion.file_path r = path
                              ∧ FileVersion.version r = v)
               (file_versions (db w))) in
        match fv with
        | None =>
            raise (HTTPException 404
                     ("Version " +:+ pretty v +:+ " not found for " +:+ path))
        | Some r =>
            if FileVersion.is_delete r then
              raise (HTTPException 410 "This version is a deletion record")
            else
              let* content_bytes :=
                try_or_raise (S3Service.get_object (FileVersion.s3_key r))
                  (HTTPException 404 "Version content not found in storage") in
              ret (fv, content_bytes)
        end
    | None =>
        let* fv := _get_latest_version path in
        if match fv with Some l => FileVersion.is_delete l | None => false end
        then raise (HTTPException 410 "File has been deleted")
        else
          let* content_bytes :=
            try_or_raise (S3Service.get_object path)
              (HTTPException 404 "File not found") in
          ret (fv, content_bytes)
    end in
  let fv := fst fetched in
  let content_bytes := snd fetched in
  let* w := get_world in
  let is_binary := negb (S3Service.is_text_file path) in
  let content := if is_binary then None
                 else Some (decode_utf8_replace content_bytes) in
  ret (mkFileDetail path content (len content_bytes)
         (match fv with Some r => FileVersion.version r | None => 0 end)
         (match fv with
          | Some r => FileVersion.content_hash r
          | None => compute_hash content_bytes
          end)
         (match fv with
          | Some r => User.username <$> author_of r w
          | None => None
          end)
         (FileVersion.author_id <$> fv)
         (match fv with Some r => FileVersion.message r | None => "" end)
         is_binary
         (FileVersion.created_at <$> fv)).

(** [is_new = not latest or latest.is_delete] *)
Definition is_new (latest : option FileVersion.t) : bool :=
  match latest with
  | Some l => FileVersion.is_delete l
  | None => true
  end.

Definition set_title (title : string) (cr : ChangeRequest.t) : ChangeRequest.t :=
  set_title_description title (ChangeRequest.description cr) cr.

(** [if message and cr.title.startswith("Changes by "): cr.title = message] *)
Definition retitle (message : string) (cr : ChangeRequest.t) : M ChangeRequest.t :=
  if negb (String.eqb message "")
     && startswith (ChangeRequest.title cr) "Changes by " then
    flush_change_request cr (set_title message cr) >>
    ret (set_title message cr)
  else ret cr.

Definition save_file (req : SaveFileRequest) (request : Request) (user : User.t)
    : M (Z * string * string * FileAction.t * Z) :=
  let* user := require_role WRITE_ROLES user in
  let path := strip_slash (save_path req) in
  if decide (path = "") then raise (HTTPException 400 "Path is required")
  else if startswith path "_" then
    raise (HTTPException 400 "Paths starting with _ are reserved")
  else
    match encode_utf8 (save_content req) with
    | None => raise UnicodeEncodeError
    | Some content_bytes =>
        (* Determine action: create vs edit *)
        let* latest := _get_latest_version path in
        let action := if is_new latest then FileAction.create
                      else FileAction.edit in
        (* Find or create draft CR *)
        let* cr := _get_or_create_draft_cr user request in
        let* cr := retitle (save_message req) cr in
        (* Stage the file *)
        _stage_file_in_cr cr path action (Some content_bytes) >>
        add_audit_log (User.id user) ("file.stage_" +:+ FileAction.value action)
          "file" path [("cr_id", ChangeRequest.id cr)] request >>
        let* w := get_world in
        ret (ChangeRequest.id cr, ChangeRequest.title cr, path, action,
             len (files_of (ChangeRequest.id cr) w))
    end.

Definition upload_file (request : Request) (path message : string)
    (file : list Byte.byte) (user : User.t) : M (Z * string * FileAction.t) :=
  let* user := require_role WRITE_ROLES user in
  let path := strip_slash path in
  if decide (path = "") then raise (HTTPException 400 "Path is required")
  else if startswith path "_" then
    raise (HTTPException 400 "Paths starting with _ are reserved")
  else
    let content_bytes := file in
    let max_size := max_file_size_mb * 1024 * 1024 in
    if max_size <? len content_bytes then
      raise (HTTPException 413
               ("File exceeds " +:+ pretty max_file_size_mb +:+ "MB limit"))
    else
      let* latest := _get_latest_version path in
      let action := if is_new latest then FileAction.create
                    else FileAction.edit in
      let* cr := _get_or_create_draft_cr user request in
      let* cr := retitle message cr in
      _stage_file_in_cr cr path action (Some content_bytes) >>
      ret (ChangeRequest.id cr, path, action).

Definition delete_file (path : string) (request : Request) (user : User.t)
    : M (Z * string * Z) :=
  let path := strip_slash path in
  let* latest := _get_latest_version path in
  match latest with
  | None => raise (HTTPException 404 "File not found or already deleted")
  | Some l =>
      if FileVersion.is_delete l then
        raise (HTTPException 404 "File not found or already deleted")
      else
        let* w := get_world in
        (* Permission: allow if user has a write role, or is the author of
           the latest version *)
        if bool_decide (User.role user ∉ WRITE_ROLES)
           && (bool_decide (author_of l w = None)
               || bool_decide (FileVersion.author_id l ≠ User.id user)) then
          raise (HTTPException 403 "Insufficient permissions to delete this file")
        else
          let* cr := _get_or_create_draft_cr user request in
          _stage_file_in_cr cr path FileAction.delete None >>
          add_audit_log (User.id user) "file.stage_delete" "file" path
            [("cr_id", ChangeRequest.id cr)] request >>
          let* w := get_world in
          ret (ChangeRequest.id cr, path, len (files_of (ChangeRequest.id cr) w))
  end.

Definition create_folder (path : string) (user : User.t) : M string :=
  let* user := require_role WRITE_ROLES user in
  let path := strip_slash path in
  if decide (path = "") then raise (HTTPException 400 "Path is required")
  else if startswith path "_" then
    raise (HTTPException 400 "Paths starting with _ are reserved")
  else
    S3Service.put_object (path +:+ "/") [] "application/x-directory" >>
    ret path.

Definition restore_version (path : string) (version : Z) (request : Request)
    (user : User.t) : M (Z * string * Z) :=
  let* user := require_role WRITE_ROLES user in
  let* w := get_world in
  let* target :=
    scalar_one_or_none
      (filter (fun r => FileVersion.file_path r = path
                        ∧ FileVersion.version r = version)
         (file_versions (db w))) in
  match target with
  | None => raise (HTTPException 404 "Version not found")
  | Some t =>
      if FileVersion.is_delete t then
        raise (HTTPException 400 "Cannot restore a deletion version")
      else
        let* content := S3Service.get_object (FileVersion.s3_key t) in
        let* cr := _get_or_create_draft_cr user request in
        _stage_file_in_cr cr path FileAction.edit (Some content) >>
        add_audit_log (User.id user) "file.stage_restore" "file" path
          [("cr_id", ChangeRequest.id cr); ("from_version", version)] request >>
        ret (ChangeRequest.id cr, path, version)
  end.

(** ** app/routers/pages.py: public file access (no auth) *)

Inductive PageResponse :=
  | TemplateResponse (name : string) (error : option string)
      (file_path : string) (content : option string) (size : option Z)
  | Response (content : list Byte.byte) (media_type : string)
      (content_disposition : string).

(** [p.rsplit("/", 1)[-1] if "/" in p else p] *)
Definition basename (p : string) : string :=
  match after_last "/" p with Some n => n | None => p end.

(** The part the two public handlers share once the share is found live:
    the latest version must exist and not be a deletion, and the canonical
    blob must be there. *)
Definition public_content (share : FileShare.t) : M (list Byte.byte) :=
  let* fv := select_latest_version (FileShare.file_path share) in
  match fv with
  | None => raise (HTTPException 404 "File not found or deleted")
  | Some l =>
      if FileVersion.is_delete l then
        raise (HTTPException 404 "File not found or deleted")
      else
        try_or_raise (S3Service.get_object (FileShare.file_path share))
          (HTTPException 404 "File content not found")
  end.

Definition attachment (share : FileShare.t) (content_bytes : list Byte.byte)
    : PageResponse :=
  Response content_bytes
    (S3Service.guess_content_type (FileShare.file_path share))
    ("attachment; filename=" +:+ String "034"%char
       (basename (FileShare.file_path share) +:+ String "034"%char EmptyString)).

Definition public_file (token : string) : M PageResponse :=
  let* w := get_world in
  let* found :=
    scalar_one_or_none
      (filter (fun s => FileShare.token s = token) (file_shares (db w))) in
  match found with
  | None => raise (HTTPException 404 "File not found or not public")
  | Some share =>
      if negb (FileShare.is_public share) then
        raise (HTTPException 404 "File not found or not public")
      else if FileShare.is_archived share then
        ret (TemplateResponse "public_file.html"
               (Some "This file has been archived and is no longer available.")
               (FileShare.file_path share) None None)
      else
        let* content_bytes := public_content share in
        if S3Service.is_text_file (FileShare.file_path share) then
          ret (TemplateResponse "public_file.html" None
                 (FileShare.file_path share)
                 (Some (decode_utf8_replace content_bytes))
                 (Some (len content_bytes)))
        else ret (attachment share content_bytes)
  end.

Definition public_file_raw (path : string) : M PageResponse :=
  let* w := get_world in
  let* found :=
    scalar_one_or_none
      (filter (fun s => FileShare.file_path s = path) (file_shares (db w))) in
  match found with
  | None => raise (HTTPException 404 "File not found or not public")
  | Some share =>
      if negb (FileShare.is_public share) then
        raise (HTTPException 404 "File not found or not public")
      else if FileShare.is_archived share then
        raise (HTTPException 410 "File has been archived")
      else
        let* content_bytes := public_content share in
        ret (attachment share content_bytes)
  end.

(** ** app/s3.py: the key prefix and the batched delete *)

(** [s[n:]] *)
Fixpoint slice_from (n : nat) (s : string) : string :=
  match n, s with
  | O, _ => s
  | S n', String _ s' => slice_from n' s'
  | S _, EmptyString => EmptyString
  end.

(** [_prefixed] and [_unprefix], with [settings.s3_prefix] as their first
    argument. *)
Definition _prefixed (s3_prefix key : string) : string :=
  if negb (String.eqb s3_prefix "") then
    rstrip (Ascii.eqb "/") s3_prefix +:+ "/" +:+ key
  else key.

Definition _unprefix (s3_prefix key : string) : string :=
  if negb (String.eqb s3_prefix "") then
    let prefix := rstrip (Ascii.eqb "/") s3_prefix +:+ "/" in
    if startswith key prefix then slice_from (String.length prefix) key
    else key
  else key.

(** [range(start, stop, step)] for a positive [step]; [stop] iterations are
    more than the loop can make. *)
Fixpoint range_from (fuel start stop step : nat) : list nat :=
  match fuel with
  | O => []
  | S fuel' =>
      if (start <? stop)%nat then
        start :: range_from fuel' (start + step) stop step
      else []
  end.

Definition range (start stop step : nat) : list nat :=
  range_from stop start stop step.

(** [l[i:j]] for [0 <= i <= j] *)
Definition slice {A} (i j : nat) (l : list A) : list A :=
  take (j - i) (drop i l).

(** [[objects[i:i + 1000] for i in range(0, len(objects), 1000)]]: the
    batches the loop of [delete_objects] sends. *)
Definition delete_batches (objects : list string) : list (list string) :=
  (fun i => slice i (i + 1000) objects) <$> range 0 (length objects) 1000.

(** [client.delete_objects(Delete={"Objects": batch, "Quiet": True})]: every
    key of the batch is gone, whether it was there or not. *)
Definition client_delete_objects (batch : list string) : M unit :=
  modify (with_bucket (fun b => foldl (fun b k => base.delete k b) b batch)).

Definition delete_objects (keys : list string) : M unit :=
  match keys with
  | [] => ret tt
  | _ :: _ =>
      let objects := keys in
      (* S3 delete_objects supports max 1000 keys per request *)
      for_each (delete_batches objects) client_delete_objects
  end.

(** The extension [guess_content_type] looks up:
    [path.rsplit(".", 1)[-1].lower() if "." in path else ""]. *)
Definition extension (path : string) : string :=
  match after_last "."%char path with
  | Some e => lower e
  | None => ""
  end.

(** ** app/routers/admin.py *)

Record Stats := mkStats {
  stats_users_total : Z;
  stats_users_active : Z;
  stats_files_total : Z;
  stats_versions_total : Z;
  stats_cr_total : Z;
  stats_cr_pending : Z
}.

(** [get_stats]: six [select(func.count(...))] over the tables;
    [count(distinct(file_path))] counts each path once. *)
Definition get_stats (user : User.t) : M Stats :=
  let* user := require_role [UserRole.admin] user in
  let* w := get_world in
  let users_total := len (users (db w)) in
  let users_active :=
    len (filter (fun u => User.is_active u = true) (users (db w))) in
  let files_total :=
    len (remove_dups
           (map FileVersion.file_path
              (filter (fun v => FileVersion.is_delete v = false)
                 (file_versions (db w))))) in
  let versions_total := len (file_versions (db w)) in
  let cr_total := len (change_requests (db w)) in
  let cr_pending :=
    len (filter (fun c => ChangeRequest.status c = CRStatus.pending_review)
           (change_requests (db w))) in
  ret (mkStats users_total users_active files_total versions_total cr_total
         cr_pending).

(** * Properties *)

(** ** Library lemmas *)

(** [tauto], kept from looking at the library functions of the section. *)
Ltac pure_tauto :=
  try clear encode_utf8; try clear decode_utf8_replace;
  try clear sha256_hexdigest; tauto.

Lemma bind_ok {A B} (m : M A) (k : A -> M B) w a w' :
  m w = (Ok a, w') -> bind m k w = k a w'.
Proof. intros H. unfold bind. now rewrite H. Qed.

Lemma bind_raise {A B} (m : M A) (k : A -> M B) w e w' :
  m w = (Raise e, w') -> bind m k w = (Raise e, w').
Proof. intros H. unfold bind. now rewrite H. Qed.

Lemma filter_none {A} (P : A -> Prop) `{forall x, Decision (P x)} (l : list A) :
  Forall (fun x => ~ P x) l -> filter P l = [].
Proof.
  induction 1 as [|x l Hx _ IH]; [reflexivity|].
  now rewrite filter_cons_False.
Qed.

Lemma bind_ret {A B} (a : A) (k : A -> M B) w : bind (ret a) k w = k a w.
Proof. reflexivity. Qed.

Lemma bind_assoc {A B C} (m : M A) (f : A -> M B) (g : B -> M C) w :
  bind (bind m f) g w = bind m (fun x => bind (f x) g) w.
Proof. unfold bind. destruct (m w) as [[a|e] w']; reflexivity. Qed.

(** The rows of a change request as the database returns them are its
    entries, in some order. *)
Lemma cr_files_perm cr_id w : cr_files cr_id w ≡ₚ files_of cr_id w.
Proof. apply arranged_perm. Qed.

Lemma Forall_arranged (Q : ChangeRequestFile.t -> Prop)
    (rows : list ChangeRequestFile.t) :
  Forall Q rows -> Forall Q (arranged rows).
Proof. now rewrite arranged_perm. Qed.

Lemma elem_of_cr_files f cr_id w :
  f ∈ cr_files cr_id w <-> f ∈ files_of cr_id w.
Proof. now rewrite cr_files_perm. Qed.

Lemma cr_files_nil cr_id w : files_of cr_id w = [] -> cr_files cr_id w = [].
Proof.
  intros E. apply Permutation_nil_r. now rewrite cr_files_perm, E.
Qed.

Lemma cr_files_not_nil cr_id w : files_of cr_id w ≠ [] -> cr_files cr_id w ≠ [].
Proof.
  intros Hne E. apply Hne. apply Permutation_nil_r.
  now rewrite <- cr_files_perm, E.
Qed.

Lemma cr_files_frame cr_id w w' :
  change_request_files (db w') = change_request_files (db w) ->
  cr_files cr_id w' = cr_files cr_id w.
Proof. intros E. unfold cr_files, files_of. now rewrite E. Qed.

Lemma bind_get_world {B} (k : World -> M B) w : bind get_world k w = k w w.
Proof. reflexivity. Qed.

Lemma select_change_request_world cr_id w :
  snd (select_change_request cr_id w) = w.
Proof.
  unfold select_change_request, bind, get_world.
  destruct (filter _ _) as [|? [|? ?]]; reflexivity.
Qed.

Lemma scalar_one_or_none_option_list {A} (o : option A) w :
  scalar_one_or_none (option_list o) w = (Ok o, w).
Proof. now destruct o. Qed.

Lemma require_role_ok roles user w :
  User.role user ∈ roles -> require_role roles user w = (Ok user, w).
Proof. intros H. unfold require_role. now rewrite bool_decide_eq_true_2. Qed.

Lemma require_role_denied roles user w :
  User.role user ∉ roles ->
  require_role roles user w
    = (Raise (HTTPException 403 "Insufficient permissions"), w).
Proof. intros H. unfold require_role. now rewrite bool_decide_eq_false_2. Qed.

Lemma or_0_next (o : option Z) :
  or_0 o + 1 = match o with Some m => m + 1 | None => 1 end.
Proof.
  destruct o as [m|]; simpl; [|reflexivity].
  destruct (Z.eqb_spec m 0); subst; reflexivity.
Qed.

Lemma select_latest_version_eq path w :
  select_latest_version path w = (Ok (latest_version path w), w).
Proof.
  unfold select_latest_version, bind, get_world.
  apply scalar_one_or_none_option_list.
Qed.

(** The staged entries [l] dropped from the table, their blobs from the
    bucket: what the replace loop of the two staging paths leaves. *)
Definition replaced (l : list ChangeRequestFile.t) (w : World) : World :=
  mkWorld
    (with_change_request_files
       (filter (fun f => ChangeRequestFile.id f ∉ map ChangeRequestFile.id l))
       (db w))
    (foldl (fun b e => if truthy (ChangeRequestFile.staging_s3_key e)
                       then base.delete (default "" (ChangeRequestFile.staging_s3_key e)) b
                       else b)
       (bucket w) l)
    (uuid4_hex w) (uuid4_drawn w) (utcnow w).

Lemma replaced_nil w : replaced [] w = w.
Proof.
  destruct w as [d b u n t]. unfold replaced, with_change_request_files. cbn.
  f_equal. destruct d; cbn. f_equal.
  induction change_request_files0 as [|x l IH]; [reflexivity|].
  rewrite filter_cons_True by apply not_elem_of_nil. now rewrite IH.
Qed.

Lemma replaced_cons e l w : replaced l (replaced [e] w) = replaced (e :: l) w.
Proof.
  unfold replaced, with_change_request_files. cbn. f_equal. f_equal.
  rewrite list_filter_filter. apply list_filter_iff. intros x. cbn [map].
  rewrite list_elem_of_singleton, not_elem_of_cons. pure_tauto.
Qed.

Lemma replace_step e w :
  bind (discard_staged_blob e) (fun _ => delete_change_request_file e) w
  = (Ok tt, replaced [e] w).
Proof.
  unfold bind, discard_staged_blob, delete_change_request_file, replaced,
    try_pass, S3Service.delete_object, modify, ret, with_bucket, with_db,
    with_change_request_files.
  destruct (truthy (ChangeRequestFile.staging_s3_key e)) eqn:T; cbn; rewrite ?T;
    destruct w as [d b u n t]; cbn; do 3 f_equal;
    apply list_filter_iff; intros x; rewrite list_elem_of_singleton;
    reflexivity.
Qed.

Lemma replace_loop l w :
  for_each l (fun e => discard_staged_blob e >> delete_change_request_file e) w
  = (Ok tt, replaced l w).
Proof.
  revert w. induction l as [|e l IH]; intros w; cbn [for_each].
  - unfold ret. now rewrite replaced_nil.
  - rewrite (bind_ok _ _ _ _ _ (replace_step e w)). rewrite IH.
    now rewrite replaced_cons.
Qed.

(** The replace loop comes to the same in whatever order it takes the
    entries. *)
Lemma replaced_perm l l' w : l ≡ₚ l' -> replaced l w = replaced l' w.
Proof.
  intros P. unfold replaced. f_equal.
  - unfold with_change_request_files. f_equal.
    apply list_filter_iff. intros f.
    now rewrite (Permutation_map ChangeRequestFile.id P).
  - generalize (bucket w).
    induction P as [|x l l' P IH|x y l|l1 l2 l3 P1 IH1 P2 IH2]; intros b.
    + reflexivity.
    + cbn [foldl]. apply IH.
    + cbn [foldl].
      destruct (truthy (ChangeRequestFile.staging_s3_key x)),
        (truthy (ChangeRequestFile.staging_s3_key y)); try reflexivity.
      now rewrite delete_delete.
    + now rewrite IH1.
Qed.

(** The entry a flush inserts, and the table with it. *)
Definition new_entry (cr_id : Z) (path : string) (action : FileAction.t)
    (staging_key : option string) (base_version_id : option Z) (w : World)
    : ChangeRequestFile.t :=
  ChangeRequestFile.mk (change_request_files_seq (db w)) cr_id path action
    staging_key base_version_id (utcnow w).

Definition inserted (crf : ChangeRequestFile.t) (w : World) : World :=
  with_db (fun d =>
    mkDatabase (users d) (change_requests d) (change_request_files d ++ [crf])
      (file_versions d) (file_shares d) (audit_logs d)
      (change_requests_seq d) (change_request_files_seq d + 1)
      (file_versions_seq d) (audit_logs_seq d)) w.

(** The flush of an insert goes through when the unique index holds no row
    of the change request and path, and raises when it holds one. *)
Lemma add_change_request_file_ok unflushed cr_id path action key base w :
  Forall (fun f => ~ (ChangeRequestFile.change_request_id f = cr_id
                      ∧ ChangeRequestFile.file_path f = path))
    (unflushed ++ change_request_files (db w)) ->
  add_change_request_file unflushed cr_id path action key base w
  = (Ok (new_entry cr_id path action key base w),
     inserted (new_entry cr_id path action key base w) w).
Proof.
  intros Hfree. unfold add_change_request_file.
  rewrite bool_decide_eq_false_2; [reflexivity|].
  now apply Forall_Exists_neg.
Qed.

Lemma add_change_request_file_conflict unflushed cr_id path action key base
    w :
  Exists (fun f => ChangeRequestFile.change_request_id f = cr_id
                   ∧ ChangeRequestFile.file_path f = path)
    (unflushed ++ change_request_files (db w)) ->
  add_change_request_file unflushed cr_id path action key base w
  = (Raise IntegrityError, w).
Proof.
  intros Hheld. unfold add_change_request_file.
  now rewrite bool_decide_eq_true_2.
Qed.

(** Once the entries of a path are dropped from the table, the table holds
    no row of the change request and path. *)
Lemma replaced_free cr_id path l w :
  l ≡ₚ filter (fun f => ChangeRequestFile.change_request_id f = cr_id
                        ∧ ChangeRequestFile.file_path f = path)
         (change_request_files (db w)) ->
  Forall (fun f => ~ (ChangeRequestFile.change_request_id f = cr_id
                      ∧ ChangeRequestFile.file_path f = path))
    (change_request_files (db (replaced l w))).
Proof.
  intros P. cbn. rewrite Forall_forall. intros f If Hf.
  apply list_elem_of_filter in If as [Hid If]. apply Hid.
  apply list_elem_of_fmap. exists f. split; [reflexivity|].
  rewrite P. now apply list_elem_of_filter.
Qed.

(** The entries of a path among the loaded entries of a change request are
    the rows of the change request and path. *)
Lemma existing_perm cr_id path w :
  filter (fun f => ChangeRequestFile.file_path f = path) (cr_files cr_id w)
  ≡ₚ filter (fun f => ChangeRequestFile.change_request_id f = cr_id
                      ∧ ChangeRequestFile.file_path f = path)
       (change_request_files (db w)).
Proof.
  rewrite cr_files_perm. unfold files_of. rewrite list_filter_filter.
  erewrite list_filter_iff; [reflexivity|]. intros f. cbn. clear. tauto.
Qed.

Lemma replaced_existing cr_id path w :
  replaced
    (filter (fun f => ChangeRequestFile.file_path f = path) (cr_files cr_id w))
    w
  = replaced
      (filter (fun f => ChangeRequestFile.file_path f = path)
         (files_of cr_id w)) w.
Proof. apply replaced_perm. now rewrite cr_files_perm. Qed.

(** After the replace loop and the flush of its deletes, the insert of an
    entry of the path goes through. *)
Lemma add_after_replace cr_id path l action key base w v :
  l ≡ₚ filter (fun f => ChangeRequestFile.change_request_id f = cr_id
                        ∧ ChangeRequestFile.file_path f = path)
         (change_request_files (db w)) ->
  change_request_files (db v) = change_request_files (db (replaced l w)) ->
  add_change_request_file [] cr_id path action key base v
  = (Ok (new_entry cr_id path action key base v),
     inserted (new_entry cr_id path action key base v) v).
Proof.
  intros P E. apply add_change_request_file_ok. cbn [app]. rewrite E.
  now apply replaced_free.
Qed.

Lemma replaced_arranged l w : replaced (arranged l) w = replaced l w.
Proof. apply replaced_perm, arranged_perm. Qed.

(** The insert of [_stage_file_in_cr] goes through for an edit or a delete,
    and for a create of a path of which the change request holds no
    entry. *)
Lemma add_staged cr_id path action key base w v :
  let existing :=
    arranged
      (filter (fun f => ChangeRequestFile.file_path f = path)
         (files_of cr_id w)) in
  action ∈ [FileAction.edit; FileAction.delete]
  \/ path ∉ map ChangeRequestFile.file_path (files_of cr_id w) ->
  change_request_files (db v)
  = change_request_files (db (replaced existing w)) ->
  add_change_request_file
    (if bool_decide (action ∈ [FileAction.edit; FileAction.delete])
     then [] else existing)
    cr_id path action key base v
  = (Ok (new_entry cr_id path action key base v),
     inserted (new_entry cr_id path action key base v) v).
Proof.
  intros existing Hfree E. apply add_change_request_file_ok.
  assert (P : existing
              ≡ₚ filter (fun f => ChangeRequestFile.change_request_id f = cr_id
                                  ∧ ChangeRequestFile.file_path f = path)
                   (change_request_files (db w))).
  { unfold existing. rewrite arranged_perm. unfold files_of.
    rewrite list_filter_filter.
    erewrite list_filter_iff; [reflexivity|]. intros f. cbn. clear. tauto. }
  apply Forall_app. split.
  - destruct (bool_decide_reflect
                (action ∈ [FileAction.edit; FileAction.delete])) as [Ha|Ha];
      [constructor|].
    destruct Hfree as [Hfree|Hnew]; [contradiction|].
    rewrite Forall_forall. intros f If [_ Hp]. apply Hnew.
    apply list_elem_of_fmap. exists f. split; [now rewrite Hp|].
    unfold existing in If. rewrite arranged_perm in If.
    now apply list_elem_of_filter in If as [_ If].
  - rewrite E. now apply replaced_free.
Qed.

(** A staged blob put under the next staging key. *)
Definition next_staging_key (w : World) : string :=
  "_staging/" +:+ uuid4_hex w (uuid4_drawn w).

Definition staged (content : list Byte.byte) (ctype : string) (w : World)
    : World :=
  mkWorld (db w)
    (<[next_staging_key w := mkS3Object content ctype]> (bucket w))
    (uuid4_hex w) (S (uuid4_drawn w)) (utcnow w).

Lemma stage_blob content ctype w :
  (let* key := S3Service.generate_staging_key in
   S3Service.put_object key content ctype >> ret (Some key)) w
  = (Ok (Some (next_staging_key w)), staged content ctype w).
Proof. reflexivity. Qed.

Lemma latest_version_frame path w w' :
  file_versions (db w') = file_versions (db w) ->
  latest_version path w' = latest_version path w.
Proof. intros H. unfold latest_version, versions_of. now rewrite H. Qed.

Lemma is_new_spec (latest : option FileVersion.t) :
  is_new latest = true <->
  latest = None \/ exists l, latest = Some l /\ FileVersion.is_delete l = true.
Proof.
  destruct latest as [l|]; cbn; split; eauto.
  - intros [?|(l' & E & H)]; [discriminate|]. now inversion E.
Qed.

(** ** The guards of the state machine (merge, review, submit) *)

(** C4. With the change request [cr] stored under [cr_id]: merge by a
    write-capable actor raises the 400 of the status guard when the status is
    not approved; review by the author, an approver who is not an admin, raises
    a 400 (the self-review one when the request is pending review); submit by
    the author or an admin raises a 400 when no operation is staged.  In each
    case the world is left as it was. *)
Theorem state_machine_guards (w : World) (cr_id : Z) (cr : ChangeRequest.t)
    (request : Request)
    (Hcr : select_change_request cr_id w = (Ok (Some cr), w)) :
  (ChangeRequest.status cr ≠ CRStatus.approved ->
   forall user, User.role user ∈ WRITE_ROLES ->
     merge_change_request cr_id request user w
     = (Raise (HTTPException 400 "CR must be approved before merging"), w))
  /\ (forall user req,
        ChangeRequest.author_id cr = User.id user ->
        User.role user = UserRole.approver ->
        review_change_request cr_id req request user w
        = (Raise (HTTPException 400
                    (if decide (ChangeRequest.status cr = CRStatus.pending_review)
                     then "Cannot review your own change request"
                     else "CR is not pending review")), w))
  /\ (files_of cr_id w = [] ->
      forall user, User.role user ∈ WRITE_ROLES ->
        not_author_nor_admin cr user = false ->
        submit_for_review cr_id request user w
        = (Raise (HTTPException 400
                    (if not_draft_nor_rejected cr
                     then "Can only submit draft or rejected CRs"
                     else "Cannot submit a CR with no files")), w)).
Proof.
  split; [|split].
  - intros Hst user Hrole. unfold merge_change_request.
    rewrite (bind_ok _ _ _ _ _ (require_role_ok _ _ _ Hrole)).
    rewrite (bind_ok _ _ _ _ _ Hcr). cbn.
    now rewrite bool_decide_eq_true_2.
  - intros user req Hauth Hrole. unfold review_change_request.
    rewrite (bind_ok _ _ _ user w); cycle 1.
    { apply require_role_ok. rewrite Hrole. set_solver. }
    rewrite (bind_ok _ _ _ _ _ Hcr).
    destruct (decide (ChangeRequest.status cr = CRStatus.pending_review)) as [E|E].
    + rewrite bool_decide_eq_false_2 by pure_tauto.
      rewrite bool_decide_eq_true_2 by assumption.
      rewrite bool_decide_eq_true_2 by (rewrite Hrole; discriminate).
      reflexivity.
    + now rewrite bool_decide_eq_true_2.
  - intros Hfiles user Hrole Hown. unfold submit_for_review.
    rewrite (bind_ok _ _ _ _ _ (require_role_ok _ _ _ Hrole)).
    rewrite (bind_ok _ _ _ _ _ Hcr). cbn.
    rewrite Hown. destruct (not_draft_nor_rejected cr); [reflexivity|].
    now rewrite (cr_files_nil _ _ Hfiles).
Qed.

(** ** What one committed operation leaves *)

Definition next_version (path : string) (w : World) : Z :=
  or_0 (sql_max (map FileVersion.version (versions_of path w))) + 1.

Definition next_version_key (w : World) : string :=
  "_versions/" +:+ uuid4_hex w (uuid4_drawn w).

Definition append_version (fv : FileVersion.t) (d : Database) : Database :=
  mkDatabase (users d) (change_requests d) (change_request_files d)
    (file_versions d ++ [fv]) (file_shares d) (audit_logs d)
    (change_requests_seq d) (change_request_files_seq d)
    (file_versions_seq d + 1) (audit_logs_seq d).

(** The row a committed create or edit of [content] appends. *)
Definition content_row (cr : ChangeRequest.t) (path : string)
    (content : list Byte.byte) (w : World) : FileVersion.t :=
  FileVersion.mk (file_versions_seq (db w)) path (next_version path w)
    (next_version_key w) (len content) (sha256_hexdigest content)
    (ChangeRequest.author_id cr)
    ("CR #" +:+ pretty (ChangeRequest.id cr) +:+ ": " +:+ ChangeRequest.title cr)
    false (utcnow w).

(** The row a committed delete appends. *)
Definition tombstone_row (cr : ChangeRequest.t) (path : string) (w : World)
    : FileVersion.t :=
  FileVersion.mk (file_versions_seq (db w)) path (next_version path w) "" 0
    "deleted" (ChangeRequest.author_id cr)
    ("CR #" +:+ pretty (ChangeRequest.id cr) +:+ ": Delete " +:+ path)
    true (utcnow w).

Definition committed (cr : ChangeRequest.t) (path staging_key : string)
    (content : list Byte.byte) (w : World) : World :=
  let o := mkS3Object content (S3Service.guess_content_type path) in
  mkWorld (append_version (content_row cr path content w) (db w))
    (base.delete staging_key
       (<[path := o]> (<[next_version_key w := o]> (bucket w))))
    (uuid4_hex w) (S (uuid4_drawn w)) (utcnow w).

Definition tombstoned (cr : ChangeRequest.t) (path : string) (w : World)
    : World :=
  mkWorld (append_version (tombstone_row cr path w) (db w))
    (base.delete path (bucket w)) (uuid4_hex w) (uuid4_drawn w) (utcnow w).

Lemma truthy_Some k : truthy (Some k) = true <-> k ≠ "".
Proof.
  cbn. destruct (String.eqb_spec k ""); cbn; split; congruence.
Qed.

Lemma get_object_ok k o w :
  bucket w !! k = Some o -> S3Service.get_object k w = (Ok (body o), w).
Proof.
  intros H. unfold S3Service.get_object, bind, get_world. now rewrite H.
Qed.

Lemma get_object_missing k w :
  bucket w !! k = None -> S3Service.get_object k w = (Raise (NoSuchKey k), w).
Proof.
  intros H. unfold S3Service.get_object, bind, get_world. now rewrite H.
Qed.

Lemma merge_file_commit cr crf k o w :
  ChangeRequestFile.action crf ∈ [FileAction.create; FileAction.edit] ->
  ChangeRequestFile.staging_s3_key crf = Some k -> k ≠ "" ->
  bucket w !! k = Some o ->
  merge_file cr crf w
  = (Ok tt, committed cr (ChangeRequestFile.file_path crf) k (body o) w).
Proof.
  intros Ha Hk Hne Ho. unfold merge_file.
  rewrite bool_decide_eq_true_2 by assumption.
  rewrite Hk. rewrite (proj2 (truthy_Some k) Hne). cbn [negb default].
  rewrite (bind_ok _ _ _ _ _ (get_object_ok _ _ _ Ho)).
  reflexivity.
Qed.

Lemma merge_file_missing cr crf k w :
  ChangeRequestFile.action crf ∈ [FileAction.create; FileAction.edit] ->
  ChangeRequestFile.staging_s3_key crf = Some k -> k ≠ "" ->
  bucket w !! k = None ->
  merge_file cr crf w = (Raise (NoSuchKey k), w).
Proof.
  intros Ha Hk Hne Ho. unfold merge_file.
  rewrite bool_decide_eq_true_2 by assumption.
  rewrite Hk. rewrite (proj2 (truthy_Some k) Hne). cbn [negb default].
  now rewrite (bind_raise _ _ _ _ _ (get_object_missing _ _ Ho)).
Qed.

Lemma merge_file_skip cr crf w :
  ChangeRequestFile.action crf ∈ [FileAction.create; FileAction.edit] ->
  truthy (ChangeRequestFile.staging_s3_key crf) = false ->
  merge_file cr crf w = (Ok tt, w).
Proof.
  intros Ha Hk. unfold merge_file.
  rewrite bool_decide_eq_true_2 by assumption. now rewrite Hk.
Qed.

Lemma merge_file_tombstone cr crf w :
  ChangeRequestFile.action crf = FileAction.delete ->
  merge_file cr crf w
  = (Ok tt, tombstoned cr (ChangeRequestFile.file_path crf) w).
Proof.
  intros Ha. unfold merge_file. rewrite Ha.
  change (bool_decide (FileAction.delete ∈ [FileAction.create; FileAction.edit]))
    with false.
  reflexivity.
Qed.

(** The four cases of [merge_file], by the ledger: nothing appended, or one
    row of the operation's path with the next version. *)
Lemma merge_file_ledger cr crf w :
  file_versions (db (snd (merge_file cr crf w))) = file_versions (db w)
  \/ exists fv,
      file_versions (db (snd (merge_file cr crf w)))
      = file_versions (db w) ++ [fv]
      /\ FileVersion.file_path fv = ChangeRequestFile.file_path crf
      /\ FileVersion.version fv
         = next_version (ChangeRequestFile.file_path crf) w.
Proof.
  destruct (ChangeRequestFile.action crf) eqn:Ha.
  1,2: destruct (ChangeRequestFile.staging_s3_key crf) as [k|] eqn:Hk.
  1,3: destruct (decide (k = "")) as [->|Hne].
  1,3: left; rewrite merge_file_skip; [reflexivity|rewrite Ha; decide_now|now rewrite Hk].
  1,2: destruct (bucket w !! k) as [o|] eqn:Ho.
  1,3: right; erewrite merge_file_commit by (try eassumption; rewrite Ha; decide_now);
       eexists; split; [reflexivity|split; reflexivity].
  1,2: left; erewrite merge_file_missing by (try eassumption; rewrite Ha; decide_now);
       reflexivity.
  1,2: left; rewrite merge_file_skip; [reflexivity|rewrite Ha; decide_now|now rewrite Hk].
  right. rewrite merge_file_tombstone by assumption.
  eexists; split; [reflexivity|split; reflexivity].
Qed.

(** ** The version ledger *)

(** The versions of every path are 1, 2, ..., in the order of the table. *)
Definition ledger_contiguous (w : World) : Prop :=
  forall path,
    map FileVersion.version (versions_of path w)
    = seqZ 1 (len (versions_of path w)).

(** The same, checked path by path over the paths of the table. *)
Definition ledger_contiguousb (w : World) : bool :=
  forallb
    (fun path =>
       bool_decide (map FileVersion.version (versions_of path w)
                    = seqZ 1 (len (versions_of path w))))
    (map FileVersion.file_path (file_versions (db w))).

Lemma ledger_contiguousb_sound w :
  ledger_contiguousb w = true -> ledger_contiguous w.
Proof.
  intros H path. unfold ledger_contiguousb in H.
  rewrite forallb_forall in H.
  destruct (decide (path ∈ map FileVersion.file_path (file_versions (db w))))
    as [I|I].
  - apply list_elem_of_In in I. apply H in I. now apply bool_decide_eq_true in I.
  - assert (E : versions_of path w = []).
    { unfold versions_of. clear H.
      induction (file_versions (db w)) as [|x l IH]; [reflexivity|].
      cbn in I. apply not_elem_of_cons in I as [Hx Hl].
      rewrite filter_cons_False by congruence. now apply IH. }
    now rewrite E.
Qed.

Lemma sql_max_spec (l : list Z) :
  match sql_max l with
  | Some m => m ∈ l /\ Forall (fun x => x <= m) l
  | None => l = []
  end.
Proof.
  induction l as [|x l IH]; cbn; [reflexivity|].
  destruct (sql_max l) as [m|].
  - destruct IH as [Hin Hle]. split.
    + destruct (Z.max_spec x m) as [[_ ->]|[_ ->]];
        [now apply list_elem_of_further | apply list_elem_of_here].
    + constructor; [lia|]. eapply Forall_impl; [exact Hle|]. cbn. lia.
  - subst l. split; [apply list_elem_of_here|]. repeat constructor. lia.
Qed.

Lemma sql_max_seqZ (n : Z) :
  sql_max (seqZ 1 n) = if decide (0 < n) then Some n else None.
Proof.
  pose proof (sql_max_spec (seqZ 1 n)) as H.
  destruct (decide (0 < n)) as [Hn|Hn].
  - destruct (sql_max (seqZ 1 n)) as [m|].
    + destruct H as [Hin Hle]. apply elem_of_seqZ in Hin.
      rewrite Forall_forall in Hle.
      assert (n <= m) by (apply Hle, elem_of_seqZ; lia).
      f_equal. lia.
    + exfalso. assert (n ∈ seqZ 1 n) as I by (apply elem_of_seqZ; lia).
      rewrite H in I. inversion I.
  - rewrite seqZ_nil by lia. reflexivity.
Qed.

Lemma next_version_of_contiguous path w :
  map FileVersion.version (versions_of path w)
  = seqZ 1 (len (versions_of path w)) ->
  next_version path w = len (versions_of path w) + 1.
Proof.
  intros H. unfold next_version. rewrite H, sql_max_seqZ, or_0_next.
  unfold len. destruct (versions_of path w) as [|x l]; cbn [length].
  - reflexivity.
  - rewrite decide_True by lia. reflexivity.
Qed.

Lemma ledger_contiguous_frame w w' :
  file_versions (db w') = file_versions (db w) ->
  ledger_contiguous w -> ledger_contiguous w'.
Proof.
  intros E H path. specialize (H path). unfold versions_of in *.
  now rewrite E.
Qed.

Lemma ledger_contiguous_append w w' fv :
  file_versions (db w') = file_versions (db w) ++ [fv] ->
  FileVersion.version fv = next_version (FileVersion.file_path fv) w ->
  ledger_contiguous w -> ledger_contiguous w'.
Proof.
  intros E Hv H path. pose proof (H path) as Hp.
  unfold versions_of in *. rewrite E, filter_app.
  destruct (decide (FileVersion.file_path fv = path)) as [<-|Hne].
  - rewrite filter_cons_True by reflexivity. rewrite filter_nil.
    rewrite map_app. unfold len. rewrite length_app. cbn [length map].
    rewrite Nat2Z.inj_add. rewrite seqZ_app by lia.
    fold (versions_of (FileVersion.file_path fv) w) in *.
    fold (len (versions_of (FileVersion.file_path fv) w)) in *.
    rewrite <- Hp. f_equal.
    rewrite Hv, (next_version_of_contiguous _ _ Hp).
    change (Z.of_nat 1) with 1. rewrite seqZ_cons by lia.
    rewrite seqZ_nil by lia. f_equal. lia.
  - rewrite filter_cons_False by assumption. rewrite filter_nil, app_nil_r.
    exact Hp.
Qed.

Lemma for_each_invariant {A} (P : World -> Prop) (body : A -> M unit) l :
  (forall x w, P w -> P (snd (body x w))) ->
  forall w, P w -> P (snd (for_each l body w)).
Proof.
  intros Hbody. induction l as [|x l IH]; intros w Hw; cbn; [exact Hw|].
  unfold bind. specialize (Hbody x w Hw).
  destruct (body x w) as [[[]|e] w1]; cbn in *; auto.
Qed.

Lemma merge_file_contiguous cr crf w :
  ledger_contiguous w -> ledger_contiguous (snd (merge_file cr crf w)).
Proof.
  intros H. destruct (merge_file_ledger cr crf w) as [E|(fv & E & Hp & Hv)].
  - eapply ledger_contiguous_frame; eassumption.
  - eapply ledger_contiguous_append; [exact E| |exact H].
    now rewrite Hp.
Qed.

Lemma flush_change_request_ledger old cr w :
  file_versions (db (snd (flush_change_request old cr w)))
  = file_versions (db w).
Proof.
  unfold flush_change_request. destruct (decide (cr = old)); reflexivity.
Qed.

(** The versions a path has gained from [w] to [w']: its next version in
    [w] and those that follow it, in the order of the table. *)
Definition versions_appended (path : string) (w w' : World) : Prop :=
  exists k,
    0 <= k
    /\ map FileVersion.version (versions_of path w')
       = map FileVersion.version (versions_of path w)
         ++ seqZ (next_version path w) k.

Lemma sql_max_above (l : list Z) (x : Z) :
  (forall m, sql_max l = Some m -> m <= x) -> sql_max (l ++ [x]) = Some x.
Proof.
  induction l as [|a l IH]; intros H; [reflexivity|]. cbn in *.
  destruct (sql_max l) as [m|].
  - rewrite IH by (intros m' [= <-]; specialize (H _ eq_refl); lia).
    f_equal. specialize (H _ eq_refl). lia.
  - rewrite IH by discriminate. f_equal. specialize (H _ eq_refl). lia.
Qed.

Lemma or_0_Some v : or_0 (Some v) = v.
Proof. cbn. now destruct (Z.eqb_spec v 0). Qed.

Lemma next_after_seqZ (l : list Z) (k : nat) :
  or_0 (sql_max (l ++ seqZ (or_0 (sql_max l) + 1) (Z.of_nat k))) + 1
  = or_0 (sql_max l) + 1 + Z.of_nat k.
Proof.
  induction k as [|k IH].
  - cbn. rewrite app_nil_r. lia.
  - rewrite seqZ_S, app_assoc. rewrite sql_max_above.
    + rewrite or_0_Some. lia.
    + intros m Hm. rewrite Hm, or_0_Some in IH. lia.
Qed.

Lemma versions_appended_refl path w : versions_appended path w w.
Proof. exists 0. split; [lia|]. cbn. now rewrite app_nil_r. Qed.

Lemma versions_appended_trans path w1 w2 w3 :
  versions_appended path w1 w2 -> versions_appended path w2 w3 ->
  versions_appended path w1 w3.
Proof.
  intros (k1 & H1 & E1) (k2 & H2 & E2). exists (k1 + k2). split; [lia|].
  rewrite E2, E1, <- app_assoc. f_equal. rewrite seqZ_app by lia. f_equal.
  f_equal. unfold next_version at 1. rewrite E1. unfold next_version.
  rewrite <- (Z2Nat.id k1) by lia. apply next_after_seqZ.
Qed.

Lemma versions_appended_frame path w w' :
  file_versions (db w') = file_versions (db w) -> versions_appended path w w'.
Proof.
  intros E. exists 0. split; [lia|]. unfold versions_of. rewrite E. cbn.
  now rewrite app_nil_r.
Qed.

Lemma merge_file_versions cr crf path w :
  versions_appended path w (snd (merge_file cr crf w)).
Proof.
  destruct (merge_file_ledger cr crf w) as [E|(fv & E & Hp & Hv)].
  - now apply versions_appended_frame.
  - unfold versions_appended, versions_of. rewrite E, filter_app, map_app.
    destruct (decide (FileVersion.file_path fv = path)) as [Hpath|Hpath].
    + exists 1. split; [lia|]. rewrite filter_cons_True by assumption.
      rewrite filter_nil. cbn [map]. rewrite Hv.
      replace (ChangeRequestFile.file_path crf) with path by congruence.
      rewrite seqZ_cons by lia. now rewrite seqZ_nil by lia.
    + exists 0. split; [lia|]. now rewrite filter_cons_False by assumption.
Qed.

Lemma merge_loop_versions cr path files :
  forall w, versions_appended path w (snd (for_each files (merge_file cr) w)).
Proof.
  induction files as [|f files IH]; intros w.
  - apply versions_appended_refl.
  - cbn [for_each]. unfold bind.
    pose proof (merge_file_versions cr f path w) as H1.
    destruct (merge_file cr f w) as [[[]|e] w1]; cbn [snd] in *.
    + eapply versions_appended_trans; [exact H1|apply IH].
    + exact H1.
Qed.

(** The ledger after [merge_change_request] is the ledger after its loop,
    or the ledger it found. *)
Lemma merge_change_request_ledger cr_id request user w :
  file_versions (db (snd (merge_change_request cr_id request user w)))
  = file_versions (db w)
  \/ exists cr,
      file_versions (db (snd (merge_change_request cr_id request user w)))
      = file_versions
          (db (snd (for_each (cr_files cr_id w) (merge_file cr) w))).
Proof.
  unfold merge_change_request.
  destruct (decide (User.role user
                    ∈ [UserRole.admin; UserRole.approver; UserRole.editor]))
    as [Hr|Hr].
  2: { rewrite (bind_raise _ _ _ _ _ (require_role_denied _ _ _ Hr)).
       now left. }
  rewrite (bind_ok _ _ _ _ _ (require_role_ok _ _ _ Hr)).
  pose proof (surjective_pairing (select_change_request cr_id w)) as Hs.
  rewrite select_change_request_world in Hs.
  destruct (fst (select_change_request cr_id w)) as [found|e].
  2: { rewrite (bind_raise _ _ _ _ _ Hs). now left. }
  rewrite (bind_ok _ _ _ _ _ Hs), bind_get_world.
  destruct found as [cr|]; [|now left].
  destruct (bool_decide _); [now left|]. right. exists cr. cbv zeta.
  pose proof (surjective_pairing
                (for_each (cr_files cr_id w) (merge_file cr) w)) as Hl.
  destruct (fst (for_each (cr_files cr_id w) (merge_file cr) w)) as [u|e].
  2: { now rewrite (bind_raise _ _ _ _ _ Hl). }
  rewrite (bind_ok _ _ _ _ _ Hl), bind_get_world.
  unfold flush_change_request. now destruct (decide _).
Qed.

(** C7. The next version of a path is one more than the highest version of
    its rows, and 1 when it has none.  A merge request, whatever it commits
    and whether it returns or raises, appends to a path that next version
    and the ones that follow it, [n], [n + 1], ..., and no other version; so
    when the versions of every path are 1, 2, ..., in the order they were
    written, they still are after the merge. *)
Theorem next_version_contiguous (w : World) :
  (forall path, exists n,
      _get_next_version path w = (Ok n, w)
      /\ (versions_of path w = [] -> n = 1)
      /\ (forall r, r ∈ versions_of path w -> FileVersion.version r < n)
      /\ (versions_of path w ≠ [] ->
          exists r, r ∈ versions_of path w /\ n = FileVersion.version r + 1))
  /\ (forall cr_id request user,
        let w' := snd (merge_change_request cr_id request user w) in
        (forall path, exists n k,
            _get_next_version path w = (Ok n, w)
            /\ 0 <= k
            /\ map FileVersion.version (versions_of path w')
               = map FileVersion.version (versions_of path w) ++ seqZ n k)
        /\ (ledger_contiguous w -> ledger_contiguous w')).
Proof.
  split.
  - intros path. eexists. split; [reflexivity|].
    rewrite or_0_next.
    pose proof (sql_max_spec (map FileVersion.version (versions_of path w))) as H.
    destruct (sql_max (map FileVersion.version (versions_of path w))) as [m|].
    + destruct H as [Hin Hle]. split; [|split].
      * intros E. rewrite E in Hin. inversion Hin.
      * intros r Hr. rewrite Forall_forall in Hle.
        assert (FileVersion.version r <= m); [|lia].
        apply Hle. apply list_elem_of_fmap. eauto.
      * intros _. apply list_elem_of_fmap in Hin as (r & -> & Hr). eauto.
    + apply fmap_nil_inv in H. split; [reflexivity|split].
      * intros r Hr. rewrite H in Hr. inversion Hr.
      * intros Hne. contradiction.
  - intros cr_id request user. cbv zeta.
    destruct (merge_change_request_ledger cr_id request user w)
      as [E|(cr & E)].
    + split.
      * intros path.
        destruct (versions_appended_frame path _ _ E) as (k & Hk & Ek).
        exists (next_version path w), k. repeat split; assumption.
      * now apply ledger_contiguous_frame.
    + split.
      * intros path.
        destruct (versions_appended_trans path _ _ _
                    (merge_loop_versions cr path (cr_files cr_id w) w)
                    (versions_appended_frame path _ _ E)) as (k & Hk & Ek).
        exists (next_version path w), k. repeat split; assumption.
      * intros Hledger. eapply ledger_contiguous_frame; [exact E|].
        exact (for_each_invariant ledger_contiguous (merge_file cr)
                 (cr_files cr_id w) (merge_file_contiguous cr) w Hledger).
Qed.

(** ** Change requests that are ready to merge *)

Definition staging_keys (files : list ChangeRequestFile.t) : list string :=
  omap ChangeRequestFile.staging_s3_key files.

(** The entries of a change request as the staging handlers and the
    constraints of the tables leave them: one entry per path (the unique
    index on change request and path), no path under the reserved prefix,
    and every staging key of its own, drawn by [generate_staging_key] and
    still in the bucket. *)
Definition staged_ok (b : gmap string S3Object)
    (files : list ChangeRequestFile.t) : bool :=
  bool_decide (NoDup (map ChangeRequestFile.file_path files))
  && forallb (fun f => negb (startswith (ChangeRequestFile.file_path f) "_"))
       files
  && bool_decide (NoDup (staging_keys files))
  && forallb (fun k => startswith k "_staging/" && bool_decide (is_Some (b !! k)))
       (staging_keys files).

Lemma prefix_split (p s : string) :
  String.prefix p s = true -> exists r, s = p +:+ r.
Proof.
  revert s. induction p as [|a p IH]; intros s H.
  - exists s. reflexivity.
  - destruct s as [|b s]; [discriminate|]. cbn in H.
    destruct (ascii_dec a b) as [->|]; [|discriminate].
    destruct (IH s H) as [r ->]. exists r. reflexivity.
Qed.

Lemma staging_key_facts k :
  startswith k "_staging/" = true ->
  k ≠ "" /\ startswith k "_" = true /\ startswith k "_versions/" = false.
Proof.
  intros H. apply prefix_split in H as [r ->]. repeat split. discriminate.
Qed.

Lemma version_key_facts u :
  startswith ("_versions/" +:+ u) "_versions/" = true
  /\ startswith ("_versions/" +:+ u) "_" = true.
Proof.
  split; unfold startswith; cbn; [|reflexivity]. destruct u; reflexivity.
Qed.

Lemma staged_ok_spec b files :
  staged_ok b files = true <->
  NoDup (map ChangeRequestFile.file_path files)
  /\ Forall (fun f => startswith (ChangeRequestFile.file_path f) "_" = false)
       files
  /\ NoDup (staging_keys files)
  /\ Forall (fun k => startswith k "_staging/" = true /\ is_Some (b !! k))
       (staging_keys files).
Proof.
  unfold staged_ok. rewrite !andb_true_iff, !bool_decide_eq_true.
  rewrite !forallb_forall, !Forall_forall.
  setoid_rewrite <- list_elem_of_In.
  setoid_rewrite negb_true_iff. setoid_rewrite andb_true_iff.
  setoid_rewrite bool_decide_eq_true. pure_tauto.
Qed.

Definition ready (b : gmap string S3Object)
    (files : list ChangeRequestFile.t) : Prop :=
  NoDup (map ChangeRequestFile.file_path files)
  /\ Forall (fun f => startswith (ChangeRequestFile.file_path f) "_" = false)
       files
  /\ NoDup (staging_keys files)
  /\ Forall (fun k => startswith k "_staging/" = true /\ is_Some (b !! k))
       (staging_keys files).

Lemma staging_keys_cons f files :
  staging_keys (f :: files)
  = match ChangeRequestFile.staging_s3_key f with
    | Some k => k :: staging_keys files
    | None => staging_keys files
    end.
Proof. reflexivity. Qed.

Lemma staging_keys_app l1 l2 :
  staging_keys (l1 ++ l2) = staging_keys l1 ++ staging_keys l2.
Proof. apply omap_app. Qed.

Lemma ready_cons_inv b f rest :
  ready b (f :: rest) ->
  startswith (ChangeRequestFile.file_path f) "_" = false
  /\ (ChangeRequestFile.file_path f ∉ map ChangeRequestFile.file_path rest)
  /\ (forall k, ChangeRequestFile.staging_s3_key f = Some k ->
        startswith k "_staging/" = true /\ is_Some (b !! k)
        /\ k ∉ staging_keys rest)
  /\ ready b rest.
Proof.
  intros (Hp & Hu & Hk & Hb). cbn [map] in Hp.
  apply NoDup_cons in Hp as [Hp1 Hp2].
  apply Forall_cons in Hu as [Hu1 Hu2].
  rewrite staging_keys_cons in Hk, Hb.
  split; [exact Hu1|split; [exact Hp1|]].
  destruct (ChangeRequestFile.staging_s3_key f) as [k|].
  - apply NoDup_cons in Hk as [Hk1 Hk2]. apply Forall_cons in Hb as [Hb1 Hb2].
    split.
    + intros k' E. inversion E; subst k'. pure_tauto.
    + repeat split; assumption.
  - split; [intros k' E; discriminate|]. repeat split; assumption.
Qed.

Lemma ready_frame b b' files :
  (forall k, k ∈ staging_keys files -> b' !! k = b !! k) ->
  ready b files -> ready b' files.
Proof.
  intros E (Hp & Hu & Hk & Hb). repeat split; try assumption.
  rewrite Forall_forall in *. intros k I. rewrite (E k I). exact (Hb k I).
Qed.

Lemma staging_keys_perm l l' : l ≡ₚ l' -> staging_keys l ≡ₚ staging_keys l'.
Proof.
  intros P. unfold staging_keys.
  induction P as [|x l l' P IH|x y l|l1 l2 l3 P1 IH1 P2 IH2]; cbn.
  - reflexivity.
  - destruct (ChangeRequestFile.staging_s3_key x); now rewrite IH.
  - destruct (ChangeRequestFile.staging_s3_key x),
      (ChangeRequestFile.staging_s3_key y);
      try reflexivity. apply Permutation_swap.
  - now rewrite IH1.
Qed.

(** Being ready to merge does not depend on the order of the entries. *)
Lemma ready_perm b l l' : l ≡ₚ l' -> ready b l -> ready b l'.
Proof.
  intros P (Hp & Hu & Hk & Hb).
  pose proof (staging_keys_perm _ _ P) as Pk.
  pose proof (Permutation_map ChangeRequestFile.file_path P) as Pm.
  repeat split.
  - now rewrite <- Pm.
  - now rewrite <- P.
  - now rewrite <- Pk.
  - now rewrite <- Pk.
Qed.

Lemma ready_cr_files cr_id w :
  ready (bucket w) (files_of cr_id w) -> ready (bucket w) (cr_files cr_id w).
Proof. apply ready_perm. symmetry. apply cr_files_perm. Qed.

(** What a committed operation does not touch: the versions of the other
    paths, and the blobs other than its path, its staging key and the
    version keys. *)
Definition merge_frame (files : list ChangeRequestFile.t) (w w' : World)
    : Prop :=
  (forall path, path ∉ map ChangeRequestFile.file_path files ->
     versions_of path w' = versions_of path w)
  /\ (forall key, key ∉ map ChangeRequestFile.file_path files ->
        key ∉ staging_keys files -> startswith key "_versions/" = false ->
        bucket w' !! key = bucket w !! key).

Lemma merge_frame_nil w : merge_frame [] w w.
Proof. split; reflexivity. Qed.

Lemma merge_frame_cons f rest w w1 w' :
  merge_frame [f] w w1 -> merge_frame rest w1 w' ->
  merge_frame (f :: rest) w w'.
Proof.
  intros [Hv1 Hb1] [Hv2 Hb2]. split.
  - intros path I. cbn [map] in I. apply not_elem_of_cons in I as [I1 I2].
    rewrite (Hv2 _ I2). apply Hv1. cbn. now apply not_elem_of_cons.
  - intros key I J V. cbn [map] in I. apply not_elem_of_cons in I as [I1 I2].
    rewrite staging_keys_cons in J.
    rewrite Hb2; [apply Hb1| | |]; try assumption.
    + cbn. now apply not_elem_of_cons.
    + rewrite staging_keys_cons. cbn.
      destruct (ChangeRequestFile.staging_s3_key f);
        [apply not_elem_of_cons in J as [J1 J2];
         apply not_elem_of_cons; split; [assumption|apply not_elem_of_nil]
        |apply not_elem_of_nil].
    + destruct (ChangeRequestFile.staging_s3_key f);
        [now apply not_elem_of_cons in J as [J1 J2]|assumption].
Qed.

Lemma versions_of_append path fv w w' :
  file_versions (db w') = file_versions (db w) ++ [fv] ->
  versions_of path w'
  = versions_of path w
    ++ (if decide (FileVersion.file_path fv = path) then [fv] else []).
Proof.
  intros E. unfold versions_of. rewrite E, filter_app. f_equal.
Qed.

Lemma committed_frame cr f k content w :
  ChangeRequestFile.staging_s3_key f = Some k ->
  merge_frame [f] w (committed cr (ChangeRequestFile.file_path f) k content w).
Proof.
  intros Hk. split.
  - intros path I. cbn in I. apply not_elem_of_cons in I as [I _].
    rewrite (versions_of_append path (content_row cr (ChangeRequestFile.file_path f) content w) w)
      by reflexivity.
    rewrite decide_False by (cbn; congruence). apply app_nil_r.
  - intros key I J V. cbn in I. apply not_elem_of_cons in I as [I _].
    rewrite staging_keys_cons, Hk in J. apply not_elem_of_cons in J as [J _].
    cbn [bucket committed].
    rewrite lookup_delete_ne by congruence.
    rewrite lookup_insert_ne by congruence.
    rewrite lookup_insert_ne; [reflexivity|].
    intros <-. unfold next_version_key in V.
    now rewrite (proj1 (version_key_facts _)) in V.
Qed.

Lemma tombstoned_frame cr f w :
  merge_frame [f] w (tombstoned cr (ChangeRequestFile.file_path f) w).
Proof.
  split.
  - intros path I. cbn in I. apply not_elem_of_cons in I as [I _].
    rewrite (versions_of_append path (tombstone_row cr (ChangeRequestFile.file_path f) w) w)
      by reflexivity.
    rewrite decide_False by (cbn; congruence). apply app_nil_r.
  - intros key I J V. cbn in I. apply not_elem_of_cons in I as [I _].
    cbn [bucket tombstoned]. now rewrite lookup_delete_ne by congruence.
Qed.

(** One step of the loop, on an entry that is ready. *)
Lemma merge_file_ready cr f rest w :
  ready (bucket w) (f :: rest) ->
  exists w1,
    merge_file cr f w = (Ok tt, w1)
    /\ merge_frame [f] w w1 /\ ready (bucket w1) rest.
Proof.
  intros H. pose proof H as (Hu & Hp & Hkey & Hrest)%ready_cons_inv.
  assert (Hnext : forall w1, merge_frame [f] w w1 -> ready (bucket w1) rest).
  { intros w1 [_ Hb]. apply (ready_frame (bucket w)); [|exact Hrest].
    intros k I. destruct Hrest as (_ & _ & _ & Hblobs).
    rewrite Forall_forall in Hblobs. destruct (Hblobs k I) as [Hs _].
    apply staging_key_facts in Hs as (_ & Hs1 & Hs2).
    apply Hb; [| |exact Hs2].
    - cbn. apply not_elem_of_cons. split; [|apply not_elem_of_nil].
      intros ->. congruence.
    - rewrite staging_keys_cons. cbn.
      destruct (ChangeRequestFile.staging_s3_key f) as [k'|] eqn:E;
        [|apply not_elem_of_nil].
      apply not_elem_of_cons. split; [|apply not_elem_of_nil].
      intros ->. now destruct (Hkey k' eq_refl) as (_ & _ & J). }
  destruct (ChangeRequestFile.action f) eqn:Ha.
  3: { eexists. split; [now apply merge_file_tombstone|].
       split; [apply tombstoned_frame|apply Hnext, tombstoned_frame]. }
  all: destruct (ChangeRequestFile.staging_s3_key f) as [k|] eqn:Hk.
  1,3: destruct (Hkey k eq_refl) as (Hs & [o Ho] & _);
       apply staging_key_facts in Hs as (Hne & _ & _);
       eexists; split;
       [eapply merge_file_commit; try eassumption; rewrite Ha; decide_now|];
       split; [now apply committed_frame|now apply Hnext, committed_frame].
  all: exists w; split;
       [apply merge_file_skip; [rewrite Ha; decide_now|now rewrite Hk]|];
       split; [|apply Hnext]; split; reflexivity.
Qed.

Lemma merge_loop_ready cr files :
  forall w, ready (bucket w) files ->
  exists w', for_each files (merge_file cr) w = (Ok tt, w')
             /\ merge_frame files w w'.
Proof.
  induction files as [|f rest IH]; intros w H.
  - exists w. split; [reflexivity|apply merge_frame_nil].
  - destruct (merge_file_ready cr f rest w H) as (w1 & E1 & F1 & R1).
    destruct (IH w1 R1) as (w' & E' & F').
    exists w'. split.
    + cbn [for_each]. now rewrite (bind_ok _ _ _ _ _ E1).
    + eapply merge_frame_cons; eassumption.
Qed.

Lemma for_each_app {A} (l1 l2 : list A) (body : A -> M unit) w :
  for_each (l1 ++ l2) body w
  = bind (for_each l1 body) (fun _ => for_each l2 body) w.
Proof.
  revert w. induction l1 as [|x l1 IH]; intros w; cbn [for_each app].
  - reflexivity.
  - rewrite bind_assoc.
    destruct (body x w) as [[[]|e] w1] eqn:E.
    + rewrite !(bind_ok _ _ _ _ _ E). apply IH.
    + now rewrite !(bind_raise _ _ _ _ _ E).
Qed.

Lemma ready_app_inv b pre rest :
  ready b (pre ++ rest) ->
  ready b pre /\ ready b rest
  /\ (forall p, p ∈ map ChangeRequestFile.file_path rest ->
        p ∉ map ChangeRequestFile.file_path pre)
  /\ (forall k, k ∈ staging_keys rest -> k ∉ staging_keys pre).
Proof.
  intros (Hp & Hu & Hk & Hb).
  rewrite map_app in Hp. rewrite staging_keys_app in Hk, Hb.
  apply NoDup_app in Hp as (Hp1 & Hp2 & Hp3).
  apply NoDup_app in Hk as (Hk1 & Hk2 & Hk3).
  apply Forall_app in Hu as [Hu1 Hu2]. apply Forall_app in Hb as [Hb1 Hb2].
  repeat split; try assumption.
  - intros p I J. exact (Hp2 p J I).
  - intros k I J. exact (Hk2 k J I).
Qed.

Lemma unreserved_is_no_version_key p :
  startswith p "_" = false -> startswith p "_versions/" = false.
Proof.
  intros H. destruct (startswith p "_versions/") eqn:E; [|reflexivity].
  apply prefix_split in E as [r ->]. discriminate.
Qed.

(** The loop on a ready list, seen from one of its entries: the entries
    before it leave its path and its staged blob alone, those after it
    leave its path alone. *)
Lemma merge_loop_target cr pre f0 post w :
  ready (bucket w) (pre ++ f0 :: post) ->
  exists wa wb wc,
    for_each (pre ++ f0 :: post) (merge_file cr) w = (Ok tt, wc)
    /\ merge_file cr f0 wa = (Ok tt, wb)
    /\ versions_of (ChangeRequestFile.file_path f0) wa
       = versions_of (ChangeRequestFile.file_path f0) w
    /\ (forall k, ChangeRequestFile.staging_s3_key f0 = Some k ->
          bucket wa !! k = bucket w !! k)
    /\ versions_of (ChangeRequestFile.file_path f0) wc
       = versions_of (ChangeRequestFile.file_path f0) wb
    /\ bucket wc !! ChangeRequestFile.file_path f0
       = bucket wb !! ChangeRequestFile.file_path f0.
Proof.
  intros H. pose proof H as (Rpre & Rrest & Dp & Dk)%ready_app_inv.
  destruct (merge_loop_ready cr pre w Rpre) as (wa & Ea & [Fva Fba]).
  assert (Hkeys : forall k, k ∈ staging_keys (f0 :: post) ->
                            bucket wa !! k = bucket w !! k).
  { intros k I. destruct Rrest as (_ & _ & _ & Hblobs).
    rewrite Forall_forall in Hblobs. destruct (Hblobs k I) as [Hs _].
    apply staging_key_facts in Hs as (_ & Hs1 & Hs2).
    apply Fba; [|now apply Dk|exact Hs2].
    intros J. destruct Rpre as (_ & Hu & _). rewrite Forall_forall in Hu.
    apply list_elem_of_fmap in J as (f & -> & J). apply Hu in J. congruence. }
  assert (Ra : ready (bucket wa) (f0 :: post)) by (now apply (ready_frame (bucket w))).
  destruct (merge_file_ready cr f0 post wa Ra) as (wb & Eb & _ & Rb).
  destruct (merge_loop_ready cr post wb Rb) as (wc & Ec & [Fvc Fbc]).
  pose proof Ra as (Hu0 & Hp0 & _ & _)%ready_cons_inv.
  exists wa, wb, wc. repeat split.
  - rewrite for_each_app, (bind_ok _ _ _ _ _ Ea). cbn [for_each].
    now rewrite (bind_ok _ _ _ _ _ Eb).
  - exact Eb.
  - apply Fva. apply Dp. cbn. apply list_elem_of_here.
  - intros k Hk. apply Hkeys. rewrite staging_keys_cons, Hk.
    apply list_elem_of_here.
  - now apply Fvc.
  - apply Fbc; [exact Hp0| |now apply unreserved_is_no_version_key].
    intros J. destruct Rb as (_ & _ & _ & Hblobs).
    rewrite Forall_forall in Hblobs. destruct (Hblobs _ J) as [Hs _].
    apply staging_key_facts in Hs as (_ & Hs1 & _). congruence.
Qed.

Lemma first_by_desc_last {A} (key : A -> Z) (l : list A) (x : A) :
  Forall (fun r => key r < key x) l -> first_by_desc key (l ++ [x]) = Some x.
Proof.
  induction 1 as [|r l Hr Hl IH]; [reflexivity|].
  cbn [app first_by_desc]. rewrite IH.
  destruct (Z.ltb_spec (key r) (key x)); [reflexivity|lia].
Qed.

Lemma next_version_above path w :
  Forall (fun r => FileVersion.version r < next_version path w)
    (versions_of path w).
Proof.
  unfold next_version. rewrite or_0_next.
  pose proof (sql_max_spec (map FileVersion.version (versions_of path w))) as H.
  rewrite Forall_forall. intros r Hr.
  destruct (sql_max _) as [m|].
  - destruct H as [_ Hle]. rewrite Forall_forall in Hle.
    assert (FileVersion.version r <= m); [|lia].
    apply Hle, list_elem_of_fmap. eauto.
  - apply fmap_nil_inv in H. rewrite H in Hr. inversion Hr.
Qed.

Lemma latest_version_appended path w w' fv :
  versions_of path w' = versions_of path w ++ [fv] ->
  FileVersion.version fv = next_version path w ->
  latest_version path w' = Some fv.
Proof.
  intros E Hv. unfold latest_version. rewrite E.
  apply first_by_desc_last. rewrite Hv. apply next_version_above.
Qed.

Lemma next_version_frame path w w' :
  versions_of path w' = versions_of path w ->
  next_version path w' = next_version path w.
Proof. intros E. unfold next_version. now rewrite E. Qed.

(** A merge of a ready change request, seen from one create or edit. *)
Lemma merge_loop_commits cr files f0 k0 o w :
  ready (bucket w) files -> f0 ∈ files ->
  ChangeRequestFile.action f0 ∈ [FileAction.create; FileAction.edit] ->
  ChangeRequestFile.staging_s3_key f0 = Some k0 ->
  bucket w !! k0 = Some o ->
  exists wc id key at_,
    for_each files (merge_file cr) w = (Ok tt, wc)
    /\ versions_of (ChangeRequestFile.file_path f0) wc
       = versions_of (ChangeRequestFile.file_path f0) w
         ++ [FileVersion.mk id (ChangeRequestFile.file_path f0)
               (next_version (ChangeRequestFile.file_path f0) w) key
               (len (body o)) (sha256_hexdigest (body o))
               (ChangeRequest.author_id cr)
               ("CR #" +:+ pretty (ChangeRequest.id cr) +:+ ": "
                  +:+ ChangeRequest.title cr)
               false at_]
    /\ bucket wc !! ChangeRequestFile.file_path f0
       = Some (mkS3Object (body o)
                 (S3Service.guess_content_type (ChangeRequestFile.file_path f0))).
Proof.
  intros R I Ha Hk Ho. apply list_elem_of_split in I as (pre & post & ->).
  destruct (merge_loop_target cr pre f0 post w R)
    as (wa & wb & wc & E & Eb & Va & Ka & Vc & Bc).
  pose proof R as (_ & Rrest & _)%ready_app_inv.
  pose proof Rrest as (Hu0 & _ & Hkey & _)%ready_cons_inv.
  destruct (Hkey k0 Hk) as (Hs & _ & _).
  apply staging_key_facts in Hs as (Hne & Hs1 & _).
  rewrite (merge_file_commit cr f0 k0 o wa Ha Hk Hne) in Eb
    by (rewrite (Ka k0 Hk); exact Ho).
  injection Eb as <-.
  exists wc, (file_versions_seq (db wa)), (next_version_key wa), (utcnow wa).
  split; [exact E|split].
  - rewrite Vc.
    rewrite (versions_of_append _ (content_row cr (ChangeRequestFile.file_path f0) (body o) wa) wa)
      by reflexivity.
    rewrite decide_True by reflexivity. rewrite Va. f_equal.
    unfold content_row. now rewrite (next_version_frame _ w wa Va).
  - rewrite Bc. cbn [bucket committed].
    rewrite lookup_delete_ne by congruence. apply lookup_insert_eq.
Qed.

(** A merge of a ready change request, seen from one delete. *)
Lemma merge_loop_tombstones cr files f0 w :
  ready (bucket w) files -> f0 ∈ files ->
  ChangeRequestFile.action f0 = FileAction.delete ->
  exists wc id at_,
    for_each files (merge_file cr) w = (Ok tt, wc)
    /\ versions_of (ChangeRequestFile.file_path f0) wc
       = versions_of (ChangeRequestFile.file_path f0) w
         ++ [FileVersion.mk id (ChangeRequestFile.file_path f0)
               (next_version (ChangeRequestFile.file_path f0) w) "" 0
               "deleted" (ChangeRequest.author_id cr)
               ("CR #" +:+ pretty (ChangeRequest.id cr) +:+ ": Delete "
                  +:+ ChangeRequestFile.file_path f0)
               true at_]
    /\ bucket wc !! ChangeRequestFile.file_path f0 = None.
Proof.
  intros R I Ha. apply list_elem_of_split in I as (pre & post & ->).
  destruct (merge_loop_target cr pre f0 post w R)
    as (wa & wb & wc & E & Eb & Va & Ka & Vc & Bc).
  rewrite (merge_file_tombstone cr f0 wa Ha) in Eb. injection Eb as <-.
  exists wc, (file_versions_seq (db wa)), (utcnow wa).
  split; [exact E|split].
  - rewrite Vc.
    rewrite (versions_of_append _ (tombstone_row cr (ChangeRequestFile.file_path f0) wa) wa)
      by reflexivity.
    rewrite decide_True by reflexivity. rewrite Va. f_equal.
    unfold tombstone_row. now rewrite (next_version_frame _ w wa Va).
  - rewrite Bc. cbn [bucket tombstoned]. apply lookup_delete_eq.
Qed.

(** The handler around the loop: the gates before it, the status and the
    audit record after it. *)
Lemma merge_change_request_after_loop cr_id request user w cr wc :
  User.role user ∈ WRITE_ROLES ->
  select_change_request cr_id w = (Ok (Some cr), w) ->
  ChangeRequest.status cr = CRStatus.approved ->
  for_each (cr_files cr_id w) (merge_file cr) w = (Ok tt, wc) ->
  exists w',
    merge_change_request cr_id request user w = (Ok CRStatus.merged, w')
    /\ file_versions (db w') = file_versions (db wc)
    /\ bucket w' = bucket wc.
Proof.
  intros Hrole Hcr Hst Hloop. unfold merge_change_request.
  rewrite (bind_ok _ _ _ _ _ (require_role_ok _ _ _ Hrole)).
  rewrite (bind_ok _ _ _ _ _ Hcr). cbn [bind get_world].
  rewrite bool_decide_eq_false_2 by (rewrite Hst; pure_tauto).
  cbv zeta. rewrite (bind_ok _ _ _ _ _ Hloop). cbn [bind get_world].
  unfold flush_change_request. rewrite decide_False.
  2: { intros E. apply (f_equal ChangeRequest.status) in E. cbn in E.
       congruence. }
  eexists. split; [reflexivity|]. split; reflexivity.
Qed.

Lemma get_file_content_latest path user w fv o :
  latest_version path w = Some fv -> FileVersion.is_delete fv = false ->
  bucket w !! path = Some o ->
  get_file_content path None user w
  = (Ok (mkFileDetail path
           (if negb (S3Service.is_text_file path) then None
            else Some (decode_utf8_replace (body o)))
           (len (body o)) (FileVersion.version fv)
           (FileVersion.content_hash fv)
           (User.username <$> author_of fv w)
           (Some (FileVersion.author_id fv)) (FileVersion.message fv)
           (negb (S3Service.is_text_file path))
           (Some (FileVersion.created_at fv))), w).
Proof.
  intros Hl Hd Ho. unfold get_file_content, _get_latest_version.
  cbn [nonzero]. rewrite bind_assoc.
  rewrite (bind_ok _ _ _ _ _ (select_latest_version_eq _ _)).
  rewrite Hl, Hd. rewrite bind_assoc.
  unfold try_or_raise at 1.
  unfold bind at 1. rewrite (get_object_ok _ _ _ Ho). reflexivity.
Qed.

Lemma get_file_content_deleted path user w fv :
  latest_version path w = Some fv -> FileVersion.is_delete fv = true ->
  get_file_content path None user w
  = (Raise (HTTPException 410 "File has been deleted"), w).
Proof.
  intros Hl Hd. unfold get_file_content, _get_latest_version.
  cbn [nonzero]. rewrite bind_assoc.
  rewrite (bind_ok _ _ _ _ _ (select_latest_version_eq _ _)).
  rewrite Hl, Hd. reflexivity.
Qed.

(** ** Merge and the base version *)

(** The world with the base versions of the staged entries rewritten by [g]. *)
Definition rebased (g : ChangeRequestFile.t -> option Z) (w : World) : World :=
  with_db (with_change_request_files
             (map (fun f => set_base_version_id (g f) f))) w.

Lemma files_of_rebased g cr_id w :
  files_of cr_id (rebased g w)
  = map (fun f => set_base_version_id (g f) f) (files_of cr_id w).
Proof.
  unfold files_of, rebased. cbn.
  induction (change_request_files (db w)) as [|x l IH]; [reflexivity|].
  cbn [map].
  destruct (decide (ChangeRequestFile.change_request_id x = cr_id)) as [E|E].
  - rewrite !filter_cons_True by assumption. cbn [map]. now rewrite IH.
  - rewrite !filter_cons_False by assumption. exact IH.
Qed.

Lemma cr_files_rebased g cr_id w :
  cr_files cr_id (rebased g w)
  = map (fun f => set_base_version_id (g f) f) (cr_files cr_id w).
Proof. unfold cr_files. now rewrite files_of_rebased, arranged_base. Qed.

Lemma merge_file_rebased g cr f b w :
  merge_file cr (set_base_version_id b f) (rebased g w)
  = (fst (merge_file cr f w), rebased g (snd (merge_file cr f w))).
Proof.
  unfold merge_file. cbn [set_base_version_id ChangeRequestFile.file_path
    ChangeRequestFile.action ChangeRequestFile.staging_s3_key].
  destruct (bool_decide (ChangeRequestFile.action f
                           ∈ [FileAction.create; FileAction.edit])).
  - destruct (truthy (ChangeRequestFile.staging_s3_key f)); [|reflexivity].
    cbn [negb].
    destruct (bucket w !! default "" (ChangeRequestFile.staging_s3_key f))
      as [o|] eqn:Ho.
    + rewrite (bind_ok _ _ _ _ _ (get_object_ok _ o w Ho)).
      rewrite (bind_ok _ _ _ _ _ (get_object_ok _ o (rebased g w) Ho)).
      reflexivity.
    + rewrite (bind_raise _ _ _ _ _ (get_object_missing _ w Ho)).
      rewrite (bind_raise _ _ _ _ _ (get_object_missing _ (rebased g w) Ho)).
      reflexivity.
  - destruct (decide (ChangeRequestFile.action f = FileAction.delete));
      reflexivity.
Qed.

Lemma merge_loop_rebased g cr files :
  forall w,
    for_each (map (fun f => set_base_version_id (g f) f) files) (merge_file cr)
      (rebased g w)
    = (fst (for_each files (merge_file cr) w),
       rebased g (snd (for_each files (merge_file cr) w))).
Proof.
  induction files as [|f files IH]; intros w; [reflexivity|].
  cbn [map for_each]. unfold bind. rewrite merge_file_rebased.
  destruct (merge_file cr f w) as [[[]|e] w1]; cbn [fst snd]; [|reflexivity].
  apply IH.
Qed.

Lemma select_change_request_rebased g cr_id w :
  select_change_request cr_id (rebased g w)
  = (fst (select_change_request cr_id w), rebased g w).
Proof.
  unfold select_change_request, bind, get_world.
  change (change_requests (db (rebased g w))) with (change_requests (db w)).
  destruct (filter _ _) as [|? [|? ?]]; reflexivity.
Qed.


(** Merge commutes with any rewriting of the base versions: its response
    and every effect are the same whatever the entries record as base. *)
Lemma merge_change_request_rebased g cr_id request user w :
  merge_change_request cr_id request user (rebased g w)
  = (fst (merge_change_request cr_id request user w),
     rebased g (snd (merge_change_request cr_id request user w))).
Proof.
  unfold merge_change_request.
  destruct (decide (User.role user
                      ∈ [UserRole.admin; UserRole.approver; UserRole.editor]))
    as [Hrole|Hrole].
  2: { now rewrite !(bind_raise _ _ _ _ _ (require_role_denied _ _ _ Hrole)). }
  rewrite !(bind_ok _ _ _ _ _ (require_role_ok _ _ _ Hrole)).
  pose proof (select_change_request_rebased g cr_id w) as Hsel'.
  pose proof (select_change_request_world cr_id w) as Hw.
  destruct (select_change_request cr_id w) as [[found|e] w1] eqn:Hsel;
    cbn [fst snd] in *; subst w1.
  2: { rewrite (bind_raise _ _ _ _ _ Hsel'), !(bind_raise _ _ _ _ _ Hsel).
       reflexivity. }
  rewrite (bind_ok _ _ _ _ _ Hsel'), !(bind_ok _ _ _ _ _ Hsel).
  cbn [bind get_world]. destruct found as [cr|]; [|reflexivity].
  destruct (bool_decide _); [reflexivity|].
  rewrite cr_files_rebased.
  pose proof (merge_loop_rebased g cr (cr_files cr_id w) w) as Hloop'.
  destruct (for_each (cr_files cr_id w) (merge_file cr) w) as [[[]|e] wc]
    eqn:Hloop; cbn [fst snd] in Hloop'.
  2: { rewrite (bind_raise _ _ _ _ _ Hloop'), !(bind_raise _ _ _ _ _ Hloop).
       reflexivity. }
  rewrite (bind_ok _ _ _ _ _ Hloop'), !(bind_ok _ _ _ _ _ Hloop).
  cbn [bind get_world]. unfold flush_change_request.
  change (utcnow (rebased g wc)) with (utcnow wc).
  unfold len. rewrite length_map.
  destruct (decide _); reflexivity.
Qed.

(** The merge of an approved, ready change request, seen from one create
    or edit: it answers [merged], the staged content is the canonical blob of
    the path and the new latest version records it. *)
Lemma merge_change_request_commits w cr_id cr request user f0 k0 o :
  User.role user ∈ WRITE_ROLES ->
  select_change_request cr_id w = (Ok (Some cr), w) ->
  ChangeRequest.status cr = CRStatus.approved ->
  staged_ok (bucket w) (files_of cr_id w) = true ->
  f0 ∈ files_of cr_id w ->
  ChangeRequestFile.action f0 ∈ [FileAction.create; FileAction.edit] ->
  ChangeRequestFile.staging_s3_key f0 = Some k0 ->
  bucket w !! k0 = Some o ->
  exists w' fv,
    merge_change_request cr_id request user w = (Ok CRStatus.merged, w')
    /\ versions_of (ChangeRequestFile.file_path f0) w'
       = versions_of (ChangeRequestFile.file_path f0) w ++ [fv]
    /\ latest_version (ChangeRequestFile.file_path f0) w' = Some fv
    /\ FileVersion.version fv
       = next_version (ChangeRequestFile.file_path f0) w
    /\ FileVersion.content_hash fv = sha256_hexdigest (body o)
    /\ FileVersion.size fv = len (body o)
    /\ FileVersion.is_delete fv = false
    /\ bucket w' !! ChangeRequestFile.file_path f0
       = Some (mkS3Object (body o)
                 (S3Service.guess_content_type (ChangeRequestFile.file_path f0))).
Proof.
  intros Hrole Hcr Hst Hready%staged_ok_spec%ready_cr_files
    Hin%elem_of_cr_files Ha Hk Ho.
  destruct (merge_loop_commits cr _ f0 k0 o w Hready Hin Ha Hk Ho)
    as (wc & id & key & at_ & Hloop & Hv & Hb).
  destruct (merge_change_request_after_loop cr_id request user w cr wc
              Hrole Hcr Hst Hloop) as (w' & E & Ev & Eb).
  assert (Hv' : versions_of (ChangeRequestFile.file_path f0) w'
                = versions_of (ChangeRequestFile.file_path f0) wc)
    by (unfold versions_of; now rewrite Ev).
  eexists w', _. split; [exact E|]. rewrite Hv', Eb.
  split; [exact Hv|]. split.
  - eapply latest_version_appended; [rewrite Hv'; exact Hv|reflexivity].
  - repeat split. exact Hb.
Qed.

(** The same, seen from one delete: the new latest version is a deletion
    record and the canonical blob is gone. *)
Lemma merge_change_request_tombstones w cr_id cr request user f0 :
  User.role user ∈ WRITE_ROLES ->
  select_change_request cr_id w = (Ok (Some cr), w) ->
  ChangeRequest.status cr = CRStatus.approved ->
  staged_ok (bucket w) (files_of cr_id w) = true ->
  f0 ∈ files_of cr_id w ->
  ChangeRequestFile.action f0 = FileAction.delete ->
  exists w' id at_,
    let fv :=
      FileVersion.mk id (ChangeRequestFile.file_path f0)
        (next_version (ChangeRequestFile.file_path f0) w) "" 0 "deleted"
        (ChangeRequest.author_id cr)
        ("CR #" +:+ pretty (ChangeRequest.id cr) +:+ ": Delete "
           +:+ ChangeRequestFile.file_path f0)
        true at_ in
    merge_change_request cr_id request user w = (Ok CRStatus.merged, w')
    /\ versions_of (ChangeRequestFile.file_path f0) w'
       = versions_of (ChangeRequestFile.file_path f0) w ++ [fv]
    /\ latest_version (ChangeRequestFile.file_path f0) w' = Some fv
    /\ bucket w' !! ChangeRequestFile.file_path f0 = None.
Proof.
  intros Hrole Hcr Hst Hready%staged_ok_spec%ready_cr_files
    Hin%elem_of_cr_files Ha.
  destruct (merge_loop_tombstones cr _ f0 w Hready Hin Ha)
    as (wc & id & at_ & Hloop & Hv & Hb).
  destruct (merge_change_request_after_loop cr_id request user w cr wc
              Hrole Hcr Hst Hloop) as (w' & E & Ev & Eb).
  assert (Hv' : versions_of (ChangeRequestFile.file_path f0) w'
                = versions_of (ChangeRequestFile.file_path f0) wc)
    by (unfold versions_of; now rewrite Ev).
  exists w', id, at_. cbv zeta. split; [exact E|]. rewrite Hv', Eb.
  split; [exact Hv|]. split; [|exact Hb].
  eapply latest_version_appended; [rewrite Hv'; exact Hv|reflexivity].
Qed.

(** C8. An approved change request holds an edit with its staged blob; the
    entries are ready to merge; nothing is assumed of the base version the
    edit records, which may be any version or none.  Then merge answers
    [merged], the staged content is the canonical blob and the new latest
    version of the path, with the next version number; and merge on the
    world where the base versions of the entries are rewritten in any way
    gives the same response and the same effects. *)
Theorem merge_ignores_base_version (w : World) (cr_id : Z)
    (cr : ChangeRequest.t) (request : Request) (user : User.t)
    (f0 : ChangeRequestFile.t) (k0 : string) (o : S3Object)
    (Hrole : User.role user ∈ WRITE_ROLES)
    (Hcr : select_change_request cr_id w = (Ok (Some cr), w))
    (Hst : ChangeRequest.status cr = CRStatus.approved)
    (Hready : staged_ok (bucket w) (files_of cr_id w) = true)
    (Hin : f0 ∈ files_of cr_id w)
    (Hedit : ChangeRequestFile.action f0 = FileAction.edit)
    (Hkey : ChangeRequestFile.staging_s3_key f0 = Some k0)
    (Hblob : bucket w !! k0 = Some o) :
  (exists w' fv,
      merge_change_request cr_id request user w = (Ok CRStatus.merged, w')
      /\ latest_version (ChangeRequestFile.file_path f0) w' = Some fv
      /\ FileVersion.version fv
         = next_version (ChangeRequestFile.file_path f0) w
      /\ FileVersion.content_hash fv = sha256_hexdigest (body o)
      /\ FileVersion.size fv = len (body o)
      /\ FileVersion.is_delete fv = false
      /\ bucket w' !! ChangeRequestFile.file_path f0
         = Some (mkS3Object (body o)
                   (S3Service.guess_content_type
                      (ChangeRequestFile.file_path f0))))
  /\ (forall g,
        merge_change_request cr_id request user (rebased g w)
        = (fst (merge_change_request cr_id request user w),
           rebased g (snd (merge_change_request cr_id request user w)))).
Proof.
  split; [|intros g; apply merge_change_request_rebased].
  destruct (merge_change_request_commits w cr_id cr request user f0 k0 o)
    as (w' & fv & E & _ & H); try assumption.
  - rewrite Hedit. decide_now.
  - exists w', fv. split; assumption.
Qed.

(** ** From staging to merge: submit and review *)

Lemma select_change_request_Some cr_id w cr :
  select_change_request cr_id w = (Ok (Some cr), w) <->
  filter (fun c => ChangeRequest.id c = cr_id) (change_requests (db w)) = [cr].
Proof.
  unfold select_change_request, bind, get_world.
  destruct (filter _ _) as [|x [|y l]]; cbn; split; intros H;
    inversion H; reflexivity.
Qed.

Lemma select_change_request_id cr_id w cr :
  select_change_request cr_id w = (Ok (Some cr), w) -> ChangeRequest.id cr = cr_id.
Proof.
  intros H%select_change_request_Some.
  assert (I : cr ∈ [cr]) by apply list_elem_of_here.
  rewrite <- H in I. now apply list_elem_of_filter in I as [I _].
Qed.

Lemma select_change_request_frame cr_id w w' r :
  change_requests (db w') = change_requests (db w) ->
  select_change_request cr_id w = (Ok r, w) ->
  select_change_request cr_id w' = (Ok r, w').
Proof.
  unfold select_change_request, bind, get_world. intros ->.
  destruct (filter _ _) as [|x [|y l]]; cbn; intros H; inversion H;
    reflexivity.
Qed.

(** The row the session writes for the loaded change request [cr]. *)
Definition stamped (cr : ChangeRequest.t) (w : World) : ChangeRequest.t :=
  ChangeRequest.mk (ChangeRequest.id cr) (ChangeRequest.title cr)
    (ChangeRequest.description cr) (ChangeRequest.status cr)
    (ChangeRequest.author_id cr) (ChangeRequest.reviewer_id cr)
    (ChangeRequest.review_comment cr) (ChangeRequest.reviewed_at cr)
    (ChangeRequest.merged_at cr) (ChangeRequest.created_at cr) (utcnow w).

Definition flushed (cr : ChangeRequest.t) (w : World) : World :=
  with_db (with_change_requests
    (map (fun c => if decide (ChangeRequest.id c = ChangeRequest.id cr)
                   then stamped cr w else c))) w.

Lemma flush_change_request_changed old cr w :
  cr ≠ old -> flush_change_request old cr w = (Ok tt, flushed cr w).
Proof.
  intros H. unfold flush_change_request. now rewrite decide_False.
Qed.

Lemma select_flushed cr_id w cr cr' :
  select_change_request cr_id w = (Ok (Some cr), w) ->
  ChangeRequest.id cr' = ChangeRequest.id cr ->
  select_change_request cr_id (flushed cr' w)
  = (Ok (Some (stamped cr' w)), flushed cr' w).
Proof.
  intros H Hid. apply select_change_request_Some in H.
  apply select_change_request_Some. cbn.
  assert (Hcr : ChangeRequest.id cr = cr_id).
  { assert (I : cr ∈ [cr]) by apply list_elem_of_here.
    rewrite <- H in I. now apply list_elem_of_filter in I as [I _]. }
  revert H. generalize (change_requests (db w)) as l.
  intros l. revert cr Hid Hcr. induction l as [|c l IH]; intros cr Hid Hcr H.
  - discriminate.
  - cbn [map].
    destruct (decide (ChangeRequest.id c = cr_id)) as [E|E].
    + rewrite filter_cons_True in H by assumption.
      rewrite decide_True by congruence.
      rewrite filter_cons_True by (cbn; congruence).
      f_equal. injection H as -> H.
      clear IH. induction l as [|d l IH]; [reflexivity|].
      cbn [map].
      destruct (decide (ChangeRequest.id d = cr_id)) as [F|F].
      * rewrite filter_cons_True in H by assumption. discriminate.
      * rewrite filter_cons_False in H by assumption.
        rewrite decide_False by congruence.
        rewrite filter_cons_False by assumption. now apply IH.
    + rewrite filter_cons_False in H by assumption.
      rewrite decide_False by congruence.
      rewrite filter_cons_False by assumption. now apply (IH cr).
Qed.

(** Submit by the author or an admin of a draft or rejected change request
    that holds an entry: the request is pending review, its entries, the
    bucket and the ledger are as they were. *)
Lemma submit_for_review_ok cr_id request user w cr :
  User.role user ∈ WRITE_ROLES ->
  select_change_request cr_id w = (Ok (Some cr), w) ->
  not_author_nor_admin cr user = false ->
  not_draft_nor_rejected cr = false ->
  files_of cr_id w ≠ [] ->
  exists w' cr',
    submit_for_review cr_id request user w = (Ok CRStatus.pending_review, w')
    /\ select_change_request cr_id w' = (Ok (Some cr'), w')
    /\ ChangeRequest.status cr' = CRStatus.pending_review
    /\ ChangeRequest.author_id cr' = ChangeRequest.author_id cr
    /\ change_request_files (db w') = change_request_files (db w)
    /\ file_versions (db w') = file_versions (db w)
    /\ bucket w' = bucket w.
Proof.
  intros Hrole Hcr Hown Hst Hfiles. unfold submit_for_review.
  rewrite (bind_ok _ _ _ _ _ (require_role_ok _ _ _ Hrole)).
  rewrite (bind_ok _ _ _ _ _ Hcr). cbn [bind get_world].
  rewrite Hown, Hst. apply cr_files_not_nil in Hfiles.
  destruct (cr_files cr_id w) as [|f files]; [contradiction|].
  assert (Hne : set_review None None None
                  (set_status CRStatus.pending_review cr) ≠ cr).
  { intros E. apply (f_equal ChangeRequest.status) in E. cbn in E.
    unfold not_draft_nor_rejected in Hst.
    apply bool_decide_eq_false in Hst. apply Hst. rewrite <- E.
    clear. intros H. apply list_elem_of_In in H. cbn in H.
    destruct H as [H|[H|[]]]; discriminate. }
  rewrite (bind_ok _ _ _ _ _ (flush_change_request_changed _ _ w Hne)).
  set (cr1 := set_review None None None
                (set_status CRStatus.pending_review cr)) in *.
  eexists _, (stamped cr1 w). split; [reflexivity|]. split.
  - apply (select_change_request_frame cr_id (flushed cr1 w));
      [reflexivity|].
    now apply (select_flushed cr_id w cr).
  - repeat split.
Qed.

(** Review with [approve] by a reviewer other than the author, or an admin,
    of a change request pending review. *)
Lemma review_change_request_ok cr_id request comment user w cr :
  User.role user ∈ [UserRole.admin; UserRole.approver] ->
  select_change_request cr_id w = (Ok (Some cr), w) ->
  ChangeRequest.status cr = CRStatus.pending_review ->
  ChangeRequest.author_id cr ≠ User.id user
  \/ User.role user = UserRole.admin ->
  exists w' cr',
    review_change_request cr_id (mkReviewRequest "approve" comment) request
      user w = (Ok CRStatus.approved, w')
    /\ select_change_request cr_id w' = (Ok (Some cr'), w')
    /\ ChangeRequest.status cr' = CRStatus.approved
    /\ change_request_files (db w') = change_request_files (db w)
    /\ file_versions (db w') = file_versions (db w)
    /\ bucket w' = bucket w.
Proof.
  intros Hrole Hcr Hst Hother. unfold review_change_request.
  rewrite (bind_ok _ _ _ _ _ (require_role_ok _ _ _ Hrole)).
  rewrite (bind_ok _ _ _ _ _ Hcr).
  rewrite bool_decide_eq_false_2 by (rewrite Hst; intros H; now apply H).
  replace (bool_decide (ChangeRequest.author_id cr = User.id user)
           && bool_decide (User.role user ≠ UserRole.admin)) with false.
  2: { symmetry. apply andb_false_iff. destruct Hother as [H|H].
       - left. now apply bool_decide_eq_false.
       - right. apply bool_decide_eq_false. intros N. now apply N. }
  cbn [review_action]. change (decide ("approve" = "approve")) with
    (left (eq_refl "approve") : Decision ("approve" = "approve")).
  cbn [bind ret get_world].
  assert (Hne : set_review (Some (User.id user)) (Some comment)
                  (Some (utcnow w)) (set_status CRStatus.approved cr) ≠ cr).
  { intros E. apply (f_equal ChangeRequest.status) in E. cbn in E.
    congruence. }
  rewrite (bind_ok _ _ _ _ _ (flush_change_request_changed _ _ w Hne)).
  set (cr1 := set_review (Some (User.id user)) (Some comment)
                (Some (utcnow w)) (set_status CRStatus.approved cr)) in *.
  eexists _, (stamped cr1 w). split; [reflexivity|]. split.
  - apply (select_change_request_frame cr_id (flushed cr1 w));
      [reflexivity|].
    now apply (select_flushed cr_id w cr).
  - repeat split.
Qed.

(** ** Staging a create *)

Lemma NoDup_omap_filter {A B} (g : A -> option B) (P : A -> Prop)
    `{forall x, Decision (P x)} (l : list A) :
  NoDup (omap g l) -> NoDup (omap g (filter P l)).
Proof.
  induction l as [|a l IH]; intros Hd; [constructor|].
  simpl in Hd.
  assert (Hl : NoDup (omap g l)).
  { destruct (g a); [now apply NoDup_cons in Hd|exact Hd]. }
  destruct (decide (P a)) as [Pa|Pa].
  - rewrite filter_cons_True by assumption. simpl.
    destruct (g a) as [b|]; [|now apply IH].
    apply NoDup_cons in Hd as [Hb _]. apply NoDup_cons. split; [|now apply IH].
    intros I. apply Hb. apply list_elem_of_omap in I as (x & Ix & Ex).
    apply list_elem_of_omap. exists x. split; [|exact Ex].
    now apply list_elem_of_filter in Ix.
  - rewrite filter_cons_False by assumption. now apply IH.
Qed.

Lemma NoDup_map_filter {A B} (g : A -> B) (P : A -> Prop)
    `{forall x, Decision (P x)} (l : list A) :
  NoDup (map g l) -> NoDup (map g (filter P l)).
Proof.
  induction l as [|a l IH]; intros Hd; [constructor|].
  cbn [map] in Hd. apply NoDup_cons in Hd as [Ha Hl].
  destruct (decide (P a)) as [Pa|Pa].
  - rewrite filter_cons_True by assumption. cbn [map].
    apply NoDup_cons. split; [|now apply IH].
    intros I. apply Ha. apply list_elem_of_fmap in I as (x & Ex & Ix).
    apply list_elem_of_fmap. exists x. split; [exact Ex|].
    now apply list_elem_of_filter in Ix.
  - rewrite filter_cons_False by assumption. now apply IH.
Qed.

Lemma NoDup_omap_inj {A B} (g : A -> option B) (l : list A) x y k :
  NoDup (omap g l) -> x ∈ l -> y ∈ l -> g x = Some k -> g y = Some k -> x = y.
Proof.
  induction l as [|a l IH]; intros Hd Ix Iy Ex Ey; [inversion Ix|].
  simpl in Hd.
  assert (Hin : forall z, z ∈ l -> g z = Some k -> k ∈ omap g l).
  { intros z Iz Ez. apply list_elem_of_omap. eauto. }
  apply elem_of_cons in Ix as [->|Ix];
    apply elem_of_cons in Iy as [->|Iy]; [reflexivity| | |].
  - rewrite Ex in Hd. apply NoDup_cons in Hd as [Hk _].
    destruct Hk. eauto.
  - rewrite Ey in Hd. apply NoDup_cons in Hd as [Hk _].
    destruct Hk. eauto.
  - apply IH; try assumption.
    destruct (g a); [now apply NoDup_cons in Hd|exact Hd].
Qed.

Lemma lookup_discarded (l : list ChangeRequestFile.t)
    (b : gmap string S3Object) (key : string) :
  (forall e, e ∈ l -> ChangeRequestFile.staging_s3_key e ≠ Some key) ->
  foldl (fun b e => if truthy (ChangeRequestFile.staging_s3_key e)
                    then base.delete
                           (default "" (ChangeRequestFile.staging_s3_key e)) b
                    else b) b l !! key
  = b !! key.
Proof.
  revert b. induction l as [|e l IH]; intros b H; [reflexivity|].
  cbn [foldl]. rewrite IH by (intros x Ix; apply H; now apply list_elem_of_further).
  pose proof (H e (list_elem_of_here _ _)) as He.
  destruct (ChangeRequestFile.staging_s3_key e) as [k|]; [|reflexivity].
  destruct (truthy (Some k)); [|reflexivity].
  apply lookup_delete_ne. cbn. congruence.
Qed.

Lemma next_staging_key_prefix w :
  startswith (next_staging_key w) "_staging/" = true.
Proof.
  unfold next_staging_key, startswith. cbn. destruct (uuid4_hex w _); reflexivity.
Qed.

(** The entry [add_file_to_cr] stages for a create of [path]. *)
Definition create_entry (cr_id : Z) (path : string) (w : World)
    : ChangeRequestFile.t :=
  ChangeRequestFile.mk (change_request_files_seq (db w)) cr_id path
    FileAction.create (Some (next_staging_key w)) None (utcnow w).

(** The entries [add_file_to_cr] keeps: those that do not share their
    identifier with an entry of the path. *)
Definition kept (path : string) (files : list ChangeRequestFile.t)
    : list ChangeRequestFile.t :=
  filter (fun f => ChangeRequestFile.id f
                   ∉ map ChangeRequestFile.id
                       (filter (fun e => ChangeRequestFile.file_path e = path)
                          files))
    files.

Lemma files_of_replaced cr_id path w :
  files_of cr_id
    (replaced (filter (fun e => ChangeRequestFile.file_path e = path)
                 (files_of cr_id w)) w)
  = kept path (files_of cr_id w).
Proof.
  unfold kept, files_of. cbn. rewrite !list_filter_filter.
  apply list_filter_iff. intros f. clear. pure_tauto.
Qed.

(** A change request that holds no entry of a path: the replace loop finds
    nothing, and the unique index is free for the path. *)
Lemma no_entry_of_path cr_id path w :
  path ∉ map ChangeRequestFile.file_path (files_of cr_id w) ->
  filter (fun f => ChangeRequestFile.file_path f = path) (files_of cr_id w)
  = []
  /\ filter (fun f => ChangeRequestFile.file_path f = path) (cr_files cr_id w)
     = []
  /\ Forall (fun f => ~ (ChangeRequestFile.change_request_id f = cr_id
                         ∧ ChangeRequestFile.file_path f = path))
       (change_request_files (db w)).
Proof.
  intros Hnew.
  assert (Hno : forall f, f ∈ files_of cr_id w ->
                  ChangeRequestFile.file_path f ≠ path).
  { intros f If E. apply Hnew. apply list_elem_of_fmap. eauto. }
  split; [|split].
  - apply filter_none. rewrite Forall_forall. exact Hno.
  - apply filter_none. rewrite Forall_forall. intros f If.
    apply Hno. now apply elem_of_cr_files.
  - rewrite Forall_forall. intros f If [Hc Hp]. apply (Hno f); [|exact Hp].
    apply list_elem_of_filter. auto.
Qed.

Lemma kept_all path (files : list ChangeRequestFile.t) :
  filter (fun f => ChangeRequestFile.file_path f = path) files = [] ->
  kept path files = files.
Proof.
  intros E. unfold kept. rewrite E. cbn [map]. clear E.
  induction files as [|f files IH]; [reflexivity|].
  rewrite filter_cons_True by apply not_elem_of_nil. now rewrite IH.
Qed.

Lemma add_file_to_cr_create cr_id user w cr path content content_bytes :
  User.role user ∈ WRITE_ROLES ->
  select_change_request cr_id w = (Ok (Some cr), w) ->
  not_author_nor_admin cr user = false ->
  not_draft_nor_rejected cr = false ->
  strip_slash path = path -> path ≠ "" ->
  encode_utf8 content = Some content_bytes ->
  path ∉ map ChangeRequestFile.file_path (files_of cr_id w) ->
  exists w',
    add_file_to_cr cr_id (mkAddFileRequest path "create" (Some content)) user w
    = (Ok (change_request_files_seq (db w), path, "create"), w')
    /\ files_of cr_id w'
       = kept path (files_of cr_id w) ++ [create_entry cr_id path w]
    /\ bucket w'
       = <[next_staging_key w
           := mkS3Object content_bytes (S3Service.guess_content_type path)]>
           (bucket (replaced
                      (filter (fun e => ChangeRequestFile.file_path e = path)
                         (files_of cr_id w)) w))
    /\ change_requests (db w') = change_requests (db w)
    /\ file_versions (db w') = file_versions (db w).
Proof.
  intros Hrole Hcr Hown Hst Hstrip Hpath Henc Hnew.
  destruct (no_entry_of_path cr_id path w Hnew) as (E1 & E2 & Hfree).
  unfold add_file_to_cr.
  rewrite (bind_ok _ _ _ _ _ (require_role_ok _ _ _ Hrole)).
  rewrite (bind_ok _ _ _ _ _ Hcr).
  cbn [bind get_world]. rewrite Hown, Hst.
  cbn [add_file_path add_action add_content]. rewrite Hstrip.
  destruct (decide (path = "")) as [E|_]; [contradiction|].
  change (FileAction.of_string "create") with (Some FileAction.create).
  cbv beta iota zeta. rewrite E2.
  rewrite (bind_ok _ _ _ _ _ (replace_loop _ _)), replaced_nil.
  change (bool_decide (FileAction.create ∈ [FileAction.create; FileAction.edit]))
    with true.
  change (bool_decide (FileAction.create ∈ [FileAction.edit; FileAction.delete]))
    with false.
  cbv iota. rewrite Henc.
  rewrite (bind_ok _ _ _ _ _ (stage_blob _ _ _)), bind_ret.
  rewrite (bind_ok _ _ _ _ _
             (add_change_request_file_ok [] cr_id path FileAction.create _ _
                (staged content_bytes (S3Service.guess_content_type path) w)
                Hfree)).
  eexists. split; [reflexivity|]. rewrite E1, replaced_nil.
  rewrite (kept_all path _ E1). split; [|repeat split].
  unfold files_of at 1. cbn. rewrite filter_app.
  rewrite filter_cons_True by reflexivity. now rewrite filter_nil.
Qed.

Lemma ready_after_create cr_id path w w' content_bytes :
  ready (bucket w) (files_of cr_id w) ->
  startswith path "_" = false ->
  next_staging_key w ∉ staging_keys (files_of cr_id w) ->
  files_of cr_id w'
  = kept path (files_of cr_id w) ++ [create_entry cr_id path w] ->
  bucket w'
  = <[next_staging_key w
      := mkS3Object content_bytes (S3Service.guess_content_type path)]>
      (bucket (replaced
                 (filter (fun e => ChangeRequestFile.file_path e = path)
                    (files_of cr_id w)) w)) ->
  ready (bucket w') (files_of cr_id w').
Proof.
  intros (Hp & Hu & Hk & Hb) Hpath Hfresh -> ->.
  set (files := files_of cr_id w) in *.
  assert (Hsub : forall f, f ∈ kept path files ->
                   f ∈ files /\ ChangeRequestFile.file_path f ≠ path).
  { intros f I. apply list_elem_of_filter in I as [I1 I2]. split; [exact I2|].
    intros E. apply I1. apply list_elem_of_fmap. exists f. split; [reflexivity|].
    apply list_elem_of_filter. auto. }
  unfold ready. rewrite map_app, staging_keys_app.
  rewrite staging_keys_cons. unfold create_entry at 1 3.
  cbn [map ChangeRequestFile.staging_s3_key ChangeRequestFile.file_path].
  change (staging_keys []) with (@nil string).
  repeat split.
  - apply NoDup_app. split; [now apply NoDup_map_filter|]. split.
    + intros p I. apply list_elem_of_fmap in I as (f & -> & I).
      apply Hsub in I as [_ I]. rewrite list_elem_of_singleton. congruence.
    + apply NoDup_singleton.
  - apply Forall_app. split.
    + rewrite Forall_forall in *. intros f I. apply Hu. now apply Hsub.
    + now repeat constructor.
  - apply NoDup_app. split; [now apply NoDup_omap_filter|]. split.
    + intros k I. rewrite list_elem_of_singleton. intros ->. apply Hfresh.
      apply list_elem_of_omap in I as (f & I & E).
      apply list_elem_of_omap. exists f. split; [now apply Hsub|exact E].
    + apply NoDup_singleton.
  - apply Forall_app. split.
    + rewrite Forall_forall in *. intros k I.
      apply list_elem_of_omap in I as (f & I & E).
      pose proof (Hsub f I) as [If Ip].
      assert (Ik : k ∈ staging_keys files)
        by (apply list_elem_of_omap; eauto).
      destruct (Hb k Ik) as [Hs Hsome]. split; [exact Hs|].
      rewrite lookup_insert_ne by (intros <-; contradiction).
      cbn [bucket replaced]. rewrite lookup_discarded; [exact Hsome|].
      intros e Ie Ee. apply list_elem_of_filter in Ie as [Ee1 Ee2].
      assert (f = e) as -> by (eapply (NoDup_omap_inj _ files); eassumption).
      contradiction.
    + repeat constructor; [apply next_staging_key_prefix|].
      rewrite lookup_insert_eq. eauto.
Qed.

(** ** A create, from staging to the ledger *)

(** On a draft or rejected change request whose entries are ready and none
    of which is of [path], with a staging key that no entry holds yet: the
    author stages a create of [path], submits, a reviewer approves and a
    write-capable actor merges.
    Every step answers 200; the content is then the canonical blob of the
    path and its latest version, whose number is the next one of the
    ledger at the time of staging. *)
Lemma create_then_merge w0 cr_id cr author reviewer merger request comment
    path content content_bytes :
  select_change_request cr_id w0 = (Ok (Some cr), w0) ->
  not_draft_nor_rejected cr = false ->
  User.role author ∈ WRITE_ROLES -> not_author_nor_admin cr author = false ->
  User.role reviewer ∈ [UserRole.admin; UserRole.approver] ->
  ChangeRequest.author_id cr ≠ User.id reviewer
  \/ User.role reviewer = UserRole.admin ->
  User.role merger ∈ WRITE_ROLES ->
  strip_slash path = path -> path ≠ "" -> startswith path "_" = false ->
  encode_utf8 content = Some content_bytes ->
  path ∉ map ChangeRequestFile.file_path (files_of cr_id w0) ->
  staged_ok (bucket w0) (files_of cr_id w0) = true ->
  next_staging_key w0 ∉ staging_keys (files_of cr_id w0) ->
  exists w1 w2 w3 w4 fv,
    add_file_to_cr cr_id (mkAddFileRequest path "create" (Some content))
      author w0
    = (Ok (change_request_files_seq (db w0), path, "create"), w1)
    /\ submit_for_review cr_id request author w1
       = (Ok CRStatus.pending_review, w2)
    /\ review_change_request cr_id (mkReviewRequest "approve" comment) request
         reviewer w2
       = (Ok CRStatus.approved, w3)
    /\ merge_change_request cr_id request merger w3 = (Ok CRStatus.merged, w4)
    /\ latest_version path w4 = Some fv
    /\ FileVersion.version fv = next_version path w0
    /\ FileVersion.content_hash fv = sha256_hexdigest content_bytes
    /\ FileVersion.size fv = len content_bytes
    /\ FileVersion.is_delete fv = false
    /\ bucket w4 !! path
       = Some (mkS3Object content_bytes (S3Service.guess_content_type path)).
Proof.
  intros Hcr Hst Hauthor Hown Hreviewer Hother Hmerger Hstrip Hpath Hunres
    Henc Hnew Hready%staged_ok_spec Hfresh.
  destruct (add_file_to_cr_create cr_id author w0 cr path content
              content_bytes Hauthor Hcr Hown Hst Hstrip Hpath Henc Hnew)
    as (w1 & E1 & F1 & B1 & C1 & V1).
  pose proof (ready_after_create cr_id path w0 w1 content_bytes
                Hready Hunres Hfresh F1 B1) as R1.
  pose proof (select_change_request_frame cr_id w0 w1 _ C1 Hcr) as S1.
  assert (N1 : files_of cr_id w1 ≠ []).
  { rewrite F1. intros E. now apply app_nil in E as [_ E]. }
  destruct (submit_for_review_ok cr_id request author w1 cr
              Hauthor S1 Hown Hst N1)
    as (w2 & cr2 & E2 & S2 & St2 & A2 & F2 & V2 & B2).
  destruct (review_change_request_ok cr_id request comment reviewer w2 cr2
              Hreviewer S2 St2)
    as (w3 & cr3 & E3 & S3 & St3 & F3 & V3 & B3).
  { now rewrite A2. }
  assert (F31 : files_of cr_id w3 = files_of cr_id w1).
  { unfold files_of. now rewrite F3, F2. }
  assert (B31 : bucket w3 = bucket w1) by now rewrite B3, B2.
  destruct (merge_change_request_commits w3 cr_id cr3 request merger
              (create_entry cr_id path w0) (next_staging_key w0)
              (mkS3Object content_bytes (S3Service.guess_content_type path)))
    as (w4 & fv & E4 & _ & L4 & Ver4 & H4 & Sz4 & D4 & B4);
    try assumption.
  - apply staged_ok_spec. now rewrite F31, B31.
  - rewrite F31, F1. apply elem_of_app. right. apply list_elem_of_here.
  - decide_now.
  - reflexivity.
  - rewrite B31, B1. apply lookup_insert_eq.
  - exists w1, w2, w3, w4, fv. cbn in L4, Ver4, H4, Sz4, B4.
    repeat split; try assumption.
    rewrite Ver4. apply next_version_frame. unfold versions_of.
    now rewrite V3, V2, V1.
Qed.

Lemma next_version_after_latest path w l :
  latest_version path w = Some l ->
  next_version path w = FileVersion.version l + 1.
Proof.
  unfold latest_version, next_version. rewrite or_0_next.
  generalize (versions_of path w) as rows. intros rows. revert l.
  induction rows as [|r rows IH]; intros l H; [discriminate|].
  cbn [first_by_desc] in H. cbn [map sql_max].
  destruct (first_by_desc FileVersion.version rows) as [b|] eqn:Hb.
  - specialize (IH b eq_refl).
    destruct (sql_max (map FileVersion.version rows)) as [m|] eqn:Hm.
    + assert (m = FileVersion.version b) as -> by lia.
      destruct (Z.ltb_spec (FileVersion.version r) (FileVersion.version b));
        injection H as <-; lia.
    + destruct rows; [discriminate Hb|]. cbn in Hm.
      destruct (sql_max _); discriminate.
  - destruct rows as [|r' rows']; [|cbn in Hb; destruct (first_by_desc _ rows');
      [destruct (_ <? _)|]; discriminate].
    injection H as <-. reflexivity.
Qed.

(** C5, as the code has it. [path] is as the staging handlers store it (no
    slash at either end, not empty) and not under the reserved prefix; the
    UTF-8 encoding of [content] decodes to [content]; the entries of the
    draft or rejected change request are ready, none of them is of [path],
    and the staging key to come is new.  Then staging a create of [path],
    submitting, approving and merging all succeed, and get-content of
    [path] returns the content when the path is a text file by its
    extension, and no content, flagged binary, otherwise; in both cases
    with the size and the SHA-256 digest of the encoded content. *)
Theorem create_merge_roundtrip (w0 : World) (cr_id : Z) (cr : ChangeRequest.t)
    (author reviewer merger reader : User.t) (request : Request)
    (comment path content : string) (content_bytes : list Byte.byte)
    (Hcr : select_change_request cr_id w0 = (Ok (Some cr), w0))
    (Hst : not_draft_nor_rejected cr = false)
    (Hauthor : User.role author ∈ WRITE_ROLES)
    (Hown : not_author_nor_admin cr author = false)
    (Hreviewer : User.role reviewer ∈ [UserRole.admin; UserRole.approver])
    (Hother : ChangeRequest.author_id cr ≠ User.id reviewer
              \/ User.role reviewer = UserRole.admin)
    (Hmerger : User.role merger ∈ WRITE_ROLES)
    (Hstrip : strip_slash path = path) (Hpath : path ≠ "")
    (Hunreserved : startswith path "_" = false)
    (Henc : encode_utf8 content = Some content_bytes)
    (Hdec : decode_utf8_replace content_bytes = content)
    (Hnew : path ∉ map ChangeRequestFile.file_path (files_of cr_id w0))
    (Hready : staged_ok (bucket w0) (files_of cr_id w0) = true)
    (Hfresh : next_staging_key w0 ∉ staging_keys (files_of cr_id w0)) :
  exists w1 w2 w3 w4 detail,
    add_file_to_cr cr_id (mkAddFileRequest path "create" (Some content))
      author w0
    = (Ok (change_request_files_seq (db w0), path, "create"), w1)
    /\ submit_for_review cr_id request author w1
       = (Ok CRStatus.pending_review, w2)
    /\ review_change_request cr_id (mkReviewRequest "approve" comment) request
         reviewer w2
       = (Ok CRStatus.approved, w3)
    /\ merge_change_request cr_id request merger w3 = (Ok CRStatus.merged, w4)
    /\ get_file_content path None reader w4 = (Ok detail, w4)
    /\ detail_content detail
       = (if S3Service.is_text_file path then Some content else None)
    /\ detail_is_binary detail = negb (S3Service.is_text_file path)
    /\ detail_size detail = len content_bytes
    /\ detail_content_hash detail = sha256_hexdigest content_bytes
    /\ detail_version detail = next_version path w0.
Proof.
  destruct (create_then_merge w0 cr_id cr author reviewer merger request
              comment path content content_bytes)
    as (w1 & w2 & w3 & w4 & fv & E1 & E2 & E3 & E4 & L & V & H & _ & D & B);
    try assumption.
  pose proof (get_file_content_latest path reader w4 fv _ L D B) as G.
  exists w1, w2, w3, w4. eexists.
  split; [exact E1|]. split; [exact E2|]. split; [exact E3|].
  split; [exact E4|]. split; [exact G|].
  cbn [detail_content detail_is_binary detail_size detail_content_hash
       detail_version body].
  rewrite Hdec, H, V.
  split; [now destruct (S3Service.is_text_file path)|]. repeat split.
Qed.

(** ** Deletion records *)

(** C6. First, an approved change request whose entries are ready holds a
    delete of a path: merge answers [merged] and appends to the path the
    row of the next version with an empty blob reference, size 0, the hash
    [deleted] and the deletion flag; the canonical blob is gone, the row is
    the latest version and get-content answers 410.  Second, in any world
    where the latest version of the path is a deletion record, staging a
    create of the path in a change request that holds no entry of it yet,
    submitting, approving and merging succeed, and the new latest version
    is live with the number after the record's. *)
Theorem tombstone_semantics (w : World) (cr_id : Z) (cr : ChangeRequest.t)
    (request : Request) (user reader : User.t) (f0 : ChangeRequestFile.t)
    (Hrole : User.role user ∈ WRITE_ROLES)
    (Hcr : select_change_request cr_id w = (Ok (Some cr), w))
    (Hst : ChangeRequest.status cr = CRStatus.approved)
    (Hready : staged_ok (bucket w) (files_of cr_id w) = true)
    (Hin : f0 ∈ files_of cr_id w)
    (Hdelete : ChangeRequestFile.action f0 = FileAction.delete)
    (w0 : World) (cr_id0 : Z) (cr0 : ChangeRequest.t)
    (author reviewer merger : User.t) (comment content : string)
    (content_bytes : list Byte.byte) (tombstone : FileVersion.t)
    (Hlatest : latest_version (ChangeRequestFile.file_path f0) w0
               = Some tombstone)
    (Htombstone : FileVersion.is_delete tombstone = true)
    (Hcr0 : select_change_request cr_id0 w0 = (Ok (Some cr0), w0))
    (Hst0 : not_draft_nor_rejected cr0 = false)
    (Hauthor : User.role author ∈ WRITE_ROLES)
    (Hown : not_author_nor_admin cr0 author = false)
    (Hreviewer : User.role reviewer ∈ [UserRole.admin; UserRole.approver])
    (Hother : ChangeRequest.author_id cr0 ≠ User.id reviewer
              \/ User.role reviewer = UserRole.admin)
    (Hmerger : User.role merger ∈ WRITE_ROLES)
    (Hstrip : strip_slash (ChangeRequestFile.file_path f0)
              = ChangeRequestFile.file_path f0)
    (Hpath : ChangeRequestFile.file_path f0 ≠ "")
    (Henc : encode_utf8 content = Some content_bytes)
    (Hnew0 : ChangeRequestFile.file_path f0
             ∉ map ChangeRequestFile.file_path (files_of cr_id0 w0))
    (Hready0 : staged_ok (bucket w0) (files_of cr_id0 w0) = true)
    (Hfresh : next_staging_key w0 ∉ staging_keys (files_of cr_id0 w0)) :
  (exists w' id at_,
      let row :=
        FileVersion.mk id (ChangeRequestFile.file_path f0)
          (next_version (ChangeRequestFile.file_path f0) w) "" 0 "deleted"
          (ChangeRequest.author_id cr)
          ("CR #" +:+ pretty (ChangeRequest.id cr) +:+ ": Delete "
             +:+ ChangeRequestFile.file_path f0)
          true at_ in
      merge_change_request cr_id request user w = (Ok CRStatus.merged, w')
      /\ versions_of (ChangeRequestFile.file_path f0) w'
         = versions_of (ChangeRequestFile.file_path f0) w ++ [row]
      /\ bucket w' !! ChangeRequestFile.file_path f0 = None
      /\ latest_version (ChangeRequestFile.file_path f0) w' = Some row
      /\ get_file_content (ChangeRequestFile.file_path f0) None reader w'
         = (Raise (HTTPException 410 "File has been deleted"), w'))
  /\ (exists w1 w2 w3 w4 fv,
        add_file_to_cr cr_id0
          (mkAddFileRequest (ChangeRequestFile.file_path f0) "create"
             (Some content)) author w0
        = (Ok (change_request_files_seq (db w0),
               ChangeRequestFile.file_path f0, "create"), w1)
        /\ submit_for_review cr_id0 request author w1
           = (Ok CRStatus.pending_review, w2)
        /\ review_change_request cr_id0 (mkReviewRequest "approve" comment)
             request reviewer w2
           = (Ok CRStatus.approved, w3)
        /\ merge_change_request cr_id0 request merger w3
           = (Ok CRStatus.merged, w4)
        /\ latest_version (ChangeRequestFile.file_path f0) w4 = Some fv
        /\ FileVersion.is_delete fv = false
        /\ FileVersion.version fv = FileVersion.version tombstone + 1
        /\ FileVersion.content_hash fv = sha256_hexdigest content_bytes).
Proof.
  split.
  - destruct (merge_change_request_tombstones w cr_id cr request user f0)
      as (w' & id & at_ & E & V & L & B); try assumption.
    exists w', id, at_. cbv zeta in *. repeat split; try assumption.
    now apply (get_file_content_deleted _ reader w' _ L).
  - assert (Hunreserved :
      startswith (ChangeRequestFile.file_path f0) "_" = false).
    { apply staged_ok_spec in Hready as (_ & Hu & _).
      rewrite Forall_forall in Hu. now apply Hu. }
    destruct (create_then_merge w0 cr_id0 cr0 author reviewer merger request
                comment (ChangeRequestFile.file_path f0) content content_bytes)
      as (w1 & w2 & w3 & w4 & fv & E1 & E2 & E3 & E4 & L & V & H & _ & D & _);
      try assumption.
    exists w1, w2, w3, w4, fv. repeat split; try assumption.
    rewrite V. now apply next_version_after_latest.
Qed.

(** ** Staging an edit or a delete of a path that has no live version *)

(** C10. On a change request the actor may modify, for a path whose latest
    version is absent or a deletion record: an edit (with its content) raises
    the 404 that points to [create]; a delete is accepted and its entry
    carries no base version. *)
Theorem add_operation_without_live_version (w : World) (cr_id : Z)
    (cr : ChangeRequest.t) (user : User.t) (raw_path : string)
    (content : string) (content_bytes : list Byte.byte)
    (ignored : option string)
    (Hrole : User.role user ∈ WRITE_ROLES)
    (Hcr : select_change_request cr_id w = (Ok (Some cr), w))
    (Hown : not_author_nor_admin cr user = false)
    (Hst : not_draft_nor_rejected cr = false)
    (Hpath : strip_slash raw_path ≠ "")
    (Hnew : is_new (latest_version (strip_slash raw_path) w) = true)
    (Henc : encode_utf8 content = Some content_bytes) :
  fst (add_file_to_cr cr_id (mkAddFileRequest raw_path "edit" (Some content))
         user w)
  = Raise (HTTPException 404 "File does not exist, use 'create' action")
  /\ exists w',
      add_file_to_cr cr_id (mkAddFileRequest raw_path "delete" ignored) user w
      = (Ok (change_request_files_seq (db w), strip_slash raw_path, "delete"), w')
      /\ ChangeRequestFile.mk (change_request_files_seq (db w)) cr_id
           (strip_slash raw_path) FileAction.delete None None (utcnow w)
         ∈ files_of cr_id w'.
Proof.
  split.
  - unfold add_file_to_cr.
    rewrite (bind_ok _ _ _ _ _ (require_role_ok _ _ _ Hrole)).
    rewrite (bind_ok _ _ _ _ _ Hcr).
    cbn [bind get_world]. rewrite Hown, Hst.
    cbn [add_file_path add_action add_content].
    destruct (decide (strip_slash raw_path = "")) as [E|_]; [contradiction|].
    change (FileAction.of_string "edit") with (Some FileAction.edit).
    cbv beta iota.
    rewrite (bind_ok _ _ _ _ _ (replace_loop _ _)).
    change (bool_decide (FileAction.edit ∈ [FileAction.create; FileAction.edit]))
      with true.
    change (bool_decide (FileAction.edit ∈ [FileAction.edit; FileAction.delete]))
      with true.
    cbv iota. rewrite Henc.
    rewrite (bind_ok _ _ _ _ _ (stage_blob _ _ _)).
    rewrite bind_assoc.
    rewrite (bind_ok _ _ _ _ _ (select_latest_version_eq _ _)).
    rewrite (latest_version_frame _ w) by reflexivity.
    apply is_new_spec in Hnew as [->|(l & -> & Hdel)]; [reflexivity|].
    now rewrite Hdel.
  - unfold add_file_to_cr.
    rewrite (bind_ok _ _ _ _ _ (require_role_ok _ _ _ Hrole)).
    rewrite (bind_ok _ _ _ _ _ Hcr).
    cbn [bind get_world]. rewrite Hown, Hst.
    cbn [add_file_path add_action add_content].
    destruct (decide (strip_slash raw_path = "")) as [E|_]; [contradiction|].
    change (FileAction.of_string "delete") with (Some FileAction.delete).
    cbv beta iota.
    rewrite (bind_ok _ _ _ _ _ (replace_loop _ _)).
    change (bool_decide (FileAction.delete ∈ [FileAction.create; FileAction.edit]))
      with false.
    change (bool_decide (FileAction.delete ∈ [FileAction.edit; FileAction.delete]))
      with true.
    cbv iota zeta. rewrite bind_ret, bind_assoc.
    rewrite (bind_ok _ _ _ _ _ (select_latest_version_eq _ _)).
    rewrite (latest_version_frame _ w) by reflexivity.
    assert (Hbase : forall k v,
              bind (match latest_version (strip_slash raw_path) w with
                    | Some l =>
                        if negb (FileVersion.is_delete l)
                        then ret (Some (FileVersion.id l))
                        else if decide (FileAction.delete = FileAction.edit)
                             then raise (HTTPException 404
                                    "File does not exist, use 'create' action")
                             else ret None
                    | None =>
                        if decide (FileAction.delete = FileAction.edit)
                        then raise (HTTPException 404
                               "File does not exist, use 'create' action")
                        else ret None
                    end) k v
              = k None v :> Result (Z * string * string) * World).
    { intros k v.
      apply is_new_spec in Hnew as [->|(l & -> & Hdel)]; [reflexivity|].
      now rewrite Hdel. }
    rewrite Hbase.
    rewrite (bind_ok _ _ _ _ _
               (add_after_replace cr_id (strip_slash raw_path) _
                  FileAction.delete None None w _
                  (existing_perm _ _ _) eq_refl)).
    eexists. split; [reflexivity|].
    unfold files_of. cbn. rewrite filter_app.
    apply elem_of_app. right. rewrite filter_cons_True by reflexivity.
    apply list_elem_of_here.
Qed.

(** ** Public reads *)

(** C3, as the code has it. With [by_path] and [by_token] the results of the
    look-ups of the sharing record: no record, or one that is not public, is
    a 404; an archived one is a 410 by path and the archive notice, without
    content, by token; a path with no version, or whose latest version is a
    deletion record, is a 404; otherwise the canonical blob is served (as a
    page when the path is a text file and the read is by token), and its
    absence from the bucket is a 404. *)
Theorem public_read_outcomes (w : World) (path token : string)
    (by_path by_token : option FileShare.t)
    (Hpath : filter (fun s => FileShare.file_path s = path) (file_shares (db w))
             = option_list by_path)
    (Htoken : filter (fun s => FileShare.token s = token) (file_shares (db w))
              = option_list by_token) :
  public_file_raw path w
  = (match by_path with
     | None => Raise (HTTPException 404 "File not found or not public")
     | Some share =>
         if negb (FileShare.is_public share) then
           Raise (HTTPException 404 "File not found or not public")
         else if FileShare.is_archived share then
           Raise (HTTPException 410 "File has been archived")
         else
           match latest_version (FileShare.file_path share) w with
           | None => Raise (HTTPException 404 "File not found or deleted")
           | Some l =>
               if FileVersion.is_delete l then
                 Raise (HTTPException 404 "File not found or deleted")
               else
                 match bucket w !! FileShare.file_path share with
                 | None => Raise (HTTPException 404 "File content not found")
                 | Some o => Ok (attachment share (body o))
                 end
           end
     end, w)
  /\ public_file token w
     = (match by_token with
        | None => Raise (HTTPException 404 "File not found or not public")
        | Some share =>
            if negb (FileShare.is_public share) then
              Raise (HTTPException 404 "File not found or not public")
            else if FileShare.is_archived share then
              Ok (TemplateResponse "public_file.html"
                    (Some "This file has been archived and is no longer available.")
                    (FileShare.file_path share) None None)
            else
              match latest_version (FileShare.file_path share) w with
              | None => Raise (HTTPException 404 "File not found or deleted")
              | Some l =>
                  if FileVersion.is_delete l then
                    Raise (HTTPException 404 "File not found or deleted")
                  else
                    match bucket w !! FileShare.file_path share with
                    | None => Raise (HTTPException 404 "File content not found")
                    | Some o =>
                        if S3Service.is_text_file (FileShare.file_path share)
                        then
                          Ok (TemplateResponse "public_file.html" None
                                (FileShare.file_path share)
                                (Some (decode_utf8_replace (body o)))
                                (Some (len (body o))))
                        else Ok (attachment share (body o))
                    end
              end
        end, w).
Proof.
  assert (Hcontent : forall share,
    public_content share w
    = (match latest_version (FileShare.file_path share) w with
       | None => Raise (HTTPException 404 "File not found or deleted")
       | Some l =>
           if FileVersion.is_delete l then
             Raise (HTTPException 404 "File not found or deleted")
           else
             match bucket w !! FileShare.file_path share with
             | None => Raise (HTTPException 404 "File content not found")
             | Some o => Ok (body o)
             end
       end, w)).
  { intros share. unfold public_content.
    rewrite (bind_ok _ _ _ _ _ (select_latest_version_eq _ _)).
    destruct (latest_version _ w) as [l|]; [|reflexivity].
    destruct (FileVersion.is_delete l); [reflexivity|].
    unfold try_or_raise.
    destruct (bucket w !! FileShare.file_path share) as [o|] eqn:Ho.
    - now rewrite (get_object_ok _ _ _ Ho).
    - now rewrite (get_object_missing _ _ Ho). }
  split.
  - unfold public_file_raw. cbn [bind get_world]. rewrite Hpath.
    rewrite (bind_ok _ _ _ _ _ (scalar_one_or_none_option_list _ _)).
    destruct by_path as [share|]; [|reflexivity].
    destruct (FileShare.is_public share); cbn [negb]; [|reflexivity].
    destruct (FileShare.is_archived share); [reflexivity|].
    unfold bind. rewrite Hcontent.
    destruct (latest_version _ w) as [l|]; [|reflexivity].
    destruct (FileVersion.is_delete l); [reflexivity|].
    destruct (bucket w !! _); reflexivity.
  - unfold public_file. cbn [bind get_world]. rewrite Htoken.
    rewrite (bind_ok _ _ _ _ _ (scalar_one_or_none_option_list _ _)).
    destruct by_token as [share|]; [|reflexivity].
    destruct (FileShare.is_public share); cbn [negb]; [|reflexivity].
    destruct (FileShare.is_archived share); [reflexivity|].
    unfold bind. rewrite Hcontent.
    destruct (latest_version _ w) as [l|]; [|reflexivity].
    destruct (FileVersion.is_delete l); [reflexivity|].
    destruct (bucket w !! _); [|reflexivity].
    destruct (S3Service.is_text_file _); reflexivity.
Qed.

(** ** Who may open a change request *)

(** C9, as the code has it. An actor without a write role is refused, with
    the world unchanged, by create, stage-save, upload and restore (403), and
    by stage-delete (404 or 403) unless the path has a live latest version
    whose recorded author is the actor. *)
Theorem change_request_needs_write_capability (w : World) (user : User.t)
    (Hrole : User.role user ∉ WRITE_ROLES) :
  (forall req request,
      create_change_request req request user w
      = (Raise (HTTPException 403 "Insufficient permissions"), w))
  /\ (forall req request,
        save_file req request user w
        = (Raise (HTTPException 403 "Insufficient permissions"), w))
  /\ (forall request path message file,
        upload_file request path message file user w
        = (Raise (HTTPException 403 "Insufficient permissions"), w))
  /\ (forall path version request,
        restore_version path version request user w
        = (Raise (HTTPException 403 "Insufficient permissions"), w))
  /\ (forall path request,
        match latest_version (strip_slash path) w with
        | Some l =>
            FileVersion.is_delete l = true
            \/ author_of l w = None
            \/ FileVersion.author_id l ≠ User.id user
        | None => True
        end ->
        delete_file path request user w
        = (Raise (match latest_version (strip_slash path) w with
                  | Some l =>
                      if FileVersion.is_delete l then
                        HTTPException 404 "File not found or already deleted"
                      else
                        HTTPException 403
                          "Insufficient permissions to delete this file"
                  | None =>
                      HTTPException 404 "File not found or already deleted"
                  end), w)).
Proof.
  repeat split.
  - intros. unfold create_change_request.
    now rewrite (bind_raise _ _ _ _ _ (require_role_denied _ _ _ Hrole)).
  - intros. unfold save_file.
    now rewrite (bind_raise _ _ _ _ _ (require_role_denied _ _ _ Hrole)).
  - intros. unfold upload_file.
    now rewrite (bind_raise _ _ _ _ _ (require_role_denied _ _ _ Hrole)).
  - intros. unfold restore_version.
    now rewrite (bind_raise _ _ _ _ _ (require_role_denied _ _ _ Hrole)).
  - intros path request H. unfold delete_file, _get_latest_version.
    rewrite (bind_ok _ _ _ _ _ (select_latest_version_eq _ _)).
    destruct (latest_version (strip_slash path) w) as [l|]; [|reflexivity].
    destruct (FileVersion.is_delete l); [reflexivity|].
    cbn [bind get_world].
    rewrite (bool_decide_eq_true_2 _ Hrole). cbn [andb].
    destruct H as [H|[H|H]]; [discriminate| |].
    + rewrite (bool_decide_eq_true_2 _ H). reflexivity.
    + rewrite (bool_decide_eq_true_2 _ H). rewrite orb_true_r. reflexivity.
Qed.

(** * More of the code *)

(** ** app/s3.py: keys and content types *)

Lemma prefix_app (a b : string) : String.prefix a (a +:+ b) = true.
Proof.
  induction a as [|c a IH]; [now destruct b|].
  change (String.prefix (String c a) (String c (a +:+ b)) = true).
  cbn [String.prefix]. destruct (ascii_dec c c); [exact IH|contradiction].
Qed.

Lemma slice_from_app (a b : string) : slice_from (String.length a) (a +:+ b) = b.
Proof. induction a as [|c a IH]; [reflexivity|exact IH]. Qed.

Lemma string_app_assoc (a b c : string) : (a +:+ b) +:+ c = a +:+ (b +:+ c).
Proof.
  induction a as [|x a IH]; [reflexivity|].
  change (String x ((a +:+ b) +:+ c) = String x (a +:+ (b +:+ c))).
  now rewrite IH.
Qed.

(** X1. Whatever prefix is configured, [_unprefix] undoes [_prefixed]; hence
    two keys with the same prefixed form are the same key. *)
Theorem unprefix_prefixed (s3_prefix : string) :
  (forall key, _unprefix s3_prefix (_prefixed s3_prefix key) = key)
  /\ (forall k1 k2,
        _prefixed s3_prefix k1 = _prefixed s3_prefix k2 -> k1 = k2).
Proof.
  assert (H : forall key, _unprefix s3_prefix (_prefixed s3_prefix key) = key).
  { intros key. unfold _unprefix, _prefixed.
    destruct (negb (String.eqb s3_prefix "")); [|reflexivity].
    cbv zeta. unfold startswith.
    rewrite <- (string_app_assoc _ "/" key).
    rewrite prefix_app. apply slice_from_app. }
  split; [exact H|].
  intros k1 k2 E. rewrite <- (H k1), <- (H k2). now rewrite E.
Qed.

Lemma range_from_batches {A} (l : list A) (fuel start : nat) :
  (length l - start <= fuel)%nat ->
  concat ((fun i => slice i (i + 1000) l) <$> range_from fuel start (length l) 1000)
  = drop start l
  /\ Forall (fun batch => (1 <= length batch <= 1000)%nat)
       ((fun i => slice i (i + 1000) l) <$> range_from fuel start (length l) 1000).
Proof.
  revert start. induction fuel as [|fuel IH]; intros start Hfuel.
  - cbn. split; [|constructor]. symmetry. apply drop_ge. lia.
  - cbn [range_from]. destruct (Nat.ltb_spec start (length l)) as [Hlt|Hge].
    + destruct (IH (start + 1000)%nat ltac:(lia)) as [IH1 IH2].
      cbn [fmap list_fmap concat]. fold (@fmap list _ nat (list A)).
      unfold slice at 1 3. replace (start + 1000 - start)%nat with 1000%nat by lia.
      split.
      * change (list_fmap nat (list A) ?f ?x) with (f <$> x).
        rewrite IH1. rewrite <- (take_drop 1000 (drop start l)) at 2.
        f_equal. rewrite drop_drop. reflexivity.
      * constructor; [|exact IH2].
        rewrite length_take, length_drop. lia.
    + cbn. split; [|constructor]. symmetry. apply drop_ge. lia.
Qed.

Lemma client_delete_objects_loop (batches : list (list string)) (w : World) :
  for_each batches client_delete_objects w
  = (Ok tt,
     with_bucket (fun b => foldl (fun b k => base.delete k b) b (concat batches)) w).
Proof.
  revert w. induction batches as [|batch batches IH]; intros w.
  - cbn. now destruct w.
  - cbn [for_each]. unfold bind at 1. cbn [client_delete_objects modify].
    rewrite IH. unfold with_bucket.
    cbn [concat db bucket uuid4_hex uuid4_drawn utcnow].
    now rewrite foldl_app.
Qed.

Lemma lookup_foldl_delete (keys : list string) (b : gmap string S3Object)
    (key : string) :
  foldl (fun b k => base.delete k b) b keys !! key
  = if bool_decide (key ∈ keys) then None else b !! key.
Proof.
  revert b. induction keys as [|k keys IH]; intros b; [reflexivity|].
  cbn [foldl]. rewrite IH.
  destruct (decide (key = k)) as [->|Hne].
  - rewrite (bool_decide_eq_true_2 (k ∈ k :: keys)) by apply list_elem_of_here.
    rewrite lookup_delete_eq. now destruct (bool_decide _).
  - rewrite lookup_delete_ne by congruence.
    destruct (decide (key ∈ keys)) as [I|I].
    + rewrite !bool_decide_eq_true_2; [reflexivity| |exact I].
      now apply list_elem_of_further.
    + rewrite !bool_decide_eq_false_2; [reflexivity| |exact I].
      intros [->|I']%elem_of_cons; contradiction.
Qed.

(** X2. [delete_objects] sends the keys in batches of at most 1000, none
    empty, that together are the keys in their order; it never fails, and
    afterwards exactly the given keys are gone from the bucket.  On no key it
    sends nothing. *)
Theorem delete_objects_batches (keys : list string) (w : World) :
  concat (delete_batches keys) = keys
  /\ Forall (fun batch => (1 <= length batch <= 1000)%nat) (delete_batches keys)
  /\ fst (delete_objects keys w) = Ok tt
  /\ db (snd (delete_objects keys w)) = db w
  /\ (forall key,
        bucket (snd (delete_objects keys w)) !! key
        = if bool_decide (key ∈ keys) then None else bucket w !! key).
Proof.
  destruct (range_from_batches keys (length keys) 0 ltac:(lia)) as [Hc Hf].
  fold (range 0 (length keys) 1000) in Hc, Hf. fold (delete_batches keys) in Hc, Hf.
  rewrite drop_0 in Hc.
  split; [exact Hc|]. split; [exact Hf|].
  unfold delete_objects. destruct keys as [|k keys].
  - cbn. repeat split.
  - cbv zeta. rewrite client_delete_objects_loop. cbn [fst snd].
    repeat split. intros key. cbn [bucket with_bucket].
    rewrite Hc. apply lookup_foldl_delete.
Qed.

Lemma lower_ascii_idemp (a : ascii) : lower_ascii (lower_ascii a) = lower_ascii a.
Proof. destruct a as [[] [] [] [] [] [] [] []]; reflexivity. Qed.

Lemma lower_ascii_dot (a : ascii) :
  Ascii.eqb (lower_ascii a) "." = Ascii.eqb a ".".
Proof. destruct a as [[] [] [] [] [] [] [] []]; reflexivity. Qed.

Lemma lower_idemp (s : string) : lower (lower s) = lower s.
Proof.
  induction s as [|a s IH]; [reflexivity|]. cbn [lower].
  now rewrite lower_ascii_idemp, IH.
Qed.

Lemma after_last_lower (s : string) :
  after_last "." (lower s) = lower <$> after_last "." s.
Proof.
  induction s as [|a s IH]; [reflexivity|]. cbn [lower after_last].
  rewrite IH. destruct (after_last "." s) as [r|]; [reflexivity|].
  cbn [fmap option_fmap option_map]. rewrite lower_ascii_dot.
  now destruct (Ascii.eqb a ".").
Qed.

Lemma extension_lower (path : string) : extension (lower path) = extension path.
Proof.
  unfold extension. rewrite after_last_lower.
  destruct (after_last "." path) as [e|]; [|reflexivity].
  cbn. apply lower_idemp.
Qed.

(** X3. The content type, and with it the text-or-binary decision, does not
    depend on the case of the letters of the path. *)
Theorem guess_content_type_ignores_case (path : string) :
  S3Service.guess_content_type (lower path) = S3Service.guess_content_type path
  /\ S3Service.is_text_file (lower path) = S3Service.is_text_file path.
Proof.
  assert (H : S3Service.guess_content_type (lower path)
              = S3Service.guess_content_type path).
  { change (S3Service.mapping_get S3Service.mapping (extension (lower path))
              "application/octet-stream"
            = S3Service.mapping_get S3Service.mapping (extension path)
                "application/octet-stream").
    now rewrite extension_lower. }
  split; [exact H|]. unfold S3Service.is_text_file. now rewrite H.
Qed.

(** X4. A path is a text file exactly when its extension, in lower case, is
    one of these twenty; every other path, with no extension or another one,
    is served as binary. *)
Theorem is_text_file_by_extension (path : string) :
  S3Service.is_text_file path = true <->
  extension path ∈ [ "html"; "css"; "js"; "json"; "xml"; "yaml"; "yml"; "md";
                     "txt"; "py"; "rb"; "go"; "rs"; "java"; "ts"; "tsx"; "jsx";
                     "sh"; "sql"; "csv" ].
Proof.
  unfold S3Service.is_text_file.
  change (S3Service.guess_content_type path)
    with (S3Service.mapping_get S3Service.mapping (extension path)
            "application/octet-stream").
  generalize (extension path) as e. intros e.
  cbn [S3Service.mapping_get S3Service.mapping].
  repeat match goal with
  | |- context [String.eqb ?k e] =>
      destruct (String.eqb_spec k e) as [<-|?];
      [ split; intros H;
        [ first [ decide_now | vm_compute in H; discriminate H ]
        | first [ vm_compute; reflexivity
                | exfalso; apply (bool_decide_eq_true_2 _) in H; vm_compute in H;
                  discriminate H ] ] | ]
  end.
  split; intros H; [vm_compute in H; discriminate H|].
  repeat (apply elem_of_cons in H as [->|H]; [contradiction|]).
  now apply elem_of_nil in H.
Qed.

(** ** app/routers/change_requests.py: the life of a change request *)

Lemma finalized_status (cr : ChangeRequest.t) :
  ChangeRequest.status cr ∈ [CRStatus.merged; CRStatus.closed] ->
  not_draft_nor_rejected cr = true
  /\ ChangeRequest.status cr ≠ CRStatus.pending_review
  /\ ChangeRequest.status cr ≠ CRStatus.approved.
Proof.
  intros H. unfold not_draft_nor_rejected.
  apply elem_of_cons in H as [H|H];
    [|apply elem_of_cons in H as [H|H]; [|now apply elem_of_nil in H]];
    rewrite H; repeat split; try discriminate; decide_now.
Qed.

(** X5. A merged or closed change request is frozen for the operations that
    carry a status guard: update, add-file and submit by its author or an
    admin, review by any reviewer, merge and close by any write-capable
    actor all raise a 400 and leave the world as it was. *)
Theorem finalized_change_request_is_frozen (w : World) (cr_id : Z)
    (cr : ChangeRequest.t) (request : Request) (user : User.t)
    (Hcr : select_change_request cr_id w = (Ok (Some cr), w))
    (Hfinal : ChangeRequest.status cr ∈ [CRStatus.merged; CRStatus.closed])
    (Hrole : User.role user ∈ WRITE_ROLES)
    (Hown : not_author_nor_admin cr user = false) :
  (forall req,
      update_change_request cr_id req user w
      = (Raise (HTTPException 400 "Can only edit draft or rejected CRs"), w))
  /\ (forall req,
        add_file_to_cr cr_id req user w
        = (Raise (HTTPException 400
                    "Can only modify files in draft or rejected CRs"), w))
  /\ submit_for_review cr_id request user w
     = (Raise (HTTPException 400 "Can only submit draft or rejected CRs"), w)
  /\ (forall req reviewer,
        User.role reviewer ∈ [UserRole.admin; UserRole.approver] ->
        review_change_request cr_id req request reviewer w
        = (Raise (HTTPException 400 "CR is not pending review"), w))
  /\ (forall actor,
        User.role actor ∈ WRITE_ROLES ->
        merge_change_request cr_id request actor w
        = (Raise (HTTPException 400 "CR must be approved before merging"), w)
        /\ close_change_request cr_id request actor w
           = (Raise (HTTPException 400 "CR is already finalized"), w)).
Proof.
  destruct (finalized_status cr Hfinal) as (Hnd & Hnp & Hna).
  repeat split.
  - intros req. unfold update_change_request.
    rewrite (bind_ok _ _ _ _ _ (require_role_ok _ _ _ Hrole)).
    rewrite (bind_ok _ _ _ _ _ Hcr). now rewrite Hown, Hnd.
  - intros req. unfold add_file_to_cr.
    rewrite (bind_ok _ _ _ _ _ (require_role_ok _ _ _ Hrole)).
    rewrite (bind_ok _ _ _ _ _ Hcr). cbn [bind get_world].
    now rewrite Hown, Hnd.
  - unfold submit_for_review.
    rewrite (bind_ok _ _ _ _ _ (require_role_ok _ _ _ Hrole)).
    rewrite (bind_ok _ _ _ _ _ Hcr). cbn [bind get_world].
    now rewrite Hown, Hnd.
  - intros req reviewer Hreviewer. unfold review_change_request.
    rewrite (bind_ok _ _ _ _ _ (require_role_ok _ _ _ Hreviewer)).
    rewrite (bind_ok _ _ _ _ _ Hcr).
    now rewrite (bool_decide_eq_true_2 _ Hnp).
  - unfold merge_change_request.
    rewrite (bind_ok _ _ _ _ _ (require_role_ok _ _ _ H)).
    rewrite (bind_ok _ _ _ _ _ Hcr). cbn [bind get_world].
    now rewrite (bool_decide_eq_true_2 _ Hna).
  - unfold close_change_request.
    rewrite (bind_ok _ _ _ _ _ (require_role_ok _ _ _ H)).
    rewrite (bind_ok _ _ _ _ _ Hcr).
    now rewrite (bool_decide_eq_true_2 _ Hfinal).
Qed.


(** X6. Update by the author or an admin of a draft or rejected change
    request succeeds whatever the request holds: a given title is stored
    stripped, a blank one included (update has no check of the title, where
    create has one); a field left out keeps its value; the status, the
    entries, the ledger, the bucket and the audit log are as they were.  A
    request that changes nothing writes nothing. *)
Theorem update_change_request_edits (w : World) (cr_id : Z)
    (cr : ChangeRequest.t) (user : User.t) (req : UpdateCRRequest)
    (Hrole : User.role user ∈ WRITE_ROLES)
    (Hcr : select_change_request cr_id w = (Ok (Some cr), w))
    (Hown : not_author_nor_admin cr user = false)
    (Hst : not_draft_nor_rejected cr = false) :
  let title := match update_title req with
               | Some t => strip t
               | None => ChangeRequest.title cr
               end in
  let description := match update_description req with
                     | Some d => d
                     | None => ChangeRequest.description cr
                     end in
  exists w' cr',
    update_change_request cr_id req user w = (Ok tt, w')
    /\ select_change_request cr_id w' = (Ok (Some cr'), w')
    /\ ChangeRequest.title cr' = title
    /\ ChangeRequest.description cr' = description
    /\ ChangeRequest.status cr' = ChangeRequest.status cr
    /\ ChangeRequest.author_id cr' = ChangeRequest.author_id cr
    /\ (title = ChangeRequest.title cr ->
        description = ChangeRequest.description cr -> w' = w)
    /\ change_request_files (db w') = change_request_files (db w)
    /\ file_versions (db w') = file_versions (db w)
    /\ audit_logs (db w') = audit_logs (db w)
    /\ bucket w' = bucket w.
Proof.
  intros title description. unfold update_change_request.
  rewrite (bind_ok _ _ _ _ _ (require_role_ok _ _ _ Hrole)).
  rewrite (bind_ok _ _ _ _ _ Hcr). rewrite Hown, Hst. cbv zeta.
  fold title description.
  set (cr1 := set_title_description title description cr).
  unfold flush_change_request. destruct (decide (cr1 = cr)) as [E|N].
  - exists w, cr. split; [reflexivity|]. split; [exact Hcr|].
    apply (f_equal ChangeRequest.title) in E as Et.
    apply (f_equal ChangeRequest.description) in E as Ed.
    cbn in Et, Ed. repeat split; congruence.
  - exists (flushed cr1 w), (stamped cr1 w). split; [reflexivity|].
    split; [now apply (select_flushed cr_id w cr)|].
    repeat split. intros Et Ed. exfalso. apply N. unfold cr1.
    rewrite Et, Ed. now destruct cr.
Qed.

(** The staged blobs of the entries [l] deleted from the bucket [b]. *)
Definition discarded (l : list ChangeRequestFile.t) (b : gmap string S3Object)
    : gmap string S3Object :=
  foldl (fun b e => if truthy (ChangeRequestFile.staging_s3_key e)
                    then base.delete
                           (default "" (ChangeRequestFile.staging_s3_key e)) b
                    else b) b l.

Lemma discard_loop (l : list ChangeRequestFile.t) (w : World) :
  for_each l discard_staged_blob w = (Ok tt, with_bucket (discarded l) w).
Proof.
  revert w. induction l as [|e l IH]; intros w.
  - cbn. now destruct w.
  - cbn [for_each]. unfold bind at 1.
    assert (E : discard_staged_blob e w
                = (Ok tt, with_bucket (discarded [e]) w)).
    { unfold discard_staged_blob, discarded. cbn [foldl].
      destruct (truthy _); [reflexivity|]. cbn. now destruct w. }
    rewrite E, IH. reflexivity.
Qed.

Lemma lookup_discarded_absent (l : list ChangeRequestFile.t)
    (b : gmap string S3Object) (key : string) :
  b !! key = None -> discarded l b !! key = None.
Proof.
  revert b. unfold discarded.
  induction l as [|e l IH]; intros b H; [exact H|].
  cbn [foldl]. apply IH. destruct (truthy _); [|exact H].
  destruct (decide (default "" (ChangeRequestFile.staging_s3_key e) = key))
    as [->|N]; [apply lookup_delete_eq|].
  now rewrite lookup_delete_ne.
Qed.

Lemma lookup_discarded_in (l : list ChangeRequestFile.t)
    (b : gmap string S3Object) (e : ChangeRequestFile.t) (k : string) :
  e ∈ l -> ChangeRequestFile.staging_s3_key e = Some k -> k ≠ "" ->
  discarded l b !! k = None.
Proof.
  revert b. induction l as [|x l IH]; intros b I Hk Hne; [inversion I|].
  apply elem_of_cons in I as [<-|I].
  - change (discarded (e :: l) b)
      with (discarded l (if truthy (ChangeRequestFile.staging_s3_key e)
                         then base.delete
                                (default "" (ChangeRequestFile.staging_s3_key e)) b
                         else b)).
    apply lookup_discarded_absent. rewrite Hk.
    rewrite (proj2 (truthy_Some k) Hne). apply lookup_delete_eq.
  - now apply (IH _ I).
Qed.

(** X7. Close by the author or an admin of a change request that is neither
    merged nor closed: the status is closed and every staged blob of its
    entries is deleted from the bucket, while the entries themselves stay in
    the table; the ledger and every other blob are as they were. *)
Theorem close_change_request_discards_staging (w : World) (cr_id : Z)
    (cr : ChangeRequest.t) (request : Request) (user : User.t)
    (Hrole : User.role user ∈ WRITE_ROLES)
    (Hcr : select_change_request cr_id w = (Ok (Some cr), w))
    (Hopen : ChangeRequest.status cr ∉ [CRStatus.merged; CRStatus.closed])
    (Hown : not_author_nor_admin cr user = false) :
  exists w' cr',
    close_change_request cr_id request user w = (Ok CRStatus.closed, w')
    /\ select_change_request cr_id w' = (Ok (Some cr'), w')
    /\ ChangeRequest.status cr' = CRStatus.closed
    /\ change_request_files (db w') = change_request_files (db w)
    /\ file_versions (db w') = file_versions (db w)
    /\ (forall f k, f ∈ files_of cr_id w ->
          ChangeRequestFile.staging_s3_key f = Some k -> k ≠ "" ->
          bucket w' !! k = None)
    /\ (forall key, key ∉ staging_keys (files_of cr_id w) ->
          bucket w' !! key = bucket w !! key).
Proof.
  unfold close_change_request.
  rewrite (bind_ok _ _ _ _ _ (require_role_ok _ _ _ Hrole)).
  rewrite (bind_ok _ _ _ _ _ Hcr).
  rewrite (bool_decide_eq_false_2 _ Hopen), Hown.
  set (cr1 := set_status CRStatus.closed cr).
  assert (Hne : cr1 ≠ cr).
  { intros E. apply (f_equal ChangeRequest.status) in E. cbn in E.
    apply Hopen. rewrite <- E. decide_now. }
  rewrite (bind_ok _ _ _ _ _ (flush_change_request_changed _ _ w Hne)).
  rewrite bind_get_world. rewrite (bind_ok _ _ _ _ _ (discard_loop _ _)).
  eexists _, (stamped cr1 w). split; [reflexivity|]. split.
  - apply (select_change_request_frame cr_id (flushed cr1 w));
      [reflexivity|].
    now apply (select_flushed cr_id w cr).
  - split; [reflexivity|]. split; [reflexivity|]. split; [reflexivity|].
    change (cr_files cr_id (flushed cr1 w)) with (cr_files cr_id w).
    cbn [bucket with_bucket with_db add_audit_log modify snd].
    split.
    + intros f k I%elem_of_cr_files Hk Hnk.
      now apply (lookup_discarded_in _ _ f).
    + intros key Hkey. apply lookup_discarded.
      intros e Ie%elem_of_cr_files Ee. apply Hkey.
      apply list_elem_of_omap. eauto.
Qed.

Lemma review_change_request_rejects cr_id request comment user w cr :
  User.role user ∈ [UserRole.admin; UserRole.approver] ->
  select_change_request cr_id w = (Ok (Some cr), w) ->
  ChangeRequest.status cr = CRStatus.pending_review ->
  ChangeRequest.author_id cr ≠ User.id user
  \/ User.role user = UserRole.admin ->
  exists w',
    review_change_request cr_id (mkReviewRequest "reject" comment) request
      user w = (Ok CRStatus.rejected, w')
    /\ select_change_request cr_id w'
       = (Ok (Some (stamped
                      (set_review (Some (User.id user)) (Some comment)
                         (Some (utcnow w)) (set_status CRStatus.rejected cr))
                      w)), w')
    /\ change_request_files (db w') = change_request_files (db w)
    /\ file_versions (db w') = file_versions (db w)
    /\ bucket w' = bucket w.
Proof.
  intros Hrole Hcr Hst Hother. unfold review_change_request.
  rewrite (bind_ok _ _ _ _ _ (require_role_ok _ _ _ Hrole)).
  rewrite (bind_ok _ _ _ _ _ Hcr).
  rewrite bool_decide_eq_false_2 by (rewrite Hst; intros H; now apply H).
  replace (bool_decide (ChangeRequest.author_id cr = User.id user)
           && bool_decide (User.role user ≠ UserRole.admin)) with false.
  2: { symmetry. apply andb_false_iff. destruct Hother as [H|H].
       - left. now apply bool_decide_eq_false.
       - right. apply bool_decide_eq_false. intros N. now apply N. }
  cbn [review_action].
  destruct (decide ("reject" = "approve")) as [E|_]; [discriminate E|].
  destruct (decide ("reject" = "reject")) as [_|N]; [|contradiction].
  cbn [bind ret get_world].
  set (cr1 := set_review (Some (User.id user)) (Some comment)
                (Some (utcnow w)) (set_status CRStatus.rejected cr)) in *.
  assert (Hne : cr1 ≠ cr).
  { intros E. apply (f_equal ChangeRequest.status) in E. cbn in E.
    congruence. }
  rewrite (bind_ok _ _ _ _ _ (flush_change_request_changed _ _ w Hne)).
  eexists. split; [reflexivity|]. split.
  - apply (select_change_request_frame cr_id (flushed cr1 w));
      [reflexivity|].
    now apply (select_flushed cr_id w cr).
  - repeat split.
Qed.

Lemma submit_for_review_result cr_id request user w cr :
  User.role user ∈ WRITE_ROLES ->
  select_change_request cr_id w = (Ok (Some cr), w) ->
  not_author_nor_admin cr user = false ->
  not_draft_nor_rejected cr = false ->
  files_of cr_id w ≠ [] ->
  exists w',
    submit_for_review cr_id request user w = (Ok CRStatus.pending_review, w')
    /\ select_change_request cr_id w'
       = (Ok (Some (stamped
                      (set_review None None None
                         (set_status CRStatus.pending_review cr)) w)), w')
    /\ change_request_files (db w') = change_request_files (db w)
    /\ file_versions (db w') = file_versions (db w)
    /\ bucket w' = bucket w.
Proof.
  intros Hrole Hcr Hown Hst Hfiles. unfold submit_for_review.
  rewrite (bind_ok _ _ _ _ _ (require_role_ok _ _ _ Hrole)).
  rewrite (bind_ok _ _ _ _ _ Hcr). cbn [bind get_world].
  rewrite Hown, Hst. apply cr_files_not_nil in Hfiles.
  destruct (cr_files cr_id w) as [|f files]; [contradiction|].
  set (cr1 := set_review None None None
                (set_status CRStatus.pending_review cr)) in *.
  assert (Hne : cr1 ≠ cr).
  { intros E. apply (f_equal ChangeRequest.status) in E. cbn in E.
    unfold not_draft_nor_rejected in Hst.
    apply bool_decide_eq_false in Hst. apply Hst. rewrite <- E. decide_now. }
  rewrite (bind_ok _ _ _ _ _ (flush_change_request_changed _ _ w Hne)).
  eexists. split; [reflexivity|]. split.
  - apply (select_change_request_frame cr_id (flushed cr1 w));
      [reflexivity|].
    now apply (select_flushed cr_id w cr).
  - repeat split.
Qed.

(** X8. A change request pending review, with an entry, is rejected by a
    reviewer (not its author, unless an admin): it is then rejected and
    records the reviewer, the comment and the time.  Its author, or an admin,
    submits it again: it is pending review once more and the reviewer, the
    comment and the time of the review are cleared.  Entries, ledger and
    bucket are the same throughout. *)
Theorem rejected_change_request_resubmits (w : World) (cr_id : Z)
    (cr : ChangeRequest.t) (request : Request) (reviewer author : User.t)
    (comment : string)
    (Hreviewer : User.role reviewer ∈ [UserRole.admin; UserRole.approver])
    (Hcr : select_change_request cr_id w = (Ok (Some cr), w))
    (Hst : ChangeRequest.status cr = CRStatus.pending_review)
    (Hother : ChangeRequest.author_id cr ≠ User.id reviewer
              \/ User.role reviewer = UserRole.admin)
    (Hauthor : User.role author ∈ WRITE_ROLES)
    (Hown : not_author_nor_admin cr author = false)
    (Hfiles : files_of cr_id w ≠ []) :
  exists w1 w2 cr1 cr2,
    review_change_request cr_id (mkReviewRequest "reject" comment) request
      reviewer w
    = (Ok CRStatus.rejected, w1)
    /\ select_change_request cr_id w1 = (Ok (Some cr1), w1)
    /\ ChangeRequest.status cr1 = CRStatus.rejected
    /\ ChangeRequest.reviewer_id cr1 = Some (User.id reviewer)
    /\ ChangeRequest.review_comment cr1 = Some comment
    /\ ChangeRequest.reviewed_at cr1 = Some (utcnow w)
    /\ submit_for_review cr_id request author w1
       = (Ok CRStatus.pending_review, w2)
    /\ select_change_request cr_id w2 = (Ok (Some cr2), w2)
    /\ ChangeRequest.status cr2 = CRStatus.pending_review
    /\ ChangeRequest.reviewer_id cr2 = None
    /\ ChangeRequest.review_comment cr2 = None
    /\ ChangeRequest.reviewed_at cr2 = None
    /\ change_request_files (db w2) = change_request_files (db w)
    /\ file_versions (db w2) = file_versions (db w)
    /\ bucket w2 = bucket w.
Proof.
  destruct (review_change_request_rejects cr_id request comment reviewer w cr
              Hreviewer Hcr Hst Hother) as (w1 & E1 & S1 & F1 & V1 & B1).
  set (cr1 := stamped _ w) in S1.
  destruct (submit_for_review_result cr_id request author w1 cr1 Hauthor S1)
    as (w2 & E2 & S2 & F2 & V2 & B2).
  - exact Hown.
  - reflexivity.
  - unfold files_of. now rewrite F1.
  - exists w1, w2, cr1. eexists. split; [exact E1|]. split; [exact S1|].
    do 4 (split; [reflexivity|]). split; [exact E2|]. split; [exact S2|].
    do 4 (split; [reflexivity|]).
    rewrite F2, V2, B2. auto.
Qed.

(** X9. Merge is not atomic in the bucket.  The loop of merge takes the
    entries in the order the database returns them, [pre], then [f], then
    [post].  When the staged blob of [f] is missing, merge stops there with
    the storage error (no 4xx is raised for it); the entries before it in
    that order were ready, and a create or an edit among them is already
    the canonical blob of its path. *)
Theorem merge_stops_at_missing_blob (w : World) (cr_id : Z)
    (cr : ChangeRequest.t) (request : Request) (user : User.t)
    (pre post : list ChangeRequestFile.t) (f f1 : ChangeRequestFile.t)
    (k k1 : string) (o1 : S3Object)
    (Hrole : User.role user ∈ WRITE_ROLES)
    (Hcr : select_change_request cr_id w = (Ok (Some cr), w))
    (Hst : ChangeRequest.status cr = CRStatus.approved)
    (Hfiles : cr_files cr_id w = pre ++ f :: post)
    (Hready : staged_ok (bucket w) pre = true)
    (Hact : ChangeRequestFile.action f ∈ [FileAction.create; FileAction.edit])
    (Hkey : ChangeRequestFile.staging_s3_key f = Some k)
    (Hk : startswith k "_staging/" = true)
    (Hmissing : bucket w !! k = None)
    (Hin : f1 ∈ pre)
    (Hact1 : ChangeRequestFile.action f1
             ∈ [FileAction.create; FileAction.edit])
    (Hkey1 : ChangeRequestFile.staging_s3_key f1 = Some k1)
    (Hblob1 : bucket w !! k1 = Some o1) :
  fst (merge_change_request cr_id request user w) = Raise (NoSuchKey k)
  /\ bucket (snd (merge_change_request cr_id request user w))
       !! ChangeRequestFile.file_path f1
     = Some (mkS3Object (body o1)
               (S3Service.guess_content_type (ChangeRequestFile.file_path f1))).
Proof.
  apply staged_ok_spec in Hready.
  destruct (merge_loop_commits cr pre f1 k1 o1 w Hready Hin Hact1 Hkey1 Hblob1)
    as (wa & id & key & at_ & Ea & _ & Ba).
  destruct (merge_loop_ready cr pre w Hready) as (wa' & Ea' & [_ Fa]).
  rewrite Ea in Ea'. injection Ea' as <-.
  destruct (staging_key_facts k Hk) as (Hne & Hres & Hnv).
  assert (Hka : bucket wa !! k = None).
  { rewrite Fa; [exact Hmissing| | |exact Hnv].
    - intros I. apply list_elem_of_fmap in I as (g & -> & Ig).
      destruct Hready as (_ & Hu & _). rewrite Forall_forall in Hu.
      specialize (Hu g Ig). congruence.
    - intros I. destruct Hready as (_ & _ & _ & Hb).
      rewrite Forall_forall in Hb. destruct (Hb k I) as [_ [o Ho]].
      congruence. }
  assert (Eloop : for_each (cr_files cr_id w) (merge_file cr) w
                  = (Raise (NoSuchKey k), wa)).
  { rewrite Hfiles, for_each_app. rewrite (bind_ok _ _ _ _ _ Ea).
    cbn [for_each]. apply bind_raise.
    now apply merge_file_missing. }
  unfold merge_change_request.
  rewrite (bind_ok _ _ _ _ _ (require_role_ok _ _ _ Hrole)).
  rewrite (bind_ok _ _ _ _ _ Hcr). rewrite bind_get_world.
  rewrite bool_decide_eq_false_2 by (intros N; now apply N).
  cbv zeta. rewrite (bind_raise _ _ _ _ _ Eloop). cbn [fst snd].
  split; [reflexivity|exact Ba].
Qed.

(** X10. Create by a write-capable actor: a title that is blank once
    stripped is a 400 and nothing is written; otherwise the title is stored
    stripped in a new draft of the actor, with the identifier the sequence
    gives, and one audit record is written.  When no change request holds
    that identifier yet, the new one is what a look-up by it returns. *)
Theorem create_change_request_opens_draft (w : World) (req : CreateCRRequest)
    (request : Request) (user : User.t)
    (Hrole : User.role user ∈ WRITE_ROLES) :
  let cr := ChangeRequest.mk (change_requests_seq (db w))
              (strip (create_title req)) (create_description req)
              CRStatus.draft (User.id user) None None None None
              (utcnow w) (utcnow w) in
  (strip (create_title req) = "" ->
   create_change_request req request user w
   = (Raise (HTTPException 400 "Title is required"), w))
  /\ (strip (create_title req) ≠ "" ->
      exists w',
        create_change_request req request user w
        = (Ok (ChangeRequest.id cr, strip (create_title req), CRStatus.draft),
           w')
        /\ change_requests (db w') = change_requests (db w) ++ [cr]
        /\ audit_logs (db w')
           = audit_logs (db w)
             ++ [AuditLog.mk (audit_logs_seq (db w)) (User.id user)
                   "cr.create" "change_request"
                   (pretty (ChangeRequest.id cr)) [] (ip_of request)]
        /\ change_request_files (db w') = change_request_files (db w)
        /\ file_versions (db w') = file_versions (db w)
        /\ bucket w' = bucket w
        /\ (Forall (fun c => ChangeRequest.id c ≠ ChangeRequest.id cr)
              (change_requests (db w)) ->
            select_change_request (ChangeRequest.id cr) w'
            = (Ok (Some cr), w'))).
Proof.
  intros cr. unfold create_change_request.
  rewrite (bind_ok _ _ _ _ _ (require_role_ok _ _ _ Hrole)).
  split; intros Htitle.
  - now rewrite decide_True.
  - rewrite decide_False by assumption.
    eexists. split; [reflexivity|]. repeat split.
    intros Hfresh. apply select_change_request_Some.
    cbn. rewrite filter_app.
    rewrite filter_cons_True by reflexivity. rewrite filter_nil.
    replace (filter _ (change_requests (db w))) with (@nil ChangeRequest.t);
      [reflexivity|].
    symmetry. now apply filter_none.
Qed.

(** X11. Remove-file by the author or an admin, whatever the status of the
    change request: when no entry of this change request has the given
    identifier (an entry of another change request included) it is a 404 and
    nothing changes; otherwise the entry leaves the table and its staged blob
    the bucket, and nothing else changes. *)
Theorem remove_file_from_cr_outcomes (w : World) (cr_id file_id : Z)
    (cr : ChangeRequest.t) (user : User.t)
    (found : option ChangeRequestFile.t)
    (Hrole : User.role user ∈ WRITE_ROLES)
    (Hcr : select_change_request cr_id w = (Ok (Some cr), w))
    (Hown : not_author_nor_admin cr user = false)
    (Hentry : filter (fun f => ChangeRequestFile.id f = file_id
                               ∧ ChangeRequestFile.change_request_id f = cr_id)
                (change_request_files (db w))
              = option_list found) :
  match found with
  | None =>
      remove_file_from_cr cr_id file_id user w
      = (Raise (HTTPException 404 "File entry not found"), w)
  | Some crf =>
      exists w',
        remove_file_from_cr cr_id file_id user w = (Ok tt, w')
        /\ change_request_files (db w')
           = filter (fun f => ChangeRequestFile.id f ≠ file_id)
               (change_request_files (db w))
        /\ bucket w'
           = (if truthy (ChangeRequestFile.staging_s3_key crf)
              then base.delete
                     (default "" (ChangeRequestFile.staging_s3_key crf))
                     (bucket w)
              else bucket w)
        /\ change_requests (db w') = change_requests (db w)
        /\ file_versions (db w') = file_versions (db w)
  end.
Proof.
  unfold remove_file_from_cr.
  rewrite (bind_ok _ _ _ _ _ (require_role_ok _ _ _ Hrole)).
  rewrite (bind_ok _ _ _ _ _ Hcr). rewrite Hown, bind_get_world.
  rewrite Hentry.
  rewrite (bind_ok _ _ _ _ _ (scalar_one_or_none_option_list found w)).
  destruct found as [crf|]; [|reflexivity].
  rewrite replace_step. eexists. split; [reflexivity|].
  assert (Hid : ChangeRequestFile.id crf = file_id).
  { assert (I : crf ∈ [crf]) by apply list_elem_of_here.
    change [crf] with (option_list (Some crf)) in I. rewrite <- Hentry in I.
    now apply list_elem_of_filter in I as [[I _] _]. }
  split; [|repeat split].
  cbn. apply list_filter_iff. intros f. rewrite <- Hid.
  rewrite list_elem_of_singleton. clear. pure_tauto.
Qed.

(** X12. Add-file over an entry of the same path.  The change request
    holds an entry of [path] with a staged blob.  An edit of the path, which
    has a live version, replaces it: the change request then holds exactly
    one entry of the path, the new one, based on that version and with the
    encoded content as its staged blob; every other entry it holds was
    there before, under another path; and the staged blob of the entry it
    replaced is gone.  A create of the path does not go through: the flush
    inserts the new entry before it deletes the old one, and the unique
    index on change request and path raises; by then the staged blob of the
    old entry is deleted and the content of the request left in the bucket
    under a new staging key. *)
Theorem add_file_to_cr_replaces (w : World) (cr_id : Z) (cr : ChangeRequest.t)
    (user : User.t) (path content : string) (content_bytes : list Byte.byte)
    (e : ChangeRequestFile.t) (k : string)
    (Hrole : User.role user ∈ WRITE_ROLES)
    (Hcr : select_change_request cr_id w = (Ok (Some cr), w))
    (Hown : not_author_nor_admin cr user = false)
    (Hst : not_draft_nor_rejected cr = false)
    (Hstrip : strip_slash path = path) (Hpath : path ≠ "")
    (Henc : encode_utf8 content = Some content_bytes)
    (He : e ∈ files_of cr_id w)
    (Hp : ChangeRequestFile.file_path e = path)
    (Hk : ChangeRequestFile.staging_s3_key e = Some k) (Hne : k ≠ "")
    (Hnk : k ≠ next_staging_key w) :
  (forall l, latest_version path w = Some l ->
     FileVersion.is_delete l = false ->
     let entry :=
       ChangeRequestFile.mk (change_request_files_seq (db w)) cr_id path
         FileAction.edit (Some (next_staging_key w)) (Some (FileVersion.id l))
         (utcnow w) in
     exists w',
       add_file_to_cr cr_id (mkAddFileRequest path "edit" (Some content))
         user w
       = (Ok (change_request_files_seq (db w), path, "edit"), w')
       /\ filter (fun f => ChangeRequestFile.file_path f = path)
            (files_of cr_id w')
          = [entry]
       /\ bucket w' !! next_staging_key w
          = Some (mkS3Object content_bytes
                    (S3Service.guess_content_type path))
       /\ bucket w' !! k = None
       /\ (forall f, f ∈ files_of cr_id w' ->
             f = entry
             \/ (f ∈ files_of cr_id w
                 /\ ChangeRequestFile.file_path f ≠ path)))
  /\ (let refused :=
        add_file_to_cr cr_id (mkAddFileRequest path "create" (Some content))
          user w in
      fst refused = Raise IntegrityError
      /\ bucket (snd refused) !! k = None
      /\ bucket (snd refused) !! next_staging_key w
         = Some (mkS3Object content_bytes
                   (S3Service.guess_content_type path))).
Proof.
  set (existing := filter (fun f => ChangeRequestFile.file_path f = path)
                     (files_of cr_id w)).
  assert (Ie : e ∈ existing) by (apply list_elem_of_filter; auto).
  assert (Hgone : bucket (replaced existing w) !! k = None).
  { cbn [bucket replaced].
    now apply (lookup_discarded_in _ _ e). }
  split.
  - intros l Hl Hlive entry.
    assert (E :
      add_file_to_cr cr_id (mkAddFileRequest path "edit" (Some content))
        user w
      = (Ok (change_request_files_seq (db w), path, "edit"),
         inserted entry
           (staged content_bytes (S3Service.guess_content_type path)
              (replaced existing w)))).
    { unfold add_file_to_cr.
      rewrite (bind_ok _ _ _ _ _ (require_role_ok _ _ _ Hrole)).
      rewrite (bind_ok _ _ _ _ _ Hcr).
      cbn [bind get_world]. rewrite Hown, Hst.
      cbn [add_file_path add_action add_content]. rewrite Hstrip.
      destruct (decide (path = "")) as [E|_]; [contradiction|].
      change (FileAction.of_string "edit") with (Some FileAction.edit).
      cbv beta iota zeta.
      rewrite (bind_ok _ _ _ _ _ (replace_loop _ _)), replaced_existing.
      fold existing.
      change (bool_decide (FileAction.edit
                             ∈ [FileAction.create; FileAction.edit]))
        with true.
      change (bool_decide (FileAction.edit
                             ∈ [FileAction.edit; FileAction.delete]))
        with true.
      cbv iota. rewrite Henc.
      rewrite (bind_ok _ _ _ _ _ (stage_blob _ _ _)).
      rewrite bind_assoc.
      rewrite (bind_ok _ _ _ _ _ (select_latest_version_eq _ _)).
      rewrite (latest_version_frame path w) by reflexivity.
      rewrite Hl, Hlive. cbn [negb]. rewrite bind_ret.
      assert (Pe : existing
                   ≡ₚ filter (fun f =>
                               ChangeRequestFile.change_request_id f = cr_id
                               ∧ ChangeRequestFile.file_path f = path)
                        (change_request_files (db w))).
      { unfold existing. rewrite <- (existing_perm cr_id path w).
        now rewrite cr_files_perm. }
      rewrite (bind_ok _ _ _ _ _
                 (add_after_replace cr_id path existing FileAction.edit _ _ w
                    (staged content_bytes (S3Service.guess_content_type path)
                       (replaced existing w))
                    Pe eq_refl)).
      reflexivity. }
    eexists. split; [exact E|].
    assert (F : files_of cr_id
                  (inserted entry
                     (staged content_bytes (S3Service.guess_content_type path)
                        (replaced existing w)))
                = kept path (files_of cr_id w) ++ [entry]).
    { unfold files_of at 1. cbn. rewrite filter_app.
      rewrite filter_cons_True by reflexivity. rewrite filter_nil. f_equal.
      apply (files_of_replaced cr_id path w). }
    assert (Hkept : forall f, f ∈ kept path (files_of cr_id w) ->
                      f ∈ files_of cr_id w
                      /\ ChangeRequestFile.file_path f ≠ path).
    { intros f I. apply list_elem_of_filter in I as [I1 I2].
      split; [exact I2|].
      intros Ef. apply I1. apply list_elem_of_fmap. exists f.
      split; [reflexivity|]. apply list_elem_of_filter. auto. }
    split; [|split; [|split]].
    + rewrite F, filter_app. rewrite filter_cons_True by reflexivity.
      rewrite filter_nil. rewrite filter_none; [reflexivity|].
      apply Forall_forall. intros f I. now apply Hkept.
    + cbn [bucket inserted with_db staged]. apply lookup_insert_eq.
    + cbn [bucket inserted with_db staged].
      change (next_staging_key (replaced existing w))
        with (next_staging_key w).
      rewrite lookup_insert_ne by congruence. exact Hgone.
    + intros f I. rewrite F in I. apply elem_of_app in I as [I|I].
      * right. now apply Hkept.
      * left. now apply list_elem_of_singleton in I.
  - assert (E :
      add_file_to_cr cr_id (mkAddFileRequest path "create" (Some content))
        user w
      = (Raise IntegrityError,
         staged content_bytes (S3Service.guess_content_type path)
           (replaced existing w))).
    { unfold add_file_to_cr.
      rewrite (bind_ok _ _ _ _ _ (require_role_ok _ _ _ Hrole)).
      rewrite (bind_ok _ _ _ _ _ Hcr).
      cbn [bind get_world]. rewrite Hown, Hst.
      cbn [add_file_path add_action add_content]. rewrite Hstrip.
      destruct (decide (path = "")) as [E|_]; [contradiction|].
      change (FileAction.of_string "create") with (Some FileAction.create).
      cbv beta iota zeta.
      rewrite (bind_ok _ _ _ _ _ (replace_loop _ _)), replaced_existing.
      fold existing.
      change (bool_decide (FileAction.create
                             ∈ [FileAction.create; FileAction.edit]))
        with true.
      change (bool_decide (FileAction.create
                             ∈ [FileAction.edit; FileAction.delete]))
        with false.
      cbv iota. rewrite Henc.
      rewrite (bind_ok _ _ _ _ _ (stage_blob _ _ _)), bind_ret.
      apply bind_raise. apply add_change_request_file_conflict.
      apply Exists_app. left. apply Exists_exists. exists e. split.
      - apply list_elem_of_filter. split; [exact Hp|].
        now apply elem_of_cr_files.
      - split; [|exact Hp].
        now apply list_elem_of_filter in He as [He _]. }
    cbv zeta. rewrite E. cbn [fst snd bucket staged].
    change (next_staging_key (replaced existing w))
      with (next_staging_key w).
    split; [reflexivity|]. split.
    + rewrite lookup_insert_ne by congruence. exact Hgone.
    + apply lookup_insert_eq.
Qed.

(** X13. Two errors of add-file come after the bucket was changed, and the
    bucket is not transactional.  For a path that already has an entry with
    a staged blob: a create without content is a 400, and an edit of a path
    with no live version is a 404, but in both cases the staged blob of the
    entry is already deleted; in the second the content of the refused
    request is moreover left in the bucket under a new staging key. *)
Theorem add_file_to_cr_fails_after_effects (w : World) (cr_id : Z)
    (cr : ChangeRequest.t) (user : User.t) (raw_path content : string)
    (content_bytes : list Byte.byte) (e : ChangeRequestFile.t) (k : string)
    (Hrole : User.role user ∈ WRITE_ROLES)
    (Hcr : select_change_request cr_id w = (Ok (Some cr), w))
    (Hown : not_author_nor_admin cr user = false)
    (Hst : not_draft_nor_rejected cr = false)
    (Hpath : strip_slash raw_path ≠ "")
    (He : e ∈ files_of cr_id w)
    (Hp : ChangeRequestFile.file_path e = strip_slash raw_path)
    (Hk : ChangeRequestFile.staging_s3_key e = Some k) (Hne : k ≠ "")
    (Hnew : is_new (latest_version (strip_slash raw_path) w) = true)
    (Henc : encode_utf8 content = Some content_bytes) :
  let missing :=
    add_file_to_cr cr_id (mkAddFileRequest raw_path "create" None) user w in
  let absent :=
    add_file_to_cr cr_id (mkAddFileRequest raw_path "edit" (Some content))
      user w in
  fst missing
  = Raise (HTTPException 400 "Content is required for create/edit actions")
  /\ bucket (snd missing) !! k = None
  /\ fst absent
     = Raise (HTTPException 404 "File does not exist, use 'create' action")
  /\ bucket (snd absent) !! next_staging_key w
     = Some (mkS3Object content_bytes
               (S3Service.guess_content_type (strip_slash raw_path)))
  /\ (k ≠ next_staging_key w -> bucket (snd absent) !! k = None).
Proof.
  set (path := strip_slash raw_path) in *.
  set (existing := filter (fun f => ChangeRequestFile.file_path f = path)
                     (files_of cr_id w)).
  assert (Hgone : bucket (replaced existing w) !! k = None).
  { cbn [bucket replaced]. apply (lookup_discarded_in _ _ e); [|exact Hk|exact Hne].
    apply list_elem_of_filter. auto. }
  assert (Emissing :
    add_file_to_cr cr_id (mkAddFileRequest raw_path "create" None) user w
    = (Raise (HTTPException 400 "Content is required for create/edit actions"),
       replaced existing w)).
  { unfold add_file_to_cr.
    rewrite (bind_ok _ _ _ _ _ (require_role_ok _ _ _ Hrole)).
    rewrite (bind_ok _ _ _ _ _ Hcr).
    cbn [bind get_world]. rewrite Hown, Hst.
    cbn [add_file_path add_action add_content]. fold path.
    destruct (decide (path = "")) as [E|_]; [contradiction|].
    change (FileAction.of_string "create") with (Some FileAction.create).
    cbv beta iota zeta.
    rewrite (bind_ok _ _ _ _ _ (replace_loop _ _)), replaced_existing.
    fold existing.
    change (bool_decide (FileAction.create ∈ [FileAction.create; FileAction.edit]))
      with true.
    reflexivity. }
  assert (Eabsent :
    add_file_to_cr cr_id (mkAddFileRequest raw_path "edit" (Some content))
      user w
    = (Raise (HTTPException 404 "File does not exist, use 'create' action"),
       staged content_bytes (S3Service.guess_content_type path)
         (replaced existing w))).
  { unfold add_file_to_cr.
    rewrite (bind_ok _ _ _ _ _ (require_role_ok _ _ _ Hrole)).
    rewrite (bind_ok _ _ _ _ _ Hcr).
    cbn [bind get_world]. rewrite Hown, Hst.
    cbn [add_file_path add_action add_content]. fold path.
    destruct (decide (path = "")) as [E|_]; [contradiction|].
    change (FileAction.of_string "edit") with (Some FileAction.edit).
    cbv beta iota zeta.
    rewrite (bind_ok _ _ _ _ _ (replace_loop _ _)), replaced_existing.
    fold existing.
    change (bool_decide (FileAction.edit ∈ [FileAction.create; FileAction.edit]))
      with true.
    change (bool_decide (FileAction.edit ∈ [FileAction.edit; FileAction.delete]))
      with true.
    cbv iota. rewrite Henc.
    rewrite (bind_ok _ _ _ _ _ (stage_blob _ _ _)).
    apply bind_raise.
    rewrite (bind_ok _ _ _ _ _ (select_latest_version_eq _ _)).
    rewrite (latest_version_frame path w) by reflexivity.
    unfold is_new in Hnew.
    destruct (latest_version path w) as [l|]; [rewrite Hnew|]; reflexivity. }
  cbv zeta. rewrite Emissing, Eabsent. cbn [fst snd].
  split; [reflexivity|]. split; [exact Hgone|]. split; [reflexivity|].
  split.
  - cbn [bucket staged]. apply lookup_insert_eq.
  - intros Hnk. cbn [bucket staged].
    rewrite lookup_insert_ne by (intros E; apply Hnk; symmetry; exact E).
    exact Hgone.
Qed.

(** ** app/routers/files.py: the working draft *)

Lemma first_by_desc_In {A} (key : A -> Z) (l : list A) (x : A) :
  first_by_desc key l = Some x -> x ∈ l.
Proof.
  revert x. induction l as [|r l IH]; intros x H; [discriminate|].
  cbn [first_by_desc] in H.
  destruct (first_by_desc key l) as [b|].
  - destruct (key r <? key b); injection H as <-.
    + apply list_elem_of_further. now apply IH.
    + apply list_elem_of_here.
  - injection H as <-. apply list_elem_of_here.
Qed.

Lemma first_by_desc_None {A} (key : A -> Z) (l : list A) :
  first_by_desc key l = None -> l = [].
Proof.
  destruct l as [|r l]; [reflexivity|]. cbn [first_by_desc].
  destruct (first_by_desc key l) as [b|]; [|discriminate].
  destruct (key r <? key b); discriminate.
Qed.

(** The drafts of a user, as [_get_or_create_draft_cr] selects them. *)
Definition drafts_of (user : User.t) (w : World) : list ChangeRequest.t :=
  filter (fun c => ChangeRequest.author_id c = User.id user
                   ∧ ChangeRequest.status c = CRStatus.draft)
    (change_requests (db w)).

(** The draft [_get_or_create_draft_cr] opens for a user who has none. *)
Definition auto_draft (user : User.t) (w : World) : ChangeRequest.t :=
  ChangeRequest.mk (change_requests_seq (db w))
    ("Changes by " +:+ User.username user)
    "Auto-created draft. Edit the title before submitting."
    CRStatus.draft (User.id user) None None None None (utcnow w) (utcnow w).

Lemma get_or_create_draft_cr_found user request w cr :
  first_by_desc ChangeRequest.updated_at (drafts_of user w) = Some cr ->
  _get_or_create_draft_cr user request w = (Ok cr, w).
Proof.
  intros H. unfold _get_or_create_draft_cr. rewrite bind_get_world.
  fold (drafts_of user w). rewrite H.
  now rewrite (bind_ok _ _ _ _ _ (scalar_one_or_none_option_list _ _)).
Qed.

Lemma get_or_create_draft_cr_created user request w :
  drafts_of user w = [] ->
  exists w1,
    _get_or_create_draft_cr user request w = (Ok (auto_draft user w), w1)
    /\ change_requests (db w1) = change_requests (db w) ++ [auto_draft user w]
    /\ change_request_files (db w1) = change_request_files (db w)
    /\ change_request_files_seq (db w1) = change_request_files_seq (db w)
    /\ file_versions (db w1) = file_versions (db w)
    /\ bucket w1 = bucket w
    /\ uuid4_hex w1 = uuid4_hex w /\ uuid4_drawn w1 = uuid4_drawn w
    /\ utcnow w1 = utcnow w.
Proof.
  intros H. unfold _get_or_create_draft_cr. rewrite bind_get_world.
  fold (drafts_of user w). rewrite H. cbn [first_by_desc option_list].
  eexists. split; [reflexivity|]. repeat split.
Qed.

(** X14. [_get_or_create_draft_cr] always succeeds and returns a draft of the
    user: the one most recently updated when the user has a draft, and then
    nothing is written; otherwise a new one, titled after the user.  Called
    again it returns the same draft and writes nothing: staging never opens a
    second working draft.  Entries, ledger and bucket are as they were. *)
Theorem get_or_create_draft_cr_idempotent (w : World) (user : User.t)
    (request : Request) :
  exists cr w1,
    _get_or_create_draft_cr user request w = (Ok cr, w1)
    /\ ChangeRequest.author_id cr = User.id user
    /\ ChangeRequest.status cr = CRStatus.draft
    /\ (forall request', _get_or_create_draft_cr user request' w1 = (Ok cr, w1))
    /\ (first_by_desc ChangeRequest.updated_at (drafts_of user w) = Some cr
        /\ w1 = w
        \/ drafts_of user w = [] /\ cr = auto_draft user w
           /\ change_requests (db w1) = change_requests (db w) ++ [cr])
    /\ change_request_files (db w1) = change_request_files (db w)
    /\ file_versions (db w1) = file_versions (db w)
    /\ bucket w1 = bucket w.
Proof.
  destruct (first_by_desc ChangeRequest.updated_at (drafts_of user w))
    as [cr|] eqn:Hd.
  - exists cr, w.
    pose proof (first_by_desc_In _ _ _ Hd) as I.
    apply list_elem_of_filter in I as [[Ia Is] _].
    split; [now apply get_or_create_draft_cr_found|].
    repeat split; try assumption.
    + intros request'. now apply get_or_create_draft_cr_found.
    + left. auto.
  - apply first_by_desc_None in Hd.
    destruct (get_or_create_draft_cr_created user request w Hd)
      as (w1 & E & C & F & _ & V & B & _).
    exists (auto_draft user w), w1. split; [exact E|].
    repeat split; try assumption.
    + intros request'. apply get_or_create_draft_cr_found.
      unfold drafts_of. rewrite C, filter_app. fold (drafts_of user w).
      rewrite Hd. rewrite filter_cons_True by (split; reflexivity).
      reflexivity.
    + right. auto.
Qed.

(** ** What a handler leaves alone *)

(** A handler [m], run in a world that satisfies the invariant [I], ends in
    a world that satisfies [I] and is related to the first by [R], whether
    it returns or raises; what it returns satisfies [Q]. *)
Definition framed (I : World -> Prop) (R : World -> World -> Prop) {A}
    (m : M A) (Q : A -> Prop) : Prop :=
  forall w, I w ->
    I (snd (m w)) /\ R w (snd (m w)) /\ forall a, fst (m w) = Ok a -> Q a.

Lemma framed_run I R {A} (m : M A) (Q : A -> Prop) (w : World) :
  framed I R m Q -> I w -> I (snd (m w)) /\ R w (snd (m w)).
Proof. intros Hm Hw. destruct (Hm w Hw) as (W & L & _). auto. Qed.

Lemma snd_require_role roles user w : snd (require_role roles user w) = w.
Proof. unfold require_role. now destruct (bool_decide _). Qed.

Lemma snd_scalar_one_or_none {A} (rows : list A) w :
  snd (scalar_one_or_none rows w) = w.
Proof. now destruct rows as [|r [|r' rows]]. Qed.

Lemma snd_select_latest_version path w : snd (select_latest_version path w) = w.
Proof. now rewrite select_latest_version_eq. Qed.

Lemma snd_get_object key w : snd (S3Service.get_object key w) = w.
Proof.
  unfold S3Service.get_object. rewrite bind_get_world.
  now destruct (bucket w !! key).
Qed.

Section Frame.

Context (I : World -> Prop) (R : World -> World -> Prop) (HR : PreOrder R).

Lemma framed_ret {A} (a : A) (Q : A -> Prop) : Q a -> framed I R (ret a) Q.
Proof using HR.
  intros H w Hw. cbn. split; [exact Hw|]. split; [reflexivity|].
  now intros ? [= <-].
Qed.

Lemma framed_raise {A} (e : Exception) (Q : A -> Prop) :
  framed I R (raise e) Q.
Proof using HR.
  intros w Hw. cbn. split; [exact Hw|]. split; [reflexivity|]. discriminate.
Qed.

Lemma framed_bind {A B} (m : M A) (k : A -> M B) (Q : A -> Prop)
    (Q' : B -> Prop) :
  framed I R m Q -> (forall a, Q a -> framed I R (k a) Q') ->
  framed I R (bind m k) Q'.
Proof using HR.
  intros Hm Hk w Hw. destruct (Hm w Hw) as (W1 & L1 & Q1).
  unfold bind. destruct (m w) as [[a|e] w1]; cbn [fst snd] in *.
  - destruct (Hk a (Q1 a eq_refl) w1 W1) as (W2 & L2 & Q2).
    split; [exact W2|]. split; [|exact Q2]. now transitivity w1.
  - split; [exact W1|]. split; [exact L1|]. discriminate.
Qed.

Lemma framed_weaken {A} (m : M A) (Q Q' : A -> Prop) :
  framed I R m Q -> (forall a, Q a -> Q' a) -> framed I R m Q'.
Proof.
  intros Hm HQ w Hw. destruct (Hm w Hw) as (W1 & L1 & Q1).
  split; [exact W1|]. split; [exact L1|]. intros a Ha. auto.
Qed.

Lemma framed_bind_get_world {B} (k : World -> M B) (Q' : B -> Prop) :
  (forall w0, I w0 -> framed I R (k w0) Q') -> framed I R (bind get_world k) Q'.
Proof. intros Hk w Hw. rewrite bind_get_world. now apply Hk. Qed.

(** A step that only reads. *)
Lemma framed_read {A} (m : M A) :
  (forall w, snd (m w) = w) -> framed I R m (fun _ => True).
Proof using HR.
  intros H w Hw. rewrite H. split; [exact Hw|]. split; [reflexivity|]. auto.
Qed.

Lemma framed_try_pass (m : M unit) (Q : unit -> Prop) :
  framed I R m Q -> framed I R (try_pass m) (fun _ => True).
Proof.
  intros Hm w Hw. destruct (Hm w Hw) as (W1 & L1 & _).
  unfold try_pass. destruct (m w) as [[u|e] w1]; cbn [fst snd] in *; auto.
Qed.

Lemma framed_try_or_raise {A} (m : M A) (e : Exception) (Q : A -> Prop) :
  framed I R m Q -> framed I R (try_or_raise m e) Q.
Proof.
  intros Hm w Hw. destruct (Hm w Hw) as (W1 & L1 & Q1).
  unfold try_or_raise. destruct (m w) as [[u|e'] w1]; cbn [fst snd] in *.
  - auto.
  - split; [exact W1|]. split; [exact L1|]. discriminate.
Qed.

Lemma framed_for_each {A} (l : list A) (body : A -> M unit) :
  (forall x, x ∈ l -> framed I R (body x) (fun _ => True)) ->
  framed I R (for_each l body) (fun _ => True).
Proof using HR.
  induction l as [|x l IH]; intros H; cbn [for_each].
  - now apply framed_ret.
  - apply (framed_bind _ _ (fun _ => True)).
    + apply H, list_elem_of_here.
    + intros _ _. apply IH. intros y Iy. apply H.
      now apply list_elem_of_further.
Qed.

Lemma framed_require_role roles user :
  framed I R (require_role roles user) (fun _ => True).
Proof using HR. apply framed_read, snd_require_role. Qed.

Lemma framed_scalar_one_or_none {A} (rows : list A) :
  framed I R (scalar_one_or_none rows)
    (fun r => forall x, r = Some x -> x ∈ rows).
Proof using HR.
  intros w Hw. rewrite snd_scalar_one_or_none.
  split; [exact Hw|]. split; [reflexivity|].
  destruct rows as [|r [|r' rows]]; cbn.
  - intros a [= <-] x E. discriminate.
  - intros a [= <-] x [= <-]. apply list_elem_of_here.
  - discriminate.
Qed.

Lemma framed_select_change_request cr_id :
  framed I R (select_change_request cr_id) (fun _ => True).
Proof using HR. apply framed_read, select_change_request_world. Qed.

Lemma framed_select_latest_version path :
  framed I R (select_latest_version path) (fun _ => True).
Proof using HR. apply framed_read, snd_select_latest_version. Qed.

Lemma framed_get_object key :
  framed I R (S3Service.get_object key) (fun _ => True).
Proof using HR. apply framed_read, snd_get_object. Qed.

(** The upload of the staged content returns the key it drew, which is
    under [_staging/]. *)
Lemma framed_stage_blob content ctype :
  framed I R S3Service.generate_staging_key (fun _ => True) ->
  (forall key, startswith key "_staging/" = true ->
     framed I R (S3Service.put_object key content ctype) (fun _ => True)) ->
  framed I R
    (let* key := S3Service.generate_staging_key in
     S3Service.put_object key content ctype >> ret (Some key))
    (fun o => forall k, o = Some k -> startswith k "_staging/" = true).
Proof using HR.
  intros Hg Hp.
  apply (framed_bind _ _ (fun key => startswith key "_staging/" = true)).
  - intros w Hw. destruct (Hg w Hw) as (W & L & _).
    split; [exact W|]. split; [exact L|].
    intros a [= <-]. apply next_staging_key_prefix.
  - intros key Hkey. apply (framed_bind _ _ (fun _ => True)); [now apply Hp|].
    intros _ _. apply framed_ret. now intros k [= <-].
Qed.

End Frame.

Create HintDb frame.

(** The steps of a handler, one after the other; what is left is what the
    hints of the relation at hand do not settle. *)
Ltac frame_side :=
  first [ exact I | assumption | discriminate | now intros ? [=] ].

Ltac frame_auto :=
  cbv zeta;
  lazymatch goal with
  | |- framed _ _ (ret _) _ => apply (framed_ret _ _ _); frame_side
  | |- framed _ _ (raise _) _ => apply (framed_raise _ _ _)
  | |- framed _ _ (bind get_world _) _ =>
      apply framed_bind_get_world; intros ? ?; frame_auto
  | |- framed _ _ (let* key := S3Service.generate_staging_key in _) _ =>
      first [solve [auto with frame] | idtac]
  | |- framed _ _ (bind (scalar_one_or_none ?rows) _) _ =>
      eapply (framed_bind _ _ _ _ _ _ _
                (framed_scalar_one_or_none _ _ _ rows));
      intros ? ?; frame_auto
  | |- framed _ _ (bind ?m _) _ =>
      lazymatch type of m with
      | M (option string) =>
          eapply (framed_bind _ _ _ m _
                    (fun o => forall k, o = Some k ->
                                startswith k "_staging/" = true));
          [frame_auto | intros ? ?; frame_auto]
      | _ =>
          eapply (framed_bind _ _ _ m _ (fun _ => True));
          [frame_auto | intros ? _; frame_auto]
      end
  | |- framed _ _ (if ?c then _ else _) _ => destruct c; frame_auto
  | |- framed _ _ (match ?x with _ => _ end) _ => destruct x; frame_auto
  | |- framed _ _ (_get_latest_version _) _ =>
      apply (framed_select_latest_version _ _ _)
  | |- framed _ _ (select_latest_version _) _ =>
      apply (framed_select_latest_version _ _ _)
  | |- framed _ _ (require_role _ _) _ => apply (framed_require_role _ _ _)
  | |- framed _ _ (select_change_request _) _ =>
      apply (framed_select_change_request _ _ _)
  | |- framed _ _ (S3Service.get_object _) _ =>
      apply (framed_get_object _ _ _)
  | |- framed _ _ (scalar_one_or_none _) _ =>
      eapply framed_weaken; [apply (framed_scalar_one_or_none _ _ _)|auto]
  | |- framed _ _ (try_or_raise _ _) _ =>
      apply framed_try_or_raise; frame_auto
  | |- framed _ _ (try_pass _) _ =>
      eapply framed_try_pass; frame_auto
  | |- _ => first [solve [auto with frame] | idtac]
  end.

(** ** Staging never touches what is live *)

(** The staging key of an entry, when it has one, is under [_staging/]. *)
Definition staged_under_prefix (f : ChangeRequestFile.t) : bool :=
  match ChangeRequestFile.staging_s3_key f with
  | Some k => startswith k "_staging/"
  | None => true
  end.

Definition staging_keys_wf (w : World) : Prop :=
  Forall (fun f => staged_under_prefix f = true) (change_request_files (db w)).

(** The ledger is the same, and so is every blob outside [_staging/]. *)
Definition live_untouched (w w' : World) : Prop :=
  file_versions (db w') = file_versions (db w)
  /\ forall key, startswith key "_staging/" = false ->
       bucket w' !! key = bucket w !! key.

#[local] Instance live_untouched_preorder : PreOrder live_untouched.
Proof.
  split.
  - intros w. split; auto.
  - intros w1 w2 w3 [V1 B1] [V2 B2]. split; [congruence|].
    intros key Hk. now rewrite B2, B1.
Qed.

(** [m], run where the staging keys are under [_staging/], keeps them there
    and leaves what is live untouched. *)
Abbreviation safe := (framed staging_keys_wf live_untouched).

Lemma Forall_filtered {A} (Q : A -> Prop) (P : A -> Prop)
    `{forall x, Decision (P x)} (l : list A) :
  Forall Q l -> Forall Q (filter P l).
Proof.
  rewrite !Forall_forall. intros HQ x Ix. apply HQ.
  now apply list_elem_of_filter in Ix.
Qed.

(** A step that writes neither entries, nor versions, nor blobs. *)
Lemma safe_elsewhere {A} (m : M A) :
  (forall w, change_request_files (db (snd (m w))) = change_request_files (db w)
             /\ file_versions (db (snd (m w))) = file_versions (db w)
             /\ bucket (snd (m w)) = bucket w) ->
  safe m (fun _ => True).
Proof.
  intros H w Hw. destruct (H w) as (F & V & B).
  unfold staging_keys_wf, live_untouched. rewrite F, V, B. auto.
Qed.

Lemma safe_add_change_request title description author_id status :
  safe (add_change_request title description author_id status) (fun _ => True).
Proof. apply safe_elsewhere. intros w. repeat split. Qed.

Lemma safe_flush_change_request old cr :
  safe (flush_change_request old cr) (fun _ => True).
Proof.
  apply safe_elsewhere. intros w. unfold flush_change_request.
  destruct (decide (cr = old)); repeat split.
Qed.

Lemma safe_add_audit_log user_id action resource_type resource_id details
    request :
  safe (add_audit_log user_id action resource_type resource_id details request)
    (fun _ => True).
Proof. apply safe_elsewhere. intros w. repeat split. Qed.

Lemma safe_put_object key content ctype :
  startswith key "_staging/" = true ->
  safe (S3Service.put_object key content ctype) (fun _ => True).
Proof.
  intros Hk w Hw. cbn. split; [exact Hw|]. split; [|auto].
  split; [reflexivity|]. intros key' Hk'. cbn.
  apply lookup_insert_ne. congruence.
Qed.

Lemma safe_delete_object key :
  startswith key "_staging/" = true ->
  safe (S3Service.delete_object key) (fun _ => True).
Proof.
  intros Hk w Hw. cbn. split; [exact Hw|]. split; [|auto].
  split; [reflexivity|]. intros key' Hk'. cbn.
  apply lookup_delete_ne. congruence.
Qed.

Lemma safe_generate_staging_key :
  safe S3Service.generate_staging_key (fun _ => True).
Proof. intros w Hw. cbn. split; [exact Hw|]. split; [split; auto|auto]. Qed.

Lemma safe_stage_blob content ctype :
  safe (let* key := S3Service.generate_staging_key in
        S3Service.put_object key content ctype >> ret (Some key))
    (fun o => forall k, o = Some k -> startswith k "_staging/" = true).
Proof.
  apply (framed_stage_blob _ _ _); [apply safe_generate_staging_key|].
  intros key Hkey. now apply safe_put_object.
Qed.

Lemma safe_discard_staged_blob e :
  staged_under_prefix e = true -> safe (discard_staged_blob e) (fun _ => True).
Proof.
  intros He. unfold discard_staged_blob. unfold staged_under_prefix in He.
  destruct (ChangeRequestFile.staging_s3_key e) as [k|];
    [|now apply (framed_ret _ _ _)].
  destruct (truthy (Some k)); [|now apply (framed_ret _ _ _)].
  apply (framed_try_pass _ _ _ (fun _ => True)). now apply safe_delete_object.
Qed.

Lemma safe_delete_change_request_file e :
  safe (delete_change_request_file e) (fun _ => True).
Proof.
  intros w Hw. cbn. split; [|split; [split; auto|auto]].
  unfold staging_keys_wf in *. cbn. now apply Forall_filtered.
Qed.

Lemma safe_add_change_request_file unflushed cr_id path action staging_key
    base :
  (forall k, staging_key = Some k -> startswith k "_staging/" = true) ->
  safe (add_change_request_file unflushed cr_id path action staging_key base)
    (fun _ => True).
Proof.
  intros Hk w Hw. unfold add_change_request_file.
  destruct (bool_decide _); [now cbn|].
  cbn. split; [|split; [split; auto|auto]].
  unfold staging_keys_wf in *. cbn. apply Forall_app. split; [exact Hw|].
  repeat constructor. unfold staged_under_prefix. cbn.
  destruct staging_key as [k|]; auto.
Qed.

(** The clean-up of the staged blobs of entries of the table. *)
Lemma safe_discard_entry (P : ChangeRequestFile.t -> Prop)
    `{forall f, Decision (P f)} (w0 : World) (e : ChangeRequestFile.t) :
  staging_keys_wf w0 -> e ∈ filter P (change_request_files (db w0)) ->
  safe (discard_staged_blob e) (fun _ => True).
Proof.
  intros Hw Ie. apply safe_discard_staged_blob.
  apply list_elem_of_filter in Ie as [_ Ie].
  unfold staging_keys_wf in Hw. rewrite Forall_forall in Hw. now apply Hw.
Qed.

(** The replace loop of the two staging paths, on entries of the table. *)
Lemma safe_replace_loop (existing : list ChangeRequestFile.t) :
  Forall (fun f => staged_under_prefix f = true) existing ->
  safe (for_each existing (fun e =>
          discard_staged_blob e >> delete_change_request_file e))
    (fun _ => True).
Proof.
  intros H. apply (framed_for_each _ _ _). intros e Ie.
  rewrite Forall_forall in H.
  apply (framed_bind _ _ _ _ _ (fun _ => True)).
  - now apply safe_discard_staged_blob, H.
  - intros _ _. apply safe_delete_change_request_file.
Qed.

Lemma staging_keys_wf_entries w :
  staging_keys_wf w ->
  Forall (fun f => staged_under_prefix f = true) (change_request_files (db w)).
Proof. auto. Qed.

Lemma staging_keys_wf_cr_files cr_id w :
  staging_keys_wf w ->
  Forall (fun f => staged_under_prefix f = true) (cr_files cr_id w).
Proof.
  intros Hw. apply Forall_arranged. unfold files_of.
  now apply Forall_filtered.
Qed.

#[local] Hint Resolve safe_add_change_request safe_flush_change_request
  safe_add_audit_log safe_stage_blob safe_delete_change_request_file
  safe_add_change_request_file safe_replace_loop Forall_filtered
  Forall_arranged staging_keys_wf_entries staging_keys_wf_cr_files : frame.

#[local] Hint Extern 1 (Forall _ (files_of _ _)) => unfold files_of : frame.

Lemma safe_get_or_create_draft_cr user request :
  safe (_get_or_create_draft_cr user request) (fun _ => True).
Proof. unfold _get_or_create_draft_cr. frame_auto. Qed.

Lemma safe_retitle message cr : safe (retitle message cr) (fun _ => True).
Proof. unfold retitle. frame_auto. Qed.

Lemma safe_stage_file_in_cr cr file_path action content_bytes :
  safe (_stage_file_in_cr cr file_path action content_bytes) (fun _ => True).
Proof. unfold _stage_file_in_cr. frame_auto. Qed.

#[local] Hint Resolve safe_get_or_create_draft_cr safe_retitle
  safe_stage_file_in_cr : frame.

Lemma safe_save_file req request user :
  safe (save_file req request user) (fun _ => True).
Proof. unfold save_file. frame_auto. Qed.

Lemma safe_upload_file request path message file user :
  safe (upload_file request path message file user) (fun _ => True).
Proof. unfold upload_file. frame_auto. Qed.

Lemma safe_delete_file path request user :
  safe (delete_file path request user) (fun _ => True).
Proof. unfold delete_file. frame_auto. Qed.

Lemma safe_restore_version path version request user :
  safe (restore_version path version request user) (fun _ => True).
Proof. unfold restore_version. frame_auto. Qed.

(** X15. Where the staging keys of the entries are under [_staging/], the
    handlers of the file API that stage a change (save, upload, delete and
    restore) leave the ledger and every blob outside [_staging/] as they
    were, whether they return or raise, and the staging keys stay under
    [_staging/]: what is live changes on merge only. *)
Theorem staging_leaves_live_untouched (w : World) (Hwf : staging_keys_wf w) :
  (forall req request user,
      let w' := snd (save_file req request user w) in
      staging_keys_wf w' /\ live_untouched w w')
  /\ (forall request path message file user,
        let w' := snd (upload_file request path message file user w) in
        staging_keys_wf w' /\ live_untouched w w')
  /\ (forall path request user,
        let w' := snd (delete_file path request user w) in
        staging_keys_wf w' /\ live_untouched w w')
  /\ (forall path version request user,
        let w' := snd (restore_version path version request user w) in
        staging_keys_wf w' /\ live_untouched w w').
Proof.
  split; [|split; [|split]]; intros; cbv zeta.
  - exact (framed_run _ _ _ _ _ (safe_save_file _ _ _) Hwf).
  - exact (framed_run _ _ _ _ _ (safe_upload_file _ _ _ _ _) Hwf).
  - exact (framed_run _ _ _ _ _ (safe_delete_file _ _ _) Hwf).
  - exact (framed_run _ _ _ _ _ (safe_restore_version _ _ _ _) Hwf).
Qed.

Lemma safe_create_change_request req request user :
  safe (create_change_request req request user) (fun _ => True).
Proof. unfold create_change_request. frame_auto. Qed.

Lemma safe_update_change_request cr_id req user :
  safe (update_change_request cr_id req user) (fun _ => True).
Proof. unfold update_change_request. frame_auto. Qed.

Lemma safe_add_file_to_cr cr_id req user :
  safe (add_file_to_cr cr_id req user) (fun _ => True).
Proof. unfold add_file_to_cr. frame_auto. Qed.

Lemma safe_remove_file_from_cr cr_id file_id user :
  safe (remove_file_from_cr cr_id file_id user) (fun _ => True).
Proof.
  unfold remove_file_from_cr. frame_auto.
  match goal with
  | Hw : staging_keys_wf _, Hin : forall x, Some ?c = Some x -> _ |- _ =>
      specialize (Hin c eq_refl); now apply (safe_discard_entry _ _ _ Hw Hin)
  end.
Qed.

Lemma safe_submit_for_review cr_id request user :
  safe (submit_for_review cr_id request user) (fun _ => True).
Proof. unfold submit_for_review. frame_auto. Qed.

Lemma safe_review_change_request cr_id req request user :
  safe (review_change_request cr_id req request user) (fun _ => True).
Proof. unfold review_change_request. frame_auto. Qed.

Lemma safe_close_change_request cr_id request user :
  safe (close_change_request cr_id request user) (fun _ => True).
Proof.
  unfold close_change_request. frame_auto.
  apply (framed_for_each _ _ _). intros e Ie.
  apply safe_discard_staged_blob.
  match goal with
  | Hw : staging_keys_wf ?v, Hin : e ∈ cr_files _ ?v |- _ =>
      pose proof (staging_keys_wf_cr_files cr_id v Hw) as F;
      rewrite Forall_forall in F; now apply F
  end.
Qed.

(** X16. The same of the change-request API, merge apart: create, update,
    add-file, remove-file, submit, review and close leave the ledger and
    every blob outside [_staging/] as they were, whether they return or
    raise, and keep the staging keys under [_staging/]. *)
Theorem workflow_leaves_live_untouched (w : World) (Hwf : staging_keys_wf w) :
  (forall req request user,
      let w' := snd (create_change_request req request user w) in
      staging_keys_wf w' /\ live_untouched w w')
  /\ (forall cr_id req user,
        let w' := snd (update_change_request cr_id req user w) in
        staging_keys_wf w' /\ live_untouched w w')
  /\ (forall cr_id req user,
        let w' := snd (add_file_to_cr cr_id req user w) in
        staging_keys_wf w' /\ live_untouched w w')
  /\ (forall cr_id file_id user,
        let w' := snd (remove_file_from_cr cr_id file_id user w) in
        staging_keys_wf w' /\ live_untouched w w')
  /\ (forall cr_id request user,
        let w' := snd (submit_for_review cr_id request user w) in
        staging_keys_wf w' /\ live_untouched w w')
  /\ (forall cr_id req request user,
        let w' := snd (review_change_request cr_id req request user w) in
        staging_keys_wf w' /\ live_untouched w w')
  /\ (forall cr_id request user,
        let w' := snd (close_change_request cr_id request user w) in
        staging_keys_wf w' /\ live_untouched w w').
Proof.
  split; [|split; [|split; [|split; [|split; [|split]]]]]; intros; cbv zeta.
  - exact (framed_run _ _ _ _ _ (safe_create_change_request _ _ _) Hwf).
  - exact (framed_run _ _ _ _ _ (safe_update_change_request _ _ _) Hwf).
  - exact (framed_run _ _ _ _ _ (safe_add_file_to_cr _ _ _) Hwf).
  - exact (framed_run _ _ _ _ _ (safe_remove_file_from_cr _ _ _) Hwf).
  - exact (framed_run _ _ _ _ _ (safe_submit_for_review _ _ _) Hwf).
  - exact (framed_run _ _ _ _ _ (safe_review_change_request _ _ _ _) Hwf).
  - exact (framed_run _ _ _ _ _ (safe_close_change_request _ _ _) Hwf).
Qed.


Lemma merge_loop_ledger cr files :
  forall w,
    let w' := snd (for_each files (merge_file cr) w) in
    change_request_files (db w') = change_request_files (db w)
    /\ exists rows,
        file_versions (db w') = file_versions (db w) ++ rows
        /\ Forall (fun fv => FileVersion.file_path fv
                            ∈ map ChangeRequestFile.file_path files) rows.
Proof.
  induction files as [|f files IH]; intros w; cbv zeta.
  - cbn. split; [reflexivity|]. exists []. now rewrite app_nil_r.
  - cbn [for_each]. unfold bind at 1 2.
    assert (Hf : change_request_files (db (snd (merge_file cr f w)))
                 = change_request_files (db w)).
    { unfold merge_file.
      destruct (bool_decide (ChangeRequestFile.action f ∈ _)).
      - destruct (negb _); [reflexivity|]. cbv zeta.
        unfold bind at 1. unfold S3Service.get_object. rewrite bind_get_world.
        destruct (bucket w !! default "" (ChangeRequestFile.staging_s3_key f));
          reflexivity.
      - destruct (decide _); reflexivity. }
    pose proof (merge_file_ledger cr f w) as Hl.
    destruct (merge_file cr f w) as [[u|e] w1]; cbn [fst snd] in *.
    + destruct (IH w1) as (F1 & rows & V1 & P1). cbv zeta in F1, V1.
      split; [congruence|].
      destruct Hl as [Hl|(fv & Hl & Hp & _)].
      * exists rows. rewrite V1, Hl. split; [reflexivity|].
        eapply Forall_impl; [exact P1|]. intros x Hx.
        now apply list_elem_of_further.
      * exists (fv :: rows). rewrite V1, Hl, <- app_assoc.
        split; [reflexivity|]. constructor.
        -- rewrite Hp. apply list_elem_of_here.
        -- eapply Forall_impl; [exact P1|]. intros x Hx.
           now apply list_elem_of_further.
    + split; [exact Hf|].
      destruct Hl as [Hl|(fv & Hl & Hp & _)].
      * exists []. now rewrite app_nil_r.
      * exists [fv]. split; [exact Hl|]. constructor; [|constructor].
        rewrite Hp. apply list_elem_of_here.
Qed.

(** X17. The ledger is append-only under merge.  Whatever the world, the
    change request and the actor, and whether merge returns or raises, the
    rows of the ledger are afterwards the rows before followed by new ones,
    each of the path of an entry of the change request; no row is rewritten
    or removed, and the entries are as they were. *)
Theorem merge_appends_to_ledger (w : World) (cr_id : Z) (request : Request)
    (user : User.t) :
  let w' := snd (merge_change_request cr_id request user w) in
  change_request_files (db w') = change_request_files (db w)
  /\ exists rows,
      file_versions (db w') = file_versions (db w) ++ rows
      /\ Forall (fun fv => FileVersion.file_path fv
                          ∈ map ChangeRequestFile.file_path (files_of cr_id w))
           rows.
Proof.
  cbv zeta.
  assert (Hsame : forall w0 : World,
            change_request_files (db w0) = change_request_files (db w0)
            /\ exists rows,
                file_versions (db w0) = file_versions (db w0) ++ rows
                /\ Forall (fun fv => FileVersion.file_path fv
                                    ∈ map ChangeRequestFile.file_path
                                        (files_of cr_id w)) rows).
  { intros w0. split; [reflexivity|]. exists []. now rewrite app_nil_r. }
  unfold merge_change_request.
  destruct (decide (User.role user
                    ∈ [UserRole.admin; UserRole.approver; UserRole.editor]))
    as [Hr|Hr].
  2: { rewrite (bind_raise _ _ _ _ _ (require_role_denied _ _ _ Hr)).
       apply Hsame. }
  rewrite (bind_ok _ _ _ _ _ (require_role_ok _ _ _ Hr)).
  pose proof (surjective_pairing (select_change_request cr_id w)) as Hs.
  rewrite select_change_request_world in Hs.
  destruct (fst (select_change_request cr_id w)) as [found|e].
  2: { rewrite (bind_raise _ _ _ _ _ Hs). apply Hsame. }
  rewrite (bind_ok _ _ _ _ _ Hs), bind_get_world.
  destruct found as [cr|]; [|apply Hsame].
  destruct (bool_decide _); [apply Hsame|]. cbv zeta.
  assert (Hloop :
    change_request_files
      (db (snd (for_each (cr_files cr_id w) (merge_file cr) w)))
    = change_request_files (db w)
    /\ exists rows,
        file_versions
          (db (snd (for_each (cr_files cr_id w) (merge_file cr) w)))
        = file_versions (db w) ++ rows
        /\ Forall (fun fv => FileVersion.file_path fv
                            ∈ map ChangeRequestFile.file_path
                                (files_of cr_id w)) rows).
  { destruct (merge_loop_ledger cr (cr_files cr_id w) w)
      as (F & rows & V & P).
    split; [exact F|]. exists rows. split; [exact V|].
    eapply Forall_impl; [exact P|]. intros fv I. cbv beta in I.
    now rewrite (cr_files_perm cr_id w) in I. }
  pose proof (surjective_pairing (for_each (cr_files cr_id w) (merge_file cr) w))
    as Hl.
  destruct (fst (for_each (cr_files cr_id w) (merge_file cr) w)) as [u|e].
  2: { rewrite (bind_raise _ _ _ _ _ Hl). exact Hloop. }
  rewrite (bind_ok _ _ _ _ _ Hl), bind_get_world.
  unfold flush_change_request. destruct (decide _); exact Hloop.
Qed.

(** ** From a staged change to the ledger *)

(** The base version [_stage_file_in_cr] records: the latest version of the
    path when the action is an edit or a delete and that version is live. *)
Definition base_of (action : FileAction.t) (path : string) (w : World)
    : option Z :=
  if bool_decide (action ∈ [FileAction.edit; FileAction.delete]) then
    match latest_version path w with
    | Some l =>
        if negb (FileVersion.is_delete l) then Some (FileVersion.id l)
        else None
    | None => None
    end
  else None.

(** The entry [_stage_file_in_cr] adds. *)
Definition staged_entry (cr_id : Z) (path : string) (action : FileAction.t)
    (key : option string) (w : World) : ChangeRequestFile.t :=
  ChangeRequestFile.mk (change_request_files_seq (db w)) cr_id path action key
    (base_of action path w) (utcnow w).

Lemma existing_entries cr_id path w :
  filter (fun f => ChangeRequestFile.change_request_id f = cr_id
                   ∧ ChangeRequestFile.file_path f = path)
    (change_request_files (db w))
  = filter (fun f => ChangeRequestFile.file_path f = path) (files_of cr_id w).
Proof.
  unfold files_of. rewrite list_filter_filter. apply list_filter_iff.
  intros f. clear. pure_tauto.
Qed.

Lemma stage_base_version action path w :
  (if bool_decide (action ∈ [FileAction.edit; FileAction.delete]) then
     (let* latest := select_latest_version path in
      match latest with
      | Some l => if negb (FileVersion.is_delete l)
                  then ret (Some (FileVersion.id l)) else ret None
      | None => ret None
      end)
   else ret None) w
  = (Ok (base_of action path w), w).
Proof.
  unfold base_of. destruct (bool_decide _); [|reflexivity].
  rewrite (bind_ok _ _ _ _ _ (select_latest_version_eq _ _)).
  destruct (latest_version path w) as [l|]; [|reflexivity].
  now destruct (FileVersion.is_delete l).
Qed.

(** [_stage_file_in_cr] with content, for a create or an edit. *)
Lemma stage_file_in_cr_content cr path action bytes w :
  action ∈ [FileAction.create; FileAction.edit] ->
  (action = FileAction.create ->
   path ∉ map ChangeRequestFile.file_path (files_of (ChangeRequest.id cr) w)) ->
  let entry := staged_entry (ChangeRequest.id cr) path action
                 (Some (next_staging_key w)) w in
  exists w',
    _stage_file_in_cr cr path action (Some bytes) w = (Ok entry, w')
    /\ files_of (ChangeRequest.id cr) w'
       = kept path (files_of (ChangeRequest.id cr) w) ++ [entry]
    /\ bucket w'
       = <[next_staging_key w
           := mkS3Object bytes (S3Service.guess_content_type path)]>
           (bucket (replaced
                      (filter (fun e => ChangeRequestFile.file_path e = path)
                         (files_of (ChangeRequest.id cr) w)) w))
    /\ change_requests (db w') = change_requests (db w)
    /\ file_versions (db w') = file_versions (db w)
    /\ audit_logs (db w') = audit_logs (db w)
    /\ audit_logs_seq (db w') = audit_logs_seq (db w)
    /\ utcnow w' = utcnow w.
Proof.
  intros Hact Hnew entry. unfold _stage_file_in_cr. rewrite bind_get_world.
  rewrite existing_entries. cbv zeta.
  rewrite (bind_ok _ _ _ _ _ (replace_loop _ _)).
  rewrite (bool_decide_eq_true_2 _ Hact).
  rewrite (bind_ok _ _ _ _ _ (stage_blob _ _ _)).
  rewrite (bind_ok _ _ _ _ _ (stage_base_version _ _ _)).
  rewrite (add_staged (ChangeRequest.id cr) path action _ _ w).
  2: { apply elem_of_cons in Hact as [->|Hact]; [right; auto|].
       apply list_elem_of_singleton in Hact as ->. left. decide_now. }
  2: reflexivity.
  rewrite replaced_arranged.
  eexists. split; [reflexivity|]. split; [|repeat split].
  unfold files_of at 1. cbn. rewrite filter_app.
  rewrite filter_cons_True by reflexivity. rewrite filter_nil. f_equal.
  apply (files_of_replaced (ChangeRequest.id cr) path w).
Qed.

(** [_stage_file_in_cr] without content, for a delete. *)
Lemma stage_file_in_cr_delete cr path w :
  let entry := staged_entry (ChangeRequest.id cr) path FileAction.delete
                 None w in
  exists w',
    _stage_file_in_cr cr path FileAction.delete None w = (Ok entry, w')
    /\ files_of (ChangeRequest.id cr) w'
       = kept path (files_of (ChangeRequest.id cr) w) ++ [entry]
    /\ bucket w'
       = bucket (replaced
                   (filter (fun e => ChangeRequestFile.file_path e = path)
                      (files_of (ChangeRequest.id cr) w)) w)
    /\ change_requests (db w') = change_requests (db w)
    /\ file_versions (db w') = file_versions (db w)
    /\ audit_logs (db w') = audit_logs (db w)
    /\ audit_logs_seq (db w') = audit_logs_seq (db w)
    /\ utcnow w' = utcnow w.
Proof.
  intros entry. unfold _stage_file_in_cr. rewrite bind_get_world.
  rewrite existing_entries. cbv zeta.
  rewrite (bind_ok _ _ _ _ _ (replace_loop _ _)).
  cbn [bind ret].
  rewrite (bind_ok _ _ _ _ _ (stage_base_version _ _ _)).
  rewrite (add_staged (ChangeRequest.id cr) path FileAction.delete _ _ w).
  2: left; decide_now.
  2: reflexivity.
  rewrite replaced_arranged.
  eexists. split; [reflexivity|]. split; [|repeat split].
  unfold files_of at 1. cbn. rewrite filter_app.
  rewrite filter_cons_True by reflexivity. rewrite filter_nil. f_equal.
  apply (files_of_replaced (ChangeRequest.id cr) path w).
Qed.

Lemma kept_spec path files f :
  f ∈ kept path files ->
  f ∈ files /\ ChangeRequestFile.file_path f ≠ path.
Proof.
  intros I. apply list_elem_of_filter in I as [I1 I2]. split; [exact I2|].
  intros E. apply I1. apply list_elem_of_fmap. exists f. split; [reflexivity|].
  apply list_elem_of_filter. auto.
Qed.

(** The entries of a change request stay ready when one of them is staged
    anew, with or without a blob. *)
Lemma ready_after_stage cr_id path w (b' : gmap string S3Object) entry :
  ready (bucket w) (files_of cr_id w) ->
  startswith path "_" = false ->
  ChangeRequestFile.file_path entry = path ->
  match ChangeRequestFile.staging_s3_key entry with
  | Some k =>
      k = next_staging_key w
      /\ (next_staging_key w ∉ staging_keys (files_of cr_id w))
      /\ exists o,
          b' = <[next_staging_key w := o]>
                 (bucket (replaced
                            (filter (fun e => ChangeRequestFile.file_path e = path)
                               (files_of cr_id w)) w))
  | None =>
      b' = bucket (replaced
                     (filter (fun e => ChangeRequestFile.file_path e = path)
                        (files_of cr_id w)) w)
  end ->
  ready b' (kept path (files_of cr_id w) ++ [entry]).
Proof.
  intros (Hp & Hu & Hk & Hb) Hpath Hentry Hkey.
  set (files := files_of cr_id w) in *.
  pose proof (kept_spec path files) as Hsub.
  assert (Hold : forall k, k ∈ staging_keys (kept path files) ->
            startswith k "_staging/" = true
            /\ is_Some (bucket (replaced
                          (filter (fun e => ChangeRequestFile.file_path e = path)
                             files) w) !! k)).
  { intros k I. apply list_elem_of_omap in I as (f & I & E).
    pose proof (Hsub f I) as [If Ip].
    assert (Ik : k ∈ staging_keys files) by (apply list_elem_of_omap; eauto).
    rewrite Forall_forall in Hb. destruct (Hb k Ik) as [Hs Hsome].
    split; [exact Hs|].
    cbn [bucket replaced]. rewrite lookup_discarded; [exact Hsome|].
    intros e Ie Ee. apply list_elem_of_filter in Ie as [Ee1 Ee2].
    assert (f = e) as -> by (eapply (NoDup_omap_inj _ files); eassumption).
    contradiction. }
  unfold ready. rewrite map_app, staging_keys_app, staging_keys_cons.
  cbn [map]. rewrite Hentry. change (staging_keys []) with (@nil string).
  split; [|split].
  - apply NoDup_app. split; [now apply NoDup_map_filter|]. split.
    + intros p I. apply list_elem_of_fmap in I as (f & -> & I).
      apply Hsub in I as [_ I]. rewrite list_elem_of_singleton. congruence.
    + apply NoDup_singleton.
  - apply Forall_app. split.
    + rewrite Forall_forall in *. intros f I. apply Hu. now apply Hsub.
    + constructor; [now rewrite Hentry|constructor].
  - destruct (ChangeRequestFile.staging_s3_key entry) as [k|].
    + destruct Hkey as (-> & Hfresh & o & ->). split.
      * apply NoDup_app. split; [now apply NoDup_omap_filter|]. split.
        -- intros k I. rewrite list_elem_of_singleton. intros ->.
           apply Hfresh. apply list_elem_of_omap in I as (f & I & E).
           apply list_elem_of_omap. exists f. split; [now apply Hsub|exact E].
        -- apply NoDup_singleton.
      * apply Forall_app. split.
        -- rewrite Forall_forall. intros k I.
           destruct (Hold k I) as [Hs Hsome]. split; [exact Hs|].
           rewrite lookup_insert_ne; [exact Hsome|].
           intros <-. apply Hfresh.
           apply list_elem_of_omap in I as (f & I & E).
           apply list_elem_of_omap. exists f. split; [now apply Hsub|exact E].
        -- repeat constructor; [apply next_staging_key_prefix|].
           rewrite lookup_insert_eq. eauto.
    + subst b'. rewrite app_nil_r. split; [now apply NoDup_omap_filter|].
      rewrite Forall_forall. exact Hold.
Qed.

(** Submit, approve and merge, seen from a create or an edit that is staged
    with its blob in a change request whose entries are ready. *)
Lemma staged_then_merged w1 cr_id cr1 author reviewer merger request comment
    f0 k0 o :
  select_change_request cr_id w1 = (Ok (Some cr1), w1) ->
  not_draft_nor_rejected cr1 = false ->
  User.role author ∈ WRITE_ROLES -> not_author_nor_admin cr1 author = false ->
  User.role reviewer ∈ [UserRole.admin; UserRole.approver] ->
  ChangeRequest.author_id cr1 ≠ User.id reviewer
  \/ User.role reviewer = UserRole.admin ->
  User.role merger ∈ WRITE_ROLES ->
  ready (bucket w1) (files_of cr_id w1) -> f0 ∈ files_of cr_id w1 ->
  ChangeRequestFile.action f0 ∈ [FileAction.create; FileAction.edit] ->
  ChangeRequestFile.staging_s3_key f0 = Some k0 ->
  bucket w1 !! k0 = Some o ->
  exists w2 w3 w4 fv,
    submit_for_review cr_id request author w1
    = (Ok CRStatus.pending_review, w2)
    /\ review_change_request cr_id (mkReviewRequest "approve" comment) request
         reviewer w2
       = (Ok CRStatus.approved, w3)
    /\ merge_change_request cr_id request merger w3 = (Ok CRStatus.merged, w4)
    /\ latest_version (ChangeRequestFile.file_path f0) w4 = Some fv
    /\ FileVersion.version fv
       = next_version (ChangeRequestFile.file_path f0) w1
    /\ FileVersion.content_hash fv = sha256_hexdigest (body o)
    /\ FileVersion.size fv = len (body o)
    /\ FileVersion.is_delete fv = false
    /\ bucket w4 !! ChangeRequestFile.file_path f0
       = Some (mkS3Object (body o)
                 (S3Service.guess_content_type (ChangeRequestFile.file_path f0))).
Proof.
  intros S1 Hst Hauthor Hown Hreviewer Hother Hmerger R1 Hin Hact Hkey Hblob.
  assert (N1 : files_of cr_id w1 ≠ []).
  { intros E. rewrite E in Hin. now apply elem_of_nil in Hin. }
  destruct (submit_for_review_ok cr_id request author w1 cr1
              Hauthor S1 Hown Hst N1)
    as (w2 & cr2 & E2 & S2 & St2 & A2 & F2 & V2 & B2).
  destruct (review_change_request_ok cr_id request comment reviewer w2 cr2
              Hreviewer S2 St2)
    as (w3 & cr3 & E3 & S3 & St3 & F3 & V3 & B3).
  { now rewrite A2. }
  assert (F31 : files_of cr_id w3 = files_of cr_id w1).
  { unfold files_of. now rewrite F3, F2. }
  assert (B31 : bucket w3 = bucket w1) by now rewrite B3, B2.
  destruct (merge_change_request_commits w3 cr_id cr3 request merger f0 k0 o)
    as (w4 & fv & E4 & _ & L4 & Ver4 & H4 & Sz4 & D4 & B4);
    try assumption.
  - apply staged_ok_spec. now rewrite F31, B31.
  - now rewrite F31.
  - now rewrite B31.
  - exists w2, w3, w4, fv. repeat split; try assumption.
    rewrite Ver4. apply next_version_frame. unfold versions_of.
    now rewrite V3, V2.
Qed.

(** The same, seen from a staged delete. *)
Lemma staged_then_tombstoned w1 cr_id cr1 author reviewer merger request
    comment f0 :
  select_change_request cr_id w1 = (Ok (Some cr1), w1) ->
  not_draft_nor_rejected cr1 = false ->
  User.role author ∈ WRITE_ROLES -> not_author_nor_admin cr1 author = false ->
  User.role reviewer ∈ [UserRole.admin; UserRole.approver] ->
  ChangeRequest.author_id cr1 ≠ User.id reviewer
  \/ User.role reviewer = UserRole.admin ->
  User.role merger ∈ WRITE_ROLES ->
  ready (bucket w1) (files_of cr_id w1) -> f0 ∈ files_of cr_id w1 ->
  ChangeRequestFile.action f0 = FileAction.delete ->
  exists w2 w3 w4 fv,
    submit_for_review cr_id request author w1
    = (Ok CRStatus.pending_review, w2)
    /\ review_change_request cr_id (mkReviewRequest "approve" comment) request
         reviewer w2
       = (Ok CRStatus.approved, w3)
    /\ merge_change_request cr_id request merger w3 = (Ok CRStatus.merged, w4)
    /\ latest_version (ChangeRequestFile.file_path f0) w4 = Some fv
    /\ FileVersion.version fv
       = next_version (ChangeRequestFile.file_path f0) w1
    /\ FileVersion.is_delete fv = true
    /\ bucket w4 !! ChangeRequestFile.file_path f0 = None.
Proof.
  intros S1 Hst Hauthor Hown Hreviewer Hother Hmerger R1 Hin Hact.
  assert (N1 : files_of cr_id w1 ≠ []).
  { intros E. rewrite E in Hin. now apply elem_of_nil in Hin. }
  destruct (submit_for_review_ok cr_id request author w1 cr1
              Hauthor S1 Hown Hst N1)
    as (w2 & cr2 & E2 & S2 & St2 & A2 & F2 & V2 & B2).
  destruct (review_change_request_ok cr_id request comment reviewer w2 cr2
              Hreviewer S2 St2)
    as (w3 & cr3 & E3 & S3 & St3 & F3 & V3 & B3).
  { now rewrite A2. }
  assert (F31 : files_of cr_id w3 = files_of cr_id w1).
  { unfold files_of. now rewrite F3, F2. }
  assert (B31 : bucket w3 = bucket w1) by now rewrite B3, B2.
  destruct (merge_change_request_tombstones w3 cr_id cr3 request merger f0)
    as (w4 & id & at_ & E4 & _ & L4 & B4); try assumption.
  - apply staged_ok_spec. now rewrite F31, B31.
  - now rewrite F31.
  - eexists w2, w3, w4, _. split; [exact E2|]. split; [exact E3|].
    split; [exact E4|]. split; [exact L4|]. cbn.
    split; [|split; [reflexivity|exact B4]].
    apply next_version_frame. unfold versions_of. now rewrite V3, V2.
Qed.

(** [cr] is the working draft of the user: the draft most recently
    updated, stored under its identifier; or, for a user who has no draft,
    the one to be opened, under an identifier that is not taken. *)
Definition working_draft (user : User.t) (w : World) (cr : ChangeRequest.t)
    : Prop :=
  (first_by_desc ChangeRequest.updated_at (drafts_of user w) = Some cr
   /\ select_change_request (ChangeRequest.id cr) w = (Ok (Some cr), w))
  \/ (drafts_of user w = [] /\ cr = auto_draft user w
      /\ Forall (fun c => ChangeRequest.id c ≠ change_requests_seq (db w))
           (change_requests (db w))).

(** The parts of the world that opening or retitling a draft leaves alone. *)
Definition same_staging (w w' : World) : Prop :=
  change_request_files (db w') = change_request_files (db w)
  /\ change_request_files_seq (db w') = change_request_files_seq (db w)
  /\ file_versions (db w') = file_versions (db w)
  /\ bucket w' = bucket w
  /\ uuid4_hex w' = uuid4_hex w /\ uuid4_drawn w' = uuid4_drawn w
  /\ utcnow w' = utcnow w.

Lemma same_staging_refl w : same_staging w w.
Proof. repeat split. Qed.

Lemma same_staging_trans w1 w2 w3 :
  same_staging w1 w2 -> same_staging w2 w3 -> same_staging w1 w3.
Proof.
  intros (A1 & A2 & A3 & A4 & A5 & A6 & A7) (B1 & B2 & B3 & B4 & B5 & B6 & B7).
  repeat split; congruence.
Qed.

Lemma open_working_draft user request w cr :
  working_draft user w cr ->
  exists wd,
    _get_or_create_draft_cr user request w = (Ok cr, wd)
    /\ select_change_request (ChangeRequest.id cr) wd = (Ok (Some cr), wd)
    /\ ChangeRequest.author_id cr = User.id user
    /\ ChangeRequest.status cr = CRStatus.draft
    /\ same_staging w wd.
Proof.
  intros [[Hd Hs]|(Hd & -> & Hfresh)].
  - exists w. pose proof (first_by_desc_In _ _ _ Hd) as I.
    apply list_elem_of_filter in I as [[Ia Is] _].
    split; [now apply get_or_create_draft_cr_found|].
    repeat split; assumption.
  - destruct (get_or_create_draft_cr_created user request w Hd)
      as (wd & E & C & F & Fs & V & B & U1 & U2 & T).
    exists wd. split; [exact E|]. split; [|repeat split; assumption].
    apply select_change_request_Some. rewrite C, filter_app.
    rewrite filter_cons_True by reflexivity. rewrite filter_nil.
    rewrite filter_none; [reflexivity|exact Hfresh].
Qed.

Lemma retitle_spec message cr w :
  select_change_request (ChangeRequest.id cr) w = (Ok (Some cr), w) ->
  exists cr' wt stored,
    retitle message cr w = (Ok cr', wt)
    /\ ChangeRequest.id cr' = ChangeRequest.id cr
    /\ ChangeRequest.title cr'
       = (if negb (String.eqb message "")
             && startswith (ChangeRequest.title cr) "Changes by "
          then message else ChangeRequest.title cr)
    /\ select_change_request (ChangeRequest.id cr) wt = (Ok (Some stored), wt)
    /\ ChangeRequest.status stored = ChangeRequest.status cr
    /\ ChangeRequest.author_id stored = ChangeRequest.author_id cr
    /\ same_staging w wt.
Proof.
  intros Hs. unfold retitle.
  destruct (negb (String.eqb message "")
            && startswith (ChangeRequest.title cr) "Changes by ").
  - unfold flush_change_request.
    destruct (decide (set_title message cr = cr)) as [E|N].
    + exists (set_title message cr), w, cr. repeat split; assumption.
    + exists (set_title message cr), (flushed (set_title message cr) w),
        (stamped (set_title message cr) w).
      split; [reflexivity|]. split; [reflexivity|]. split; [reflexivity|].
      split; [|repeat split].
      now apply (select_flushed (ChangeRequest.id cr) w cr).
  - exists cr, w, cr. repeat split; assumption.
Qed.

Lemma same_staging_files_of cr_id w w' :
  same_staging w w' -> files_of cr_id w' = files_of cr_id w.
Proof. intros (F & _). unfold files_of. now rewrite F. Qed.

Lemma same_staging_next_key w w' :
  same_staging w w' -> next_staging_key w' = next_staging_key w.
Proof.
  intros (_ & _ & _ & _ & U1 & U2 & _). unfold next_staging_key.
  now rewrite U1, U2.
Qed.

Lemma same_staging_entry cr_id path action key w w' :
  same_staging w w' ->
  staged_entry cr_id path action key w' = staged_entry cr_id path action key w.
Proof.
  intros (_ & Fs & V & _ & _ & _ & T). unfold staged_entry, base_of.
  rewrite Fs, T. now rewrite (latest_version_frame path w w' V).
Qed.

Lemma same_staging_replaced l w w' :
  same_staging w w' -> bucket (replaced l w') = bucket (replaced l w).
Proof. intros (_ & _ & _ & B & _). cbn. now rewrite B. Qed.

(** What a staging handler of the file API leaves, for the working draft
    [cr] of the user and the entry [entry] it stages for [path]. *)
Definition staged_in (cr : ChangeRequest.t) (user : User.t) (path : string)
    (entry : ChangeRequestFile.t) (blob : option S3Object) (w0 w1 : World)
    : Prop :=
  (exists stored,
      select_change_request (ChangeRequest.id cr) w1 = (Ok (Some stored), w1)
      /\ ChangeRequest.status stored = CRStatus.draft
      /\ ChangeRequest.author_id stored = User.id user)
  /\ files_of (ChangeRequest.id cr) w1
     = kept path (files_of (ChangeRequest.id cr) w0) ++ [entry]
  /\ bucket w1
     = (let b := bucket (replaced
                           (filter (fun e => ChangeRequestFile.file_path e = path)
                              (files_of (ChangeRequest.id cr) w0)) w0) in
        match blob with
        | Some o => <[next_staging_key w0 := o]> b
        | None => b
        end)
  /\ file_versions (db w1) = file_versions (db w0).

Lemma save_file_stages raw_path content message request user w0 cr bytes :
  User.role user ∈ WRITE_ROLES ->
  strip_slash raw_path ≠ "" -> startswith (strip_slash raw_path) "_" = false ->
  encode_utf8 content = Some bytes ->
  working_draft user w0 cr ->
  (is_new (latest_version (strip_slash raw_path) w0) = true ->
   strip_slash raw_path
   ∉ map ChangeRequestFile.file_path (files_of (ChangeRequest.id cr) w0)) ->
  let path := strip_slash raw_path in
  let action := if is_new (latest_version path w0) then FileAction.create
                else FileAction.edit in
  let entry := staged_entry (ChangeRequest.id cr) path action
                 (Some (next_staging_key w0)) w0 in
  exists w1 title,
    save_file (mkSaveFileRequest raw_path content message) request user w0
    = (Ok (ChangeRequest.id cr, title, path, action,
           len (files_of (ChangeRequest.id cr) w1)), w1)
    /\ title = (if negb (String.eqb message "")
                   && startswith (ChangeRequest.title cr) "Changes by "
                then message else ChangeRequest.title cr)
    /\ staged_in cr user path entry
         (Some (mkS3Object bytes (S3Service.guess_content_type path))) w0 w1.
Proof.
  intros Hrole Hpath Hunres Henc Hdraft Hnew path action entry.
  destruct (open_working_draft user request w0 cr Hdraft)
    as (wd & Ed & Sd & Ad & Std & Fd).
  destruct (retitle_spec message cr wd Sd)
    as (cr' & wt & stored & Et & It & Tt & St & Stt & At & Ft).
  pose proof (same_staging_trans _ _ _ Fd Ft) as F0.
  assert (Hact : action ∈ [FileAction.create; FileAction.edit]).
  { unfold action. destruct (is_new _); decide_now. }
  assert (Hfree : action = FileAction.create ->
                  path ∉ map ChangeRequestFile.file_path
                         (files_of (ChangeRequest.id cr') wt)).
  { intros Ea. rewrite It, (same_staging_files_of _ _ _ F0). apply Hnew.
    unfold action in Ea. fold path.
    destruct (is_new (latest_version path w0)); [reflexivity|discriminate]. }
  destruct (stage_file_in_cr_content cr' path action bytes wt Hact Hfree)
    as (ws & Es & Fs & Bs & Cs & Vs & _).
  cbv zeta in Es, Fs.
  rewrite It in Es, Fs, Bs.
  rewrite (same_staging_next_key _ _ F0) in Es, Fs, Bs.
  rewrite (same_staging_entry _ _ _ _ _ _ F0) in Es, Fs.
  rewrite (same_staging_files_of _ _ _ F0) in Fs, Bs.
  rewrite (same_staging_replaced _ _ _ F0) in Bs.
  fold entry in Es, Fs.
  eexists _, (ChangeRequest.title cr').
  split; [|split; [exact Tt|]].
  - unfold save_file.
    rewrite (bind_ok _ _ _ _ _ (require_role_ok _ _ _ Hrole)).
    cbv zeta. cbn [save_path save_content save_message]. fold path.
    destruct (decide (path = "")) as [E|_]; [contradiction|].
    fold path in Hunres. rewrite Hunres, Henc.
    unfold _get_latest_version.
    rewrite (bind_ok _ _ _ _ _ (select_latest_version_eq _ _)).
    fold action.
    rewrite (bind_ok _ _ _ _ _ Ed), (bind_ok _ _ _ _ _ Et).
    rewrite (bind_ok _ _ _ _ _ Es).
    cbn [bind add_audit_log modify get_world ret]. rewrite It. reflexivity.
  - split; [|split; [|split]].
    + exists stored. split; [|split; [rewrite Stt; exact Std|congruence]].
      eapply select_change_request_frame; [|exact St]. cbn. exact Cs.
    + exact Fs.
    + exact Bs.
    + cbn. rewrite Vs. apply F0.
Qed.

Lemma staged_in_ready cr user path entry blob w0 w1 :
  staged_in cr user path entry blob w0 w1 ->
  ready (bucket w0) (files_of (ChangeRequest.id cr) w0) ->
  startswith path "_" = false ->
  ChangeRequestFile.file_path entry = path ->
  match blob with
  | Some _ =>
      ChangeRequestFile.staging_s3_key entry = Some (next_staging_key w0)
      /\ next_staging_key w0 ∉ staging_keys (files_of (ChangeRequest.id cr) w0)
  | None => ChangeRequestFile.staging_s3_key entry = None
  end ->
  ready (bucket w1) (files_of (ChangeRequest.id cr) w1)
  /\ entry ∈ files_of (ChangeRequest.id cr) w1.
Proof.
  intros (_ & F & B & _) Hready Hpath Hentry Hkey. rewrite F. split.
  - apply (ready_after_stage (ChangeRequest.id cr) path w0); try assumption.
    rewrite B. cbv zeta. destruct blob as [o|].
    + destruct Hkey as [-> Hfresh]. split; [reflexivity|]. split; [exact Hfresh|].
      now exists o.
    + now rewrite Hkey.
  - apply elem_of_app. right. apply list_elem_of_here.
Qed.

Lemma author_owns cr user :
  ChangeRequest.author_id cr = User.id user ->
  not_author_nor_admin cr user = false.
Proof.
  intros H. unfold not_author_nor_admin.
  rewrite bool_decide_eq_false_2; [reflexivity|]. intros N. now apply N.
Qed.

Lemma draft_is_open cr :
  ChangeRequest.status cr = CRStatus.draft -> not_draft_nor_rejected cr = false.
Proof. intros H. unfold not_draft_nor_rejected. rewrite H. reflexivity. Qed.

(** X18. Save, then the workflow, then read.  A write-capable user saves
    content under a path that is not reserved; [cr] is the working draft of
    the user, its entries are ready and the staging key to come is new; and
    where the path has no live version, so that the save is a create, the
    draft holds no entry of the path yet (the insert of a second one would
    break the unique index on change request and path).  The save answers with the draft, the path without its outer slashes and the
    action: create when the path has no live version, edit otherwise.  Then
    submit by the user, approve by a reviewer (not the user, unless an
    admin) and merge all succeed, and get-content of the path returns the
    saved content (none, flagged binary, when the path is not a text file)
    with the size and digest of its encoding and the next version number. *)
Theorem save_file_roundtrip (w0 : World) (cr : ChangeRequest.t)
    (user reviewer merger reader : User.t) (request : Request)
    (raw_path content message comment : string)
    (content_bytes : list Byte.byte)
    (Huser : User.role user ∈ WRITE_ROLES)
    (Hpath : strip_slash raw_path ≠ "")
    (Hunreserved : startswith (strip_slash raw_path) "_" = false)
    (Henc : encode_utf8 content = Some content_bytes)
    (Hdec : decode_utf8_replace content_bytes = content)
    (Hdraft : working_draft user w0 cr)
    (Hnew : is_new (latest_version (strip_slash raw_path) w0) = true ->
            strip_slash raw_path
            ∉ map ChangeRequestFile.file_path
                (files_of (ChangeRequest.id cr) w0))
    (Hready : staged_ok (bucket w0) (files_of (ChangeRequest.id cr) w0) = true)
    (Hfresh : next_staging_key w0
              ∉ staging_keys (files_of (ChangeRequest.id cr) w0))
    (Hreviewer : User.role reviewer ∈ [UserRole.admin; UserRole.approver])
    (Hother : User.id user ≠ User.id reviewer
              \/ User.role reviewer = UserRole.admin)
    (Hmerger : User.role merger ∈ WRITE_ROLES) :
  let path := strip_slash raw_path in
  exists w1 w2 w3 w4 title count detail,
    save_file (mkSaveFileRequest raw_path content message) request user w0
    = (Ok (ChangeRequest.id cr, title, path,
           (if is_new (latest_version path w0) then FileAction.create
            else FileAction.edit), count), w1)
    /\ submit_for_review (ChangeRequest.id cr) request user w1
       = (Ok CRStatus.pending_review, w2)
    /\ review_change_request (ChangeRequest.id cr)
         (mkReviewRequest "approve" comment) request reviewer w2
       = (Ok CRStatus.approved, w3)
    /\ merge_change_request (ChangeRequest.id cr) request merger w3
       = (Ok CRStatus.merged, w4)
    /\ get_file_content path None reader w4 = (Ok detail, w4)
    /\ detail_content detail
       = (if S3Service.is_text_file path then Some content else None)
    /\ detail_is_binary detail = negb (S3Service.is_text_file path)
    /\ detail_size detail = len content_bytes
    /\ detail_content_hash detail = sha256_hexdigest content_bytes
    /\ detail_version detail = next_version path w0.
Proof.
  intros path. apply staged_ok_spec in Hready.
  destruct (save_file_stages raw_path content message request user w0 cr
              content_bytes Huser Hpath Hunreserved Henc Hdraft Hnew)
    as (w1 & title & E1 & _ & Hst).
  fold path in E1, Hst.
  set (entry := staged_entry _ path _ _ w0) in *.
  destruct (staged_in_ready _ _ _ _ _ _ _ Hst Hready Hunreserved eq_refl
              (conj eq_refl Hfresh)) as [R1 I1].
  pose proof Hst as ((stored & S1 & St1 & A1) & _ & B1 & V1).
  destruct (staged_then_merged w1 (ChangeRequest.id cr) stored user reviewer
              merger request comment entry (next_staging_key w0)
              (mkS3Object content_bytes (S3Service.guess_content_type path)))
    as (w2 & w3 & w4 & fv & E2 & E3 & E4 & L4 & Ver4 & H4 & Sz4 & D4 & B4);
    try assumption.
  - now apply draft_is_open.
  - now apply author_owns.
  - rewrite A1. exact Hother.
  - unfold entry, staged_entry. cbn. destruct (is_new _); decide_now.
  - reflexivity.
  - rewrite B1. apply lookup_insert_eq.
  - cbn [ChangeRequestFile.file_path entry staged_entry body] in L4, Ver4, B4.
    cbn [body] in H4, Sz4.
    exists w1, w2, w3, w4, title. eexists. eexists.
    split; [exact E1|]. split; [exact E2|]. split; [exact E3|].
    split; [exact E4|].
    split; [exact (get_file_content_latest path reader w4 fv _ L4 D4 B4)|].
    cbn [detail_content detail_is_binary detail_size detail_content_hash
         detail_version body].
    rewrite Hdec, H4, Ver4.
    split; [now destruct (S3Service.is_text_file path)|].
    repeat split. apply next_version_frame. unfold versions_of. now rewrite V1.
Qed.

Lemma restore_version_stages path version request user w0 cr target o :
  User.role user ∈ WRITE_ROLES ->
  filter (fun r => FileVersion.file_path r = path
                   ∧ FileVersion.version r = version)
    (file_versions (db w0)) = [target] ->
  FileVersion.is_delete target = false ->
  bucket w0 !! FileVersion.s3_key target = Some o ->
  working_draft user w0 cr ->
  let entry := staged_entry (ChangeRequest.id cr) path FileAction.edit
                 (Some (next_staging_key w0)) w0 in
  exists w1,
    restore_version path version request user w0
    = (Ok (ChangeRequest.id cr, path, version), w1)
    /\ staged_in cr user path entry
         (Some (mkS3Object (body o) (S3Service.guess_content_type path)))
         w0 w1.
Proof.
  intros Hrole Htarget Hlive Hblob Hdraft entry.
  destruct (open_working_draft user request w0 cr Hdraft)
    as (wd & Ed & Sd & Ad & Std & Fd).
  destruct (stage_file_in_cr_content cr path FileAction.edit (body o) wd
              ltac:(decide_now) ltac:(discriminate))
    as (ws & Es & Fs & Bs & Cs & Vs & _).
  cbv zeta in Es, Fs.
  rewrite (same_staging_next_key _ _ Fd) in Es, Fs, Bs.
  rewrite (same_staging_entry _ _ _ _ _ _ Fd) in Es, Fs.
  rewrite (same_staging_files_of _ _ _ Fd) in Fs, Bs.
  rewrite (same_staging_replaced _ _ _ Fd) in Bs.
  fold entry in Es, Fs.
  eexists. split.
  - unfold restore_version.
    rewrite (bind_ok _ _ _ _ _ (require_role_ok _ _ _ Hrole)).
    rewrite bind_get_world, Htarget. cbn [scalar_one_or_none].
    rewrite (bind_ok _ _ _ _ _ (eq_refl : ret (Some target) w0 = _)).
    rewrite Hlive.
    rewrite (bind_ok _ _ _ _ _ (get_object_ok _ _ _ Hblob)).
    rewrite (bind_ok _ _ _ _ _ Ed), (bind_ok _ _ _ _ _ Es).
    reflexivity.
  - split; [|split; [|split]].
    + exists cr. split; [|split; assumption].
      eapply select_change_request_frame; [|exact Sd]. cbn. exact Cs.
    + exact Fs.
    + exact Bs.
    + cbn. rewrite Vs. apply Fd.
Qed.

(** X19. Restore, then the workflow, then read.  A write-capable user
    restores a version of a path that is stored once, is no deletion record
    and has its blob; the working draft of the user is ready and the staging
    key to come is new.  Restore answers with the draft; after submit,
    approve and merge, get-content of the path returns the content of the
    restored version, as a new version with the next number: the ledger
    grows, it is not rewound. *)
Theorem restore_version_roundtrip (w0 : World) (cr : ChangeRequest.t)
    (user reviewer merger reader : User.t) (request : Request)
    (path comment : string) (version : Z) (target : FileVersion.t)
    (o : S3Object)
    (Huser : User.role user ∈ WRITE_ROLES)
    (Htarget : filter (fun r => FileVersion.file_path r = path
                                ∧ FileVersion.version r = version)
                 (file_versions (db w0)) = [target])
    (Hlive : FileVersion.is_delete target = false)
    (Hblob : bucket w0 !! FileVersion.s3_key target = Some o)
    (Hunreserved : startswith path "_" = false)
    (Hdraft : working_draft user w0 cr)
    (Hready : staged_ok (bucket w0) (files_of (ChangeRequest.id cr) w0) = true)
    (Hfresh : next_staging_key w0
              ∉ staging_keys (files_of (ChangeRequest.id cr) w0))
    (Hreviewer : User.role reviewer ∈ [UserRole.admin; UserRole.approver])
    (Hother : User.id user ≠ User.id reviewer
              \/ User.role reviewer = UserRole.admin)
    (Hmerger : User.role merger ∈ WRITE_ROLES) :
  exists w1 w2 w3 w4 detail,
    restore_version path version request user w0
    = (Ok (ChangeRequest.id cr, path, version), w1)
    /\ submit_for_review (ChangeRequest.id cr) request user w1
       = (Ok CRStatus.pending_review, w2)
    /\ review_change_request (ChangeRequest.id cr)
         (mkReviewRequest "approve" comment) request reviewer w2
       = (Ok CRStatus.approved, w3)
    /\ merge_change_request (ChangeRequest.id cr) request merger w3
       = (Ok CRStatus.merged, w4)
    /\ get_file_content path None reader w4 = (Ok detail, w4)
    /\ detail_content detail
       = (if S3Service.is_text_file path
          then Some (decode_utf8_replace (body o)) else None)
    /\ detail_size detail = len (body o)
    /\ detail_content_hash detail = sha256_hexdigest (body o)
    /\ detail_version detail = next_version path w0
    /\ file_versions (db w1) = file_versions (db w0).
Proof.
  apply staged_ok_spec in Hready.
  destruct (restore_version_stages path version request user w0 cr target o
              Huser Htarget Hlive Hblob Hdraft)
    as (w1 & E1 & Hst).
  set (entry := staged_entry _ path _ _ w0) in *.
  destruct (staged_in_ready _ _ _ _ _ _ _ Hst Hready Hunreserved eq_refl
              (conj eq_refl Hfresh)) as [R1 I1].
  pose proof Hst as ((stored & S1 & St1 & A1) & _ & B1 & V1).
  destruct (staged_then_merged w1 (ChangeRequest.id cr) stored user reviewer
              merger request comment entry (next_staging_key w0)
              (mkS3Object (body o) (S3Service.guess_content_type path)))
    as (w2 & w3 & w4 & fv & E2 & E3 & E4 & L4 & Ver4 & H4 & Sz4 & D4 & B4);
    try assumption.
  - now apply draft_is_open.
  - now apply author_owns.
  - rewrite A1. exact Hother.
  - decide_now.
  - reflexivity.
  - rewrite B1. apply lookup_insert_eq.
  - cbn [ChangeRequestFile.file_path entry staged_entry body] in L4, Ver4, B4.
    cbn [body] in H4, Sz4.
    exists w1, w2, w3, w4. eexists.
    split; [exact E1|]. split; [exact E2|]. split; [exact E3|].
    split; [exact E4|].
    split; [exact (get_file_content_latest path reader w4 fv _ L4 D4 B4)|].
    cbn [detail_content detail_is_binary detail_size detail_content_hash
         detail_version body].
    rewrite H4, Ver4.
    split; [now destruct (S3Service.is_text_file path)|].
    repeat split; [|exact V1].
    apply next_version_frame. unfold versions_of. now rewrite V1.
Qed.

Lemma delete_file_stages raw_path request user w0 cr l :
  let path := strip_slash raw_path in
  latest_version path w0 = Some l -> FileVersion.is_delete l = false ->
  User.role user ∈ WRITE_ROLES
  \/ (author_of l w0 ≠ None /\ FileVersion.author_id l = User.id user) ->
  working_draft user w0 cr ->
  let entry := ChangeRequestFile.mk (change_request_files_seq (db w0))
                 (ChangeRequest.id cr) path FileAction.delete None
                 (Some (FileVersion.id l)) (utcnow w0) in
  exists w1,
    delete_file raw_path request user w0
    = (Ok (ChangeRequest.id cr, path,
           len (files_of (ChangeRequest.id cr) w1)), w1)
    /\ staged_in cr user path entry None w0 w1.
Proof.
  intros path Hl Hlive Hperm Hdraft entry.
  destruct (open_working_draft user request w0 cr Hdraft)
    as (wd & Ed & Sd & Ad & Std & Fd).
  destruct (stage_file_in_cr_delete cr path wd)
    as (ws & Es & Fs & Bs & Cs & Vs & _).
  cbv zeta in Es, Fs.
  rewrite (same_staging_entry _ _ _ _ _ _ Fd) in Es, Fs.
  rewrite (same_staging_files_of _ _ _ Fd) in Fs, Bs.
  rewrite (same_staging_replaced _ _ _ Fd) in Bs.
  assert (Hentry : staged_entry (ChangeRequest.id cr) path FileAction.delete
                     None w0 = entry).
  { unfold staged_entry, base_of, entry. cbn. now rewrite Hl, Hlive. }
  rewrite Hentry in Es, Fs.
  eexists. split.
  - unfold delete_file. cbv zeta. fold path. unfold _get_latest_version.
    rewrite (bind_ok _ _ _ _ _ (select_latest_version_eq _ _)).
    rewrite Hl, Hlive, bind_get_world.
    replace (bool_decide (User.role user ∉ WRITE_ROLES)
             && (bool_decide (author_of l w0 = None)
                 || bool_decide (FileVersion.author_id l ≠ User.id user)))
      with false.
    2: { symmetry. destruct Hperm as [H|[H1 H2]].
         - rewrite (bool_decide_eq_false_2 (User.role user ∉ WRITE_ROLES));
             [reflexivity|]. intros N. now apply N.
         - apply andb_false_iff. right. apply orb_false_iff. split.
           + now apply bool_decide_eq_false_2.
           + apply bool_decide_eq_false_2. intros N. now apply N. }
    rewrite (bind_ok _ _ _ _ _ Ed), (bind_ok _ _ _ _ _ Es).
    reflexivity.
  - split; [|split; [|split]].
    + exists cr. split; [|split; assumption].
      eapply select_change_request_frame; [|exact Sd]. cbn. exact Cs.
    + exact Fs.
    + exact Bs.
    + cbn. rewrite Vs. apply Fd.
Qed.

(** X20. Delete, then the workflow, then read.  A user deletes a path whose
    latest version is live: a write-capable user, or the recorded author of
    that version.  Delete stages, in the working draft of the user, a delete
    entry whose base is that version.  After submit (by the user, or by an
    admin for a user without a write role), approve and merge, the latest
    version of the path is a deletion record with the next number, its
    canonical blob is gone, get-content answers 410 and a further delete of
    the path answers 404. *)
Theorem delete_file_roundtrip (w0 : World) (cr : ChangeRequest.t)
    (user submitter reviewer merger reader : User.t) (request : Request)
    (raw_path comment : string) (l : FileVersion.t)
    (Hlatest : latest_version (strip_slash raw_path) w0 = Some l)
    (Hlive : FileVersion.is_delete l = false)
    (Hperm : User.role user ∈ WRITE_ROLES
             \/ (author_of l w0 ≠ None
                 /\ FileVersion.author_id l = User.id user))
    (Hunreserved : startswith (strip_slash raw_path) "_" = false)
    (Hdraft : working_draft user w0 cr)
    (Hready : staged_ok (bucket w0) (files_of (ChangeRequest.id cr) w0) = true)
    (Hsubmitter : User.role submitter ∈ WRITE_ROLES)
    (Hsubmits : User.id submitter = User.id user
                \/ User.role submitter = UserRole.admin)
    (Hreviewer : User.role reviewer ∈ [UserRole.admin; UserRole.approver])
    (Hother : User.id user ≠ User.id reviewer
              \/ User.role reviewer = UserRole.admin)
    (Hmerger : User.role merger ∈ WRITE_ROLES) :
  let path := strip_slash raw_path in
  exists w1 w2 w3 w4 count tombstone,
    delete_file raw_path request user w0
    = (Ok (ChangeRequest.id cr, path, count), w1)
    /\ ChangeRequestFile.mk (change_request_files_seq (db w0))
         (ChangeRequest.id cr) path FileAction.delete None
         (Some (FileVersion.id l)) (utcnow w0)
       ∈ files_of (ChangeRequest.id cr) w1
    /\ submit_for_review (ChangeRequest.id cr) request submitter w1
       = (Ok CRStatus.pending_review, w2)
    /\ review_change_request (ChangeRequest.id cr)
         (mkReviewRequest "approve" comment) request reviewer w2
       = (Ok CRStatus.approved, w3)
    /\ merge_change_request (ChangeRequest.id cr) request merger w3
       = (Ok CRStatus.merged, w4)
    /\ latest_version path w4 = Some tombstone
    /\ FileVersion.is_delete tombstone = true
    /\ FileVersion.version tombstone = FileVersion.version l + 1
    /\ bucket w4 !! path = None
    /\ get_file_content path None reader w4
       = (Raise (HTTPException 410 "File has been deleted"), w4)
    /\ delete_file raw_path request reader w4
       = (Raise (HTTPException 404 "File not found or already deleted"), w4).
Proof.
  intros path. apply staged_ok_spec in Hready.
  destruct (delete_file_stages raw_path request user w0 cr l Hlatest Hlive
              Hperm Hdraft) as (w1 & E1 & Hst).
  fold path in E1, Hst, Hlatest, Hunreserved.
  set (entry := ChangeRequestFile.mk _ _ path _ _ _ _) in *.
  destruct (staged_in_ready _ _ _ _ _ _ _ Hst Hready Hunreserved eq_refl
              eq_refl) as [R1 I1].
  pose proof Hst as ((stored & S1 & St1 & A1) & _ & B1 & V1).
  destruct (staged_then_tombstoned w1 (ChangeRequest.id cr) stored submitter
              reviewer merger request comment entry)
    as (w2 & w3 & w4 & fv & E2 & E3 & E4 & L4 & Ver4 & D4 & B4);
    try assumption.
  - now apply draft_is_open.
  - unfold not_author_nor_admin. rewrite A1. destruct Hsubmits as [H|H].
    + rewrite (bool_decide_eq_false_2 (User.id user ≠ User.id submitter));
        [reflexivity|]. intros N. now apply N.
    + rewrite (bool_decide_eq_false_2 (User.role submitter ≠ UserRole.admin));
        [apply andb_false_r|]. intros N. now apply N.
  - rewrite A1. exact Hother.
  - reflexivity.
  - cbn [ChangeRequestFile.file_path entry] in L4, Ver4, B4.
    exists w1, w2, w3, w4. eexists. exists fv.
    split; [exact E1|]. split; [exact I1|]. split; [exact E2|].
    split; [exact E3|]. split; [exact E4|]. split; [exact L4|].
    split; [exact D4|]. split.
    { rewrite Ver4. rewrite <- (next_version_after_latest path w0 l Hlatest).
      apply next_version_frame. unfold versions_of. now rewrite V1. }
    split; [exact B4|].
    split; [exact (get_file_content_deleted path reader w4 fv L4 D4)|].
    unfold delete_file. cbv zeta. fold path. unfold _get_latest_version.
    rewrite (bind_ok _ _ _ _ _ (select_latest_version_eq _ _)).
    now rewrite L4, D4.
Qed.

(** ** What is written to the audit log *)

(** The audit log is as it was. *)
Definition same_audit (w w' : World) : Prop :=
  audit_logs (db w') = audit_logs (db w).

(** The audit log has grown by records of drafts opened on the way, and by
    nothing else. *)
Definition only_auto_create (w w' : World) : Prop :=
  exists rows,
    audit_logs (db w') = audit_logs (db w) ++ rows
    /\ Forall (fun r => AuditLog.action r = "cr.auto_create") rows.

#[local] Instance same_audit_preorder : PreOrder same_audit.
Proof.
  split; [now intros w|].
  intros w1 w2 w3 H1 H2. unfold same_audit in *. congruence.
Qed.

#[local] Instance only_auto_create_preorder : PreOrder only_auto_create.
Proof.
  split.
  - intros w. exists []. now rewrite app_nil_r.
  - intros w1 w2 w3 (r1 & E1 & F1) (r2 & E2 & F2). exists (r1 ++ r2).
    rewrite E2, E1, app_assoc. split; [reflexivity|]. now apply Forall_app.
Qed.

Abbreviation quiet := (framed (fun _ => True) same_audit).

Lemma quiet_elsewhere {A} (m : M A) :
  (forall w, audit_logs (db (snd (m w))) = audit_logs (db w)) ->
  quiet m (fun _ => True).
Proof. intros H w _. split; [exact I|]. split; [apply H|auto]. Qed.

Lemma quiet_add_change_request title description author_id status :
  quiet (add_change_request title description author_id status)
    (fun _ => True).
Proof. now apply quiet_elsewhere. Qed.

Lemma quiet_flush_change_request old cr :
  quiet (flush_change_request old cr) (fun _ => True).
Proof.
  apply quiet_elsewhere. intros w. unfold flush_change_request.
  now destruct (decide (cr = old)).
Qed.

Lemma quiet_put_object key content ctype :
  quiet (S3Service.put_object key content ctype) (fun _ => True).
Proof. now apply quiet_elsewhere. Qed.

Lemma quiet_stage_blob content ctype :
  quiet (let* key := S3Service.generate_staging_key in
         S3Service.put_object key content ctype >> ret (Some key))
    (fun o => forall k, o = Some k -> startswith k "_staging/" = true).
Proof.
  apply (framed_stage_blob _ _ _); [now apply quiet_elsewhere|].
  intros key _. apply quiet_put_object.
Qed.

Lemma quiet_discard_staged_blob e : quiet (discard_staged_blob e) (fun _ => True).
Proof.
  apply quiet_elsewhere. intros w. unfold discard_staged_blob.
  now destruct (truthy _).
Qed.

Lemma quiet_delete_change_request_file e :
  quiet (delete_change_request_file e) (fun _ => True).
Proof. now apply quiet_elsewhere. Qed.

Lemma quiet_add_change_request_file unflushed cr_id path action staging_key
    base :
  quiet (add_change_request_file unflushed cr_id path action staging_key base)
    (fun _ => True).
Proof.
  apply quiet_elsewhere. intros w. unfold add_change_request_file.
  now destruct (bool_decide _).
Qed.

Lemma quiet_replace_loop (existing : list ChangeRequestFile.t) :
  quiet (for_each existing (fun e =>
           discard_staged_blob e >> delete_change_request_file e))
    (fun _ => True).
Proof.
  apply quiet_elsewhere. intros w. now rewrite replace_loop.
Qed.

#[local] Hint Resolve quiet_add_change_request quiet_flush_change_request
  quiet_put_object quiet_stage_blob quiet_discard_staged_blob
  quiet_delete_change_request_file quiet_add_change_request_file
  quiet_replace_loop : frame.

Lemma quiet_update_change_request cr_id req user :
  quiet (update_change_request cr_id req user) (fun _ => True).
Proof. unfold update_change_request. frame_auto. Qed.

Lemma quiet_add_file_to_cr cr_id req user :
  quiet (add_file_to_cr cr_id req user) (fun _ => True).
Proof. unfold add_file_to_cr. frame_auto. Qed.

Lemma quiet_remove_file_from_cr cr_id file_id user :
  quiet (remove_file_from_cr cr_id file_id user) (fun _ => True).
Proof. unfold remove_file_from_cr. frame_auto. Qed.

Lemma quiet_create_folder path user :
  quiet (create_folder path user) (fun _ => True).
Proof. unfold create_folder. frame_auto. Qed.

Lemma quiet_retitle message cr : quiet (retitle message cr) (fun _ => True).
Proof. unfold retitle. frame_auto. Qed.

Lemma quiet_stage_file_in_cr cr file_path action content_bytes :
  quiet (_stage_file_in_cr cr file_path action content_bytes) (fun _ => True).
Proof. unfold _stage_file_in_cr. frame_auto. Qed.

(** What leaves the audit log as it was adds, in particular, no record
    other than of a draft opened. *)
Lemma quiet_only_auto_create {A} (m : M A) (Q : A -> Prop) :
  quiet m Q -> framed (fun _ => True) only_auto_create m Q.
Proof.
  intros Hm w Hw. destruct (Hm w Hw) as (_ & E & HQ).
  split; [exact I|]. split; [|exact HQ].
  exists []. rewrite app_nil_r. split; [exact E|constructor].
Qed.

Lemma auto_create_get_or_create_draft_cr user request :
  framed (fun _ => True) only_auto_create
    (_get_or_create_draft_cr user request) (fun _ => True).
Proof.
  intros w _. split; [exact I|]. split; [|auto].
  destruct (first_by_desc ChangeRequest.updated_at (drafts_of user w))
    as [cr|] eqn:Hd.
  - rewrite (get_or_create_draft_cr_found user request w cr Hd).
    reflexivity.
  - apply first_by_desc_None in Hd.
    unfold _get_or_create_draft_cr. rewrite bind_get_world.
    fold (drafts_of user w). rewrite Hd. cbn.
    eexists [_]. split; [reflexivity|]. now repeat constructor.
Qed.

Lemma auto_create_upload_file request path message file user :
  framed (fun _ => True) only_auto_create
    (upload_file request path message file user) (fun _ => True).
Proof.
  unfold upload_file. frame_auto;
    first [ apply auto_create_get_or_create_draft_cr
          | apply quiet_only_auto_create;
            first [apply quiet_retitle | apply quiet_stage_file_in_cr] ].
Qed.

(** X21. Mutations that write no audit record.  Update, add-file and
    remove-file of the change-request API and create-folder leave the audit
    log exactly as it was, whatever they are given and whether they return
    or raise; upload adds no record either, apart from the one of a draft it
    opens. *)
Theorem unaudited_mutations (w : World) :
  (forall cr_id req user,
      audit_logs (db (snd (update_change_request cr_id req user w)))
      = audit_logs (db w))
  /\ (forall cr_id req user,
        audit_logs (db (snd (add_file_to_cr cr_id req user w)))
        = audit_logs (db w))
  /\ (forall cr_id file_id user,
        audit_logs (db (snd (remove_file_from_cr cr_id file_id user w)))
        = audit_logs (db w))
  /\ (forall path user,
        audit_logs (db (snd (create_folder path user w))) = audit_logs (db w))
  /\ (forall request path message file user,
        exists rows,
          audit_logs (db (snd (upload_file request path message file user w)))
          = audit_logs (db w) ++ rows
          /\ Forall (fun r => AuditLog.action r = "cr.auto_create") rows).
Proof.
  split; [|split; [|split; [|split]]]; intros.
  - exact (proj2 (framed_run _ _ _ _ w (quiet_update_change_request _ _ _) I)).
  - exact (proj2 (framed_run _ _ _ _ w (quiet_add_file_to_cr _ _ _) I)).
  - exact (proj2 (framed_run _ _ _ _ w (quiet_remove_file_from_cr _ _ _) I)).
  - exact (proj2 (framed_run _ _ _ _ w (quiet_create_folder _ _) I)).
  - exact (proj2 (framed_run _ _ _ _ w
                    (auto_create_upload_file _ _ _ _ _) I)).
Qed.

(** ** History under merge *)

(** [k] is a version key that [generate_version_key] may still return. *)
Definition future_version_key (w : World) (k : string) : Prop :=
  exists n, (uuid4_drawn w <= n)%nat /\ k = "_versions/" +:+ uuid4_hex w n.

(** The identifiers still to be drawn name no version blob in the bucket. *)
Definition version_keys_fresh (w : World) : Prop :=
  forall n, (uuid4_drawn w <= n)%nat ->
    bucket w !! ("_versions/" +:+ uuid4_hex w n) = None.

(** The content rows of the ledger keep their blobs under [_versions/]. *)
Definition ledger_keys_wf (w : World) : Prop :=
  Forall (fun r => FileVersion.is_delete r = false ->
                   startswith (FileVersion.s3_key r) "_versions/" = true)
    (file_versions (db w)).

(** From [w] to [w']: the users are the same, the ledger has grown by rows
    whose version is above every version their path had, and the version
    blobs are the same, but for keys drawn in between. *)
Definition history_kept (w w' : World) : Prop :=
  users (db w') = users (db w)
  /\ uuid4_hex w' = uuid4_hex w
  /\ (uuid4_drawn w <= uuid4_drawn w')%nat
  /\ (exists rows,
        file_versions (db w') = file_versions (db w) ++ rows
        /\ Forall (fun fv =>
                     Forall (fun r => FileVersion.version r
                                      < FileVersion.version fv)
                       (versions_of (FileVersion.file_path fv) w)) rows)
  /\ forall k, startswith k "_versions/" = true ->
       ~ future_version_key w k -> bucket w' !! k = bucket w !! k.

Lemma history_kept_refl w : history_kept w w.
Proof.
  repeat split; auto. exists []. rewrite app_nil_r. split; [reflexivity|].
  constructor.
Qed.

Lemma versions_of_grown path w w' rows :
  file_versions (db w') = file_versions (db w) ++ rows ->
  versions_of path w'
  = versions_of path w
    ++ filter (fun v => FileVersion.file_path v = path) rows.
Proof. intros E. unfold versions_of. now rewrite E, filter_app. Qed.

Lemma history_kept_trans w1 w2 w3 :
  history_kept w1 w2 -> history_kept w2 w3 -> history_kept w1 w3.
Proof.
  intros (U1 & X1 & D1 & (rows1 & V1 & A1) & B1)
         (U2 & X2 & D2 & (rows2 & V2 & A2) & B2).
  split; [congruence|]. split; [congruence|]. split; [lia|]. split.
  - exists (rows1 ++ rows2). rewrite V2, V1, <- app_assoc.
    split; [reflexivity|]. apply Forall_app. split; [exact A1|].
    eapply Forall_impl; [exact A2|]. intros fv Hfv. cbv beta in Hfv |- *.
    rewrite (versions_of_grown _ _ _ _ V1) in Hfv.
    now apply Forall_app in Hfv as [Hfv _].
  - intros k Hk Hf. rewrite B2, B1; try assumption; [reflexivity|].
    intros (n & Hn & E). apply Hf. exists n. split; [lia|]. now rewrite <- X1.
Qed.

(** One operation of a merge whose path is not reserved and whose staged
    blob, if it has one, is not under [_versions/]. *)
Lemma merge_file_history cr f w :
  startswith (ChangeRequestFile.file_path f) "_" = false ->
  staged_under_prefix f = true ->
  history_kept w (snd (merge_file cr f w)).
Proof.
  intros Hp Hs.
  assert (Hpath : forall k, startswith k "_versions/" = true ->
                            k ≠ ChangeRequestFile.file_path f).
  { intros k Hk ->. apply unreserved_is_no_version_key in Hp. congruence. }
  assert (Hnext : Forall (fun r => FileVersion.version r
                                   < next_version (ChangeRequestFile.file_path f) w)
                    (versions_of (ChangeRequestFile.file_path f) w))
    by apply next_version_above.
  destruct (ChangeRequestFile.action f) eqn:Ha.
  1,2: destruct (ChangeRequestFile.staging_s3_key f) as [k|] eqn:Hk.
  1,3: destruct (decide (k = "")) as [->|Hne].
  1,3: rewrite merge_file_skip;
       [apply history_kept_refl|rewrite Ha; decide_now|now rewrite Hk].
  1,2: destruct (bucket w !! k) as [o|] eqn:Ho.
  1,3: erewrite merge_file_commit
         by (try eassumption; rewrite Ha; decide_now).
  3,4: erewrite merge_file_missing
         by (try eassumption; rewrite Ha; decide_now);
       apply history_kept_refl.
  3,4: rewrite merge_file_skip;
       [apply history_kept_refl|rewrite Ha; decide_now|now rewrite Hk].
  3: rewrite merge_file_tombstone by assumption.
  1,2: unfold staged_under_prefix in Hs; rewrite Hk in Hs;
       apply staging_key_facts in Hs as (_ & _ & Hs).
  1,2: split; [reflexivity|]; split; [reflexivity|];
       split; [cbn; lia|]; split;
       [ eexists [_]; split; [reflexivity|];
         constructor; [exact Hnext|constructor]
       | intros key Hkey Hfut; cbn [snd committed bucket];
         rewrite lookup_delete_ne by (intros ->; congruence);
         rewrite lookup_insert_ne by (intros E; now apply (Hpath key));
         rewrite lookup_insert_ne; [reflexivity|];
         intros E; apply Hfut; exists (uuid4_drawn w);
         split; [lia|now rewrite <- E] ].
  split; [reflexivity|]. split; [reflexivity|]. split; [cbn; lia|]. split.
  - eexists [_]. split; [reflexivity|]. constructor; [exact Hnext|constructor].
  - intros key Hkey Hfut. cbn [snd tombstoned bucket].
    rewrite lookup_delete_ne; [reflexivity|].
    intros E. now apply (Hpath key).
Qed.

Lemma merge_loop_history cr files :
  Forall (fun f => startswith (ChangeRequestFile.file_path f) "_" = false)
    files ->
  Forall (fun f => staged_under_prefix f = true) files ->
  forall w, history_kept w (snd (for_each files (merge_file cr) w)).
Proof.
  induction files as [|f files IH]; intros Hp Hs w.
  - apply history_kept_refl.
  - apply Forall_cons in Hp as [Hp Hps]. apply Forall_cons in Hs as [Hs Hss].
    cbn [for_each]. unfold bind at 1.
    pose proof (merge_file_history cr f w Hp Hs) as H1.
    destruct (merge_file cr f w) as [[u|e] w1]; cbn [fst snd] in *.
    + eapply history_kept_trans; [exact H1|]. now apply IH.
    + exact H1.
Qed.

Lemma merge_change_request_history cr_id request user w :
  staging_keys_wf w ->
  Forall (fun f => startswith (ChangeRequestFile.file_path f) "_" = false)
    (files_of cr_id w) ->
  history_kept w (snd (merge_change_request cr_id request user w)).
Proof.
  intros Hs Hp. unfold merge_change_request.
  destruct (decide (User.role user
                    ∈ [UserRole.admin; UserRole.approver; UserRole.editor]))
    as [Hr|Hr].
  2: { rewrite (bind_raise _ _ _ _ _ (require_role_denied _ _ _ Hr)).
       apply history_kept_refl. }
  rewrite (bind_ok _ _ _ _ _ (require_role_ok _ _ _ Hr)).
  pose proof (surjective_pairing (select_change_request cr_id w)) as Hsel.
  rewrite select_change_request_world in Hsel.
  destruct (fst (select_change_request cr_id w)) as [found|e].
  2: { rewrite (bind_raise _ _ _ _ _ Hsel). apply history_kept_refl. }
  rewrite (bind_ok _ _ _ _ _ Hsel), bind_get_world.
  destruct found as [cr|]; [|apply history_kept_refl].
  destruct (bool_decide _); [apply history_kept_refl|]. cbv zeta.
  pose proof (merge_loop_history cr (cr_files cr_id w)
                (Forall_arranged _ _ Hp)
                (staging_keys_wf_cr_files cr_id w Hs) w) as Hloop.
  pose proof (surjective_pairing (for_each (cr_files cr_id w) (merge_file cr) w))
    as Hl.
  destruct (fst (for_each (cr_files cr_id w) (merge_file cr) w)) as [u|e].
  2: { rewrite (bind_raise _ _ _ _ _ Hl). exact Hloop. }
  rewrite (bind_ok _ _ _ _ _ Hl), bind_get_world.
  unfold flush_change_request. destruct (decide _); exact Hloop.
Qed.

(** A read of a numbered version that returned content returns the same
    after any step that keeps the history. *)
Lemma versioned_read_kept w w' path v reader detail :
  history_kept w w' -> ledger_keys_wf w -> version_keys_fresh w -> v ≠ 0 ->
  get_file_content path (Some v) reader w = (Ok detail, w) ->
  get_file_content path (Some v) reader w' = (Ok detail, w').
Proof.
  intros (U & X & D & (rows & V & A) & B) Hwf Hfresh Hv.
  unfold get_file_content, nonzero.
  rewrite (proj2 (Z.eqb_neq v 0) Hv).
  set (P := fun r => FileVersion.file_path r = path
                     ∧ FileVersion.version r = v).
  intros Hread.
  match goal with
  | |- bind ?m ?k w' = _ => set (fetch := m) in *; set (rest := k) in *
  end.
  assert (Hfetch : exists r o,
             fetch w = (Ok (Some r, body o), w)
             /\ filter P (file_versions (db w)) = [r]
             /\ FileVersion.is_delete r = false
             /\ bucket w !! FileVersion.s3_key r = Some o).
  { unfold bind in Hread. destruct (fetch w) as [[x|e] w1] eqn:E;
      [|discriminate]. clear Hread. unfold fetch in E.
    rewrite bind_get_world in E.
    destruct (filter P (file_versions (db w))) as [|r [|r2 l]] eqn:F;
      [discriminate| |discriminate].
    unfold scalar_one_or_none in E. unfold bind at 1 in E.
    unfold ret at 1 in E. cbv beta iota in E.
    destruct (FileVersion.is_delete r) eqn:Hd; [discriminate|].
    destruct (bucket w !! FileVersion.s3_key r) as [o|] eqn:Ho.
    - exists r, o. unfold try_or_raise, bind in E.
      rewrite (get_object_ok _ _ _ Ho) in E. injection E as <- <-.
      repeat split; try reflexivity; assumption.
    - unfold try_or_raise, bind in E.
      rewrite (get_object_missing _ _ Ho) in E. discriminate. }
  destruct Hfetch as (r & o & E & F & Hd & Ho).
  assert (Ir : r ∈ filter P (file_versions (db w)))
    by (rewrite F; apply list_elem_of_here).
  apply list_elem_of_filter in Ir as [[Hpath Hver] Ir].
  assert (F' : filter P (file_versions (db w')) = [r]).
  { rewrite V, filter_app, F. rewrite (filter_none P rows); [reflexivity|].
    rewrite Forall_forall in A |- *. intros fv Ifv [Hp' Hv'].
    specialize (A fv Ifv). rewrite Forall_forall in A.
    assert (Hlt : FileVersion.version r < FileVersion.version fv).
    { apply A. apply list_elem_of_filter. split; [congruence|exact Ir]. }
    lia. }
  assert (Ho' : bucket w' !! FileVersion.s3_key r = Some o).
  { rewrite B; [exact Ho| |].
    - unfold ledger_keys_wf in Hwf. rewrite Forall_forall in Hwf.
      now apply (Hwf r Ir).
    - intros (n & Hn & Ek). specialize (Hfresh n Hn).
      rewrite <- Ek, Ho in Hfresh. discriminate. }
  assert (E' : fetch w' = (Ok (Some r, body o), w')).
  { unfold fetch. rewrite bind_get_world, F'. unfold scalar_one_or_none.
    unfold bind at 1. unfold ret at 1. cbv beta iota. rewrite Hd.
    unfold try_or_raise, bind. now rewrite (get_object_ok _ _ _ Ho'). }
  rewrite (bind_ok _ _ _ _ _ E) in Hread. rewrite (bind_ok _ _ _ _ _ E').
  unfold rest in *. rewrite bind_get_world in Hread |- *.
  cbn [fst snd] in Hread |- *. unfold ret in Hread |- *.
  injection Hread as <-. unfold author_of. now rewrite U.
Qed.

(** X22. A merge does not rewrite history.  Where the staging keys are
    under [_staging/], the content rows of the ledger keep their blobs
    under [_versions/], the identifiers still to be drawn name no version
    blob, and no entry of the change request has a reserved path: a read of
    a numbered version that returned content returns the same detail after
    the merge of that change request, whether the merge returns or raises. *)
Theorem merge_keeps_history (w : World) (cr_id : Z) (request : Request)
    (user reader : User.t) (path : string) (v : Z) (detail : FileDetail)
    (Hstaging : staging_keys_wf w)
    (Hledger : ledger_keys_wf w)
    (Hfresh : version_keys_fresh w)
    (Hpaths : Forall (fun f => startswith (ChangeRequestFile.file_path f) "_"
                               = false) (files_of cr_id w))
    (Hv : v ≠ 0)
    (Hread : get_file_content path (Some v) reader w = (Ok detail, w)) :
  let w' := snd (merge_change_request cr_id request user w) in
  get_file_content path (Some v) reader w' = (Ok detail, w').
Proof.
  cbv zeta. eapply versioned_read_kept; try eassumption.
  now apply merge_change_request_history.
Qed.

(** ** The counts of the admin dashboard *)

Lemma merge_file_tables cr f w :
  users (db (snd (merge_file cr f w))) = users (db w)
  /\ change_requests (db (snd (merge_file cr f w))) = change_requests (db w).
Proof.
  destruct (ChangeRequestFile.action f) eqn:Ha.
  1,2: destruct (ChangeRequestFile.staging_s3_key f) as [k|] eqn:Hk.
  1,3: destruct (decide (k = "")) as [->|Hne].
  1,3: rewrite merge_file_skip;
       [now split|rewrite Ha; decide_now|now rewrite Hk].
  1,2: destruct (bucket w !! k) as [o|] eqn:Ho.
  1,3: erewrite merge_file_commit
         by (try eassumption; rewrite Ha; decide_now); now split.
  1,2: erewrite merge_file_missing
         by (try eassumption; rewrite Ha; decide_now); now split.
  1,2: rewrite merge_file_skip;
       [now split|rewrite Ha; decide_now|now rewrite Hk].
  rewrite merge_file_tombstone by assumption. now split.
Qed.

Lemma merge_loop_tables cr files :
  forall w,
    users (db (snd (for_each files (merge_file cr) w))) = users (db w)
    /\ change_requests (db (snd (for_each files (merge_file cr) w)))
       = change_requests (db w).
Proof.
  induction files as [|f files IH]; intros w; [now split|].
  cbn [for_each]. unfold bind.
  pose proof (merge_file_tables cr f w) as [U1 C1].
  destruct (merge_file cr f w) as [[u|e] w1]; cbn [fst snd] in *.
  - destruct (IH w1) as [U2 C2]. split; congruence.
  - now split.
Qed.

(** Rewriting the one row of a change request that is not pending into a
    row that is not pending keeps the number of rows and of pending rows. *)
Lemma flushed_counts cr cr' crs :
  filter (fun c => ChangeRequest.id c = ChangeRequest.id cr) crs = [cr] ->
  ChangeRequest.status cr ≠ CRStatus.pending_review ->
  ChangeRequest.status cr' ≠ CRStatus.pending_review ->
  let crs' := map (fun c => if decide (ChangeRequest.id c = ChangeRequest.id cr)
                            then cr' else c) crs in
  length crs' = length crs
  /\ length (filter (fun c => ChangeRequest.status c = CRStatus.pending_review)
               crs')
     = length (filter (fun c => ChangeRequest.status c
                                = CRStatus.pending_review) crs).
Proof.
  intros F Hcr Hcr'. cbv zeta. split; [apply length_map|].
  assert (Hrows : Forall (fun c => ChangeRequest.id c = ChangeRequest.id cr ->
                                   c = cr) crs).
  { rewrite Forall_forall. intros c Ic Hid.
    assert (I : c ∈ [cr])
      by (rewrite <- F; apply list_elem_of_filter; now split).
    now apply list_elem_of_singleton in I. }
  clear F. induction Hrows as [|c crs Hc _ IH]; [reflexivity|].
  cbn [map]. destruct (decide (ChangeRequest.id c = ChangeRequest.id cr))
    as [Hid|Hid].
  - rewrite (Hc Hid). rewrite !filter_cons_False by assumption. exact IH.
  - destruct (decide (ChangeRequest.status c = CRStatus.pending_review)).
    + rewrite !filter_cons_True by assumption. cbn [length]. now rewrite IH.
    + rewrite !filter_cons_False by assumption. exact IH.
Qed.

(** What a merge does to the tables the dashboard counts. *)
Lemma merge_change_request_tables cr_id request user w :
  let w' := snd (merge_change_request cr_id request user w) in
  users (db w') = users (db w)
  /\ (exists rows, file_versions (db w') = file_versions (db w) ++ rows)
  /\ length (change_requests (db w')) = length (change_requests (db w))
  /\ length (filter (fun c => ChangeRequest.status c = CRStatus.pending_review)
               (change_requests (db w')))
     = length (filter (fun c => ChangeRequest.status c
                                = CRStatus.pending_review)
                 (change_requests (db w))).
Proof.
  cbv zeta.
  assert (Hsame : users (db w) = users (db w)
            /\ (exists rows, file_versions (db w) = file_versions (db w) ++ rows)
            /\ length (change_requests (db w)) = length (change_requests (db w))
            /\ length (filter (fun c => ChangeRequest.status c
                                        = CRStatus.pending_review)
                         (change_requests (db w)))
               = length (filter (fun c => ChangeRequest.status c
                                          = CRStatus.pending_review)
                           (change_requests (db w)))).
  { repeat split. exists []. now rewrite app_nil_r. }
  unfold merge_change_request.
  destruct (decide (User.role user
                    ∈ [UserRole.admin; UserRole.approver; UserRole.editor]))
    as [Hr|Hr].
  2: { rewrite (bind_raise _ _ _ _ _ (require_role_denied _ _ _ Hr)).
       exact Hsame. }
  rewrite (bind_ok _ _ _ _ _ (require_role_ok _ _ _ Hr)).
  pose proof (surjective_pairing (select_change_request cr_id w)) as Hsel.
  rewrite select_change_request_world in Hsel.
  destruct (fst (select_change_request cr_id w)) as [found|e].
  2: { rewrite (bind_raise _ _ _ _ _ Hsel). exact Hsame. }
  rewrite (bind_ok _ _ _ _ _ Hsel), bind_get_world.
  destruct found as [cr|]; [|exact Hsame].
  destruct (bool_decide _) eqn:Hst; [exact Hsame|]. cbv zeta.
  apply bool_decide_eq_false in Hst.
  assert (Hap : ChangeRequest.status cr = CRStatus.approved)
    by (destruct (decide (ChangeRequest.status cr = CRStatus.approved));
        [assumption|contradiction]).
  pose proof (merge_loop_ledger cr (cr_files cr_id w) w) as (_ & rows & V & _).
  pose proof (merge_loop_tables cr (cr_files cr_id w) w) as [U C].
  pose proof (surjective_pairing (for_each (cr_files cr_id w) (merge_file cr) w))
    as Hl.
  destruct (fst (for_each (cr_files cr_id w) (merge_file cr) w)) as [u|e].
  2: { rewrite (bind_raise _ _ _ _ _ Hl). cbn [snd].
       split; [exact U|]. split; [now exists rows|]. now rewrite C. }
  rewrite (bind_ok _ _ _ _ _ Hl), bind_get_world.
  set (wc := snd (for_each (cr_files cr_id w) (merge_file cr) w)) in *.
  set (cr' := set_merged_at (Some (utcnow wc)) (set_status CRStatus.merged cr)).
  assert (Hne : cr' ≠ cr).
  { intros E. apply (f_equal ChangeRequest.status) in E. cbn in E.
    congruence. }
  rewrite (bind_ok _ _ _ _ _ (flush_change_request_changed _ _ _ Hne)).
  pose proof (select_change_request_id _ _ _ Hsel) as Hid.
  apply select_change_request_Some in Hsel. rewrite <- Hid in Hsel.
  destruct (flushed_counts cr (stamped cr' wc) (change_requests (db w)) Hsel)
    as [L P]; [congruence|discriminate|].
  split; [exact U|]. split; [now exists rows|].
  cbn [bind add_audit_log modify ret snd db with_db flushed
       with_change_requests change_requests].
  rewrite C. split; [exact L|exact P].
Qed.

Lemma distinct_grows {A} `{EqDecision A} (l k : list A) :
  (length (remove_dups l) <= length (remove_dups (l ++ k)))%nat.
Proof.
  apply submseteq_length, NoDup_submseteq; [apply NoDup_remove_dups|].
  intros x Hx. apply elem_of_remove_dups. apply elem_of_app. left.
  now rewrite elem_of_remove_dups in Hx.
Qed.

(** X23. The dashboard counts under merge.  For an admin, [get_stats]
    answers in every world; and whatever change request is merged, by
    whomever, and whether the merge returns or raises, the counts of users,
    of active users, of change requests and of pending change requests are
    afterwards the same, and the counts of files and of versions are not
    lower: a merged deletion takes no file out of the count. *)
Theorem get_stats_under_merge (w : World) (cr_id : Z) (request : Request)
    (user admin : User.t) (Hadmin : User.role admin = UserRole.admin) :
  let w' := snd (merge_change_request cr_id request user w) in
  exists s s',
    get_stats admin w = (Ok s, w)
    /\ get_stats admin w' = (Ok s', w')
    /\ stats_users_total s' = stats_users_total s
    /\ stats_users_active s' = stats_users_active s
    /\ stats_cr_total s' = stats_cr_total s
    /\ stats_cr_pending s' = stats_cr_pending s
    /\ stats_files_total s <= stats_files_total s'
    /\ stats_versions_total s <= stats_versions_total s'.
Proof.
  cbv zeta.
  destruct (merge_change_request_tables cr_id request user w)
    as (U & (rows & V) & L & P). cbv zeta in U, V, L, P.
  assert (Hrole : User.role admin ∈ [UserRole.admin])
    by (rewrite Hadmin; apply list_elem_of_here).
  unfold get_stats.
  rewrite !(bind_ok _ _ _ _ _ (require_role_ok _ _ _ Hrole)), !bind_get_world.
  eexists _, _. split; [reflexivity|]. split; [reflexivity|].
  cbn [stats_users_total stats_users_active stats_cr_total stats_cr_pending
       stats_files_total stats_versions_total].
  unfold len. rewrite U, L, P, V.
  split; [reflexivity|]. split; [reflexivity|]. split; [reflexivity|].
  split; [reflexivity|]. split.
  - rewrite filter_app, map_app. apply inj_le, distinct_grows.
  - rewrite length_app. lia.
Qed.

(** ** What a public link serves *)

(** The shares are as they were. *)
Definition same_shares (w w' : World) : Prop :=
  file_shares (db w') = file_shares (db w).

#[local] Instance same_shares_preorder : PreOrder same_shares.
Proof.
  split; [now intros w|].
  intros w1 w2 w3 H1 H2. unfold same_shares in *. congruence.
Qed.

Abbreviation unshared := (framed (fun _ => True) same_shares).

Lemma unshared_elsewhere {A} (m : M A) :
  (forall w, file_shares (db (snd (m w))) = file_shares (db w)) ->
  unshared m (fun _ => True).
Proof. intros H w _. split; [exact I|]. split; [apply H|auto]. Qed.

Lemma unshared_add_change_request title description author_id status :
  unshared (add_change_request title description author_id status)
    (fun _ => True).
Proof. now apply unshared_elsewhere. Qed.

Lemma unshared_flush_change_request old cr :
  unshared (flush_change_request old cr) (fun _ => True).
Proof.
  apply unshared_elsewhere. intros w. unfold flush_change_request.
  now destruct (decide (cr = old)).
Qed.

Lemma unshared_add_audit_log user_id action resource_type resource_id details
    request :
  unshared (add_audit_log user_id action resource_type resource_id details
              request) (fun _ => True).
Proof. now apply unshared_elsewhere. Qed.

Lemma unshared_put_object key content ctype :
  unshared (S3Service.put_object key content ctype) (fun _ => True).
Proof. now apply unshared_elsewhere. Qed.

Lemma unshared_stage_blob content ctype :
  unshared (let* key := S3Service.generate_staging_key in
            S3Service.put_object key content ctype >> ret (Some key))
    (fun o => forall k, o = Some k -> startswith k "_staging/" = true).
Proof.
  apply (framed_stage_blob _ _ _); [now apply unshared_elsewhere|].
  intros key _. apply unshared_put_object.
Qed.

Lemma unshared_add_change_request_file unflushed cr_id path action
    staging_key base :
  unshared
    (add_change_request_file unflushed cr_id path action staging_key base)
    (fun _ => True).
Proof.
  apply unshared_elsewhere. intros w. unfold add_change_request_file.
  now destruct (bool_decide _).
Qed.

Lemma unshared_replace_loop (existing : list ChangeRequestFile.t) :
  unshared (for_each existing (fun e =>
              discard_staged_blob e >> delete_change_request_file e))
    (fun _ => True).
Proof.
  apply unshared_elsewhere. intros w. now rewrite replace_loop.
Qed.

Lemma unshared_merge_file cr f : unshared (merge_file cr f) (fun _ => True).
Proof.
  apply unshared_elsewhere. intros w.
  destruct (ChangeRequestFile.action f) eqn:Ha.
  1,2: destruct (ChangeRequestFile.staging_s3_key f) as [k|] eqn:Hk.
  1,3: destruct (decide (k = "")) as [->|Hne].
  1,3: rewrite merge_file_skip;
       [reflexivity|rewrite Ha; decide_now|now rewrite Hk].
  1,2: destruct (bucket w !! k) as [o|] eqn:Ho.
  1,3: erewrite merge_file_commit
         by (try eassumption; rewrite Ha; decide_now); reflexivity.
  1,2: erewrite merge_file_missing
         by (try eassumption; rewrite Ha; decide_now); reflexivity.
  1,2: rewrite merge_file_skip;
       [reflexivity|rewrite Ha; decide_now|now rewrite Hk].
  rewrite merge_file_tombstone by assumption. reflexivity.
Qed.

Lemma unshared_merge_loop cr files :
  unshared (for_each files (merge_file cr)) (fun _ => True).
Proof.
  apply (framed_for_each _ _ _). intros f _. apply unshared_merge_file.
Qed.

#[local] Hint Resolve unshared_add_change_request
  unshared_flush_change_request unshared_add_audit_log unshared_stage_blob
  unshared_add_change_request_file unshared_replace_loop unshared_merge_loop
  : frame.

Lemma unshared_get_or_create_draft_cr user request :
  unshared (_get_or_create_draft_cr user request) (fun _ => True).
Proof. unfold _get_or_create_draft_cr. frame_auto. Qed.

Lemma unshared_retitle message cr :
  unshared (retitle message cr) (fun _ => True).
Proof. unfold retitle. frame_auto. Qed.

Lemma unshared_stage_file_in_cr cr file_path action content_bytes :
  unshared (_stage_file_in_cr cr file_path action content_bytes)
    (fun _ => True).
Proof. unfold _stage_file_in_cr. frame_auto. Qed.

#[local] Hint Resolve unshared_get_or_create_draft_cr unshared_retitle
  unshared_stage_file_in_cr : frame.

Lemma unshared_save_file req request user :
  unshared (save_file req request user) (fun _ => True).
Proof. unfold save_file. frame_auto. Qed.

Lemma unshared_submit_for_review cr_id request user :
  unshared (submit_for_review cr_id request user) (fun _ => True).
Proof. unfold submit_for_review. frame_auto. Qed.

Lemma unshared_review_change_request cr_id req request user :
  unshared (review_change_request cr_id req request user) (fun _ => True).
Proof. unfold review_change_request. frame_auto. Qed.

Lemma unshared_merge_change_request cr_id request user :
  unshared (merge_change_request cr_id request user) (fun _ => True).
Proof. unfold merge_change_request. frame_auto. Qed.

Lemma unreserved_is_no_staging_key p :
  startswith p "_" = false -> startswith p "_staging/" = false.
Proof.
  intros H. destruct (startswith p "_staging/") eqn:E; [|reflexivity].
  apply staging_key_facts in E as (_ & E & _). congruence.
Qed.

Lemma scalar_one_or_none_one {A B} (r : A) (k : option A -> M B) w :
  bind (scalar_one_or_none [r]) k w = k (Some r) w.
Proof. reflexivity. Qed.

(** The raw public read of a path depends on the shares, on the ledger and
    on the canonical blob of the path. *)
Lemma public_file_raw_stable path w w' :
  file_shares (db w') = file_shares (db w) ->
  file_versions (db w') = file_versions (db w) ->
  bucket w' !! path = bucket w !! path ->
  fst (public_file_raw path w') = fst (public_file_raw path w).
Proof.
  intros Hs Hv Hb. unfold public_file_raw. rewrite !bind_get_world, Hs.
  destruct (filter _ (file_shares (db w))) as [|share [|share' rest]] eqn:F;
    [reflexivity| |reflexivity].
  assert (Hp : FileShare.file_path share = path).
  { assert (I : share ∈ [share]) by apply list_elem_of_here.
    rewrite <- F in I. now apply list_elem_of_filter in I as [I _]. }
  rewrite !scalar_one_or_none_one.
  destruct (negb (FileShare.is_public share)); [reflexivity|].
  destruct (FileShare.is_archived share); [reflexivity|].
  unfold public_content. rewrite Hp.
  unfold bind at 1 3.
  rewrite !(bind_ok _ _ _ _ _ (select_latest_version_eq _ _)).
  assert (Hl : latest_version path w' = latest_version path w)
    by (unfold latest_version, versions_of; now rewrite Hv).
  rewrite Hl. destruct (latest_version path w) as [l|]; [|reflexivity].
  destruct (FileVersion.is_delete l); [reflexivity|].
  unfold try_or_raise, S3Service.get_object. rewrite !bind_get_world, Hb.
  now destruct (bucket w !! path).
Qed.

Lemma public_file_raw_live path w share fv o :
  filter (fun s => FileShare.file_path s = path) (file_shares (db w))
  = [share] ->
  FileShare.is_public share = true -> FileShare.is_archived share = false ->
  latest_version path w = Some fv -> FileVersion.is_delete fv = false ->
  bucket w !! path = Some o ->
  public_file_raw path w = (Ok (attachment share (body o)), w).
Proof.
  intros F Hpub Harch Hl Hd Ho.
  assert (Hp : FileShare.file_path share = path).
  { assert (I : share ∈ [share]) by apply list_elem_of_here.
    rewrite <- F in I. now apply list_elem_of_filter in I as [I _]. }
  unfold public_file_raw. rewrite bind_get_world, F.
  rewrite scalar_one_or_none_one, Hpub, Harch. cbn [negb].
  unfold public_content. rewrite Hp.
  unfold bind at 1.
  rewrite (bind_ok _ _ _ _ _ (select_latest_version_eq _ _)), Hl, Hd.
  unfold try_or_raise. now rewrite (get_object_ok _ _ _ Ho).
Qed.

(** X24. A public link follows the merge, and nothing before it.  A
    write-capable user saves content under a shared path (a public share,
    not archived); the staging keys are under [_staging/], [cr] is the
    working draft of the user, its entries are ready and the staging key to
    come is new; and where the path has no live version, so that the save
    is a create, the draft holds no entry of the path yet.  After the save, after the submit and after the approval
    the raw public read of the path answers what it answered before the
    save; after the merge it serves the saved content. *)
Theorem public_link_follows_merge (w0 : World) (cr : ChangeRequest.t)
    (user reviewer merger : User.t) (request : Request)
    (raw_path content message comment : string)
    (content_bytes : list Byte.byte) (share : FileShare.t)
    (Huser : User.role user ∈ WRITE_ROLES)
    (Hpath : strip_slash raw_path ≠ "")
    (Hunreserved : startswith (strip_slash raw_path) "_" = false)
    (Henc : encode_utf8 content = Some content_bytes)
    (Hdraft : working_draft user w0 cr)
    (Hnew : is_new (latest_version (strip_slash raw_path) w0) = true ->
            strip_slash raw_path
            ∉ map ChangeRequestFile.file_path
                (files_of (ChangeRequest.id cr) w0))
    (Hwf : staging_keys_wf w0)
    (Hready : staged_ok (bucket w0) (files_of (ChangeRequest.id cr) w0) = true)
    (Hfresh : next_staging_key w0
              ∉ staging_keys (files_of (ChangeRequest.id cr) w0))
    (Hreviewer : User.role reviewer ∈ [UserRole.admin; UserRole.approver])
    (Hother : User.id user ≠ User.id reviewer
              \/ User.role reviewer = UserRole.admin)
    (Hmerger : User.role merger ∈ WRITE_ROLES)
    (Hshare : filter (fun s => FileShare.file_path s = strip_slash raw_path)
                (file_shares (db w0)) = [share])
    (Hpublic : FileShare.is_public share = true)
    (Harchived : FileShare.is_archived share = false) :
  let path := strip_slash raw_path in
  exists w1 w2 w3 w4 saved,
    save_file (mkSaveFileRequest raw_path content message) request user w0
    = (Ok saved, w1)
    /\ submit_for_review (ChangeRequest.id cr) request user w1
       = (Ok CRStatus.pending_review, w2)
    /\ review_change_request (ChangeRequest.id cr)
         (mkReviewRequest "approve" comment) request reviewer w2
       = (Ok CRStatus.approved, w3)
    /\ merge_change_request (ChangeRequest.id cr) request merger w3
       = (Ok CRStatus.merged, w4)
    /\ fst (public_file_raw path w1) = fst (public_file_raw path w0)
    /\ fst (public_file_raw path w2) = fst (public_file_raw path w0)
    /\ fst (public_file_raw path w3) = fst (public_file_raw path w0)
    /\ public_file_raw path w4 = (Ok (attachment share content_bytes), w4).
Proof.
  intros path. apply staged_ok_spec in Hready.
  destruct (save_file_stages raw_path content message request user w0 cr
              content_bytes Huser Hpath Hunreserved Henc Hdraft Hnew)
    as (w1 & title & E1 & _ & Hst).
  fold path in E1, Hst.
  set (entry := staged_entry _ path _ _ w0) in *.
  destruct (staged_in_ready _ _ _ _ _ _ _ Hst Hready Hunreserved eq_refl
              (conj eq_refl Hfresh)) as [R1 I1].
  pose proof Hst as ((stored & S1 & St1 & A1) & _ & B1 & V1).
  destruct (staged_then_merged w1 (ChangeRequest.id cr) stored user reviewer
              merger request comment entry (next_staging_key w0)
              (mkS3Object content_bytes (S3Service.guess_content_type path)))
    as (w2 & w3 & w4 & fv & E2 & E3 & E4 & L4 & _ & _ & _ & D4 & B4);
    try assumption.
  - now apply draft_is_open.
  - now apply author_owns.
  - rewrite A1. exact Hother.
  - unfold entry, staged_entry. cbn. destruct (is_new _); decide_now.
  - reflexivity.
  - rewrite B1. apply lookup_insert_eq.
  - cbn [ChangeRequestFile.file_path entry staged_entry body] in L4, B4.
    pose proof (unreserved_is_no_staging_key _ Hunreserved) as Hlive.
    (* the staging steps *)
    destruct (framed_run _ _ _ _ w0 (safe_save_file (mkSaveFileRequest raw_path content message)
                   request user) Hwf)
      as [Hwf1 [V01 B01]].
    pose proof (proj2 (framed_run _ _ _ _ w0
                         (unshared_save_file
                            (mkSaveFileRequest raw_path content message)
                            request user) I)) as F01.
    rewrite E1 in Hwf1, V01, B01, F01. cbn [snd] in Hwf1, V01, B01, F01.
    destruct (framed_run _ _ _ _ w1
                (safe_submit_for_review (ChangeRequest.id cr) request user)
                Hwf1) as [Hwf2 [V12 B12]].
    pose proof (proj2 (framed_run _ _ _ _ w1
                         (unshared_submit_for_review (ChangeRequest.id cr)
                            request user) I)) as F12.
    rewrite E2 in Hwf2, V12, B12, F12. cbn [snd] in Hwf2, V12, B12, F12.
    destruct (framed_run _ _ _ _ w2
                (safe_review_change_request (ChangeRequest.id cr)
                   (mkReviewRequest "approve" comment) request reviewer)
                Hwf2) as [_ [V23 B23]].
    pose proof (proj2 (framed_run _ _ _ _ w2
                         (unshared_review_change_request (ChangeRequest.id cr)
                            (mkReviewRequest "approve" comment) request
                            reviewer) I)) as F23.
    rewrite E3 in V23, B23, F23. cbn [snd] in V23, B23, F23.
    pose proof (proj2 (framed_run _ _ _ _ w3
                         (unshared_merge_change_request (ChangeRequest.id cr)
                            request merger) I)) as F34.
    rewrite E4 in F34. cbn [snd] in F34.
    unfold same_shares in F01, F12, F23, F34.
    exists w1, w2, w3, w4. eexists.
    split; [exact E1|]. split; [exact E2|]. split; [exact E3|].
    split; [exact E4|].
    split; [apply public_file_raw_stable; auto|].
    split; [apply public_file_raw_stable; [congruence|congruence|]|].
    { exact (eq_trans (B12 _ Hlive) (B01 _ Hlive)). }
    split; [apply public_file_raw_stable; [congruence|congruence|]|].
    { exact (eq_trans (B23 _ Hlive)
               (eq_trans (B12 _ Hlive) (B01 _ Hlive))). }
    apply (public_file_raw_live path w4 share fv
             (mkS3Object content_bytes (S3Service.guess_content_type path)));
      try assumption.
    rewrite F34, F23, F12, F01. exact Hshare.
Qed.

End Handlers.

(** ** The sample order of rows *)

Lemma insert_by_path_perm f rows : Sample.insert_by_path f rows ≡ₚ f :: rows.
Proof.
  induction rows as [|g rows IH]; [reflexivity|]. cbn.
  destruct (String.leb _ _); [reflexivity|].
  rewrite IH. apply Permutation_swap.
Qed.

Lemma by_path_perm rows : Sample.by_path rows ≡ₚ rows.
Proof.
  induction rows as [|f rows IH]; [reflexivity|]. cbn.
  now rewrite insert_by_path_perm, IH.
Qed.

Lemma insert_by_path_base (g : ChangeRequestFile.t -> option Z) f rows :
  Sample.insert_by_path (set_base_version_id (g f) f)
    (map (fun f => set_base_version_id (g f) f) rows)
  = map (fun f => set_base_version_id (g f) f) (Sample.insert_by_path f rows).
Proof.
  induction rows as [|x rows IH]; [reflexivity|]. cbn.
  destruct (String.leb _ _); [reflexivity|]. cbn. now rewrite IH.
Qed.

Lemma by_path_base (g : ChangeRequestFile.t -> option Z) rows :
  Sample.by_path (map (fun f => set_base_version_id (g f) f) rows)
  = map (fun f => set_base_version_id (g f) f) (Sample.by_path rows).
Proof.
  induction rows as [|f rows IH]; [reflexivity|].
  cbn [map]. unfold Sample.by_path in *. cbn [foldr]. rewrite IH.
  apply insert_by_path_base.
Qed.

#[global] Instance path_order : RowOrder :=
  Build_RowOrder Sample.by_path by_path_perm by_path_base.

(** * The properties at sample inputs *)

Lemma state_machine_guards_witness :
  let w := Sample.world [Sample.cr 1 2 CRStatus.pending_review] [] [] [] [] in
  merge_change_request Sample.sha256_hexdigest 1 Sample.request Sample.alice w
  = (Raise (HTTPException 400 "CR must be approved before merging"), w)
  /\ review_change_request 1 (mkReviewRequest "approve" "") Sample.request
       Sample.bob w
     = (Raise (HTTPException 400 "Cannot review your own change request"), w)
  /\ submit_for_review 1 Sample.request Sample.bob w
     = (Raise (HTTPException 400 "Can only submit draft or rejected CRs"), w).
Proof.
  pose proof (state_machine_guards Sample.sha256_hexdigest
                (Sample.world [Sample.cr 1 2 CRStatus.pending_review] [] [] [] [])
                1 (Sample.cr 1 2 CRStatus.pending_review) Sample.request
                eq_refl) as (Hmerge & Hreview & Hsubmit).
  split; [|split].
  - apply Hmerge; [discriminate | decide_now].
  - apply (Hreview Sample.bob); reflexivity.
  - apply (Hsubmit eq_refl Sample.bob); [decide_now | reflexivity].
Defined.

Lemma add_operation_without_live_version_witness :
  fst (add_file_to_cr Sample.encode_utf8 1
         (mkAddFileRequest "/docs/gone.md" "edit" (Some "new text"))
         Sample.alice Sample.tombstoned)
  = Raise (HTTPException 404 "File does not exist, use 'create' action")
  /\ exists w',
      add_file_to_cr Sample.encode_utf8 1
        (mkAddFileRequest "/docs/gone.md" "delete" None) Sample.alice
        Sample.tombstoned
      = (Ok (100, "docs/gone.md", "delete"), w')
      /\ ChangeRequestFile.mk 100 1 "docs/gone.md" FileAction.delete None None
           1700000000
         ∈ files_of 1 w'.
Proof.
  refine (add_operation_without_live_version Sample.encode_utf8
            Sample.tombstoned 1 (Sample.cr 1 1 CRStatus.draft) Sample.alice
            "/docs/gone.md" "new text" (list_byte_of_string "new text") None
            _ _ _ _ _ _ _);
    try reflexivity; decide_now.
Defined.

Lemma next_version_contiguous_witness :
  let w' := snd (merge_change_request Sample.sha256_hexdigest 1 Sample.request
                   Sample.alice Sample.approved_edit) in
  _get_next_version "docs/readme.md" Sample.approved_edit
  = (Ok 3, Sample.approved_edit)
  /\ map FileVersion.version (versions_of "docs/readme.md" w') = [1; 2; 3]
  /\ map FileVersion.version (versions_of "docs/new.md" w') = [1]
  /\ (exists n k,
        _get_next_version "docs/readme.md" Sample.approved_edit
        = (Ok n, Sample.approved_edit)
        /\ 0 <= k
        /\ map FileVersion.version (versions_of "docs/readme.md" w')
           = map FileVersion.version
               (versions_of "docs/readme.md" Sample.approved_edit)
             ++ seqZ n k)
  /\ ledger_contiguous w'.
Proof.
  destruct (next_version_contiguous Sample.sha256_hexdigest
              Sample.approved_edit) as [Hnext Hmerge].
  destruct (Hmerge 1 Sample.request Sample.alice) as [Happended Hkept].
  split; [reflexivity|]. split; [vm_compute; reflexivity|].
  split; [vm_compute; reflexivity|].
  split; [exact (Happended "docs/readme.md")|].
  apply Hkept. now apply ledger_contiguousb_sound.
Defined.

(** C1, at a failing input. alice removes the entry of her merged change
    request: the handler answers 200 and the entry is gone, where
    [add_file_to_cr] refuses the same change request with its status guard. *)
Theorem remove_operation_ignores_status :
  files_of 1 Sample.merged_with_entry
  = [ ChangeRequestFile.mk 10 1 "docs/a.md" FileAction.create
        (Some "_staging/e1") None 1650000000 ]
  /\ fst (remove_file_from_cr 1 10 Sample.alice Sample.merged_with_entry)
     = Ok tt
  /\ files_of 1
       (snd (remove_file_from_cr 1 10 Sample.alice Sample.merged_with_entry))
     = []
  /\ add_file_to_cr Sample.encode_utf8 1
       (mkAddFileRequest "docs/a.md" "delete" None) Sample.alice
       Sample.merged_with_entry
     = (Raise (HTTPException 400
                 "Can only modify files in draft or rejected CRs"),
        Sample.merged_with_entry).
Proof. repeat split; vm_compute; reflexivity. Qed.

(** C2, at a failing input. alice adds a create of [_versions/evil] to her
    draft: the handler answers 200 and the entry is staged, where
    [save_file], [upload_file] and [create_folder] refuse the same path. *)
Theorem add_operation_accepts_reserved_path :
  fst (add_file_to_cr Sample.encode_utf8 1
         (mkAddFileRequest "_versions/evil" "create" (Some "x"))
         Sample.alice Sample.draft)
  = Ok (100, "_versions/evil", "create")
  /\ files_of 1
       (snd (add_file_to_cr Sample.encode_utf8 1
               (mkAddFileRequest "_versions/evil" "create" (Some "x"))
               Sample.alice Sample.draft))
     = [ ChangeRequestFile.mk 100 1 "_versions/evil" FileAction.create
           (Some "_staging/0") None 1700000000 ]
  /\ save_file Sample.encode_utf8 (mkSaveFileRequest "_versions/evil" "x" "")
       Sample.request Sample.alice Sample.draft
     = (Raise (HTTPException 400 "Paths starting with _ are reserved"),
        Sample.draft)
  /\ upload_file Sample.request "_versions/evil" "" [] Sample.alice Sample.draft
     = (Raise (HTTPException 400 "Paths starting with _ are reserved"),
        Sample.draft)
  /\ create_folder "_versions/evil" Sample.alice Sample.draft
     = (Raise (HTTPException 400 "Paths starting with _ are reserved"),
        Sample.draft).
Proof. repeat split; vm_compute; reflexivity. Qed.

Lemma public_read_outcomes_witness :
  public_file_raw "docs/readme.md" Sample.shared
  = (Ok (attachment (FileShare.mk 1 "docs/readme.md" "tok-live" true false 1)
           (list_byte_of_string "hello")), Sample.shared)
  /\ public_file Sample.decode_utf8_replace "tok-live" Sample.shared
     = (Ok (TemplateResponse "public_file.html" None "docs/readme.md"
              (Some "hello") (Some 5)), Sample.shared).
Proof.
  exact (public_read_outcomes Sample.decode_utf8_replace Sample.shared
           "docs/readme.md" "tok-live"
           (Some (FileShare.mk 1 "docs/readme.md" "tok-live" true false 1))
           (Some (FileShare.mk 1 "docs/readme.md" "tok-live" true false 1))
           eq_refl eq_refl).
Defined.

(** C3 fails where the latest version is a deletion record (a 404, by path
    and by token, not a 410) and where an archived share is read by token
    (the archive notice, not a 410). *)
Lemma public_read_of_tombstone_is_not_found :
  latest_version "docs/gone.md" Sample.shared
  = Some (FileVersion.mk 3 "docs/gone.md" 2 "" 0 "deleted" 1
            "CR #3: Delete docs/gone.md" true 1550000000)
  /\ public_file_raw "docs/gone.md" Sample.shared
     = (Raise (HTTPException 404 "File not found or deleted"), Sample.shared)
  /\ public_file Sample.decode_utf8_replace "tok-gone" Sample.shared
     = (Raise (HTTPException 404 "File not found or deleted"), Sample.shared)
  /\ public_file Sample.decode_utf8_replace "tok-old" Sample.shared
     = (Ok (TemplateResponse "public_file.html"
              (Some "This file has been archived and is no longer available.")
              "docs/old.md" None None), Sample.shared).
Proof. repeat split; vm_compute; reflexivity. Qed.

Lemma change_request_needs_write_capability_witness :
  create_change_request (mkCreateCRRequest "Notes" "") Sample.request
    Sample.dave Sample.demoted
  = (Raise (HTTPException 403 "Insufficient permissions"), Sample.demoted)
  /\ delete_file "docs/readme.md" Sample.request Sample.dave Sample.demoted
     = (Raise (HTTPException 403 "Insufficient permissions to delete this file"),
        Sample.demoted)
  /\ delete_file "docs/none.md" Sample.request Sample.dave Sample.demoted
     = (Raise (HTTPException 404 "File not found or already deleted"),
        Sample.demoted).
Proof.
  assert (Hrole : User.role Sample.dave ∉ WRITE_ROLES) by decide_now.
  destruct (change_request_needs_write_capability Sample.encode_utf8
              Sample.demoted Sample.dave Hrole)
    as (Hcreate & _ & _ & _ & Hdelete).
  split; [apply Hcreate|split].
  - apply (Hdelete "docs/readme.md"). right. right. vm_compute. discriminate.
  - apply (Hdelete "docs/none.md"). exact I.
Defined.

(** C9 fails for stage-delete: dave, a viewer, stages the deletion of the
    file whose latest version he wrote, and a draft is opened in his name. *)
Lemma viewer_opens_change_request_by_delete :
  User.role Sample.dave = UserRole.viewer
  /\ change_requests (db Sample.demoted) = []
  /\ fst (delete_file "notes.txt" Sample.request Sample.dave Sample.demoted)
     = Ok (100, "notes.txt", 1)
  /\ change_requests
       (db (snd (delete_file "notes.txt" Sample.request Sample.dave
                   Sample.demoted)))
     = [ ChangeRequest.mk 100 "Changes by dave"
           "Auto-created draft. Edit the title before submitting."
           CRStatus.draft 4 None None None None 1700000000 1700000000 ].
Proof. repeat split; vm_compute; reflexivity. Qed.

Lemma merge_ignores_base_version_witness :
  ChangeRequestFile.base_version_id
    (ChangeRequestFile.mk 10 1 "docs/readme.md" FileAction.edit
       (Some "_staging/e1") (Some 1) 1650000000) = Some 1
  /\ FileVersion.id <$> latest_version "docs/readme.md" Sample.approved_edit
     = Some 2
  /\ exists w' fv,
      merge_change_request Sample.sha256_hexdigest 1 Sample.request
        Sample.alice Sample.approved_edit = (Ok CRStatus.merged, w')
      /\ latest_version "docs/readme.md" w' = Some fv
      /\ FileVersion.version fv = 3
      /\ FileVersion.content_hash fv = "sha256:v3 text"
      /\ bucket w' !! "docs/readme.md"
         = Some (mkS3Object (list_byte_of_string "v3 text") "text/markdown").
Proof.
  split; [reflexivity|split; [reflexivity|]].
  destruct (merge_ignores_base_version Sample.sha256_hexdigest
              Sample.approved_edit 1 (Sample.cr 1 1 CRStatus.approved)
              Sample.request Sample.alice
              (ChangeRequestFile.mk 10 1 "docs/readme.md" FileAction.edit
                 (Some "_staging/e1") (Some 1) 1650000000)
              "_staging/e1" (Sample.blob "v3 text"))
    as [(w' & fv & E & L & V & H & _ & _ & B) _];
    try reflexivity; try decide_now.
  exists w', fv. repeat split; assumption.
Defined.

Lemma create_merge_roundtrip_witness :
  exists w1 w2 w3 w4 detail,
    add_file_to_cr Sample.encode_utf8 1
      (mkAddFileRequest "docs/a.md" "create" (Some "hello")) Sample.alice
      Sample.draft
    = (Ok (100, "docs/a.md", "create"), w1)
    /\ submit_for_review 1 Sample.request Sample.alice w1
       = (Ok CRStatus.pending_review, w2)
    /\ review_change_request 1 (mkReviewRequest "approve" "fine")
         Sample.request Sample.bob w2
       = (Ok CRStatus.approved, w3)
    /\ merge_change_request Sample.sha256_hexdigest 1 Sample.request
         Sample.alice w3
       = (Ok CRStatus.merged, w4)
    /\ get_file_content Sample.sha256_hexdigest Sample.decode_utf8_replace
         "docs/a.md" None Sample.dave w4
       = (Ok detail, w4)
    /\ detail_content detail = Some "hello"
    /\ detail_size detail = 5
    /\ detail_content_hash detail = "sha256:hello"
    /\ detail_version detail = 1.
Proof.
  edestruct (create_merge_roundtrip Sample.sha256_hexdigest Sample.encode_utf8
               Sample.decode_utf8_replace)
    with (w0 := Sample.draft) (cr_id := 1) (cr := Sample.cr 1 1 CRStatus.draft)
         (author := Sample.alice) (reviewer := Sample.bob)
         (merger := Sample.alice) (reader := Sample.dave)
         (request := Sample.request) (comment := "fine") (path := "docs/a.md")
         (content := "hello") (content_bytes := list_byte_of_string "hello")
    as (w1 & w2 & w3 & w4 & detail & E1 & E2 & E3 & E4 & G & C & _ & S & H & V);
    try reflexivity; try decide_now.
  exists w1, w2, w3, w4, detail. repeat split; assumption.
Defined.

(** C5 fails for a path that is not a text file by its extension (the
    content comes back null, flagged binary), for a path given with a slash
    in front (it is staged without it, and get-content of the path as given
    finds nothing), and for a path of which the change request holds an
    entry already (the insert of the second one breaks the unique index on
    change request and path). *)
Lemma roundtrip_of_untyped_path_has_no_content :
  fst ((add_file_to_cr Sample.encode_utf8 1
          (mkAddFileRequest "config.toml" "create" (Some "hello")) Sample.alice >>
        submit_for_review 1 Sample.request Sample.alice >>
        review_change_request 1 (mkReviewRequest "approve" "fine")
          Sample.request Sample.bob >>
        merge_change_request Sample.sha256_hexdigest 1 Sample.request
          Sample.alice >>
        get_file_content Sample.sha256_hexdigest Sample.decode_utf8_replace
          "config.toml" None Sample.dave) Sample.draft)
  = Ok (mkFileDetail "config.toml" None 5 1 "sha256:hello" (Some "alice") (Some 1)
          "CR #1: Update docs" true (Some 1700000000))
  /\ fst ((add_file_to_cr Sample.encode_utf8 1
             (mkAddFileRequest "/docs/a.md" "create" (Some "hello"))
             Sample.alice >>
           submit_for_review 1 Sample.request Sample.alice >>
           review_change_request 1 (mkReviewRequest "approve" "fine")
             Sample.request Sample.bob >>
           merge_change_request Sample.sha256_hexdigest 1 Sample.request
             Sample.alice >>
           get_file_content Sample.sha256_hexdigest Sample.decode_utf8_replace
             "/docs/a.md" None Sample.dave) Sample.draft)
     = Raise (HTTPException 404 "File not found")
  /\ fst (add_file_to_cr Sample.encode_utf8 1
            (mkAddFileRequest "docs/a.md" "create" (Some "hello"))
            Sample.alice
            (Sample.world [Sample.cr 1 1 CRStatus.draft]
               [ ChangeRequestFile.mk 10 1 "docs/a.md" FileAction.create
                   (Some "_staging/e1") None 1650000000 ] [] []
               [ ("_staging/e1", Sample.blob "old") ]))
     = Raise IntegrityError.
Proof. repeat split; vm_compute; reflexivity. Qed.

Lemma tombstone_semantics_witness :
  (exists w',
      merge_change_request Sample.sha256_hexdigest 1 Sample.request
        Sample.alice Sample.approved_delete
      = (Ok CRStatus.merged, w')
      /\ bucket w' !! "docs/a.md" = None
      /\ latest_version "docs/a.md" w'
         = Some (FileVersion.mk 100 "docs/a.md" 2 "" 0 "deleted" 1
                   "CR #1: Delete docs/a.md" true 1700000000)
      /\ get_file_content Sample.sha256_hexdigest Sample.decode_utf8_replace
           "docs/a.md" None Sample.dave w'
         = (Raise (HTTPException 410 "File has been deleted"), w'))
  /\ (exists w4 fv,
        (add_file_to_cr Sample.encode_utf8 2
           (mkAddFileRequest "docs/a.md" "create" (Some "again"))
           Sample.alice >>
         submit_for_review 2 Sample.request Sample.alice >>
         review_change_request 2 (mkReviewRequest "approve" "fine")
           Sample.request Sample.bob >>
         merge_change_request Sample.sha256_hexdigest 2 Sample.request
           Sample.alice)
          (snd (merge_change_request Sample.sha256_hexdigest 1
                  Sample.request Sample.alice Sample.approved_delete))
        = (Ok CRStatus.merged, w4)
        /\ latest_version "docs/a.md" w4 = Some fv
        /\ FileVersion.is_delete fv = false
        /\ FileVersion.version fv = 3).
Proof.
  edestruct (tombstone_semantics Sample.sha256_hexdigest Sample.encode_utf8
               Sample.decode_utf8_replace)
    with (w := Sample.approved_delete) (cr_id := 1)
         (cr := Sample.cr 1 1 CRStatus.approved) (request := Sample.request)
         (user := Sample.alice) (reader := Sample.dave)
         (f0 := ChangeRequestFile.mk 10 1 "docs/a.md" FileAction.delete None
                  (Some 1) 1650000000)
         (w0 := snd (merge_change_request Sample.sha256_hexdigest 1
                       Sample.request Sample.alice Sample.approved_delete))
         (cr_id0 := 2) (cr0 := Sample.cr 2 1 CRStatus.draft)
         (author := Sample.alice) (reviewer := Sample.bob)
         (merger := Sample.alice) (comment := "fine") (content := "again")
         (content_bytes := list_byte_of_string "again")
         (tombstone := FileVersion.mk 100 "docs/a.md" 2 "" 0 "deleted" 1
                         "CR #1: Delete docs/a.md" true 1700000000)
    as [(w' & id & at_ & E & V & B & L & G)
        (w1 & w2 & w3 & w4 & fv & E1 & E2 & E3 & E4 & L4 & D4 & V4 & _)];
    try reflexivity; try decide_now.
  split.
  - assert (Hw : snd (merge_change_request Sample.sha256_hexdigest 1
                        Sample.request Sample.alice Sample.approved_delete)
                 = w') by now rewrite E.
    exists w'. split; [exact E|]. split; [exact B|]. split; [|exact G].
    rewrite <- Hw. vm_compute. reflexivity.
  - exists w4, fv. split; [|repeat split; assumption].
    cbn [ChangeRequestFile.file_path] in E1.
    rewrite (bind_ok _ _ _ _ _ E1), (bind_ok _ _ _ _ _ E2),
      (bind_ok _ _ _ _ _ E3).
    exact E4.
Defined.

(** * More of the code, at sample inputs *)

Module Fixture.

(** U+00A0, the no-break space, and U+3000, the ideographic space, as
    Python strips them from both ends of a [str]. *)
Definition nbsp : string := utf8 [194; 160]%N.
Definition ideographic_space : string := utf8 [227; 128; 128]%N.

Definition entry (id cr_id : Z) (path : string) (action : FileAction.t)
    (key : option string) : ChangeRequestFile.t :=
  ChangeRequestFile.mk id cr_id path action key None 1650000000.

(** alice's draft holds a create of [docs/a.md] with its staged blob. *)
Definition staged_draft : World :=
  Sample.world [Sample.cr 1 1 CRStatus.draft]
    [ entry 10 1 "docs/a.md" FileAction.create (Some "_staging/e1") ] [] []
    [ ("_staging/e1", Sample.blob "old") ].

(** [docs/readme.md] has one version; alice's draft holds an edit of it
    with its staged blob. *)
Definition staged_edit : World :=
  Sample.world [Sample.cr 1 1 CRStatus.draft]
    [ entry 10 1 "docs/readme.md" FileAction.edit (Some "_staging/e1") ]
    [ FileVersion.mk 1 "docs/readme.md" 1 "_versions/a" 7 "sha256:v1 text" 1
        "CR #5: Add readme" false 1500000000 ] []
    [ ("_versions/a", Sample.blob "v1 text");
      ("docs/readme.md", Sample.blob "v1 text");
      ("_staging/e1", Sample.blob "old") ].

(** The same change request, submitted. *)
Definition pending : World :=
  Sample.world [Sample.cr 1 1 CRStatus.pending_review]
    [ entry 10 1 "docs/a.md" FileAction.create (Some "_staging/e1") ] [] []
    [ ("_staging/e1", Sample.blob "old") ].

(** An approved change request of two creates, [docs/b.md] staged before
    [docs/a.md]; the staged blob of [docs/b.md] is missing. *)
Definition half_staged : World :=
  Sample.world [Sample.cr 1 1 CRStatus.approved]
    [ entry 10 1 "docs/b.md" FileAction.create (Some "_staging/e2");
      entry 11 1 "docs/a.md" FileAction.create (Some "_staging/e1") ] [] []
    [ ("_staging/e1", Sample.blob "a") ].

(** [docs/readme.md] has one version, whose blob is under the first
    identifier drawn; alice's approved change request edits the file. *)
Definition archived : World :=
  let w :=
    Sample.world [Sample.cr 1 1 CRStatus.approved]
      [ entry 10 1 "docs/readme.md" FileAction.edit (Some "_staging/e1") ]
      [ FileVersion.mk 1 "docs/readme.md" 1 "_versions/0" 7 "sha256:v1 text" 1
          "CR #5: Add readme" false 1500000000 ] []
      [ ("_versions/0", Sample.blob "v1 text");
        ("docs/readme.md", Sample.blob "v1 text");
        ("_staging/e1", Sample.blob "v2 text") ] in
  mkWorld (db w) (bucket w) (uuid4_hex w) 1 (utcnow w).

Lemma archived_fresh : version_keys_fresh archived.
Proof.
  intros n Hn. change (1 <= n)%nat in Hn. apply not_elem_of_list_to_map_1.
  change (("_versions/" +:+ pretty n)
          ∉ ["_versions/0"; "docs/readme.md"; "_staging/e1"]).
  rewrite !not_elem_of_cons. repeat split; [| | |apply not_elem_of_nil].
  - change "_versions/0" with ("_versions/" +:+ pretty 0%nat). intros E.
    apply (inj (String.append "_versions/")) in E.
    apply (inj pretty) in E. lia.
  - cbv [String.append]. discriminate.
  - cbv [String.append]. discriminate.
Qed.

(** [docs/readme.md] has one version; alice's approved change request
    deletes the file. *)
Definition approved_delete : World :=
  Sample.world [Sample.cr 1 1 CRStatus.approved]
    [ entry 10 1 "docs/readme.md" FileAction.delete None ]
    [ FileVersion.mk 1 "docs/readme.md" 1 "_versions/a" 7 "sha256:v1 text" 1
        "CR #5: Add readme" false 1500000000 ] []
    [ ("_versions/a", Sample.blob "v1 text");
      ("docs/readme.md", Sample.blob "v1 text") ].

End Fixture.

Lemma finalized_change_request_is_frozen_witness :
  let w := Sample.merged_with_entry in
  update_change_request 1 (mkUpdateCRRequest (Some "Late edit") None)
    Sample.alice w
  = (Raise (HTTPException 400 "Can only edit draft or rejected CRs"), w)
  /\ close_change_request 1 Sample.request Sample.bob w
     = (Raise (HTTPException 400 "CR is already finalized"), w).
Proof.
  pose proof (finalized_change_request_is_frozen Sample.sha256_hexdigest
                Sample.encode_utf8 Sample.merged_with_entry 1
                (Sample.cr 1 1 CRStatus.merged) Sample.request Sample.alice
                eq_refl ltac:(decide_now) ltac:(decide_now) eq_refl)
    as (Hupdate & _ & _ & _ & Hrest).
  split.
  - apply Hupdate.
  - apply (Hrest Sample.bob). decide_now.
Defined.

Lemma update_change_request_edits_witness :
  exists w' cr',
    update_change_request 1
      (mkUpdateCRRequest
         (Some (Fixture.nbsp +:+ " " +:+ Fixture.ideographic_space)) None)
      Sample.alice Sample.draft
    = (Ok tt, w')
    /\ select_change_request 1 w' = (Ok (Some cr'), w')
    /\ ChangeRequest.title cr' = "".
Proof.
  destruct (update_change_request_edits Sample.draft 1
              (Sample.cr 1 1 CRStatus.draft) Sample.alice
              (mkUpdateCRRequest
                 (Some (Fixture.nbsp +:+ " " +:+ Fixture.ideographic_space))
                 None)
              ltac:(decide_now) eq_refl eq_refl eq_refl)
    as (w' & cr' & E & S & T & _).
  exists w', cr'. split; [exact E|]. split; [exact S|exact T].
Defined.

Lemma close_change_request_discards_staging_witness :
  exists w',
    close_change_request 1 Sample.request Sample.alice Sample.approved_edit
    = (Ok CRStatus.closed, w')
    /\ files_of 1 w' = files_of 1 Sample.approved_edit
    /\ bucket w' !! "_staging/e1" = None
    /\ bucket w' !! "docs/readme.md" = Some (Sample.blob "v2 text").
Proof.
  destruct (close_change_request_discards_staging Sample.approved_edit 1
              (Sample.cr 1 1 CRStatus.approved) Sample.request Sample.alice
              ltac:(decide_now) eq_refl ltac:(decide_now) eq_refl)
    as (w' & cr' & E & _ & _ & F & _ & G & K).
  exists w'. split; [exact E|]. split; [|split].
  - unfold files_of. now rewrite F.
  - apply (G (ChangeRequestFile.mk 10 1 "docs/readme.md" FileAction.edit
                (Some "_staging/e1") (Some 1) 1650000000) "_staging/e1");
      [decide_now|reflexivity|discriminate].
  - rewrite K; [reflexivity|decide_now].
Defined.

Lemma rejected_change_request_resubmits_witness :
  exists w1 w2 cr2,
    review_change_request 1 (mkReviewRequest "reject" "Not yet")
      Sample.request Sample.bob Fixture.pending
    = (Ok CRStatus.rejected, w1)
    /\ submit_for_review 1 Sample.request Sample.alice w1
       = (Ok CRStatus.pending_review, w2)
    /\ select_change_request 1 w2 = (Ok (Some cr2), w2)
    /\ ChangeRequest.reviewer_id cr2 = None
    /\ ChangeRequest.review_comment cr2 = None.
Proof.
  destruct (rejected_change_request_resubmits Fixture.pending 1
              (Sample.cr 1 1 CRStatus.pending_review) Sample.request
              Sample.bob Sample.alice "Not yet"
              ltac:(decide_now) eq_refl eq_refl
              ltac:(left; discriminate) ltac:(decide_now) eq_refl
              ltac:(discriminate))
    as (w1 & w2 & cr1 & cr2 & E1 & _ & _ & _ & _ & _ & E2 & S2 & _ & R2 & C2 & _).
  exists w1, w2, cr2. auto.
Defined.

Lemma merge_stops_at_missing_blob_witness :
  let r := merge_change_request Sample.sha256_hexdigest 1 Sample.request
             Sample.bob Fixture.half_staged in
  fst r = Raise (NoSuchKey "_staging/e2")
  /\ bucket (snd r) !! "docs/a.md"
     = Some (mkS3Object (list_byte_of_string "a") "text/markdown").
Proof.
  exact (merge_stops_at_missing_blob Sample.sha256_hexdigest
           Fixture.half_staged 1 (Sample.cr 1 1 CRStatus.approved)
           Sample.request Sample.bob
           [Fixture.entry 11 1 "docs/a.md" FileAction.create (Some "_staging/e1")]
           []
           (Fixture.entry 10 1 "docs/b.md" FileAction.create (Some "_staging/e2"))
           (Fixture.entry 11 1 "docs/a.md" FileAction.create (Some "_staging/e1"))
           "_staging/e2" "_staging/e1" (Sample.blob "a")
           ltac:(decide_now) eq_refl eq_refl eq_refl eq_refl
           ltac:(decide_now) eq_refl eq_refl eq_refl ltac:(decide_now)
           ltac:(decide_now) eq_refl eq_refl).
Defined.

Lemma create_change_request_opens_draft_witness :
  exists w',
    create_change_request
      (mkCreateCRRequest
         (Fixture.nbsp +:+ " Fix typo" +:+ Fixture.ideographic_space) "")
      Sample.request Sample.alice Sample.draft
    = (Ok (100, "Fix typo", CRStatus.draft), w')
    /\ select_change_request 100 w'
       = (Ok (Some (ChangeRequest.mk 100 "Fix typo" "" CRStatus.draft 1
                      None None None None 1700000000 1700000000)), w').
Proof.
  destruct (create_change_request_opens_draft Sample.draft
              (mkCreateCRRequest
                 (Fixture.nbsp +:+ " Fix typo" +:+ Fixture.ideographic_space)
                 "")
              Sample.request Sample.alice ltac:(decide_now)) as [_ H].
  destruct (H ltac:(vm_compute; discriminate)) as (w' & E & _ & _ & _ & _ & _ & S).
  exists w'. split; [exact E|]. apply S. decide_now.
Defined.

Lemma remove_file_from_cr_outcomes_witness :
  remove_file_from_cr 2 10 Sample.alice Sample.approved_delete
  = (Raise (HTTPException 404 "File entry not found"), Sample.approved_delete)
  /\ exists w',
      remove_file_from_cr 1 10 Sample.alice Sample.approved_delete = (Ok tt, w')
      /\ change_request_files (db w') = [].
Proof.
  split.
  - exact (remove_file_from_cr_outcomes Sample.approved_delete 2 10
             (Sample.cr 2 1 CRStatus.draft) Sample.alice None
             ltac:(decide_now) eq_refl eq_refl eq_refl).
  - destruct (remove_file_from_cr_outcomes Sample.approved_delete 1 10
                (Sample.cr 1 1 CRStatus.approved) Sample.alice
                (Some (ChangeRequestFile.mk 10 1 "docs/a.md" FileAction.delete
                         None (Some 1) 1650000000))
                ltac:(decide_now) eq_refl eq_refl eq_refl)
      as (w' & E & F & _).
    exists w'. split; [exact E|]. rewrite F. reflexivity.
Defined.

Lemma add_file_to_cr_replaces_witness :
  let refused :=
    add_file_to_cr Sample.encode_utf8 1
      (mkAddFileRequest "docs/readme.md" "create" (Some "new")) Sample.alice
      Fixture.staged_edit in
  (exists w',
      add_file_to_cr Sample.encode_utf8 1
        (mkAddFileRequest "docs/readme.md" "edit" (Some "new")) Sample.alice
        Fixture.staged_edit
      = (Ok (100, "docs/readme.md", "edit"), w')
      /\ files_of 1 w'
         = [ ChangeRequestFile.mk 100 1 "docs/readme.md" FileAction.edit
               (Some "_staging/0") (Some 1) 1700000000 ]
      /\ bucket w' !! "_staging/0"
         = Some (mkS3Object (list_byte_of_string "new") "text/markdown")
      /\ bucket w' !! "_staging/e1" = None)
  /\ fst refused = Raise IntegrityError
  /\ bucket (snd refused) !! "_staging/e1" = None
  /\ bucket (snd refused) !! "_staging/0"
     = Some (mkS3Object (list_byte_of_string "new") "text/markdown").
Proof.
  destruct (add_file_to_cr_replaces Sample.encode_utf8 Fixture.staged_edit 1
              (Sample.cr 1 1 CRStatus.draft) Sample.alice "docs/readme.md"
              "new" (list_byte_of_string "new")
              (Fixture.entry 10 1 "docs/readme.md" FileAction.edit
                 (Some "_staging/e1")) "_staging/e1"
              ltac:(decide_now) eq_refl eq_refl eq_refl eq_refl
              ltac:(discriminate) eq_refl ltac:(decide_now) eq_refl eq_refl
              ltac:(discriminate) ltac:(discriminate))
    as [Hedit Hcreate].
  split; [|exact Hcreate].
  destruct (Hedit (FileVersion.mk 1 "docs/readme.md" 1 "_versions/a" 7
                     "sha256:v1 text" 1 "CR #5: Add readme" false 1500000000)
              eq_refl eq_refl) as (w' & E & _ & B & G & _).
  exists w'. split; [exact E|]. split; [|split; [exact B|exact G]].
  vm_compute in E. injection E as <-. reflexivity.
Defined.

Lemma add_file_to_cr_fails_after_effects_witness :
  let missing :=
    add_file_to_cr Sample.encode_utf8 1
      (mkAddFileRequest "/docs/a.md" "create" None) Sample.alice
      Fixture.staged_draft in
  let absent :=
    add_file_to_cr Sample.encode_utf8 1
      (mkAddFileRequest "/docs/a.md" "edit" (Some "new")) Sample.alice
      Fixture.staged_draft in
  fst missing
  = Raise (HTTPException 400 "Content is required for create/edit actions")
  /\ bucket Fixture.staged_draft !! "_staging/e1" = Some (Sample.blob "old")
  /\ bucket (snd missing) !! "_staging/e1" = None
  /\ fst absent
     = Raise (HTTPException 404 "File does not exist, use 'create' action")
  /\ bucket (snd absent) !! "_staging/0"
     = Some (mkS3Object (list_byte_of_string "new") "text/markdown").
Proof.
  destruct (add_file_to_cr_fails_after_effects Sample.encode_utf8
              Fixture.staged_draft 1 (Sample.cr 1 1 CRStatus.draft)
              Sample.alice "/docs/a.md" "new" (list_byte_of_string "new")
              (Fixture.entry 10 1 "docs/a.md" FileAction.create
                 (Some "_staging/e1")) "_staging/e1"
              ltac:(decide_now) eq_refl eq_refl eq_refl ltac:(discriminate)
              ltac:(decide_now) eq_refl eq_refl ltac:(discriminate) eq_refl
              eq_refl)
    as (H1 & H2 & H3 & H4 & _).
  cbv zeta. split; [exact H1|]. split; [reflexivity|].
  split; [exact H2|]. split; [exact H3|exact H4].
Defined.

Lemma staging_leaves_live_untouched_witness :
  let w' := snd (save_file Sample.encode_utf8
                   (mkSaveFileRequest "docs/a.md" "new" "Rewrite")
                   Sample.request Sample.alice Fixture.staged_draft) in
  staging_keys_wf w' /\ live_untouched Fixture.staged_draft w'.
Proof.
  destruct (staging_leaves_live_untouched Sample.encode_utf8
              Fixture.staged_draft ltac:(decide_now)) as (Hsave & _).
  apply Hsave.
Defined.

Lemma workflow_leaves_live_untouched_witness :
  let w' := snd (close_change_request 1 Sample.request Sample.alice
                   Sample.approved_edit) in
  staging_keys_wf w' /\ live_untouched Sample.approved_edit w'.
Proof.
  destruct (workflow_leaves_live_untouched Sample.encode_utf8
              Sample.approved_edit ltac:(decide_now))
    as (_ & _ & _ & _ & _ & _ & Hclose).
  apply Hclose.
Defined.

Lemma save_file_roundtrip_witness :
  fst (save_file Sample.encode_utf8
         (mkSaveFileRequest "/docs/new.md" "hello again" "Add a page")
         Sample.request Sample.alice Sample.demoted)
  = Ok (100, "Add a page", "docs/new.md", FileAction.create, 1)
  /\ exists w1 w2 w3 w4 title count detail,
      save_file Sample.encode_utf8
        (mkSaveFileRequest "/docs/new.md" "hello again" "Add a page")
        Sample.request Sample.alice Sample.demoted
      = (Ok (100, title, "docs/new.md", FileAction.create, count), w1)
      /\ submit_for_review 100 Sample.request Sample.alice w1
         = (Ok CRStatus.pending_review, w2)
      /\ review_change_request 100 (mkReviewRequest "approve" "ok")
           Sample.request Sample.bob w2
         = (Ok CRStatus.approved, w3)
      /\ merge_change_request Sample.sha256_hexdigest 100 Sample.request
           Sample.carol w3
         = (Ok CRStatus.merged, w4)
      /\ get_file_content Sample.sha256_hexdigest Sample.decode_utf8_replace
           "docs/new.md" None Sample.dave w4
         = (Ok detail, w4)
      /\ detail_content detail = Some "hello again"
      /\ detail_version detail = 1.
Proof.
  split; [reflexivity|].
  destruct (save_file_roundtrip Sample.sha256_hexdigest Sample.encode_utf8
              Sample.decode_utf8_replace Sample.demoted
              (auto_draft Sample.alice Sample.demoted)
              Sample.alice Sample.bob Sample.carol Sample.dave Sample.request
              "/docs/new.md" "hello again" "Add a page" "ok"
              (list_byte_of_string "hello again")
              ltac:(decide_now) ltac:(discriminate) eq_refl eq_refl eq_refl
              ltac:(right; split; [reflexivity|split; [reflexivity|constructor]])
              ltac:(intros _; decide_now)
              eq_refl ltac:(decide_now) ltac:(decide_now)
              ltac:(left; discriminate) ltac:(decide_now))
    as (w1 & w2 & w3 & w4 & title & count & detail
        & E1 & E2 & E3 & E4 & E5 & C & _ & _ & _ & V).
  exists w1, w2, w3, w4, title, count, detail.
  repeat split; assumption.
Defined.

Lemma restore_version_roundtrip_witness :
  exists w1 w2 w3 w4 detail,
    restore_version "docs/readme.md" 1 Sample.request Sample.alice
      Sample.approved_edit
    = (Ok (100, "docs/readme.md", 1), w1)
    /\ submit_for_review 100 Sample.request Sample.alice w1
       = (Ok CRStatus.pending_review, w2)
    /\ review_change_request 100 (mkReviewRequest "approve" "ok")
         Sample.request Sample.bob w2
       = (Ok CRStatus.approved, w3)
    /\ merge_change_request Sample.sha256_hexdigest 100 Sample.request
         Sample.carol w3
       = (Ok CRStatus.merged, w4)
    /\ get_file_content Sample.sha256_hexdigest Sample.decode_utf8_replace
         "docs/readme.md" None Sample.dave w4
       = (Ok detail, w4)
    /\ detail_content detail = Some "v1 text"
    /\ detail_version detail = 3.
Proof.
  destruct (restore_version_roundtrip Sample.sha256_hexdigest
              Sample.decode_utf8_replace Sample.approved_edit
              (auto_draft Sample.alice Sample.approved_edit)
              Sample.alice Sample.bob Sample.carol Sample.dave Sample.request
              "docs/readme.md" "ok" 1
              (FileVersion.mk 1 "docs/readme.md" 1 "_versions/a" 7
                 "sha256:v1 text" 1 "CR #5: Add readme" false 1500000000)
              (Sample.blob "v1 text")
              ltac:(decide_now) eq_refl eq_refl eq_refl eq_refl
              ltac:(right; split; [reflexivity|split; [reflexivity|decide_now]])
              eq_refl ltac:(decide_now) ltac:(decide_now)
              ltac:(left; discriminate) ltac:(decide_now))
    as (w1 & w2 & w3 & w4 & detail & E1 & E2 & E3 & E4 & E5 & C & _ & _ & V & _).
  exists w1, w2, w3, w4, detail. repeat split; assumption.
Defined.

Lemma delete_file_roundtrip_witness :
  exists w1 w2 w3 w4 count,
    delete_file "/notes.txt" Sample.request Sample.dave Sample.demoted
    = (Ok (100, "notes.txt", count), w1)
    /\ submit_for_review 100 Sample.request Sample.carol w1
       = (Ok CRStatus.pending_review, w2)
    /\ review_change_request 100 (mkReviewRequest "approve" "ok")
         Sample.request Sample.bob w2
       = (Ok CRStatus.approved, w3)
    /\ merge_change_request Sample.sha256_hexdigest 100 Sample.request
         Sample.alice w3
       = (Ok CRStatus.merged, w4)
    /\ bucket w4 !! "notes.txt" = None
    /\ get_file_content Sample.sha256_hexdigest Sample.decode_utf8_replace
         "notes.txt" None Sample.alice w4
       = (Raise (HTTPException 410 "File has been deleted"), w4).
Proof.
  destruct (delete_file_roundtrip Sample.sha256_hexdigest
              Sample.decode_utf8_replace Sample.demoted
              (auto_draft Sample.dave Sample.demoted)
              Sample.dave Sample.carol Sample.bob Sample.alice Sample.alice
              Sample.request "/notes.txt" "ok"
              (FileVersion.mk 1 "notes.txt" 1 "_versions/a" 5 "sha256:hello" 4
                 "CR #1: Notes" false 1500000000)
              eq_refl eq_refl
              ltac:(right; split; [discriminate|reflexivity])
              eq_refl
              ltac:(right; split; [reflexivity|split; [reflexivity|constructor]])
              eq_refl ltac:(decide_now) ltac:(right; reflexivity)
              ltac:(decide_now) ltac:(left; discriminate) ltac:(decide_now))
    as (w1 & w2 & w3 & w4 & count & tombstone
        & E1 & _ & E2 & E3 & E4 & _ & _ & _ & B & G & _).
  exists w1, w2, w3, w4, count. repeat split; assumption.
Defined.

Lemma merge_keeps_history_witness :
  let w := Fixture.archived in
  let w' := snd (merge_change_request Sample.sha256_hexdigest 1 Sample.request
                   Sample.bob w) in
  latest_version "docs/readme.md" w'
  = Some (FileVersion.mk 100 "docs/readme.md" 2 "_versions/1" 7
            "sha256:v2 text" 1 "CR #1: Update docs" false 1700000000)
  /\ get_file_content Sample.sha256_hexdigest Sample.decode_utf8_replace
       "docs/readme.md" (Some 1) Sample.carol w'
     = (Ok (mkFileDetail "docs/readme.md" (Some "v1 text") 7 1 "sha256:v1 text"
              (Some "alice") (Some 1) "CR #5: Add readme" false
              (Some 1500000000)), w').
Proof.
  split; [reflexivity|].
  exact (merge_keeps_history Sample.sha256_hexdigest
           Sample.decode_utf8_replace Fixture.archived 1 Sample.request
           Sample.bob Sample.carol "docs/readme.md" 1 _
           ltac:(decide_now) ltac:(decide_now) Fixture.archived_fresh
           ltac:(decide_now) ltac:(discriminate) eq_refl).
Defined.

Lemma get_stats_under_merge_witness :
  let w := Fixture.approved_delete in
  let w' := snd (merge_change_request Sample.sha256_hexdigest 1 Sample.request
                   Sample.bob w) in
  bucket w' !! "docs/readme.md" = None
  /\ exists s s',
      get_stats Sample.carol w = (Ok s, w)
      /\ get_stats Sample.carol w' = (Ok s', w')
      /\ stats_files_total s <= stats_files_total s'
      /\ stats_versions_total s <= stats_versions_total s'.
Proof.
  split; [reflexivity|].
  destruct (get_stats_under_merge Sample.sha256_hexdigest
              Fixture.approved_delete 1 Sample.request Sample.bob Sample.carol
              eq_refl)
    as (s & s' & E & E' & _ & _ & _ & _ & F & V).
  exists s, s'. split; [exact E|]. split; [exact E'|]. split; [exact F|exact V].
Defined.

Lemma public_link_follows_merge_witness :
  let share := FileShare.mk 2 "docs/gone.md" "tok-gone" true false 1 in
  exists w1 w2 w3 w4 saved,
    save_file Sample.encode_utf8
      (mkSaveFileRequest "/docs/gone.md" "back again" "Bring it back")
      Sample.request Sample.alice Sample.shared
    = (Ok saved, w1)
    /\ submit_for_review 100 Sample.request Sample.alice w1
       = (Ok CRStatus.pending_review, w2)
    /\ review_change_request 100 (mkReviewRequest "approve" "ok")
         Sample.request Sample.bob w2
       = (Ok CRStatus.approved, w3)
    /\ merge_change_request Sample.sha256_hexdigest 100 Sample.request
         Sample.carol w3
       = (Ok CRStatus.merged, w4)
    /\ fst (public_file_raw "docs/gone.md" w3)
       = fst (public_file_raw "docs/gone.md" Sample.shared)
    /\ public_file_raw "docs/gone.md" w4
       = (Ok (attachment share (list_byte_of_string "back again")), w4).
Proof.
  intros share.
  destruct (public_link_follows_merge Sample.sha256_hexdigest
              Sample.encode_utf8 Sample.shared
              (auto_draft Sample.alice Sample.shared)
              Sample.alice Sample.bob Sample.carol Sample.request
              "/docs/gone.md" "back again" "Bring it back" "ok"
              (list_byte_of_string "back again") share
              ltac:(decide_now) ltac:(discriminate) eq_refl eq_refl
              ltac:(right; split; [reflexivity|split; [reflexivity|constructor]])
              ltac:(intros _; decide_now)
              ltac:(constructor) eq_refl ltac:(decide_now) ltac:(decide_now)
              ltac:(left; discriminate) ltac:(decide_now)
              eq_refl eq_refl eq_refl)
    as (w1 & w2 & w3 & w4 & saved & E1 & E2 & E3 & E4 & _ & _ & P3 & P4).
  exists w1, w2, w3, w4, saved.
  repeat split; assumption.
Defined.
